(** * cstore_writer.c: the writer of a columnar table format

    A shallow embedding of [cstore_writer.c] (the stripe assembler, the stripe
    flusher, the paged data-fork writer and the footer manager) and the
    properties of the writer that the specification states.

    Conventions.
    - Machine integers are [Z] with the wrap-around of their C type written
      out ([u8], [u32], [u64], [i32]).
    - A [StringInfo] is the [list byte] of its first [len] bytes; a [NULL]
      [StringInfo] pointer is [None].
    - A relation fork is the list of its pages; block number [n] is the page
      at index [n].
    - The writer runs in the [result] monad: [Err HostError] is an error
      raised by the host ([ereport(ERROR)]), [Err AssertTrap] a failed
      [Assert] in a build with assertion checking, [Err Undefined] an access
      that C leaves undefined (index out of bounds, [NULL] dereference,
      division by zero), [Err OutOfFuel] a loop cut short by the model. *)

From Stdlib Require Import ZArith List Lia Bool.
From Stdlib Require Import Strings.Byte Strings.Ascii.
From stdpp Require Import base list.

Local Open Scope Z_scope.

(** ** The result monad *)

Inductive error : Type := HostError | AssertTrap | Undefined | OutOfFuel.

Inductive result (A : Type) : Type :=
| Ok (a : A)
| Err (e : error).

Arguments Ok {A} a.
Arguments Err {A} e.

Definition bind {A B : Type} (m : result A) (k : A -> result B) : result B :=
  match m with
  | Ok a => k a
  | Err e => Err e
  end.

Notation "'do' x <- m ; k" := (bind m (fun x => k))
  (at level 10, x pattern, m at level 100, k at level 200).

Definition is_ok {A : Type} (m : result A) : bool :=
  match m with Ok _ => true | Err _ => false end.

(** [of_option e o]: a C access that is defined only when [o] is there. *)
Definition of_option {A : Type} (e : error) (o : option A) : result A :=
  match o with Some a => Ok a | None => Err e end.

(** [for (i = start; i < start + count; i++) body]. *)
Fixpoint for_loop_from {S : Type} (count : nat) (i : nat)
  (body : nat -> S -> result S) (s : S) : result S :=
  match count with
  | O => Ok s
  | Datatypes.S count' => do s <- body i s; for_loop_from count' (Datatypes.S i) body s
  end.

(** [for (i = 0; i < count; i++) body]. *)
Definition for_loop {S : Type} (count : nat) (body : nat -> S -> result S)
  (s : S) : result S :=
  for_loop_from count 0 body s.

(** Reading and writing [array[i]]: undefined outside the array. *)
Definition load {A : Type} (array : list A) (i : Z) : result A :=
  if i <? 0 then Err Undefined
  else of_option Undefined (array !! Z.to_nat i).

Definition store {A : Type} (array : list A) (i : Z) (x : A) : result (list A) :=
  if (0 <=? i) && (i <? Z.of_nat (length array))
  then Ok (<[Z.to_nat i := x]> array)
  else Err Undefined.

(** Dereferencing a pointer that may be [NULL]. *)
Definition deref {A : Type} (pointer : option A) : result A :=
  of_option Undefined pointer.

(** ** Machine integers *)

Definition u8 (z : Z) : Z := z mod 2 ^ 8.
Definition u16 (z : Z) : Z := z mod 2 ^ 16.
Definition u32 (z : Z) : Z := z mod 2 ^ 32.
Definition u64 (z : Z) : Z := z mod 2 ^ 64.

(** Conversion to [int32]: the two's complement reading of the low 32 bits. *)
Definition i32 (z : Z) : Z :=
  let w := z mod 2 ^ 32 in
  if w <? 2 ^ 31 then w else w - 2 ^ 32.

Definition len {A : Type} (l : list A) : Z := Z.of_nat (length l).

(** ** Bytes *)

Definition byte_of_Z (z : Z) : byte :=
  match Byte.of_N (Z.to_N (u8 z)) with
  | Some b => b
  | None => x00
  end.

Definition Z_of_byte (b : byte) : Z := Z.of_N (Byte.to_N b).

(** The object representation of an integer of [n] bytes on a little-endian
    host: what [memcpy(dst, &value, sizeof value)] copies. *)
Fixpoint le_bytes (n : nat) (z : Z) : list byte :=
  match n with
  | O => []
  | S n' => byte_of_Z z :: le_bytes n' (Z.shiftr z 8)
  end.

Definition int32_bytes (z : Z) : list byte := le_bytes 4 z.

(** Reading such a representation back. *)
Fixpoint le_value (bs : list byte) : Z :=
  match bs with
  | [] => 0
  | b :: bs' => Z_of_byte b + 2 ^ 8 * le_value bs'
  end.

(** The [int32] a buffer starts with. *)
Definition int32_of_bytes (bs : list byte) : Z := i32 (le_value (take 4 bs)).

(** [memcpy(dst + off, src, length src)] on a buffer [dst]. *)
Definition memcpy_at (dst : list byte) (off : Z) (src : list byte) : list byte :=
  take (Z.to_nat off) dst ++ src ++ drop (Z.to_nat off + length src) dst.

(** ** Host primitives: [StringInfo] *)

Definition MaxAllocSize : Z := 1073741823.

(** [enlargeStringInfo] raises an error when the buffer would reach
    [MaxAllocSize]. *)
Definition enlargeStringInfo (str : list byte) (needed : Z) : result unit :=
  if needed <? 0 then Err HostError
  else if MaxAllocSize - len str <=? needed then Err HostError
  else Ok tt.

Definition appendBinaryStringInfo (str data : list byte) : result (list byte) :=
  do _ <- enlargeStringInfo str (len data);
  Ok (str ++ data).

(** ** Host primitives: pages and forks *)

(** The geometry of a page and the build flag that decides what [Assert]
    does. *)
Class Host : Type := {
  BLCKSZ : Z;
  SizeOfPageHeaderData : Z;
  USE_ASSERT_CHECKING : bool;
}.

(** A page: the three header fields the writer uses, and the bytes that
    follow the header ([PageGetContents]). *)
Record Page : Type := {
  pd_lower : Z;
  pd_upper : Z;
  pd_flags : Z;
  contents : list byte;
}.

Definition PD_PAGE_FULL : Z := 2.

Definition InvalidBlockNumber : Z := 2 ^ 32 - 1.
Definition P_NEW : Z := InvalidBlockNumber.

Section HostPrimitives.
Context {host : Host}.

(** [Assert(cond)]: a trap with assertion checking, nothing without. *)
Definition Assert (cond : bool) : result unit :=
  if USE_ASSERT_CHECKING then (if cond then Ok tt else Err AssertTrap)
  else Ok tt.

Definition page_bytes : nat := Z.to_nat (BLCKSZ - SizeOfPageHeaderData).

(** The page a fork is extended with: all zeroes. *)
Definition zero_page : Page :=
  {| pd_lower := 0; pd_upper := 0; pd_flags := 0;
     contents := replicate page_bytes x00 |}.

(** [PageInit(page, BLCKSZ, 0)]. *)
Definition PageInit (p : Page) : Page :=
  {| pd_lower := SizeOfPageHeaderData; pd_upper := BLCKSZ; pd_flags := 0;
     contents := replicate page_bytes x00 |}.

(** [ReadBufferExtended(relation, fork, blockNumber, RBM_NORMAL, NULL)]
    followed by [BufferGetBlockNumber]: the fork, extended by a zero page
    for [P_NEW], and the number of the block now pinned. The host raises
    an error when the fork cannot grow or the block does not exist. *)
Definition ReadBufferExtended (fork : list Page) (blockNumber : Z)
  : result (list Page * Z) :=
  if blockNumber =? P_NEW then
    if len fork <? P_NEW then Ok (fork ++ [zero_page], len fork)
    else Err HostError
  else
    match fork !! Z.to_nat blockNumber with
    | Some _ => Ok (fork, blockNumber)
    | None => Err HostError
    end.

(** [BufferGetPage] on a pinned block. *)
Definition BufferGetPage (fork : list Page) (buffer : Z) : result Page :=
  of_option Undefined (fork !! Z.to_nat buffer).

(** The payload of a page: the bytes between the header and [pd_lower]. *)
Definition payload (p : Page) : list byte :=
  take (Z.to_nat (pd_lower p - SizeOfPageHeaderData)) (contents p).

Definition fork_bytes (fork : list Page) : list byte :=
  concat (map payload fork).
End HostPrimitives.

(** ** The data model of [cstore_fdw.h] *)

(** A [Datum] is a machine word: the value itself for a by-value type, a
    pointer for the others. The embedding replaces the pointer by the bytes
    of the object it points to, those that can be read through it. How
    many of them make up the datum is not part of the embedding: the code
    takes the extent from the type or reads it from the object
    ([att_addlength_datum]). *)
Inductive Datum : Type :=
| ByValue (word : Z)
| ByReference (object : list byte).

Inductive CompressionType : Type := COMPRESSION_NONE | COMPRESSION_PG_LZ.

Record StripeMetadata : Type := {
  fileOffset : Z;
  skipListLength : Z;
  dataLength : Z;
  footerLength : Z;
}.

Record TableFooter : Type := {
  stripeMetadataList : list StripeMetadata;
  blockRowCount : Z;
}.

Record ColumnBlockSkipNode : Type := {
  hasMinMax : bool;
  minimumValue : Datum;
  maximumValue : Datum;
  node_rowCount : Z;
  valueBlockOffset : Z;
  valueLength : Z;
  existsBlockOffset : Z;
  existsLength : Z;
  node_valueCompressionType : CompressionType;
}.

Record StripeSkipList : Type := {
  blockSkipNodeArray : list (list ColumnBlockSkipNode);
  skip_columnCount : Z;
  blockCount : Z;
}.

Record ColumnBlockBuffers : Type := {
  existsBuffer : option (list byte);
  valueBuffer : option (list byte);
  valueCompressionType : CompressionType;
}.

Record ColumnBuffers : Type := {
  blockBuffersArray : list ColumnBlockBuffers;
}.

Record StripeBuffers : Type := {
  columnBuffersArray : list ColumnBuffers;
  columnCount : Z;
  rowCount : Z;
}.

Record StripeFooter : Type := {
  footer_columnCount : Z;
  skipListSizeArray : list Z;
  existsSizeArray : list Z;
  valueSizeArray : list Z;
}.

(** The working block of one column: the presence flags of the rows of the
    block being filled and the value bytes serialized so far. *)
Record ColumnBlockData : Type := {
  existsArray : list bool;
  data_valueBuffer : option (list byte);
}.

Record FormData_pg_attribute : Type := {
  atttypid : Z;
  attlen : Z;
  attbyval : bool;
  attalign : ascii;
  attcollation : Z;
  attisdropped : bool;
}.

Record TupleDesc : Type := {
  natts : Z;
  attrs : list FormData_pg_attribute;
}.

(** A comparison function ([FmgrInfo] of a B-tree ordering procedure), called
    through [FunctionCall2Coll(function, collation, a, b)]; the result is
    read with [DatumGetInt32]. *)
Definition FmgrInfo : Type := Z -> Datum -> Datum -> Z.

(** The two forks of the relation the writer works on. *)
Record Relation : Type := {
  dataFork : list Page;
  footerFork : list Page;
}.

(** ** The collaborators of the writer

    The metadata serializer ([cstore_metadata_serialization.c]), the reader
    ([cstore_reader.c]) and the compression codec ([cstore_compression.c])
    are used through their interfaces only. *)
Class Collaborators : Type := {
  SerializeTableFooter : TableFooter -> list byte;
  SerializePostScript : Z -> list byte;
  SerializeTableFooterMetadata : Z -> Z -> list byte;
  (** the two out-parameters [startingBlock] and [blockCount]; a header
      that does not parse gives starting block [0] *)
  DeserializeTableFooterMetadata : list byte -> Z -> Z * Z;
  SerializeColumnSkipList :
    list ColumnBlockSkipNode -> Z -> bool -> Z -> list byte;
  SerializeStripeFooter : StripeFooter -> list byte;
  CStoreReadFooter : Relation -> option TableFooter;
  (** [Some out]: the codec returned [true] and left [out] in the
      compression buffer *)
  CompressBuffer : list byte -> CompressionType -> option (list byte);
  GetFunctionInfoOrNull : Z -> option FmgrInfo;
}.

(** Modelled from the spec: the constants of [cstore_fdw.h], which is not
    part of the sources at hand. The payload capacity of a page is
    [D = P - H]; the postscript size is one [uint8] and stays below 256. *)
Definition CSTORE_PAGE_DATA_SIZE {host : Host} : Z :=
  BLCKSZ - SizeOfPageHeaderData.
Definition CSTORE_POSTSCRIPT_SIZE_LENGTH : Z := 1.
Definition CSTORE_POSTSCRIPT_SIZE_MAX : Z := 256.

(** ** The footer manager: [CStoreWriteFooter] *)

(** What the footer writer does to the footer fork, in program order. *)
Inductive FooterEvent : Type :=
| PageWritten (blockNumber : Z)     (* [PageInit], [memcpy], [MarkBufferDirty] *)
| PageLogged (blockNumber : Z).     (* [LOG_NEWPAGE_BUFFER] *)

Record FooterWrite : Type := {
  fw_fork : list Page;
  fw_dataOffset : Z;
  fw_trace : list FooterEvent;
}.

Section FooterManager.
Context {host : Host} {collab : Collaborators}.

(** Lines 389-403: the footer stream before its length is patched in.
    [postscriptSize] is a [uint8]. *)
Definition LayOutFooter (tableFooter : TableFooter) : result (list byte) :=
  let dataLength := 0 in
  do wholeFooter <- appendBinaryStringInfo [] (int32_bytes dataLength);
  let tableFooterBuffer := SerializeTableFooter tableFooter in
  do wholeFooter <- appendBinaryStringInfo wholeFooter tableFooterBuffer;
  let postscriptBuffer := SerializePostScript (len tableFooterBuffer) in
  do wholeFooter <- appendBinaryStringInfo wholeFooter postscriptBuffer;
  do _ <- Assert (len postscriptBuffer <? CSTORE_POSTSCRIPT_SIZE_MAX);
  let postscriptSize := u8 (len postscriptBuffer) in
  appendBinaryStringInfo wholeFooter
    (take (Z.to_nat CSTORE_POSTSCRIPT_SIZE_LENGTH) [byte_of_Z postscriptSize]).

(** Line 462: [memcpy(wholeFooter->data, &dataLength, sizeof(int32))]. *)
Definition PatchFooterLength (wholeFooter : list byte) (dataLength : Z)
  : list byte :=
  memcpy_at wholeFooter 0 (int32_bytes dataLength).

(** Lines 428-459: where the new footer starts. *)
Definition ChooseStartingBlock
  (originalBlockCount startingBlock blockCount actualBlockCount : Z) : Z :=
  if originalBlockCount =? 0 then 1
  else if startingBlock =? 0 then 1
  else if actualBlockCount <? startingBlock then 1
  else u32 (startingBlock + blockCount).

(** Lines 466-511: the body of the loop that writes the footer pages. The
    [memcpy] of line 506 reads [copySize] bytes of the footer stream and
    writes them to the page: outside the one or the other it is
    undefined. *)
Definition WriteFooterPage
  (wholeFooter : list byte) (dataLength originalBlockCount newStartingBlock : Z)
  (loggingEnabled : bool) (currentBlockNumber : Z) (st : FooterWrite)
  : result FooterWrite :=
  let blockDataSize := CSTORE_PAGE_DATA_SIZE in
  let dataOffset := fw_dataOffset st in
  let blockNumber := u32 (currentBlockNumber + newStartingBlock) in
  let blockNumber :=
    if originalBlockCount <=? blockNumber then P_NEW else blockNumber in
  do (fork, buffer) <- ReadBufferExtended (fw_fork st) blockNumber;
  do page <- BufferGetPage fork buffer;
  let page := PageInit page in
  let copySize :=
    if dataLength - dataOffset <=? blockDataSize
    then dataLength - dataOffset else blockDataSize in
  do _ <- (if (copySize <? 0) || (dataOffset <? 0)
              || (len (contents page) <? copySize)
              || (len wholeFooter <? dataOffset + copySize)
           then Err Undefined else Ok tt);
  let page :=
    {| pd_lower := SizeOfPageHeaderData + copySize;
       pd_upper := pd_upper page;
       pd_flags := pd_flags page;
       contents :=
         memcpy_at (contents page) 0
           (take (Z.to_nat copySize) (drop (Z.to_nat dataOffset) wholeFooter)) |} in
  let actualBlockNumber := buffer in
  Ok {| fw_fork := <[Z.to_nat buffer := page]> fork;
        fw_dataOffset := i32 (dataOffset + copySize);
        fw_trace :=
          fw_trace st ++ PageWritten actualBlockNumber ::
            (if loggingEnabled then [PageLogged actualBlockNumber] else []) |}.

(** Lines 515-532: the header page is rewritten and always logged. The
    [memcpy] of line 520 copies the whole serialized metadata, whatever its
    length: beyond the end of the page the write is undefined. [pd_lower]
    is a [uint16]. *)
Definition WriteFooterHeader
  (headerBuffer newStartingBlock actualBlockCount : Z) (st : FooterWrite)
  : result FooterWrite :=
  let tableFooterMetadata :=
    SerializeTableFooterMetadata newStartingBlock actualBlockCount in
  do headerPage <- BufferGetPage (fw_fork st) headerBuffer;
  let headerPage := PageInit headerPage in
  do _ <- (if len (contents headerPage) <? len tableFooterMetadata
           then Err Undefined else Ok tt);
  let headerPage :=
    {| pd_lower := u16 (SizeOfPageHeaderData + len tableFooterMetadata);
       pd_upper := pd_upper headerPage;
       pd_flags := pd_flags headerPage;
       contents := memcpy_at (contents headerPage) 0 tableFooterMetadata |} in
  Ok {| fw_fork := <[Z.to_nat headerBuffer := headerPage]> (fw_fork st);
        fw_dataOffset := fw_dataOffset st;
        fw_trace :=
          fw_trace st ++ [PageWritten headerBuffer; PageLogged headerBuffer] |}.

(** The state of [CStoreWriteFooter] when it enters the page loop. *)
Record FooterPlan : Type := {
  fp_wholeFooter : list byte;
  fp_dataLength : Z;
  fp_actualBlockCount : Z;
  fp_originalBlockCount : Z;
  fp_headerBuffer : Z;
  fp_newStartingBlock : Z;
  fp_fork : list Page;
}.

(** Lines 387-462. *)
Definition PlanFooter (tableFooter : TableFooter) (fork : list Page)
  : result FooterPlan :=
  let originalBlockCount := len fork in
  do wholeFooter <- LayOutFooter tableFooter;
  let dataLength := len wholeFooter in
  let blockDataSize := CSTORE_PAGE_DATA_SIZE in
  do _ <- (if blockDataSize =? 0 then Err Undefined else Ok tt);
  let actualBlockCount := u32 (Z.quot (dataLength - 1) blockDataSize + 1) in
  let headerBlockNumber := if 0 <? originalBlockCount then 0 else P_NEW in
  do (fork, headerBuffer) <- ReadBufferExtended fork headerBlockNumber;
  do headerPage <- BufferGetPage fork headerBuffer;
  let newStartingBlock :=
    let headerDataLength := u32 (pd_lower headerPage - SizeOfPageHeaderData) in
    let '(startingBlock, blockCount) :=
      DeserializeTableFooterMetadata (contents headerPage) headerDataLength in
    ChooseStartingBlock originalBlockCount startingBlock blockCount
      actualBlockCount in
  Ok {| fp_wholeFooter := PatchFooterLength wholeFooter dataLength;
        fp_dataLength := dataLength;
        fp_actualBlockCount := actualBlockCount;
        fp_originalBlockCount := originalBlockCount;
        fp_headerBuffer := headerBuffer;
        fp_newStartingBlock := newStartingBlock;
        fp_fork := fork |}.

(** Lines 464-513: the page loop of a plan, cut after [count] iterations. *)
Definition RunFooterPages (plan : FooterPlan) (loggingEnabled : bool)
  (count : nat) : result FooterWrite :=
  for_loop count
    (fun currentBlockNumber =>
       WriteFooterPage (fp_wholeFooter plan) (fp_dataLength plan)
         (fp_originalBlockCount plan) (fp_newStartingBlock plan)
         loggingEnabled (Z.of_nat currentBlockNumber))
    {| fw_fork := fp_fork plan; fw_dataOffset := 0; fw_trace := [] |}.

Definition CStoreWriteFooter (tableFooter : TableFooter) (fork : list Page)
  (loggingEnabled : bool) : result FooterWrite :=
  do plan <- PlanFooter tableFooter fork;
  do st <- RunFooterPages plan loggingEnabled
             (Z.to_nat (fp_actualBlockCount plan));
  WriteFooterHeader (fp_headerBuffer plan) (fp_newStartingBlock plan)
    (fp_actualBlockCount plan) st.
End FooterManager.

(** ** The write state *)

Record TableWriteState : Type := {
  tableFooter : TableFooter;
  compressionType : CompressionType;
  stripeMaxRowCount : Z;
  logging : bool;
  tupleDescriptor : TupleDesc;
  currentFileOffset : Z;
  comparisonFunctionArray : list (option FmgrInfo);
  stripeBuffers : option StripeBuffers;
  stripeSkipList : option StripeSkipList;
  blockDataArray : list ColumnBlockData;
  compressionBuffer : option (list byte);
  activeBlockNumber : Z;
  relation : Relation;
}.

Definition set_stripe (ws : TableWriteState)
  (buffers : option StripeBuffers) (skipList : option StripeSkipList)
  : TableWriteState :=
  {| tableFooter := tableFooter ws; compressionType := compressionType ws;
     stripeMaxRowCount := stripeMaxRowCount ws; logging := logging ws;
     tupleDescriptor := tupleDescriptor ws;
     currentFileOffset := currentFileOffset ws;
     comparisonFunctionArray := comparisonFunctionArray ws;
     stripeBuffers := buffers; stripeSkipList := skipList;
     blockDataArray := blockDataArray ws;
     compressionBuffer := compressionBuffer ws;
     activeBlockNumber := activeBlockNumber ws; relation := relation ws |}.

Definition set_blockData (ws : TableWriteState)
  (blockData : list ColumnBlockData) (compression : option (list byte))
  : TableWriteState :=
  {| tableFooter := tableFooter ws; compressionType := compressionType ws;
     stripeMaxRowCount := stripeMaxRowCount ws; logging := logging ws;
     tupleDescriptor := tupleDescriptor ws;
     currentFileOffset := currentFileOffset ws;
     comparisonFunctionArray := comparisonFunctionArray ws;
     stripeBuffers := stripeBuffers ws; stripeSkipList := stripeSkipList ws;
     blockDataArray := blockData;
     compressionBuffer := compression;
     activeBlockNumber := activeBlockNumber ws; relation := relation ws |}.

Definition set_dataFork (ws : TableWriteState) (fork : list Page)
  (active : Z) : TableWriteState :=
  {| tableFooter := tableFooter ws; compressionType := compressionType ws;
     stripeMaxRowCount := stripeMaxRowCount ws; logging := logging ws;
     tupleDescriptor := tupleDescriptor ws;
     currentFileOffset := currentFileOffset ws;
     comparisonFunctionArray := comparisonFunctionArray ws;
     stripeBuffers := stripeBuffers ws; stripeSkipList := stripeSkipList ws;
     blockDataArray := blockDataArray ws;
     compressionBuffer := compressionBuffer ws;
     activeBlockNumber := active;
     relation := {| dataFork := fork; footerFork := footerFork (relation ws) |} |}.

Definition set_footer (ws : TableWriteState) (footer : TableFooter)
  (offset : Z) : TableWriteState :=
  {| tableFooter := footer; compressionType := compressionType ws;
     stripeMaxRowCount := stripeMaxRowCount ws; logging := logging ws;
     tupleDescriptor := tupleDescriptor ws;
     currentFileOffset := offset;
     comparisonFunctionArray := comparisonFunctionArray ws;
     stripeBuffers := stripeBuffers ws; stripeSkipList := stripeSkipList ws;
     blockDataArray := blockDataArray ws;
     compressionBuffer := compressionBuffer ws;
     activeBlockNumber := activeBlockNumber ws; relation := relation ws |}.

(** ** The paged data-fork writer: [WriteToFile] *)

(** The variables of the loop of [WriteToFile]. The [int32] [blockNumber] is
    kept as the 32-bit pattern it shares with [BlockNumber]: the loop only
    compares it with unsigned values. *)
Record DataWrite : Type := {
  dw_fork : list Page;
  dw_blockNumber : Z;
  dw_dataOffset : Z;
  dw_activeBlockNumber : Z;
}.

Section PagedWriter.
Context {host : Host}.

(** Lines 1106-1129: the copy into the pinned page. The result is the page
    and [copySize]. *)
Definition CopyIntoPage (data : list byte) (dataLength dataOffset : Z)
  (page : Page) : result (Page * Z) :=
  do _ <- Assert (0 <? pd_lower page);
  let remainingCapacity := pd_upper page - pd_lower page in
  let copySize := i32 (u32 (dataLength - dataOffset)) in
  let copySize :=
    if remainingCapacity <? copySize then remainingCapacity else copySize in
  let pageOffset := pd_lower page - SizeOfPageHeaderData in
  do _ <- (if (copySize <? 0) || (len (contents page) <? pageOffset + copySize)
              || (len data <? dataOffset + copySize)
           then Err Undefined else Ok tt);
  let source := take (Z.to_nat copySize) (drop (Z.to_nat dataOffset) data) in
  let pd_lower' := pd_lower page + copySize in
  Ok ({| pd_lower := pd_lower';
         pd_upper := pd_upper page;
         pd_flags :=
           if pd_upper page <=? pd_lower'
           then Z.lor (pd_flags page) PD_PAGE_FULL else pd_flags page;
         contents := memcpy_at (contents page) pageOffset source |},
      copySize).

(** Lines 1079-1149: one iteration. [blockCount] was read before the
    loop. *)
Definition WriteToFile_step (data : list byte) (dataLength blockCount : Z)
  (st : DataWrite) : result DataWrite :=
  let blockNumber := dw_blockNumber st in
  let dataOffset := dw_dataOffset st in
  let blockNumber := if blockCount <=? blockNumber then P_NEW else blockNumber in
  do (fork, buffer) <- ReadBufferExtended (dw_fork st) blockNumber;
  do page <- BufferGetPage fork buffer;
  let '(page, blockNumber) :=
    if blockNumber =? P_NEW then (PageInit page, buffer)
    else (page, blockNumber) in
  do (page, copySize) <- CopyIntoPage data dataLength dataOffset page;
  Ok {| dw_fork := <[Z.to_nat buffer := page]> fork;
        dw_blockNumber := u32 (blockNumber + 1);
        dw_dataOffset := i32 (dataOffset + copySize);
        dw_activeBlockNumber := blockNumber |}.

(** Lines 1077-1150: [while (dataOffset < dataLength)], an [int] compared
    with a [uint32]. *)
Fixpoint WriteToFile_loop (fuel : nat) (data : list byte)
  (dataLength blockCount : Z) (st : DataWrite) : result DataWrite :=
  if u32 (dw_dataOffset st) <? dataLength then
    match fuel with
    | O => Err OutOfFuel
    | S fuel' =>
        do st <- WriteToFile_step data dataLength blockCount st;
        WriteToFile_loop fuel' data dataLength blockCount st
    end
  else Ok st.

(** Every iteration either copies a byte or leaves a block of the fork
    behind, so this many iterations are enough. *)
Definition WriteToFile_fuel (fork : list Page) (dataLength : Z) : nat :=
  S (Z.to_nat dataLength + length fork).

(** Lines 1067-1070: the loop variables when [WriteToFile] enters its
    loop. *)
Definition WriteToFile_start (writeState : TableWriteState) : DataWrite :=
  {| dw_fork := dataFork (relation writeState);
     dw_blockNumber := activeBlockNumber writeState;
     dw_dataOffset := 0;
     dw_activeBlockNumber := activeBlockNumber writeState |}.

Definition WriteToFile (writeState : TableWriteState) (data : list byte)
  (dataLength : Z) : result TableWriteState :=
  let fork := dataFork (relation writeState) in
  let blockCount := len fork in
  if dataLength =? 0 then Ok writeState
  else
    do st <- WriteToFile_loop (WriteToFile_fuel fork dataLength) data
               dataLength blockCount (WriteToFile_start writeState);
    Ok (set_dataFork writeState (dw_fork st) (dw_activeBlockNumber st)).

(** A [StringInfo] handed to [WriteToFile(state, s->data, s->len)]. *)
Definition WriteStringInfo (writeState : TableWriteState) (s : list byte)
  : result TableWriteState :=
  WriteToFile writeState s (u32 (len s)).
End PagedWriter.

(** ** Host primitives: the type-system adapter *)

(** [TYPEALIGN(alignment, length)]. *)
Definition TYPEALIGN (alignment length : Z) : Z :=
  Z.land (length + (alignment - 1)) (Z.lnot (alignment - 1)).

(** [att_align_nominal(length, attalign)]: the aligned length. In its last
    case the macro first evaluates [AssertMacro((attalign) == 's')], which
    is [att_align_nominal_assert] below. *)
Definition att_align_nominal (length : Z) (align : ascii) : Z :=
  if Ascii.eqb align "i" then TYPEALIGN 4 length
  else if Ascii.eqb align "c" then length
  else if Ascii.eqb align "d" then TYPEALIGN 8 length
  else TYPEALIGN 2 length.

(** The bytes a by-reference datum points to. *)
Definition DatumGetPointer (datum : Datum) : result (list byte) :=
  match datum with
  | ByReference object => Ok object
  | ByValue _ => Err Undefined
  end.

(** [memcpy(dst, object, n)]: the first [n] bytes of the object; reading
    past its end is undefined. *)
Definition read_object (object : list byte) (n : Z) : result (list byte) :=
  if len object <? n then Err Undefined else Ok (take (Z.to_nat n) object).

(** [strlen]: the number of bytes before the first NUL; undefined when the
    object has none. *)
Fixpoint strlen (object : list byte) : result Z :=
  match object with
  | [] => Err Undefined
  | b :: rest =>
      if Z_of_byte b =? 0 then Ok 0
      else do n <- strlen rest; Ok (n + 1)
  end.

(** The tags of a TOAST pointer ([postgres.h], PostgreSQL 9.5 and later). *)
Definition VARTAG_INDIRECT : Z := 1.
Definition VARTAG_EXPANDED_RO : Z := 2.
Definition VARTAG_ONDISK : Z := 18.

(** [VARHDRSZ_EXTERNAL]: the header byte and the tag byte. *)
Definition VARHDRSZ_EXTERNAL : Z := 2.

Section TypeSystem.
Context {host : Host}.

(** [VARTAG_SIZE(tag)] on a host with pointers of eight bytes:
    [sizeof(varatt_indirect)], [sizeof(varatt_expanded)],
    [sizeof(varatt_external)], and [TrapMacro(true, ...)] for another tag,
    which is [true] in a build without assertion checking. *)
Definition VARTAG_SIZE (tag : Z) : result Z :=
  if tag =? VARTAG_INDIRECT then Ok 8
  else if Z.land tag (Z.lnot 1) =? VARTAG_EXPANDED_RO then Ok 8
  else if tag =? VARTAG_ONDISK then Ok 16
  else do _ <- Assert false; Ok 1.

(** [VARSIZE_ANY(PTR)] on a little-endian host: the extent that the header
    of a varlena states. A first byte [0x01] is a TOAST pointer
    ([VARSIZE_EXTERNAL]); another odd first byte is a one-byte header that
    holds the extent in its upper seven bits ([VARSIZE_1B]); an even first
    byte starts a four-byte header that holds the extent in its upper thirty
    bits ([VARSIZE_4B]). The header is read from the object. *)
Definition VARSIZE_ANY (object : list byte) : result Z :=
  do va_header <- load object 0;
  let va_header := Z_of_byte va_header in
  if va_header =? 1 then
    do va_tag <- load object 1;
    do size <- VARTAG_SIZE (Z_of_byte va_tag);
    Ok (VARHDRSZ_EXTERNAL + size)
  else if Z.land va_header 1 =? 1 then
    Ok (Z.land (Z.shiftr va_header 1) 127)
  else
    do va_4byte <- read_object object 4;
    Ok (Z.land (Z.shiftr (le_value va_4byte) 2) (2 ^ 30 - 1)).

(** The [AssertMacro((attalign) == 's')] of [att_align_nominal], which is
    evaluated when the alignment is none of ['i'], ['c'] and ['d']. *)
Definition att_align_nominal_assert (align : ascii) : result unit :=
  if Ascii.eqb align "i" then Ok tt
  else if Ascii.eqb align "c" then Ok tt
  else if Ascii.eqb align "d" then Ok tt
  else Assert (Ascii.eqb align "s").

(** [att_addlength_datum(0, attlen, datum)]: the length of a fixed-width
    type; else the extent that the object itself states, [VARSIZE_ANY] for
    a varlena ([attlen] -1) and [strlen + 1] for a C string ([attlen] -2,
    which [AssertMacro] checks). *)
Definition att_addlength_datum (typeLength : Z) (datum : Datum) : result Z :=
  if 0 <? typeLength then Ok typeLength
  else if typeLength =? -1 then
    do object <- DatumGetPointer datum;
    VARSIZE_ANY object
  else
    do _ <- Assert (typeLength =? -2);
    do object <- DatumGetPointer datum;
    do stringLength <- strlen object;
    Ok (stringLength + 1).
End TypeSystem.

(** [store_att_byval]: the low bytes of the word, for the widths a by-value
    type can have. *)
Definition store_att_byval (datum : Datum) (typeLength : Z) : result (list byte) :=
  match datum with
  | ByValue word =>
      if (typeLength =? 1) || (typeLength =? 2) || (typeLength =? 4)
         || (typeLength =? 8)
      then Ok (le_bytes (Z.to_nat typeLength) word)
      else Err HostError
  | ByReference _ => Err Undefined
  end.

(** ** The datum serializer and the block statistics *)

Section DatumSerializer.
Context {host : Host}.

(** [SerializeSingleDatum]: the buffer after the datum has been appended,
    zero padded to its alignment. The extent of the datum comes from
    [att_addlength_datum]; the [memcpy] reads as many bytes through the
    pointer, which a by-value datum does not have, and reading past the
    object is undefined. For a type without fixed length a build with
    assertion checking stops at [Assert(!datumTypeByValue)]. *)
Definition SerializeSingleDatum (datumBuffer : list byte) (datum : Datum)
  (datumTypeByValue : bool) (datumTypeLength : Z) (datumTypeAlign : ascii)
  : result (list byte) :=
  do datumLength <- att_addlength_datum datumTypeLength datum;
  let datumLength := u32 datumLength in
  do _ <- att_align_nominal_assert datumTypeAlign;
  let datumLengthAligned := u32 (att_align_nominal datumLength datumTypeAlign) in
  do _ <- enlargeStringInfo datumBuffer (i32 datumLengthAligned);
  let zeroes := replicate (Z.to_nat datumLengthAligned) x00 in
  do image <-
    (if 0 <? datumTypeLength then
       if datumTypeByValue then store_att_byval datum datumTypeLength
       else do object <- DatumGetPointer datum;
            read_object object datumTypeLength
     else
       do _ <- Assert (negb datumTypeByValue);
       do object <- DatumGetPointer datum;
       read_object object datumLength);
  do _ <- (if datumLengthAligned <? len image then Err Undefined else Ok tt);
  Ok (datumBuffer ++ memcpy_at zeroes 0 image).

(** [DatumCopy]: the datum itself by value, else a pointer to a new object
    with the bytes of the extent of the datum. *)
Definition DatumCopy (datum : Datum) (datumTypeByValue : bool)
  (datumTypeLength : Z) : result Datum :=
  if datumTypeByValue then Ok datum
  else
    do datumLength <- att_addlength_datum datumTypeLength datum;
    do object <- DatumGetPointer datum;
    do datumData <- read_object object (u32 datumLength);
    Ok (ByReference datumData).

Definition set_min_max (node : ColumnBlockSkipNode)
  (minimum maximum : Datum) : ColumnBlockSkipNode :=
  {| hasMinMax := true; minimumValue := minimum; maximumValue := maximum;
     node_rowCount := node_rowCount node;
     valueBlockOffset := valueBlockOffset node;
     valueLength := valueLength node;
     existsBlockOffset := existsBlockOffset node;
     existsLength := existsLength node;
     node_valueCompressionType := node_valueCompressionType node |}.

(** [UpdateBlockSkipNodeMinMax]. The comparison is
    [FunctionCall2Coll(comparisonFunction, collation, value, previous)], read
    with [DatumGetInt32]. *)
Definition UpdateBlockSkipNodeMinMax (blockSkipNode : ColumnBlockSkipNode)
  (columnValue : Datum) (columnTypeByValue : bool) (columnTypeLength : Z)
  (columnCollation : Z) (comparisonFunction : option FmgrInfo)
  : result ColumnBlockSkipNode :=
  let hasMinMax := hasMinMax blockSkipNode in
  let previousMinimum := minimumValue blockSkipNode in
  let previousMaximum := maximumValue blockSkipNode in
  match comparisonFunction with
  | None => Ok blockSkipNode
  | Some comparisonFunction =>
      do (currentMinimum, currentMaximum) <-
        (if negb hasMinMax then
           do currentMinimum <-
             DatumCopy columnValue columnTypeByValue columnTypeLength;
           do currentMaximum <-
             DatumCopy columnValue columnTypeByValue columnTypeLength;
           Ok (currentMinimum, currentMaximum)
         else
           let minimumComparison :=
             i32 (comparisonFunction columnCollation columnValue previousMinimum) in
           let maximumComparison :=
             i32 (comparisonFunction columnCollation columnValue previousMaximum) in
           do currentMinimum <-
             (if minimumComparison <? 0
              then DatumCopy columnValue columnTypeByValue columnTypeLength
              else Ok previousMinimum);
           do currentMaximum <-
             (if 0 <? maximumComparison
              then DatumCopy columnValue columnTypeByValue columnTypeLength
              else Ok previousMaximum);
           Ok (currentMinimum, currentMaximum));
      Ok (set_min_max blockSkipNode currentMinimum currentMaximum)
  end.
End DatumSerializer.

(** [SerializeBoolArray]: eight flags to a byte, least significant bit
    first. *)
Definition SerializeBoolArray (boolArray : list bool) (boolArrayLength : Z)
  : result (list byte) :=
  let byteCount := Z.quot (u32 (boolArrayLength + 7)) 8 in
  do _ <- enlargeStringInfo [] (i32 byteCount);
  for_loop (Z.to_nat boolArrayLength)
    (fun boolArrayIndex buffer =>
       do flag <- load boolArray (Z.of_nat boolArrayIndex);
       if (flag : bool) then
         let byteIndex := Z.quot (Z.of_nat boolArrayIndex) 8 in
         let bitIndex := Z.rem (Z.of_nat boolArrayIndex) 8 in
         do old <- load buffer byteIndex;
         store buffer byteIndex
           (byte_of_Z (Z.lor (Z_of_byte old) (Z.shiftl 1 bitIndex)))
       else Ok buffer)
    (replicate (Z.to_nat byteCount) x00).

(** [CopyStringInfo]. *)
Definition CopyStringInfo (sourceString : list byte) : list byte :=
  if 0 <? len sourceString then sourceString else [].

(** [AppendStripeMetadata]. *)
Definition AppendStripeMetadata (tableFooter : TableFooter)
  (stripeMetadata : StripeMetadata) : TableFooter :=
  {| stripeMetadataList := stripeMetadataList tableFooter ++ [stripeMetadata];
     blockRowCount := blockRowCount tableFooter |}.

(** ** The stripe assembler *)

Definition empty_block_buffers : ColumnBlockBuffers :=
  {| existsBuffer := None; valueBuffer := None;
     valueCompressionType := COMPRESSION_NONE |}.

(** A skip node as [palloc0] leaves it. *)
Definition zero_skip_node : ColumnBlockSkipNode :=
  {| hasMinMax := false; minimumValue := ByValue 0; maximumValue := ByValue 0;
     node_rowCount := 0; valueBlockOffset := 0; valueLength := 0;
     existsBlockOffset := 0; existsLength := 0;
     node_valueCompressionType := COMPRESSION_NONE |}.

(** [CreateEmptyStripeBuffers]; its three parameters are [uint32]. *)
Definition CreateEmptyStripeBuffers
  (stripeMaxRowCount blockRowCount columnCount : Z) : result StripeBuffers :=
  do _ <- (if blockRowCount =? 0 then Err Undefined else Ok tt);
  let maxBlockCount := u32 (stripeMaxRowCount / blockRowCount + 1) in
  let blockBuffersArray := replicate (Z.to_nat maxBlockCount) empty_block_buffers in
  Ok {| columnBuffersArray :=
          replicate (Z.to_nat columnCount)
            {| blockBuffersArray := blockBuffersArray |};
        columnCount := columnCount;
        rowCount := 0 |}.

(** [CreateEmptyStripeSkipList]. *)
Definition CreateEmptyStripeSkipList
  (stripeMaxRowCount blockRowCount columnCount : Z) : result StripeSkipList :=
  do _ <- (if blockRowCount =? 0 then Err Undefined else Ok tt);
  let maxBlockCount := u32 (stripeMaxRowCount / blockRowCount + 1) in
  Ok {| blockSkipNodeArray :=
          replicate (Z.to_nat columnCount)
            (replicate (Z.to_nat maxBlockCount) zero_skip_node);
        skip_columnCount := columnCount;
        blockCount := 0 |}.

(** Modelled from the spec: [CreateEmptyBlockDataArray], defined in
    [cstore_reader.c]. For every column the exists array is a flat boolean
    vector of fixed size [blockRowCount]; the value buffer is not allocated
    yet. *)
Definition CreateEmptyBlockDataArray (columnCount blockRowCount : Z)
  : list ColumnBlockData :=
  replicate (Z.to_nat columnCount)
    {| existsArray := replicate (Z.to_nat blockRowCount) false;
       data_valueBuffer := None |}.

Definition set_rowCount (buffers : StripeBuffers) (n : Z) : StripeBuffers :=
  {| columnBuffersArray := columnBuffersArray buffers;
     columnCount := columnCount buffers; rowCount := n |}.

Definition set_columnBuffers (buffers : StripeBuffers)
  (array : list ColumnBuffers) : StripeBuffers :=
  {| columnBuffersArray := array;
     columnCount := columnCount buffers; rowCount := rowCount buffers |}.

Definition set_nodes (skipList : StripeSkipList)
  (nodes : list (list ColumnBlockSkipNode)) : StripeSkipList :=
  {| blockSkipNodeArray := nodes;
     skip_columnCount := skip_columnCount skipList;
     blockCount := blockCount skipList |}.

Definition set_blockCount (skipList : StripeSkipList) (n : Z) : StripeSkipList :=
  {| blockSkipNodeArray := blockSkipNodeArray skipList;
     skip_columnCount := skip_columnCount skipList;
     blockCount := n |}.

Definition bump_rowCount (node : ColumnBlockSkipNode) : ColumnBlockSkipNode :=
  {| hasMinMax := hasMinMax node; minimumValue := minimumValue node;
     maximumValue := maximumValue node;
     node_rowCount := u32 (node_rowCount node + 1);
     valueBlockOffset := valueBlockOffset node;
     valueLength := valueLength node;
     existsBlockOffset := existsBlockOffset node;
     existsLength := existsLength node;
     node_valueCompressionType := node_valueCompressionType node |}.

(** [blockBuffersArray[columnIndex][blockIndex] = blockBuffers]. *)
Definition store_block_buffers (array : list ColumnBuffers)
  (columnIndex blockIndex : Z) (blockBuffers : ColumnBlockBuffers)
  : result (list ColumnBuffers) :=
  do columnBuffers <- load array columnIndex;
  do blocks <- store (blockBuffersArray columnBuffers) blockIndex blockBuffers;
  store array columnIndex {| blockBuffersArray := blocks |}.

Section StripeAssembler.
Context {host : Host} {collab : Collaborators}.

(** Lines 907-914 of [SerializeBlockData]: the exists buffer of a column. *)
Definition SerializeBlockExists (blockDataArray : list ColumnBlockData)
  (blockIndex rowCount : Z) (columnIndex : nat)
  (array : list ColumnBuffers) : result (list ColumnBuffers) :=
  do columnBuffers <- load array (Z.of_nat columnIndex);
  do blockBuffers <- load (blockBuffersArray columnBuffers) blockIndex;
  do blockData <- load blockDataArray (Z.of_nat columnIndex);
  do buffer <- SerializeBoolArray (existsArray blockData) rowCount;
  store_block_buffers array (Z.of_nat columnIndex) blockIndex
    {| existsBuffer := Some buffer;
       valueBuffer := valueBuffer blockBuffers;
       valueCompressionType := valueCompressionType blockBuffers |}.

(** Lines 920-953 of [SerializeBlockData]: the value buffer of a column. *)
Definition SerializeBlockValues (requestedCompressionType : CompressionType)
  (blockIndex : Z) (columnIndex : nat)
  (st : list ColumnBuffers * list ColumnBlockData * option (list byte))
  : result (list ColumnBuffers * list ColumnBlockData * option (list byte)) :=
  let '(array, blockDataArray, compressionBuffer) := st in
  do columnBuffers <- load array (Z.of_nat columnIndex);
  do blockBuffers <- load (blockBuffersArray columnBuffers) blockIndex;
  do blockData <- load blockDataArray (Z.of_nat columnIndex);
  do serializedValueBuffer <- deref (data_valueBuffer blockData);
  let '(serializedValueBuffer, actualCompressionType, compressionBuffer) :=
    match CompressBuffer serializedValueBuffer requestedCompressionType with
    | Some compressed => (compressed, COMPRESSION_PG_LZ, Some compressed)
    | None => (serializedValueBuffer, COMPRESSION_NONE, compressionBuffer)
    end in
  do array <-
    store_block_buffers array (Z.of_nat columnIndex) blockIndex
      {| existsBuffer := existsBuffer blockBuffers;
         valueBuffer := Some (CopyStringInfo serializedValueBuffer);
         valueCompressionType := actualCompressionType |};
  do blockDataArray <-
    store blockDataArray (Z.of_nat columnIndex)
      {| existsArray := existsArray blockData; data_valueBuffer := Some [] |};
  Ok (array, blockDataArray, compressionBuffer).

(** [SerializeBlockData]. *)
Definition SerializeBlockData (writeState : TableWriteState)
  (blockIndex rowCount : Z) : result TableWriteState :=
  do stripeBuffers <- deref (stripeBuffers writeState);
  let columnCount := Z.to_nat (columnCount stripeBuffers) in
  do array <-
    for_loop columnCount
      (SerializeBlockExists (blockDataArray writeState) blockIndex rowCount)
      (columnBuffersArray stripeBuffers);
  do (array, blockData, compression) <-
    for_loop columnCount
      (SerializeBlockValues (compressionType writeState) blockIndex)
      (array, blockDataArray writeState, compressionBuffer writeState);
  Ok (set_blockData
        (set_stripe writeState (Some (set_columnBuffers stripeBuffers array))
           (stripeSkipList writeState))
        blockData compression).

(** Lines 260-285 of [CStoreWriteRow]: the cell of the row in one column,
    on the working block and the skip node of that column. *)
Definition WriteCell (writeState : TableWriteState)
  (columnValues : list Datum) (isNull : bool) (blockRowIndex column : Z)
  (blockData : ColumnBlockData) (blockSkipNode : ColumnBlockSkipNode)
  : result (ColumnBlockData * ColumnBlockSkipNode) :=
  do (blockData, blockSkipNode) <-
    (if isNull then
       do flags <- store (existsArray blockData) blockRowIndex false;
       Ok ({| existsArray := flags;
              data_valueBuffer := data_valueBuffer blockData |},
           blockSkipNode)
     else
       do comparisonFunction <-
         load (comparisonFunctionArray writeState) column;
       do attributeForm <- load (attrs (tupleDescriptor writeState)) column;
       let columnTypeByValue := attbyval attributeForm in
       let columnTypeLength := attlen attributeForm in
       let columnCollation := attcollation attributeForm in
       let columnTypeAlign := attalign attributeForm in
       do flags <- store (existsArray blockData) blockRowIndex true;
       do columnValue <- load columnValues column;
       do buffer <- deref (data_valueBuffer blockData);
       do buffer <-
         SerializeSingleDatum buffer columnValue columnTypeByValue
           columnTypeLength columnTypeAlign;
       do blockSkipNode <-
         UpdateBlockSkipNodeMinMax blockSkipNode columnValue
           columnTypeByValue columnTypeLength columnCollation
           comparisonFunction;
       Ok ({| existsArray := flags; data_valueBuffer := Some buffer |},
           blockSkipNode));
  Ok (blockData, bump_rowCount blockSkipNode).

(** Lines 253-286 of [CStoreWriteRow]: one column of the row. *)
Definition WriteRowColumn (writeState : TableWriteState)
  (columnValues : list Datum) (columnNulls : list bool)
  (blockIndex blockRowIndex : Z) (columnIndex : nat)
  (st : list ColumnBlockData * list (list ColumnBlockSkipNode))
  : result (list ColumnBlockData * list (list ColumnBlockSkipNode)) :=
  let '(blockDataArray, blockSkipNodeArray) := st in
  let column := Z.of_nat columnIndex in
  do blockData <- load blockDataArray column;
  do nodes <- load blockSkipNodeArray column;
  do blockSkipNode <- load nodes blockIndex;
  do isNull <- load columnNulls column;
  do (blockData, blockSkipNode) <-
    WriteCell writeState columnValues isNull blockRowIndex column blockData
      blockSkipNode;
  do nodes <- store nodes blockIndex blockSkipNode;
  do blockSkipNodeArray <- store blockSkipNodeArray column nodes;
  do blockDataArray <- store blockDataArray column blockData;
  Ok (blockDataArray, blockSkipNodeArray).

(** [MemoryContextReset(stripeWriteContext)]: everything allocated in the
    stripe arena is gone. *)
Definition MemoryContextReset (writeState : TableWriteState)
  : TableWriteState :=
  set_blockData writeState
    (map (fun blockData =>
            {| existsArray := existsArray blockData;
               data_valueBuffer := None |})
         (blockDataArray writeState))
    None.

(** Lines 229-248 of [CStoreWriteRow]: the stripe is created on its first
    row. *)
Definition EnsureStripe (writeState : TableWriteState) (blockRowCount : Z)
  (columnCount : Z) : result TableWriteState :=
  match stripeBuffers writeState with
  | Some _ => Ok writeState
  | None =>
      do stripeBuffers <-
        CreateEmptyStripeBuffers (u32 (stripeMaxRowCount writeState))
          blockRowCount columnCount;
      do stripeSkipList <-
        CreateEmptyStripeSkipList (u32 (stripeMaxRowCount writeState))
          blockRowCount columnCount;
      let writeState :=
        set_stripe writeState (Some stripeBuffers) (Some stripeSkipList) in
      do blockData <-
        for_loop (Z.to_nat columnCount)
          (fun columnIndex blockDataArray =>
             do blockData <- load blockDataArray (Z.of_nat columnIndex);
             store blockDataArray (Z.of_nat columnIndex)
               {| existsArray := existsArray blockData;
                  data_valueBuffer := Some [] |})
          (blockDataArray writeState);
      Ok (set_blockData writeState blockData (Some []))
  end.

(** Lines 218-288 of [CStoreWriteRow]: the row is added to the stripe. *)
Definition AddRow (writeState : TableWriteState)
  (columnValues : list Datum) (columnNulls : list bool)
  : result (TableWriteState * Z * Z) :=
  let columnCount := u32 (natts (tupleDescriptor writeState)) in
  let blockRowCount := u32 (blockRowCount (tableFooter writeState)) in
  do writeState <- EnsureStripe writeState blockRowCount columnCount;
  do stripeBuffers <- deref (stripeBuffers writeState);
  do stripeSkipList <- deref (stripeSkipList writeState);
  do _ <- (if blockRowCount =? 0 then Err Undefined else Ok tt);
  let blockIndex := u32 (rowCount stripeBuffers / blockRowCount) in
  let blockRowIndex := u32 (rowCount stripeBuffers mod blockRowCount) in
  do (blockData, nodes) <-
    for_loop (Z.to_nat columnCount)
      (WriteRowColumn writeState columnValues columnNulls blockIndex
         blockRowIndex)
      (blockDataArray writeState, blockSkipNodeArray stripeSkipList);
  let stripeSkipList :=
    set_blockCount (set_nodes stripeSkipList nodes) (u32 (blockIndex + 1)) in
  Ok (set_blockData
        (set_stripe writeState (Some stripeBuffers) (Some stripeSkipList))
        blockData (compressionBuffer writeState),
      blockIndex, blockRowIndex).
(** ** The stripe flusher *)

Definition set_placement (node : ColumnBlockSkipNode)
  (existsOffset existsSize valueOffset valueSize : Z)
  (compression : CompressionType) : ColumnBlockSkipNode :=
  {| hasMinMax := hasMinMax node; minimumValue := minimumValue node;
     maximumValue := maximumValue node;
     node_rowCount := node_rowCount node;
     valueBlockOffset := valueOffset;
     valueLength := valueSize;
     existsBlockOffset := existsOffset;
     existsLength := existsSize;
     node_valueCompressionType := compression |}.

(** Lines 662-679 of [FlushStripe]: the placement of one block. *)
Definition PlaceBlock (columnBuffers : ColumnBuffers) (blockIndex : nat)
  (st : list ColumnBlockSkipNode * Z * Z)
  : result (list ColumnBlockSkipNode * Z * Z) :=
  let '(blockSkipNodeArray, currentExistsBlockOffset, currentValueBlockOffset) :=
    st in
  do blockBuffers <- load (blockBuffersArray columnBuffers) (Z.of_nat blockIndex);
  do existsBuffer <- deref (existsBuffer blockBuffers);
  do valueBuffer <- deref (valueBuffer blockBuffers);
  let existsBufferSize := u64 (len existsBuffer) in
  let valueBufferSize := u64 (len valueBuffer) in
  do blockSkipNode <- load blockSkipNodeArray (Z.of_nat blockIndex);
  do blockSkipNodeArray <-
    store blockSkipNodeArray (Z.of_nat blockIndex)
      (set_placement blockSkipNode currentExistsBlockOffset existsBufferSize
         currentValueBlockOffset valueBufferSize
         (valueCompressionType blockBuffers));
  Ok (blockSkipNodeArray,
      u64 (currentExistsBlockOffset + existsBufferSize),
      u64 (currentValueBlockOffset + valueBufferSize)).

(** Lines 655-680 of [FlushStripe]: the placements of one column. *)
Definition PlaceColumn (stripeBuffers : StripeBuffers) (blockCount : Z)
  (columnIndex : nat) (columnSkipNodeArray : list (list ColumnBlockSkipNode))
  : result (list (list ColumnBlockSkipNode)) :=
  do blockSkipNodeArray <- load columnSkipNodeArray (Z.of_nat columnIndex);
  do columnBuffers <-
    load (columnBuffersArray stripeBuffers) (Z.of_nat columnIndex);
  do (blockSkipNodeArray, _, _) <-
    for_loop (Z.to_nat blockCount) (PlaceBlock columnBuffers)
      (blockSkipNodeArray, 0, 0);
  store columnSkipNodeArray (Z.of_nat columnIndex) blockSkipNodeArray.

(** [CreateSkipListBufferArray]. *)
Definition CreateSkipListBufferArray (stripeSkipList : StripeSkipList)
  (tupleDescriptor : TupleDesc) : result (list (list byte)) :=
  let columnCount := skip_columnCount stripeSkipList in
  for_loop (Z.to_nat columnCount)
    (fun columnIndex skipListBufferArray =>
       do blockSkipNodeArray <-
         load (blockSkipNodeArray stripeSkipList) (Z.of_nat columnIndex);
       do attributeForm <- load (attrs tupleDescriptor) (Z.of_nat columnIndex);
       let skipListBuffer :=
         SerializeColumnSkipList blockSkipNodeArray
           (blockCount stripeSkipList) (attbyval attributeForm)
           (attlen attributeForm) in
       store skipListBufferArray (Z.of_nat columnIndex) skipListBuffer)
    (replicate (Z.to_nat columnCount) []).

(** Lines 806-810 of [CreateStripeFooter]: the two sums of a column. *)
Definition SumBlockSizes (blockSkipNodeArray : list ColumnBlockSkipNode)
  (blockCount : Z) : result (Z * Z) :=
  for_loop (Z.to_nat blockCount)
    (fun blockIndex (sizes : Z * Z) =>
       let '(existsSize, valueSize) := sizes in
       do node <- load blockSkipNodeArray (Z.of_nat blockIndex);
       Ok (u64 (existsSize + existsLength node),
           u64 (valueSize + valueLength node)))
    (0, 0).

(** [CreateStripeFooter]. *)
Definition CreateStripeFooter (stripeSkipList : StripeSkipList)
  (skipListBufferArray : list (list byte)) : result StripeFooter :=
  let columnCount := skip_columnCount stripeSkipList in
  let zeroes := replicate (Z.to_nat columnCount) 0 in
  do (skipListSizes, existsSizes, valueSizes) <-
    for_loop (Z.to_nat columnCount)
      (fun columnIndex (arrays : list Z * list Z * list Z) =>
         let '(skipListSizes, existsSizes, valueSizes) := arrays in
         do blockSkipNodeArray <-
           load (blockSkipNodeArray stripeSkipList) (Z.of_nat columnIndex);
         do (existsSize, valueSize) <-
           SumBlockSizes blockSkipNodeArray (blockCount stripeSkipList);
         do existsSizes <- store existsSizes (Z.of_nat columnIndex) existsSize;
         do valueSizes <- store valueSizes (Z.of_nat columnIndex) valueSize;
         do skipListBuffer <- load skipListBufferArray (Z.of_nat columnIndex);
         do skipListSizes <-
           store skipListSizes (Z.of_nat columnIndex) (u64 (len skipListBuffer));
         Ok (skipListSizes, existsSizes, valueSizes))
      (zeroes, zeroes, zeroes);
  Ok {| footer_columnCount := columnCount;
        skipListSizeArray := skipListSizes;
        existsSizeArray := existsSizes;
        valueSizeArray := valueSizes |}.

(** Lines 702-706 of [FlushStripe]. *)
Definition FlushSkipLists (columnCount : Z)
  (skipListBufferArray : list (list byte)) (writeState : TableWriteState)
  : result TableWriteState :=
  for_loop (Z.to_nat columnCount)
    (fun columnIndex writeState =>
       do skipListBuffer <- load skipListBufferArray (Z.of_nat columnIndex);
       WriteStringInfo writeState skipListBuffer)
    writeState.

(** Lines 709-731 of [FlushStripe]: the exists buffers of the column, then
    its value buffers. *)
Definition FlushColumnData (stripeBuffers : StripeBuffers) (blockCount : Z)
  (columnIndex : nat) (writeState : TableWriteState)
  : result TableWriteState :=
  do columnBuffers <-
    load (columnBuffersArray stripeBuffers) (Z.of_nat columnIndex);
  do writeState <-
    for_loop (Z.to_nat blockCount)
      (fun blockIndex writeState =>
         do blockBuffers <-
           load (blockBuffersArray columnBuffers) (Z.of_nat blockIndex);
         do existsBuffer <- deref (existsBuffer blockBuffers);
         WriteStringInfo writeState existsBuffer)
      writeState;
  for_loop (Z.to_nat blockCount)
    (fun blockIndex writeState =>
       do blockBuffers <-
         load (blockBuffersArray columnBuffers) (Z.of_nat blockIndex);
       do valueBuffer <- deref (valueBuffer blockBuffers);
       WriteStringInfo writeState valueBuffer)
    writeState.

(** Lines 737-742 of [FlushStripe]. *)
Definition SumStripeSizes (columnCount : Z) (stripeFooter : StripeFooter)
  : result (Z * Z) :=
  for_loop (Z.to_nat columnCount)
    (fun columnIndex (sums : Z * Z) =>
       let '(skipListLength, dataLength) := sums in
       do skipListSize <-
         load (skipListSizeArray stripeFooter) (Z.of_nat columnIndex);
       do existsSize <-
         load (existsSizeArray stripeFooter) (Z.of_nat columnIndex);
       do valueSize <-
         load (valueSizeArray stripeFooter) (Z.of_nat columnIndex);
       Ok (u64 (skipListLength + skipListSize),
           u64 (u64 (dataLength + existsSize) + valueSize)))
    (0, 0).
(** Lines 626-685 of [FlushStripe]: the last block is serialized, the
    blocks are placed and the skip lists and the stripe footer are
    built. *)
Record StripeImage : Type := {
  si_writeState : TableWriteState;
  si_stripeBuffers : StripeBuffers;
  si_stripeSkipList : StripeSkipList;
  si_skipListBufferArray : list (list byte);
  si_stripeFooter : StripeFooter;
  si_stripeFooterBuffer : list byte;
}.

Definition PrepareStripe (writeState : TableWriteState) : result StripeImage :=
  do buffers <- deref (stripeBuffers writeState);
  do stripeSkipList <- deref (stripeSkipList writeState);
  let columnCount := u32 (natts (tupleDescriptor writeState)) in
  let blockCount := blockCount stripeSkipList in
  let blockRowCount := u32 (blockRowCount (tableFooter writeState)) in
  do _ <- (if blockRowCount =? 0 then Err Undefined else Ok tt);
  let lastBlockIndex := u32 (rowCount buffers / blockRowCount) in
  let lastBlockRowCount := u32 (rowCount buffers mod blockRowCount) in
  do writeState <-
    (if 0 <? lastBlockRowCount
     then SerializeBlockData writeState lastBlockIndex lastBlockRowCount
     else Ok writeState);
  do stripeBuffers <- deref (stripeBuffers writeState);
  do nodes <-
    for_loop (Z.to_nat columnCount) (PlaceColumn stripeBuffers blockCount)
      (blockSkipNodeArray stripeSkipList);
  let stripeSkipList := set_nodes stripeSkipList nodes in
  do skipListBufferArray <-
    CreateSkipListBufferArray stripeSkipList (tupleDescriptor writeState);
  do stripeFooter <- CreateStripeFooter stripeSkipList skipListBufferArray;
  Ok {| si_writeState :=
          set_stripe writeState (Some stripeBuffers) (Some stripeSkipList);
        si_stripeBuffers := stripeBuffers;
        si_stripeSkipList := stripeSkipList;
        si_skipListBufferArray := skipListBufferArray;
        si_stripeFooter := stripeFooter;
        si_stripeFooterBuffer := SerializeStripeFooter stripeFooter |}.

(** Lines 702-734 of [FlushStripe]: the three sections go to the data
    fork. *)
Definition WriteStripe (image : StripeImage) : result TableWriteState :=
  let writeState := si_writeState image in
  let columnCount := u32 (natts (tupleDescriptor writeState)) in
  do writeState <-
    FlushSkipLists columnCount (si_skipListBufferArray image) writeState;
  do writeState <-
    for_loop (Z.to_nat columnCount)
      (FlushColumnData (si_stripeBuffers image)
         (blockCount (si_stripeSkipList image)))
      writeState;
  WriteStringInfo writeState (si_stripeFooterBuffer image).

(** [FlushStripe]. *)
Definition FlushStripe (writeState : TableWriteState)
  : result (StripeMetadata * TableWriteState) :=
  do image <- PrepareStripe writeState;
  do writeState <- WriteStripe image;
  let columnCount := u32 (natts (tupleDescriptor writeState)) in
  do (skipListLength, dataLength) <-
    SumStripeSizes columnCount (si_stripeFooter image);
  let footerLength := len (si_stripeFooterBuffer image) in
  let stripeMetadata :=
    {| fileOffset := currentFileOffset writeState;
       skipListLength := skipListLength;
       dataLength := dataLength;
       footerLength := u64 footerLength |} in
  let offset := u64 (currentFileOffset writeState + skipListLength) in
  let offset := u64 (offset + dataLength) in
  let offset := u64 (offset + footerLength) in
  Ok (stripeMetadata, set_footer writeState (tableFooter writeState) offset).

(** Lines 218-296 of [CStoreWriteRow]: the row is added, a full block is
    serialized and the row is counted. *)
Definition StageRow (writeState : TableWriteState)
  (columnValues : list Datum) (columnNulls : list bool)
  : result TableWriteState :=
  let blockRowCount := u32 (blockRowCount (tableFooter writeState)) in
  do (writeState, blockIndex, blockRowIndex) <-
    AddRow writeState columnValues columnNulls;
  do writeState <-
    (if blockRowIndex =? u32 (blockRowCount - 1)
     then SerializeBlockData writeState blockIndex blockRowCount
     else Ok writeState);
  do buffers <- deref (stripeBuffers writeState);
  Ok (set_stripe writeState
        (Some (set_rowCount buffers (u32 (rowCount buffers + 1))))
        (stripeSkipList writeState)).

(** [CStoreWriteRow]. *)
Definition CStoreWriteRow (writeState : TableWriteState)
  (columnValues : list Datum) (columnNulls : list bool)
  : result TableWriteState :=
  do writeState <- StageRow writeState columnValues columnNulls;
  do buffers <- deref (stripeBuffers writeState);
  if stripeMaxRowCount writeState <=? rowCount buffers then
    do (stripeMetadata, writeState) <- FlushStripe writeState;
    let writeState := MemoryContextReset writeState in
    let writeState := set_stripe writeState None None in
    Ok (set_footer writeState
          (AppendStripeMetadata (tableFooter writeState) stripeMetadata)
          (currentFileOffset writeState))
  else Ok writeState.

(** Lines 125-141 of [CStoreBeginWrite]. *)
Definition ComparisonFunctions (tupleDescriptor : TupleDesc)
  : result (list (option FmgrInfo)) :=
  let columnCount := u32 (natts tupleDescriptor) in
  for_loop (Z.to_nat columnCount)
    (fun columnIndex comparisonFunctionArray =>
       do attributeForm <- load (attrs tupleDescriptor) (Z.of_nat columnIndex);
       let comparisonFunction :=
         if negb (attisdropped attributeForm)
         then GetFunctionInfoOrNull (atttypid attributeForm)
         else None in
       store comparisonFunctionArray (Z.of_nat columnIndex) comparisonFunction)
    (replicate (Z.to_nat columnCount) None).

(** [CStoreBeginWrite]. [EnsureDataForkExists] leaves the pages of the
    data fork as they are. *)
Definition CStoreBeginWrite (relation : Relation)
  (compressionType : CompressionType) (stripeMaxRowCount blockRowCount : Z)
  (logging : bool) (tupleDescriptor : TupleDesc) : result TableWriteState :=
  let pageDataSize := CSTORE_PAGE_DATA_SIZE in
  let tableFooter :=
    match CStoreReadFooter relation with
    | Some tableFooter => tableFooter
    | None => {| stripeMetadataList := []; blockRowCount := blockRowCount |}
    end in
  let currentFileOffset :=
    match last (stripeMetadataList tableFooter) with
    | Some lastStripe =>
        let lastStripeSize := u64 (0 + skipListLength lastStripe) in
        let lastStripeSize := u64 (lastStripeSize + dataLength lastStripe) in
        let lastStripeSize := u64 (lastStripeSize + footerLength lastStripe) in
        u64 (fileOffset lastStripe + lastStripeSize)
    | None => 0
    end in
  do _ <- (if u64 pageDataSize =? 0 then Err Undefined else Ok tt);
  let blockNumber := u32 (currentFileOffset / u64 pageDataSize) in
  let columnCount := u32 (natts tupleDescriptor) in
  do comparisonFunctionArray <- ComparisonFunctions tupleDescriptor;
  let blockData := CreateEmptyBlockDataArray columnCount blockRowCount in
  Ok {| tableFooter := tableFooter;
        compressionType := compressionType;
        stripeMaxRowCount := stripeMaxRowCount;
        logging := logging;
        tupleDescriptor := tupleDescriptor;
        currentFileOffset := currentFileOffset;
        comparisonFunctionArray := comparisonFunctionArray;
        stripeBuffers := None;
        stripeSkipList := None;
        blockDataArray := blockData;
        compressionBuffer := None;
        activeBlockNumber := blockNumber;
        relation := relation |}.

(** Lines 332-341 of [CStoreEndWrite]: an open stripe is flushed. *)
Definition FlushOpenStripe (writeState : TableWriteState)
  : result TableWriteState :=
  match stripeBuffers writeState with
  | Some _ =>
      do (stripeMetadata, writeState) <- FlushStripe writeState;
      let writeState := MemoryContextReset writeState in
      Ok (set_footer writeState
            (AppendStripeMetadata (tableFooter writeState) stripeMetadata)
            (currentFileOffset writeState))
  | None => Ok writeState
  end.

(** [CStoreEndWrite]: the state when the writer is released, with the
    footer fork rewritten. *)
Definition CStoreEndWrite (writeState : TableWriteState)
  : result TableWriteState :=
  do writeState <- FlushOpenStripe writeState;
  do written <-
    CStoreWriteFooter (tableFooter writeState)
      (footerFork (relation writeState)) (logging writeState);
  Ok {| tableFooter := tableFooter writeState;
        compressionType := compressionType writeState;
        stripeMaxRowCount := stripeMaxRowCount writeState;
        logging := logging writeState;
        tupleDescriptor := tupleDescriptor writeState;
        currentFileOffset := currentFileOffset writeState;
        comparisonFunctionArray := comparisonFunctionArray writeState;
        stripeBuffers := stripeBuffers writeState;
        stripeSkipList := stripeSkipList writeState;
        blockDataArray := blockDataArray writeState;
        compressionBuffer := compressionBuffer writeState;
        activeBlockNumber := activeBlockNumber writeState;
        relation :=
          {| dataFork := dataFork (relation writeState);
             footerFork := fw_fork written |} |}.
End StripeAssembler.

(** ** The rule of the specification for the footer's starting block *)

(** What the writer finds on the footer fork. *)
Inductive FooterHeader : Type :=
| NoHeader                                         (* the fork is empty *)
| Unparseable                                      (* the header does not parse *)
| Parsed (starting_block block_count : Z).

(** Section 4.1 of the specification, "Footer starting-block selection",
    in its words. *)
Definition spec_starting_block (header : FooterHeader) (new_block_count : Z)
  : Z :=
  match header with
  | NoHeader => 1
  | Unparseable => 1
  | Parsed current_starting_block current_block_count =>
      if current_starting_block =? 0 then 1
      else if new_block_count <? current_starting_block then 1
      else current_starting_block + current_block_count
  end.

(** The block count and the out-parameters of
    [DeserializeTableFooterMetadata] that the code sees for a header. *)
Definition header_seen (header : FooterHeader)
  (originalBlockCount startingBlock blockCount : Z) : Prop :=
  match header with
  | NoHeader => originalBlockCount = 0
  | Unparseable => 0 < originalBlockCount /\ startingBlock = 0
  | Parsed s c =>
      0 < originalBlockCount /\ startingBlock = s /\ blockCount = c
      /\ 0 <= s /\ 0 <= c /\ s + c < 2 ^ 32
  end.

(** The blocks [first, first + count). *)
Definition in_range (first count block : Z) : Prop :=
  first <= block < first + count.

(** ** Test doubles for the host and the collaborators

    Small pages keep the examples short: a page of 32 bytes with a header of
    8 has room for 24 bytes. *)

Definition small_pages : Host :=
  {| BLCKSZ := 32; SizeOfPageHeaderData := 8; USE_ASSERT_CHECKING := true |}.

(** The same pages in a build without assertion checking. *)
Definition small_pages_release : Host :=
  {| BLCKSZ := 32; SizeOfPageHeaderData := 8; USE_ASSERT_CHECKING := false |}.

(** The order of [int4]: [btint4cmp], on the words of the datums (a
    pointer counts as 0). *)
Definition DatumGetInt32 (datum : Datum) : Z :=
  match datum with
  | ByValue word => word
  | ByReference _ => 0
  end.

Definition btint4cmp : FmgrInfo :=
  fun _ a b =>
    if DatumGetInt32 a <? DatumGetInt32 b then -1
    else if DatumGetInt32 b <? DatumGetInt32 a then 1 else 0.

Definition INT4OID : Z := 23.

(** A serializer with fixed-width fields, a reader that finds [existing] and
    a postscript of [postscript] bytes after its length field. Skip lists
    and stripe footers are cut at 1024 bytes, so that they always fit a
    [StringInfo]. *)
Definition plain_codec (existing : option TableFooter) (postscript : nat)
  : Collaborators :=
  {| SerializeTableFooter := fun footer =>
       le_bytes 4 (blockRowCount footer) ++
       concat (map (fun stripe =>
                      le_bytes 2 (fileOffset stripe) ++
                      le_bytes 2 (skipListLength stripe) ++
                      le_bytes 2 (dataLength stripe) ++
                      le_bytes 2 (footerLength stripe))
                 (stripeMetadataList footer));
     SerializePostScript := fun footerLength =>
       le_bytes 2 footerLength ++ replicate postscript x2a;
     SerializeTableFooterMetadata := fun startingBlock blockCount =>
       le_bytes 4 startingBlock ++ le_bytes 4 blockCount;
     DeserializeTableFooterMetadata := fun content length =>
       if length =? 8
       then (le_value (take 4 content), le_value (take 4 (drop 4 content)))
       else (0, 0);
     SerializeColumnSkipList := fun nodes blockCount _ _ =>
       take 1024
         (concat (map (fun node =>
                         [byte_of_Z (node_rowCount node);
                          if hasMinMax node then x01 else x00])
                    (take (Z.to_nat blockCount) nodes)));
     SerializeStripeFooter := fun footer =>
       take 1024
         (concat (map (le_bytes 1)
                    (skipListSizeArray footer ++ existsSizeArray footer
                     ++ valueSizeArray footer)));
     CStoreReadFooter := fun _ => existing;
     CompressBuffer := fun _ _ => None;
     GetFunctionInfoOrNull := fun typeId =>
       if typeId =? INT4OID then Some btint4cmp else None |}.

Definition empty_relation : Relation := {| dataFork := []; footerFork := [] |}.

Definition empty_footer (blockRowCount : Z) : TableFooter :=
  {| stripeMetadataList := []; blockRowCount := blockRowCount |}.

(** The footer fork after one footer of an empty table has been written to
    it: the header page and one footer page. *)
Definition footer_fork_once : list Page :=
  Eval vm_compute in
    match @CStoreWriteFooter small_pages (plain_codec None 0)
            (empty_footer 4) [] false with
    | Ok written => fw_fork written
    | Err _ => []
    end.

(** ** Well-formed pages and forks *)

Section WellFormedPages.
Context {host : Host}.

(** The page geometry of a host: a header, then room for data, in a block
    that [uint16] offsets can address. *)
Definition host_ok : Prop :=
  0 < SizeOfPageHeaderData /\ SizeOfPageHeaderData < BLCKSZ /\ BLCKSZ <= 2 ^ 15.

(** An initialized page without special space. *)
Definition page_ok (p : Page) : Prop :=
  SizeOfPageHeaderData <= pd_lower p /\ pd_lower p <= pd_upper p
  /\ pd_upper p <= BLCKSZ /\ len (contents p) = BLCKSZ - SizeOfPageHeaderData.

Definition page_full (p : Page) : Prop := pd_upper p <= pd_lower p.

(** A fork of initialized pages that block numbers can address. *)
Definition fork_ok (fork : list Page) : Prop :=
  Forall page_ok fork /\ len fork <= P_NEW.

(** The active block is the last block of the fork, or lies beyond it. *)
Definition at_end (fork : list Page) (activeBlockNumber : Z) : Prop :=
  0 <= activeBlockNumber < 2 ^ 32 /\ len fork <= activeBlockNumber + 1.

(** What an iteration of [WriteToFile] achieves: a byte is copied, or a
    full block of the fork is left behind. *)
Definition makes_progress (blockCount : Z) (st st' : DataWrite) : Prop :=
  dw_dataOffset st < dw_dataOffset st'
  \/ (dw_dataOffset st' = dw_dataOffset st
      /\ dw_blockNumber st < blockCount
      /\ (exists page, dw_fork st !! Z.to_nat (dw_blockNumber st) = Some page
                       /\ page_full page)
      /\ dw_blockNumber st' = dw_blockNumber st + 1).

(** The iterations [WriteToFile] still needs at most. *)
Definition iterations_left (dataLength blockCount : Z) (st : DataWrite) : Z :=
  (dataLength - dw_dataOffset st) + Z.max 0 (blockCount - dw_blockNumber st).

(** The fork can take [dataLength] more bytes, were each to need a page. *)
Definition has_room (fork : list Page) (dataLength : Z) : Prop :=
  len fork + dataLength <= P_NEW.
End WellFormedPages.

(** The states the loop of [WriteToFile] goes through from [start]. *)
Inductive iterates {host : Host} (data : list byte) (dataLength blockCount : Z)
  (start : DataWrite) : DataWrite -> Prop :=
| iterates_start : iterates data dataLength blockCount start start
| iterates_step st st' :
    iterates data dataLength blockCount start st ->
    u32 (dw_dataOffset st) < dataLength ->
    WriteToFile_step data dataLength blockCount st = Ok st' ->
    iterates data dataLength blockCount start st'.


(** A table with one [int4] column, and a writer on a relation without
    pages: blocks of [blockRows] rows, stripes of [stripeRows] rows. *)
Definition int4_column : FormData_pg_attribute :=
  {| atttypid := INT4OID; attlen := 4; attbyval := true; attalign := "i";
     attcollation := 0; attisdropped := false |}.

Definition int4_table : TupleDesc := {| natts := 1; attrs := [int4_column] |}.

(** A table without columns, as [CREATE FOREIGN TABLE t ()] makes it. *)
Definition no_columns : TupleDesc := {| natts := 0; attrs := [] |}.

Definition fresh_writer (stripeRows blockRows : Z) : result TableWriteState :=
  @CStoreBeginWrite small_pages (plain_codec None 0) empty_relation
    COMPRESSION_NONE stripeRows blockRows false int4_table.

(** Thirty bytes, to be written over two small pages. *)
Definition thirty_bytes : list byte := map byte_of_Z (seqZ 1 30).

(** ** Rows, blocks and statistics *)

(** A row as [CStoreWriteRow] receives it: the values and the null flags of
    its columns. *)
Definition Row : Type := (list Datum * list bool)%type.

Section Sessions.
Context {host : Host} {collab : Collaborators}.

(** The rows are staged one after the other into the open stripe. *)
Fixpoint StageRows (writeState : TableWriteState) (rows : list Row)
  : result TableWriteState :=
  match rows with
  | [] => Ok writeState
  | (columnValues, columnNulls) :: rows' =>
      do writeState <- StageRow writeState columnValues columnNulls;
      StageRows writeState rows'
  end.

(** The rows are written one after the other. *)
Fixpoint WriteRows (writeState : TableWriteState) (rows : list Row)
  : result TableWriteState :=
  match rows with
  | [] => Ok writeState
  | (columnValues, columnNulls) :: rows' =>
      do writeState <- CStoreWriteRow writeState columnValues columnNulls;
      WriteRows writeState rows'
  end.
End Sessions.

(** The indices, among the first [n] rows of a stripe, of the rows of block
    [b] when blocks hold [R] rows. *)
Definition rows_of_block (R b n : Z) : list Z :=
  filter (fun i => i / R = b) (seqZ 0 n).

(** The comparison as [UpdateBlockSkipNodeMinMax] reads it. *)
Definition compare_with (function : FmgrInfo) (collation : Z) (a b : Datum) : Z :=
  i32 (function collation a b).

(** A comparison that implements a total order. *)
Definition total_order (cmp : Datum -> Datum -> Z) : Prop :=
  (forall a, cmp a a = 0)
  /\ (forall a b, cmp a b < 0 <-> 0 < cmp b a)
  /\ (forall a b c, cmp a b <= 0 -> cmp b c <= 0 -> cmp a c <= 0).

(** A datum of the column's type: a by-reference datum points to an object
    of the extent that [att_addlength_datum] finds for it (the length of
    the type, if that is fixed, else what the header of the object or its
    terminating NUL says), and a [uint32] holds that extent. *)
Definition datum_ok {host : Host} (attribute : FormData_pg_attribute)
  (datum : Datum) : Prop :=
  attbyval attribute = true
  \/ exists object,
       datum = ByReference object /\ len object < 2 ^ 32
       /\ att_addlength_datum (attlen attribute) datum = Ok (len object).

(** The minimum and the maximum of the node bound [value]. *)
Definition covers (cmp : Datum -> Datum -> Z) (node : ColumnBlockSkipNode)
  (value : Datum) : Prop :=
  cmp (minimumValue node) value <= 0 /\ 0 <= cmp (maximumValue node) value.

(** The value of column [c] in row [i] of the stripe, when it is not null. *)
Definition value_at (rows : list Row) (i : Z) (c : nat) (value : Datum) : Prop :=
  exists columnValues columnNulls,
    0 <= i /\ rows !! Z.to_nat i = Some (columnValues, columnNulls)
    /\ columnNulls !! c = Some false /\ columnValues !! c = Some value.

(** The part of the write state that is fixed when the writer is created,
    and the position in the data fork. *)
Definition same_session (ws ws' : TableWriteState) : Prop :=
  tableFooter ws' = tableFooter ws
  /\ compressionType ws' = compressionType ws
  /\ stripeMaxRowCount ws' = stripeMaxRowCount ws
  /\ logging ws' = logging ws
  /\ tupleDescriptor ws' = tupleDescriptor ws
  /\ comparisonFunctionArray ws' = comparisonFunctionArray ws
  /\ currentFileOffset ws' = currentFileOffset ws
  /\ activeBlockNumber ws' = activeBlockNumber ws
  /\ relation ws' = relation ws.

(** The skip nodes of the first [C] columns count the rows of their blocks
    among the first [n] rows of the stripe. *)
Definition counts_tracked (R C n : Z) (skipList : StripeSkipList) : Prop :=
  forall (c b : nat) nodes node,
    Z.of_nat c < C ->
    blockSkipNodeArray skipList !! c = Some nodes -> nodes !! b = Some node ->
    node_rowCount node = len (rows_of_block R (Z.of_nat b) n).

(** The open stripe of a write state holds [n] rows and its skip nodes count
    them; without an open stripe there are none. *)
Definition stripe_counts (ws : TableWriteState) (n : Z) : Prop :=
  match stripeBuffers ws, stripeSkipList ws with
  | None, _ => n = 0
  | Some buffers, Some skipList =>
      rowCount buffers = n
      /\ counts_tracked (u32 (blockRowCount (tableFooter ws)))
           (u32 (natts (tupleDescriptor ws))) n skipList
  | Some _, None => False
  end.

(** The open stripe, if there is one, holds fewer than [bound] rows. *)
Definition rows_bounded (ws : TableWriteState) (bound : Z) : Prop :=
  forall buffers,
    stripeBuffers ws = Some buffers -> 0 <= rowCount buffers < bound.

(** ** The image of a stripe on the data fork *)

Definition sumZ (l : list Z) : Z := foldr Z.add 0 l.

(** The bytes behind a [StringInfo] pointer; none behind [NULL]. *)
Definition buffer_bytes (buffer : option (list byte)) : list byte :=
  default [] buffer.

(** The data region of one column: all its exists buffers in block order,
    then all its value buffers in block order. *)
Definition column_bytes (blockCount : Z) (columnBuffers : ColumnBuffers)
  : list byte :=
  let blocks := take (Z.to_nat blockCount) (blockBuffersArray columnBuffers) in
  concat (map (fun blockBuffers => buffer_bytes (existsBuffer blockBuffers)) blocks)
  ++ concat (map (fun blockBuffers => buffer_bytes (valueBuffer blockBuffers)) blocks).

Section StripeBytes.
Context {host : Host} {collab : Collaborators}.

(** The three regions of a stripe, over the columns of the table. *)
Definition skip_region (image : StripeImage) : list byte :=
  let columnCount := u32 (natts (tupleDescriptor (si_writeState image))) in
  concat (take (Z.to_nat columnCount) (si_skipListBufferArray image)).

Definition data_region (image : StripeImage) : list byte :=
  let columnCount := u32 (natts (tupleDescriptor (si_writeState image))) in
  concat (map (column_bytes (blockCount (si_stripeSkipList image)))
            (take (Z.to_nat columnCount)
               (columnBuffersArray (si_stripeBuffers image)))).

(** Section 4.6, step 5 of the specification: the skip-list buffers of the
    columns in column order, the data regions of the columns in column
    order, the serialized stripe footer. *)
Definition stripe_bytes (image : StripeImage) : list byte :=
  skip_region image ++ data_region image ++ si_stripeFooterBuffer image.

(** The collaborators hand out [StringInfo]s, which stay below
    [MaxAllocSize]. *)
Definition collaborators_ok : Prop :=
  (forall nodes blockCount byValue length,
     len (SerializeColumnSkipList nodes blockCount byValue length) < MaxAllocSize)
  /\ (forall footer, len (SerializeStripeFooter footer) < MaxAllocSize)
  /\ (forall input kind output,
        CompressBuffer input kind = Some output -> len output < MaxAllocSize).
End StripeBytes.

(** A buffer of the writer, if allocated, is a [StringInfo]. *)
Definition buffer_ok (buffer : option (list byte)) : Prop :=
  forall bytes, buffer = Some bytes -> len bytes < MaxAllocSize.

(** The buffers of the blocks serialized so far: [StringInfo]s, and an
    exists buffer holds at least one byte. *)
Definition block_buffers_ok (blockBuffers : ColumnBlockBuffers) : Prop :=
  buffer_ok (existsBuffer blockBuffers)
  /\ buffer_ok (valueBuffer blockBuffers)
  /\ (forall bytes, existsBuffer blockBuffers = Some bytes -> 1 <= len bytes).

Definition stripe_buffers_ok (buffers : StripeBuffers) : Prop :=
  Forall (fun columnBuffers =>
            Forall block_buffers_ok (blockBuffersArray columnBuffers))
    (columnBuffersArray buffers).

(** The buffers of a write state. *)
Definition buffers_ok (ws : TableWriteState) : Prop :=
  Forall (fun blockData => buffer_ok (data_valueBuffer blockData))
    (blockDataArray ws)
  /\ (forall buffers, stripeBuffers ws = Some buffers -> stripe_buffers_ok buffers).

Section Appending.
Context {host : Host}.

(** A write state whose data fork [WriteToFile] can work on. *)
Definition writer_ok (ws : TableWriteState) : Prop :=
  fork_ok (dataFork (relation ws)) /\ 0 <= activeBlockNumber ws < 2 ^ 32.

(** From [ws] to [ws'] the bytes went to the data fork, and nothing else
    changed: the fork holds that many bytes more, and it holds them at the
    end of its byte stream if the active block was its last. *)
Definition appended (ws ws' : TableWriteState) (bytes : list byte) : Prop :=
  tableFooter ws' = tableFooter ws
  /\ compressionType ws' = compressionType ws
  /\ stripeMaxRowCount ws' = stripeMaxRowCount ws
  /\ logging ws' = logging ws
  /\ tupleDescriptor ws' = tupleDescriptor ws
  /\ currentFileOffset ws' = currentFileOffset ws
  /\ comparisonFunctionArray ws' = comparisonFunctionArray ws
  /\ stripeBuffers ws' = stripeBuffers ws
  /\ stripeSkipList ws' = stripeSkipList ws
  /\ blockDataArray ws' = blockDataArray ws
  /\ compressionBuffer ws' = compressionBuffer ws
  /\ footerFork (relation ws') = footerFork (relation ws)
  /\ (writer_ok ws ->
      writer_ok ws'
      /\ len (fork_bytes (dataFork (relation ws')))
         = len (fork_bytes (dataFork (relation ws))) + len bytes
      /\ (at_end (dataFork (relation ws)) (activeBlockNumber ws) ->
          fork_bytes (dataFork (relation ws'))
            = fork_bytes (dataFork (relation ws)) ++ bytes
          /\ at_end (dataFork (relation ws')) (activeBlockNumber ws'))).
End Appending.

(** The buffers of a stripe image are [StringInfo]s. *)
Definition image_ok (image : StripeImage) : Prop :=
  Forall (fun s => len s < MaxAllocSize)
    (take (Z.to_nat (u32 (natts (tupleDescriptor (si_writeState image)))))
       (si_skipListBufferArray image))
  /\ stripe_buffers_ok (si_stripeBuffers image)
  /\ len (si_stripeFooterBuffer image) < MaxAllocSize.

(** Block [b] of a column has been placed: its node took the lengths of the
    two buffers of the block and kept its statistics. *)
Definition block_placed (columnBuffers : ColumnBuffers)
  (before after : list ColumnBlockSkipNode) (b : nat) : Prop :=
  exists blockBuffers e v node existsOffset valueOffset,
    blockBuffersArray columnBuffers !! b = Some blockBuffers
    /\ existsBuffer blockBuffers = Some e
    /\ valueBuffer blockBuffers = Some v
    /\ before !! b = Some node
    /\ after !! b
       = Some (set_placement node existsOffset (u64 (len e)) valueOffset
                 (u64 (len v)) (valueCompressionType blockBuffers)).

(** The first [count] blocks of a column have been placed, the others are
    as they were. *)
Definition blocks_placed (columnBuffers : ColumnBuffers)
  (before : list ColumnBlockSkipNode) (count : nat)
  (after : list ColumnBlockSkipNode) : Prop :=
  length after = length before
  /\ (forall b, (count <= b)%nat -> after !! b = before !! b)
  /\ (forall b, (b < count)%nat -> block_placed columnBuffers before after b).

(** The first [count] columns have their first [blockCount] blocks placed,
    the others are as they were. *)
Definition columns_placed (stripeBuffers : StripeBuffers) (blockCount : Z)
  (before : list (list ColumnBlockSkipNode)) (count : nat)
  (after : list (list ColumnBlockSkipNode)) : Prop :=
  length after = length before
  /\ (forall c, (count <= c)%nat -> after !! c = before !! c)
  /\ (forall c, (c < count)%nat ->
        exists nodes columnBuffers nodes',
          before !! c = Some nodes
          /\ columnBuffersArray stripeBuffers !! c = Some columnBuffers
          /\ after !! c = Some nodes'
          /\ blocks_placed columnBuffers nodes (Z.to_nat blockCount) nodes').

(** Two nodes with the same statistics. *)
Definition same_statistics (node node' : ColumnBlockSkipNode) : Prop :=
  hasMinMax node' = hasMinMax node
  /\ minimumValue node' = minimumValue node
  /\ maximumValue node' = maximumValue node
  /\ node_rowCount node' = node_rowCount node.


(** Column [c] of a stripe footer holds the length of the column's skip-list
    buffer and the two sums of the column's nodes. *)
Definition footer_column (stripeSkipList : StripeSkipList)
  (skipListBufferArray : list (list byte))
  (skipListSizes existsSizes valueSizes : list Z) (c : nat) : Prop :=
  exists nodes existsSize valueSize skipListBuffer,
    blockSkipNodeArray stripeSkipList !! c = Some nodes
    /\ SumBlockSizes nodes (blockCount stripeSkipList)
       = Ok (existsSize, valueSize)
    /\ skipListBufferArray !! c = Some skipListBuffer
    /\ skipListSizes !! c = Some (u64 (len skipListBuffer))
    /\ existsSizes !! c = Some existsSize
    /\ valueSizes !! c = Some valueSize.


(** ** The offsets of the stripes *)

(** Where a stripe ends in the data stream. *)
Definition stripe_end (stripe : StripeMetadata) : Z :=
  fileOffset stripe + skipListLength stripe + dataLength stripe
  + footerLength stripe.

(** Every stripe starts where the stripe before it ends, and after the
    start of that stripe. *)
Definition chained (stripes : list StripeMetadata) : Prop :=
  forall n a b,
    stripes !! n = Some a -> stripes !! S n = Some b ->
    fileOffset a < fileOffset b /\ fileOffset b = stripe_end a.

(** A stripe as a footer records it: [uint64] fields, some bytes, and an
    end that is far from the end of the [uint64] range. *)
Definition stripe_ok (stripe : StripeMetadata) : Prop :=
  0 <= fileOffset stripe /\ 0 <= skipListLength stripe
  /\ 0 <= dataLength stripe /\ 0 <= footerLength stripe
  /\ fileOffset stripe < stripe_end stripe /\ stripe_end stripe <= 2 ^ 63.

(** A footer that a session can resume: its stripes are chained and the
    last of them is in order. *)
Definition footer_ok (footer : TableFooter) : Prop :=
  chained (stripeMetadataList footer)
  /\ forall stripe,
       last (stripeMetadataList footer) = Some stripe -> stripe_ok stripe.

Section SessionInvariant.
Context {host : Host}.

(** The offset of a writer: the stripes of its footer are chained, the
    offset is where the last of them ends, and it is ahead of the bytes of
    the data fork by a bounded amount. *)
Definition offset_ok (ws : TableWriteState) : Prop :=
  chained (stripeMetadataList (tableFooter ws))
  /\ (forall stripe,
        last (stripeMetadataList (tableFooter ws)) = Some stripe ->
        fileOffset stripe < currentFileOffset ws
        /\ currentFileOffset ws = stripe_end stripe)
  /\ 0 <= currentFileOffset ws
  /\ currentFileOffset ws - len (fork_bytes (dataFork (relation ws))) <= 2 ^ 63.

(** An open stripe has a skip list with a block. *)
Definition open_ok (ws : TableWriteState) : Prop :=
  forall buffers,
    stripeBuffers ws = Some buffers ->
    exists skipList, stripeSkipList ws = Some skipList /\ 1 <= blockCount skipList.

(** The state of a writer between two calls. *)
Definition session_ok (ws : TableWriteState) : Prop :=
  writer_ok ws /\ buffers_ok ws
  /\ u32 (blockRowCount (tableFooter ws)) + 7 < 2 ^ 32
  /\ 1 <= u32 (natts (tupleDescriptor ws))
  /\ open_ok ws /\ offset_ok ws.
End SessionInvariant.


(** Rows of the table with one [int4] column, one per value. *)
Definition int4_rows (values : list Z) : list Row :=
  map (fun value => ([ByValue value], [false])) values.

(** A state at which a session flushes a stripe: the state [ws] between two
    calls, where [CStoreEndWrite] flushes, or a state with one more row
    staged, where [CStoreWriteRow] flushes. *)
Definition flush_point {host : Host} {collab : Collaborators}
  (ws ws1 : TableWriteState) : Prop :=
  ws1 = ws
  \/ exists columnValues columnNulls,
       StageRow ws columnValues columnNulls = Ok ws1.


(** A writer on the one-column table with rows staged in a stripe of blocks
    of two rows. *)
Definition staged_writer (values : list Z) : result TableWriteState :=
  do writeState <- fresh_writer 4 2;
  @StageRows small_pages (plain_codec None 0) writeState (int4_rows values).


(** The state of a writer between two calls of [CStoreWriteRow]: an open
    stripe holds fewer rows than a stripe may hold, and that maximum is a
    [uint32], as [CreateEmptyStripeBuffers] takes it. *)
Definition between_rows {host : Host} (ws : TableWriteState) : Prop :=
  session_ok ws
  /\ rows_bounded ws (stripeMaxRowCount ws)
  /\ stripeMaxRowCount ws < 2 ^ 32.


(** The bytes of a datum of [extent] bytes: the low bytes of the word of a
    by-value datum in little-endian order, the first bytes of the object
    behind the pointer of another. *)
Definition datum_image (datum : Datum) (extent : Z) : list byte :=
  match datum with
  | ByValue word => le_bytes (Z.to_nat extent) word
  | ByReference object => take (Z.to_nat extent) object
  end.

(** Section 4.2 of the specification, "Datum Serializer", in its words:
    the bytes that one value of [extent] bytes adds to a buffer, which are
    the bytes of the value and then zeroes up to the aligned length. *)
Definition spec_serialize_datum (value : Datum) (extent : Z) (align : ascii)
  : list byte :=
  datum_image value extent
  ++ replicate (Z.to_nat (att_align_nominal extent align - extent)) x00.

(** The deep copy of a datum of [extent] bytes: the word itself by value,
    else a pointer to a new object with the bytes of the datum. *)
Definition spec_copy_datum (by_value : bool) (value : Datum) (extent : Z)
  : Datum :=
  if by_value then value else ByReference (datum_image value extent).

(** Section 4.3 of the specification, "Block Statistics", in its words:
    [has_min_max], the minimum and the maximum of a node after a value.
    Without [cmp] the node is left as it is; the first value is copied into
    both; another value replaces the minimum if [cmp(value, min) < 0] and
    the maximum if [cmp(value, max) > 0], and ties leave the incumbent. *)
Definition spec_update_min_max (cmp : option (Datum -> Datum -> Z))
  (node : ColumnBlockSkipNode) (value copy : Datum) : bool * Datum * Datum :=
  match cmp with
  | None => (hasMinMax node, minimumValue node, maximumValue node)
  | Some cmp =>
      if hasMinMax node then
        (true,
         if cmp value (minimumValue node) <? 0 then copy else minimumValue node,
         if 0 <? cmp value (maximumValue node) then copy else maximumValue node)
      else (true, copy, copy)
  end.

(** The cell of column [column] that a row writes at position
    [blockRowIndex] of its block: what becomes of the block data of the
    column and of the skip node of the block. A null clears the flag and
    leaves the value buffer and the statistics as they are. A value sets
    the flag, appends its serialized bytes to the value buffer and updates
    the statistics, as the specification says; its extent is the [uint32]
    that [SerializeSingleDatum] and [DatumCopy] take from
    [att_addlength_datum]. Both count the row. *)
Definition cell_written {host : Host} (writeState : TableWriteState)
  (columnValues : list Datum) (isNull : bool) (blockRowIndex : Z) (column : nat)
  (blockData : ColumnBlockData) (node : ColumnBlockSkipNode)
  (blockData' : ColumnBlockData) (node' : ColumnBlockSkipNode) : Prop :=
  0 <= blockRowIndex < len (existsArray blockData)
  /\ existsArray blockData'
     = <[Z.to_nat blockRowIndex := negb isNull]> (existsArray blockData)
  /\ node_rowCount node' = u32 (node_rowCount node + 1)
  /\ if isNull then
       data_valueBuffer blockData' = data_valueBuffer blockData
       /\ hasMinMax node' = hasMinMax node
       /\ minimumValue node' = minimumValue node
       /\ maximumValue node' = maximumValue node
     else
       exists comparisonFunction attributeForm columnValue buffer datumLength,
         comparisonFunctionArray writeState !! column = Some comparisonFunction
         /\ attrs (tupleDescriptor writeState) !! column = Some attributeForm
         /\ columnValues !! column = Some columnValue
         /\ data_valueBuffer blockData = Some buffer
         /\ att_addlength_datum (attlen attributeForm) columnValue
            = Ok datumLength
         /\ let extent := u32 datumLength in
            let cmp :=
              option_map
                (fun function => compare_with function (attcollation attributeForm))
                comparisonFunction in
            len (datum_image columnValue extent) = extent
            /\ extent <= att_align_nominal extent (attalign attributeForm)
               < extent + 8
            /\ data_valueBuffer blockData'
               = Some (buffer
                       ++ spec_serialize_datum columnValue extent
                            (attalign attributeForm))
            /\ (hasMinMax node', minimumValue node', maximumValue node')
               = spec_update_min_max cmp node columnValue
                   (spec_copy_datum (attbyval attributeForm) columnValue extent).


(** The skip nodes of column [c] bound the values of the column in the
    rows of the stripe: the node of a block with a value of the column has
    a minimum and a maximum, and they bound the value. *)
Definition minmax_tracked (cmp : Datum -> Datum -> Z) (R : Z) (c : nat)
  (rows : list Row) (skipList : StripeSkipList) : Prop :=
  forall (b : nat) nodes node i value,
    blockSkipNodeArray skipList !! c = Some nodes -> nodes !! b = Some node ->
    value_at rows i c value -> i / R = Z.of_nat b ->
    hasMinMax node = true /\ covers cmp node value.

(** The open stripe of a write state holds [rows], and the skip nodes of
    column [c] bound their values; without an open stripe there are no
    rows. *)
Definition stripe_minmax (ws : TableWriteState) (cmp : Datum -> Datum -> Z)
  (c : nat) (rows : list Row) : Prop :=
  match stripeBuffers ws, stripeSkipList ws with
  | None, _ => rows = []
  | Some buffers, Some skipList =>
      rowCount buffers = len rows
      /\ minmax_tracked cmp (u32 (blockRowCount (tableFooter ws))) c rows skipList
  | Some _, None => False
  end.

(** Column [c] of the table has the comparison function [function], which
    implements a total order on the values of the column. *)
Definition column_ordered (ws : TableWriteState) (c : nat)
  (function : FmgrInfo) (attribute : FormData_pg_attribute) : Prop :=
  comparisonFunctionArray ws !! c = Some (Some function)
  /\ attrs (tupleDescriptor ws) !! c = Some attribute
  /\ Z.of_nat c < u32 (natts (tupleDescriptor ws))
  /\ total_order (compare_with function (attcollation attribute)).


(** A relation whose footer fork holds the footer of an empty table with
    blocks of four rows, the reader that finds this footer, and a writer
    that is begun on it with another block row count as its argument. *)
Definition resumed_relation : Relation :=
  {| dataFork := []; footerFork := footer_fork_once |}.

Definition resumed_codec : Collaborators := plain_codec (Some (empty_footer 4)) 0.

Definition resumed_writer (blockRowCount : Z) : result TableWriteState :=
  @CStoreBeginWrite small_pages resumed_codec resumed_relation
    COMPRESSION_NONE 8 blockRowCount false int4_table.

(** The rows are written to the resumed writer. *)
Definition resumed_session (blockRowCount : Z) (values : list Z)
  : result TableWriteState :=
  do writeState <- resumed_writer blockRowCount;
  @WriteRows small_pages resumed_codec writeState (int4_rows values).

(** ** Loop invariants *)

(** What the page loop of [CStoreWriteFooter] keeps true while a valid
    footer occupies the blocks [s, s + c) of a fork of [original] blocks:
    after [i] iterations the fork has grown to hold the blocks below
    [first + i], only those from [first] on were written, and the header
    page and the blocks of the old footer are as they were. *)
Definition pages_invariant (fork : list Page) (s c first : Z) (i : nat)
  (st : FooterWrite) : Prop :=
  len (fw_fork st) = Z.max (len fork) (first + Z.of_nat i)
  /\ first + Z.of_nat i <= P_NEW
  /\ (forall b : nat,
        b = 0%nat \/ in_range s c (Z.of_nat b) -> fw_fork st !! b = fork !! b)
  /\ (forall b, In (PageWritten b) (fw_trace st) ->
        first <= b < first + Z.of_nat i).

(** The invariant of the loop of [WriteToFile] on [dataLength] bytes of
    [data], started on the fork [fork0] with the active block [active0]. *)
Definition write_invariant {host : Host} (data : list byte) (dataLength : Z)
  (fork0 : list Page) (active0 : Z) (st : DataWrite) : Prop :=
  Forall page_ok (dw_fork st)
  /\ len fork0 <= len (dw_fork st) <= P_NEW
  /\ 0 <= dw_dataOffset st <= dataLength
  /\ 0 <= dw_blockNumber st < 2 ^ 32
  /\ 0 <= dw_activeBlockNumber st < 2 ^ 32
  /\ len (fork_bytes (dw_fork st)) = len (fork_bytes fork0) + dw_dataOffset st
  /\ (at_end fork0 active0 ->
      fork_bytes (dw_fork st)
        = fork_bytes fork0 ++ take (Z.to_nat (dw_dataOffset st)) data
      /\ len (dw_fork st) <= dw_blockNumber st + 1
      /\ at_end (dw_fork st) (dw_activeBlockNumber st)).

Section CellInvariant.
Context {host : Host} {collab : Collaborators}.

(** The columns [WriteRowColumn] has gone through hold the new cell; the
    others are as they were. *)
Definition columns_written (writeState : TableWriteState)
  (columnValues : list Datum) (columnNulls : list bool)
  (blockIndex blockRowIndex : Z)
  (before : list ColumnBlockData * list (list ColumnBlockSkipNode))
  (done : nat)
  (after : list ColumnBlockData * list (list ColumnBlockSkipNode)) : Prop :=
  length (fst after) = length (fst before)
  /\ length (snd after) = length (snd before)
  /\ (forall c, (done <= c)%nat ->
        fst after !! c = fst before !! c /\ snd after !! c = snd before !! c)
  /\ (forall c, (c < done)%nat ->
        exists blockData nodes node isNull blockData' node',
          fst before !! c = Some blockData
          /\ snd before !! c = Some nodes
          /\ 0 <= blockIndex
          /\ nodes !! Z.to_nat blockIndex = Some node
          /\ columnNulls !! c = Some isNull
          /\ WriteCell writeState columnValues isNull blockRowIndex
               (Z.of_nat c) blockData node = Ok (blockData', node')
          /\ fst after !! c = Some blockData'
          /\ snd after !! c = Some (<[Z.to_nat blockIndex := node']> nodes)).
End CellInvariant.


(** The skip nodes of column [c] in the open stripe have no minimum and
    maximum. *)
Definition stripe_unbounded (ws : TableWriteState) (c : nat) : Prop :=
  forall buffers skipList nodes (b : nat) node,
    stripeBuffers ws = Some buffers ->
    stripeSkipList ws = Some skipList ->
    blockSkipNodeArray skipList !! c = Some nodes -> nodes !! b = Some node ->
    hasMinMax node = false.

(** ** Streams, flags and statistics of a stripe *)

(** Flag [i] of a packed flag buffer: bit [i mod 8] of byte [i / 8]. *)
Definition flag_at (buffer : list byte) (i : Z) : bool :=
  match buffer !! Z.to_nat (i / 8) with
  | Some b => Z.testbit (Z_of_byte b) (i mod 8)
  | None => false
  end.

(** The nodes of column [c] that have a minimum and a maximum have them in
    order. *)
Definition nodes_sorted (cmp : Datum -> Datum -> Z) (c : nat)
  (skipList : StripeSkipList) : Prop :=
  forall nodes (b : nat) node,
    blockSkipNodeArray skipList !! c = Some nodes -> nodes !! b = Some node ->
    hasMinMax node = true -> cmp (minimumValue node) (maximumValue node) <= 0.

Definition stripe_sorted (ws : TableWriteState) (cmp : Datum -> Datum -> Z)
  (c : nat) : Prop :=
  forall skipList, stripeSkipList ws = Some skipList -> nodes_sorted cmp c skipList.

(** The open stripe of a write state holds [n] rows, at least one; without
    an open stripe [n] is zero. *)
Definition open_rows (ws : TableWriteState) (n : Z) : Prop :=
  match stripeBuffers ws with
  | Some buffers => rowCount buffers = n /\ 1 <= n
  | None => n = 0
  end.

(** The exists stream and the value stream of a column: the exists buffers
    and the value buffers of its first [blockCount] blocks, in block
    order. *)
Definition exists_stream (blockCount : nat) (columnBuffers : ColumnBuffers)
  : list byte :=
  concat (map (fun blockBuffers => buffer_bytes (existsBuffer blockBuffers))
            (take blockCount (blockBuffersArray columnBuffers))).

Definition value_stream (blockCount : nat) (columnBuffers : ColumnBuffers)
  : list byte :=
  concat (map (fun blockBuffers => buffer_bytes (valueBuffer blockBuffers))
            (take blockCount (blockBuffersArray columnBuffers))).

(** Block [b] of a column is placed in the node [node]: the node has the
    lengths of the two buffers of the block and the lengths of the buffers
    of the blocks before it as offsets, all modulo [2 ^ 64], and the
    compression type of the block. *)
Definition placed_at (columnBuffers : ColumnBuffers) (b : nat)
  (blockBuffers : ColumnBlockBuffers) (node : ColumnBlockSkipNode) : Prop :=
  existsBlockOffset node = u64 (len (exists_stream b columnBuffers))
  /\ existsLength node = u64 (len (buffer_bytes (existsBuffer blockBuffers)))
  /\ valueBlockOffset node = u64 (len (value_stream b columnBuffers))
  /\ valueLength node = u64 (len (buffer_bytes (valueBuffer blockBuffers)))
  /\ node_valueCompressionType node = valueCompressionType blockBuffers.

(** The value bytes of column [c] for [rows]: the serialized datums of the
    rows that have a value in the column, in row order. *)
Fixpoint serialize_column {host : Host} (attributeForm : FormData_pg_attribute)
  (c : nat) (rows : list Row) : result (list byte) :=
  match rows with
  | [] => Ok []
  | (columnValues, columnNulls) :: rows' =>
      do isNull <- load columnNulls (Z.of_nat c);
      do bytes <-
        (if (isNull : bool) then Ok []
         else
           do columnValue <- load columnValues (Z.of_nat c);
           SerializeSingleDatum [] columnValue (attbyval attributeForm)
             (attlen attributeForm) (attalign attributeForm));
      do rest <- serialize_column attributeForm c rows';
      Ok (bytes ++ rest)
  end.

(** Row [i] of [rows] has the null flag [isNull] in column [c]. *)
Definition null_at (rows : list Row) (i c : nat) (isNull : bool) : Prop :=
  exists columnValues columnNulls,
    rows !! i = Some (columnValues, columnNulls) /\ columnNulls !! c = Some isNull.

(** The rows of block [b] of a stripe with blocks of [R] rows. *)
Definition block_of (R : Z) (b : nat) (rows : list Row) : list Row :=
  take (Z.to_nat R) (drop (b * Z.to_nat R) rows).

(** The buffers [blockBuffers] hold the rows [rows] of a block in column
    [c]: the exists buffer has a flag for every row, set where the row has
    a value, and the value buffer has the value bytes of the column, as
    they are or as the codec compressed them. *)
Definition block_serialized {host : Host} {collab : Collaborators}
  (kind : CompressionType)
  (attributeForm : FormData_pg_attribute) (c : nat) (rows : list Row)
  (blockBuffers : ColumnBlockBuffers) : Prop :=
  exists packed values,
    existsBuffer blockBuffers = Some packed
    /\ len packed = (len rows + 7) / 8
    /\ (forall i, (i < length rows)%nat ->
          exists isNull,
            null_at rows i c isNull
            /\ flag_at packed (Z.of_nat i) = negb isNull)
    /\ serialize_column attributeForm c rows = Ok values
    /\ match CompressBuffer values kind with
       | Some compressed =>
           valueBuffer blockBuffers = Some compressed
           /\ valueCompressionType blockBuffers = COMPRESSION_PG_LZ
       | None =>
           valueBuffer blockBuffers = Some values
           /\ valueCompressionType blockBuffers = COMPRESSION_NONE
       end.

(** The open stripe of a write state holds [rows] in column [c]: the
    working block has the flags and the value bytes of the rows of the
    block that is being filled, and the blocks before it are serialized. *)
Definition column_staged {host : Host} {collab : Collaborators}
  (ws : TableWriteState)
  (rows : list Row) (c : nat) (attributeForm : FormData_pg_attribute) : Prop :=
  match stripeBuffers ws with
  | None => rows = []
  | Some buffers =>
      let R := u32 (blockRowCount (tableFooter ws)) in
      let b := Z.to_nat (len rows / R) in
      let current := drop (b * Z.to_nat R) rows in
      rowCount buffers = len rows
      /\ columnCount buffers = u32 (natts (tupleDescriptor ws))
      /\ exists blockData columnBuffers values,
           blockDataArray ws !! c = Some blockData
           /\ columnBuffersArray buffers !! c = Some columnBuffers
           /\ (forall i, (i < length current)%nat ->
                 exists isNull,
                   null_at current i c isNull
                   /\ existsArray blockData !! i = Some (negb isNull))
           /\ data_valueBuffer blockData = Some values
           /\ serialize_column attributeForm c current = Ok values
           /\ forall b', (b' < b)%nat ->
                exists blockBuffers,
                  blockBuffersArray columnBuffers !! b' = Some blockBuffers
                  /\ block_serialized (compressionType ws) attributeForm c
                       (block_of R b' rows) blockBuffers
  end.

(** A table whose second column has been dropped, and rows of it: a dropped
    column comes as a null. *)
Definition dropped_column : FormData_pg_attribute :=
  {| atttypid := INT4OID; attlen := 4; attbyval := true; attalign := "i";
     attcollation := 0; attisdropped := true |}.

Definition altered_table : TupleDesc :=
  {| natts := 2; attrs := [int4_column; dropped_column] |}.

Definition altered_rows (values : list Z) : list Row :=
  map (fun value => ([ByValue value; ByValue 0], [false; true])) values.

(** ** Runs without undefined behaviour *)

(** The computation returns a result that satisfies [P], or it stops with
    an error that the host reports: it does not read or write outside an
    array, follow a null pointer, divide by zero, trip an assertion or run
    out of fuel. *)
Definition safe {A : Type} (P : A -> Prop) (m : result A) : Prop :=
  match m with
  | Ok a => P a
  | Err e => e = HostError
  end.

(** The first [n] elements of the array are there and satisfy [P]. *)
Definition all_below {A : Type} (n : nat) (P : A -> Prop) (l : list A) : Prop :=
  forall i, (i < n)%nat -> exists x, l !! i = Some x /\ P x.

(** An alignment of the type system: [char], [short], [int] or
    [double]. *)
Definition align_ok (align : ascii) : Prop :=
  align = "c"%char \/ align = "s"%char \/ align = "i"%char \/ align = "d"%char.

(** A datum as the type of its column has it. The type has one of the
    alignments of the type system. The datum is a word for a type that is
    passed by value, which has a length; else a pointer to an object that
    holds the bytes of its extent, where the extent is what
    [att_addlength_datum] finds (the length of the type, if that is fixed,
    else what the header of the object or its terminating NUL says) and
    the host can allocate as many bytes. *)
Definition datum_fits {host : Host} (attribute : FormData_pg_attribute)
  (datum : Datum) : Prop :=
  align_ok (attalign attribute)
  /\ match datum with
     | ByValue _ => attbyval attribute = true /\ 0 < attlen attribute
     | ByReference object =>
         attbyval attribute = false
         /\ exists extent,
              att_addlength_datum (attlen attribute) datum = Ok extent
              /\ extent <= len object /\ extent <= MaxAllocSize
     end.

(** A row of the table: a null flag for every column, and for a column
    that is not null a value of its type. *)
Definition row_fits {host : Host} (tupleDescriptor : TupleDesc) (row : Row)
  : Prop :=
  forall (c : nat) attribute,
    (c < Z.to_nat (u32 (natts tupleDescriptor)))%nat ->
    attrs tupleDescriptor !! c = Some attribute ->
    exists isNull,
      snd row !! c = Some isNull
      /\ (isNull = false ->
          exists value, fst row !! c = Some value /\ datum_fits attribute value).

(** A block whose two buffers have been serialized. *)
Definition block_ready (blockBuffers : ColumnBlockBuffers) : Prop :=
  is_Some (existsBuffer blockBuffers) /\ is_Some (valueBuffer blockBuffers).

(** The buffers of a column: room for [B] blocks, the first [k] of them
    serialized. *)
Definition column_shaped (B k : nat) (columnBuffers : ColumnBuffers) : Prop :=
  (B <= length (blockBuffersArray columnBuffers))%nat
  /\ all_below k block_ready (blockBuffersArray columnBuffers).

(** The arrays of a write state whose stripe holds [n] rows: the tables of
    the session have an entry for every column, the working blocks have
    room for the rows of a block, and an open stripe has the buffers and
    the skip nodes of the blocks a stripe can have, with the blocks that
    are complete serialized. *)
Definition shaped (ws : TableWriteState) (n : Z) : Prop :=
  let C := Z.to_nat (u32 (natts (tupleDescriptor ws))) in
  let R := u32 (blockRowCount (tableFooter ws)) in
  let B := Z.to_nat (u32 (stripeMaxRowCount ws) / R + 1) in
  (C <= length (attrs (tupleDescriptor ws)))%nat
  /\ (C <= length (comparisonFunctionArray ws))%nat
  /\ 1 <= R /\ R + 7 < 2 ^ 32
  /\ 0 <= stripeMaxRowCount ws < 2 ^ 32 - 1
  /\ 0 <= n <= Z.max 1 (stripeMaxRowCount ws)
  /\ all_below C (fun blockData => R <= len (existsArray blockData))
       (blockDataArray ws)
  /\ match stripeBuffers ws with
     | None => n = 0
     | Some buffers =>
         exists skipList,
           stripeSkipList ws = Some skipList
           /\ rowCount buffers = n
           /\ columnCount buffers = u32 (natts (tupleDescriptor ws))
           /\ skip_columnCount skipList = u32 (natts (tupleDescriptor ws))
           /\ (0 < n -> blockCount skipList = (n - 1) / R + 1)
           /\ all_below C
                (fun blockData => is_Some (data_valueBuffer blockData))
                (blockDataArray ws)
           /\ all_below C (column_shaped B (Z.to_nat (n / R)))
                (columnBuffersArray buffers)
           /\ all_below C (fun nodes => (B <= length nodes)%nat)
                (blockSkipNodeArray skipList)
     end.

(** ** Packed data forks *)

Section PackedForks.
Context {host : Host}.

(** A page that is full up to the end of the block. *)
Definition filled (p : Page) : Prop := pd_lower p = BLCKSZ.

(** A data fork as [WriteToFile] leaves it: every page is initialized
    without special space, and every page but the last is full. *)
Definition dense (fork : list Page) : Prop :=
  Forall (fun p => pd_upper p = BLCKSZ) fork
  /\ forall (b : nat) p,
       fork !! b = Some p -> (S b < length fork)%nat -> filled p.

(** The writer stands at the end of a dense fork: on its last page, or
    beyond it when every page is full. *)
Definition packed (fork : list Page) (activeBlockNumber : Z) : Prop :=
  dense fork /\ at_end fork activeBlockNumber
  /\ (len fork <= activeBlockNumber -> Forall filled fork).

(** The fork in the loop of [WriteToFile] that was entered on a packed
    fork [fork0]: the fork stays dense, the loop is on its last page or
    beyond it, and goes beyond it only when every page is full. *)
Definition pack_invariant (fork0 : list Page) (dataLength : Z) (st : DataWrite)
  : Prop :=
  dense (dw_fork st)
  /\ len (dw_fork st) <= dw_blockNumber st + 1
  /\ (len fork0 <= dw_blockNumber st -> len (dw_fork st) <= dw_blockNumber st)
  /\ (len (dw_fork st) <= dw_blockNumber st -> dw_dataOffset st < dataLength ->
      Forall filled (dw_fork st)).
End PackedForks.

(** A write state from which a session can be resumed: the data fork is
    packed, the file offset is the number of bytes on it, and the footer is
    in order and accounts for the offset. *)
Definition resumable {host : Host} (ws : TableWriteState) : Prop :=
  packed (dataFork (relation ws)) (activeBlockNumber ws)
  /\ currentFileOffset ws = len (fork_bytes (dataFork (relation ws)))
  /\ footer_ok (tableFooter ws)
  /\ (stripeMetadataList (tableFooter ws) = [] -> currentFileOffset ws = 0).

(** The footer of a new table after a session of five rows in stripes of
    four rows and blocks of two, and a codec whose reader finds a footer
    once the footer fork has pages. *)
Definition session_footer : TableFooter :=
  Eval vm_compute in
    match
      (do ws0 <- fresh_writer 4 2;
       do ws <- @WriteRows small_pages (plain_codec None 0) ws0
                  (int4_rows [10; 20; 30; 40; 50]);
       @CStoreEndWrite small_pages (plain_codec None 0) ws)
    with
    | Ok ws' => tableFooter ws'
    | Err _ => empty_footer 2
    end.

Definition reading_codec (footer : TableFooter) : Collaborators :=
  {| SerializeTableFooter := @SerializeTableFooter (plain_codec None 0);
     SerializePostScript := @SerializePostScript (plain_codec None 0);
     SerializeTableFooterMetadata :=
       @SerializeTableFooterMetadata (plain_codec None 0);
     DeserializeTableFooterMetadata :=
       @DeserializeTableFooterMetadata (plain_codec None 0);
     SerializeColumnSkipList := @SerializeColumnSkipList (plain_codec None 0);
     SerializeStripeFooter := @SerializeStripeFooter (plain_codec None 0);
     CStoreReadFooter := fun relation =>
       match footerFork relation with
       | [] => None
       | _ :: _ => Some footer
       end;
     CompressBuffer := @CompressBuffer (plain_codec None 0);
     GetFunctionInfoOrNull := @GetFunctionInfoOrNull (plain_codec None 0) |}.

(** A table with an [int4] column and a [text] column, and rows of it: a
    text with a one-byte header, a null, a text with a four-byte header,
    an empty text and another text with a one-byte header. *)
Definition TEXTOID : Z := 25.

Definition text_column : FormData_pg_attribute :=
  {| atttypid := TEXTOID; attlen := -1; attbyval := false; attalign := "i";
     attcollation := 100; attisdropped := false |}.

Definition mixed_table : TupleDesc :=
  {| natts := 2; attrs := [int4_column; text_column] |}.

Definition mixed_rows : list Row :=
  [ ([ByValue 10; ByReference [x07; x61; x62]], [false; false]);
    ([ByValue 20; ByValue 0], [false; true]);
    ([ByValue 30; ByReference [x14; x00; x00; x00; x63]], [false; false]);
    ([ByValue 40; ByReference [x03]], [false; false]);
    ([ByValue 50; ByReference [x07; x64; x65]], [false; false]) ].

(** * Properties *)

(** ** Machine integers and bytes *)

Lemma u8_small z : 0 <= z < 2 ^ 8 -> u8 z = z.
Proof. intros Hz. unfold u8. apply Z.mod_small. exact Hz. Qed.

Lemma u16_small z : 0 <= z < 2 ^ 16 -> u16 z = z.
Proof. intros Hz. unfold u16. apply Z.mod_small. exact Hz. Qed.

Lemma u32_small z : 0 <= z < 2 ^ 32 -> u32 z = z.
Proof. intros Hz. unfold u32. apply Z.mod_small. exact Hz. Qed.

Lemma u64_small z : 0 <= z < 2 ^ 64 -> u64 z = z.
Proof. intros Hz. unfold u64. apply Z.mod_small. exact Hz. Qed.

Lemma i32_small z : 0 <= z < 2 ^ 31 -> i32 z = z.
Proof.
  intros Hz. unfold i32. rewrite Z.mod_small by lia.
  destruct (Z.ltb_spec z (2 ^ 31)); lia.
Qed.

Lemma u32_range z : 0 <= u32 z < 2 ^ 32.
Proof. unfold u32. apply Z.mod_pos_bound. lia. Qed.

Lemma u64_range z : 0 <= u64 z < 2 ^ 64.
Proof. unfold u64. apply Z.mod_pos_bound. lia. Qed.

Lemma len_nonneg {A} (l : list A) : 0 <= len l.
Proof. unfold len. lia. Qed.

Lemma len_app {A} (l k : list A) : len (l ++ k) = len l + len k.
Proof. unfold len. rewrite length_app. lia. Qed.

Lemma len_insert {A} (l : list A) i x : len (<[i:=x]> l) = len l.
Proof. unfold len. now rewrite length_insert. Qed.

Lemma Z_of_byte_of_Z z : Z_of_byte (byte_of_Z z) = u8 z.
Proof.
  unfold Z_of_byte, byte_of_Z.
  assert (Hr : 0 <= u8 z < 2 ^ 8) by (unfold u8; apply Z.mod_pos_bound; lia).
  destruct (Byte.of_N (Z.to_N (u8 z))) as [b|] eqn:Hb.
  - apply Byte.to_of_N in Hb. rewrite Hb. lia.
  - apply Byte.of_N_None_iff in Hb. lia.
Qed.

Lemma length_le_bytes n z : length (le_bytes n z) = n.
Proof. revert z. induction n as [|n IH]; intros z; simpl; [reflexivity|]. now rewrite IH. Qed.

Lemma le_value_le_bytes n z :
  le_value (le_bytes n z) = z mod 2 ^ (8 * Z.of_nat n).
Proof.
  revert z. induction n as [|n IH]; intros z.
  - simpl. now rewrite Z.mod_1_r.
  - cbn [le_bytes le_value]. rewrite IH, Z_of_byte_of_Z. unfold u8.
    rewrite Z.shiftr_div_pow2 by lia.
    replace (8 * Z.of_nat (S n)) with (8 + 8 * Z.of_nat n) by lia.
    rewrite Z.pow_add_r by lia.
    rewrite (Z.rem_mul_r z (2 ^ 8) (2 ^ (8 * Z.of_nat n))) by lia.
    reflexivity.
Qed.

Lemma int32_of_int32_bytes z rest :
  0 <= z < 2 ^ 31 -> int32_of_bytes (int32_bytes z ++ rest) = z.
Proof.
  intros Hz. unfold int32_of_bytes, int32_bytes.
  rewrite take_app_length' by (symmetry; apply length_le_bytes).
  rewrite le_value_le_bytes. change (2 ^ (8 * Z.of_nat 4)) with (2 ^ 32).
  rewrite Z.mod_small by lia. now apply i32_small.
Qed.

(** ** The result monad and its loops *)

Lemma bind_Ok {A B} (m : result A) (k : A -> result B) b :
  bind m k = Ok b -> exists a, m = Ok a /\ k a = Ok b.
Proof. destruct m as [a|e]; simpl; [eauto|discriminate]. Qed.

Tactic Notation "inv_bind" hyp(H) :=
  let a := fresh "x" in
  let Ha := fresh "Hx" in
  apply bind_Ok in H; destruct H as (a & Ha & H).

Tactic Notation "inv_bind" hyp(H) "as" simple_intropattern(a) ident(Ha) :=
  apply bind_Ok in H; destruct H as (a & Ha & H).

Lemma for_loop_from_snoc {S} n i (body : nat -> S -> result S) s :
  for_loop_from (Datatypes.S n) i body s =
  bind (for_loop_from n i body s) (body (i + n)%nat).
Proof.
  revert i s. induction n as [|n IH]; intros i s.
  - simpl. rewrite Nat.add_0_r. now destruct (body i s).
  - specialize (IH (Datatypes.S i)). cbn [for_loop_from] in *.
    destruct (body i s) as [t|e]; [|reflexivity].
    cbn [bind]. rewrite IH.
    now replace (Datatypes.S i + n)%nat with (i + Datatypes.S n)%nat by lia.
Qed.

Lemma for_loop_snoc {S} n (body : nat -> S -> result S) s :
  for_loop (Datatypes.S n) body s = bind (for_loop n body s) (body n).
Proof. unfold for_loop. now rewrite for_loop_from_snoc. Qed.

(** The loop rule: an invariant indexed by the number of iterations done. *)
Lemma for_loop_invariant {S} (I : nat -> S -> Prop) n
  (body : nat -> S -> result S) s s' :
  I 0%nat s ->
  (forall i t t', (i < n)%nat -> I i t -> body i t = Ok t' -> I (Datatypes.S i) t') ->
  for_loop n body s = Ok s' -> I n s'.
Proof.
  intros H0 Hstep. revert s'. induction n as [|n IH]; intros s' Hrun.
  - unfold for_loop in Hrun. simpl in Hrun. now inversion Hrun; subst.
  - rewrite for_loop_snoc in Hrun. inv_bind Hrun.
    apply (Hstep n x s'); [lia| |exact Hrun].
    apply IH; [|exact Hx]. intros i t t' Hi. apply Hstep. lia.
Qed.

(** The loop rule for loops that cannot fail under their invariant. *)
Lemma for_loop_total {S} (I : nat -> S -> Prop) n
  (body : nat -> S -> result S) s :
  I 0%nat s ->
  (forall i t, (i < n)%nat -> I i t ->
     exists t', body i t = Ok t' /\ I (Datatypes.S i) t') ->
  exists s', for_loop n body s = Ok s' /\ I n s'.
Proof.
  intros H0 Hstep. induction n as [|n IH].
  - exists s. split; [reflexivity|exact H0].
  - destruct IH as (t & Ht & HI); [intros i u Hi; apply Hstep; lia|].
    destruct (Hstep n t) as (t' & Hb & HI'); [lia|exact HI|].
    exists t'. split; [|exact HI'].
    rewrite for_loop_snoc, Ht. exact Hb.
Qed.

(** A loop cut short is a prefix of the whole loop. *)
Lemma for_loop_prefix {S} n k (body : nat -> S -> result S) s s' :
  (k <= n)%nat -> for_loop n body s = Ok s' ->
  exists t, for_loop k body s = Ok t.
Proof.
  intros Hk. revert s'. induction n as [|n IH]; intros s' Hrun.
  - assert (k = 0%nat) by lia. subst. eauto.
  - destruct (Nat.eq_dec k (Datatypes.S n)) as [->|Hne]; [eauto|].
    rewrite for_loop_snoc in Hrun. inv_bind Hrun.
    apply (IH ltac:(lia) x Hx).
Qed.

(** ** The footer manager *)

Section FooterProperties.
Context {host : Host} {collab : Collaborators}.

Lemma enlargeStringInfo_Ok str needed :
  enlargeStringInfo str needed = Ok tt ->
  0 <= needed /\ len str + needed < MaxAllocSize.
Proof.
  unfold enlargeStringInfo.
  destruct (Z.ltb_spec needed 0); [discriminate|].
  destruct (Z.leb_spec (MaxAllocSize - len str) needed); [discriminate|].
  intros _. lia.
Qed.

Lemma appendBinaryStringInfo_Ok str data out :
  appendBinaryStringInfo str data = Ok out ->
  out = str ++ data /\ len out < MaxAllocSize.
Proof.
  unfold appendBinaryStringInfo. intros H. inv_bind H.
  destruct x. apply enlargeStringInfo_Ok in Hx.
  inversion H; subst. rewrite len_app. split; [reflexivity|lia].
Qed.

Lemma byte_of_Z_u8 z : byte_of_Z (u8 z) = byte_of_Z z.
Proof.
  unfold byte_of_Z. replace (u8 (u8 z)) with (u8 z); [reflexivity|].
  unfold u8. symmetry. apply Z.mod_mod. lia.
Qed.

(** The stream of [LayOutFooter], before the patch. *)
Lemma LayOutFooter_Ok tableFooter wholeFooter :
  LayOutFooter tableFooter = Ok wholeFooter ->
  let footerBytes := SerializeTableFooter tableFooter in
  let postscript := SerializePostScript (len footerBytes) in
  wholeFooter =
    int32_bytes 0 ++ footerBytes ++ postscript ++ [byte_of_Z (len postscript)]
  /\ len wholeFooter < MaxAllocSize
  /\ (USE_ASSERT_CHECKING = true -> len postscript < CSTORE_POSTSCRIPT_SIZE_MAX).
Proof.
  unfold LayOutFooter. intros H.
  inv_bind H as w1 H1. apply appendBinaryStringInfo_Ok in H1 as [-> _].
  inv_bind H as w2 H2. apply appendBinaryStringInfo_Ok in H2 as [-> _].
  inv_bind H as w3 H3. apply appendBinaryStringInfo_Ok in H3 as [-> _].
  inv_bind H as u Hassert. apply appendBinaryStringInfo_Ok in H as [-> Hlen].
  cbn zeta. rewrite byte_of_Z_u8 in *.
  change (Z.to_nat CSTORE_POSTSCRIPT_SIZE_LENGTH) with 1%nat in *.
  cbn [take app] in *. rewrite <- !app_assoc in *.
  split; [reflexivity|split; [exact Hlen|]].
  intros Hon. unfold Assert in Hassert. rewrite Hon in Hassert.
  destruct (Z.ltb_spec (len (SerializePostScript (len (SerializeTableFooter tableFooter))))
              CSTORE_POSTSCRIPT_SIZE_MAX); [assumption|discriminate].
Qed.

Lemma PatchFooterLength_eq rest n :
  PatchFooterLength (int32_bytes 0 ++ rest) n = int32_bytes n ++ rest.
Proof. reflexivity. Qed.

(** What [PlanFooter] computes. *)
Lemma PlanFooter_Ok tableFooter fork plan :
  PlanFooter tableFooter fork = Ok plan ->
  exists wholeFooter headerPage,
    LayOutFooter tableFooter = Ok wholeFooter
    /\ fp_wholeFooter plan = PatchFooterLength wholeFooter (len wholeFooter)
    /\ fp_dataLength plan = len wholeFooter
    /\ fp_actualBlockCount plan =
         u32 (Z.quot (len wholeFooter - 1) CSTORE_PAGE_DATA_SIZE + 1)
    /\ fp_originalBlockCount plan = len fork
    /\ CSTORE_PAGE_DATA_SIZE <> 0
    /\ ReadBufferExtended fork (if 0 <? len fork then 0 else P_NEW)
         = Ok (fp_fork plan, fp_headerBuffer plan)
    /\ fp_fork plan !! Z.to_nat (fp_headerBuffer plan) = Some headerPage
    /\ fp_newStartingBlock plan =
         ChooseStartingBlock (len fork)
           (fst (DeserializeTableFooterMetadata (contents headerPage)
                   (u32 (pd_lower headerPage - SizeOfPageHeaderData))))
           (snd (DeserializeTableFooterMetadata (contents headerPage)
                   (u32 (pd_lower headerPage - SizeOfPageHeaderData))))
           (fp_actualBlockCount plan).
Proof.
  unfold PlanFooter. intros H.
  inv_bind H as wholeFooter Hlay. inv_bind H as u Hsize.
  destruct (Z.eqb_spec CSTORE_PAGE_DATA_SIZE 0) as [|Hnz]; [discriminate|].
  inv_bind H as [fork' headerBuffer] Hread.
  inv_bind H as headerPage Hpage. unfold BufferGetPage, of_option in Hpage.
  destruct (fork' !! Z.to_nat headerBuffer) as [page|] eqn:Hlook; [|discriminate].
  inversion Hpage; subst headerPage.
  destruct (DeserializeTableFooterMetadata (contents page)
              (u32 (pd_lower page - SizeOfPageHeaderData))) as [s c] eqn:Hd.
  inversion H; subst plan; cbn.
  exists wholeFooter, page. rewrite Hd. cbn. repeat split; auto.
Qed.
End FooterProperties.

Section FooterClaims.
Context {host : Host} {collab : Collaborators}.

Lemma ChooseStartingBlock_rule header originalBlockCount startingBlock
  blockCount actualBlockCount :
  header_seen header originalBlockCount startingBlock blockCount ->
  ChooseStartingBlock originalBlockCount startingBlock blockCount
    actualBlockCount = spec_starting_block header actualBlockCount.
Proof.
  unfold ChooseStartingBlock, spec_starting_block, header_seen.
  destruct header as [| |s c].
  - intros ->. reflexivity.
  - intros [Hpos ->]. destruct (Z.eqb_spec originalBlockCount 0); [lia|reflexivity].
  - intros (Hpos & -> & -> & Hs & Hc & Hsum).
    destruct (Z.eqb_spec originalBlockCount 0); [lia|].
    destruct (s =? 0); [reflexivity|].
    destruct (actualBlockCount <? s); [reflexivity|].
    apply u32_small. lia.
Qed.

Lemma spec_starting_block_disjoint s c actualBlockCount block :
  1 <= s -> 0 <= c ->
  in_range (spec_starting_block (Parsed s c) actualBlockCount)
    actualBlockCount block ->
  ~ in_range s c block.
Proof.
  unfold spec_starting_block, in_range. intros Hs Hc.
  destruct (Z.eqb_spec s 0); [lia|].
  destruct (Z.ltb_spec actualBlockCount s); lia.
Qed.

(** The header the code reads when the fork is not empty. *)
Lemma PlanFooter_header tableFooter fork plan headerPage :
  PlanFooter tableFooter fork = Ok plan ->
  fork !! 0%nat = Some headerPage ->
  fp_fork plan = fork /\ fp_headerBuffer plan = 0
  /\ fp_newStartingBlock plan =
       ChooseStartingBlock (len fork)
         (fst (DeserializeTableFooterMetadata (contents headerPage)
                 (u32 (pd_lower headerPage - SizeOfPageHeaderData))))
         (snd (DeserializeTableFooterMetadata (contents headerPage)
                 (u32 (pd_lower headerPage - SizeOfPageHeaderData))))
         (fp_actualBlockCount plan).
Proof.
  intros Hplan Hhead.
  destruct (PlanFooter_Ok _ _ _ Hplan)
    as (whole & page & _ & _ & _ & _ & _ & _ & Hread & Hpage & Hnew).
  assert (Hpos : 0 < len fork).
  { destruct fork; [discriminate|unfold len; simpl; lia]. }
  destruct (Z.ltb_spec 0 (len fork)); [|lia].
  unfold ReadBufferExtended in Hread. change (0 =? P_NEW) with false in Hread.
  change (Z.to_nat 0) with 0%nat in Hread. rewrite Hhead in Hread.
  inversion Hread as [[Hf Hb]]. rewrite <- Hf, <- Hb in Hpage.
  change (Z.to_nat 0) with 0%nat in Hpage.
  assert (page = headerPage) by congruence. subst page.
  rewrite <- Hf in *. auto.
Qed.

(** C5. [CStoreWriteFooter] chooses the starting block of the new footer by
    the four-case rule of the specification: block 1 on an empty fork,
    block 1 when the header does not parse or gives starting block 0,
    block 1 when the new block count is below the current starting block,
    else the block after the current range; and the chosen range of
    [actualBlockCount] blocks is disjoint from the current range of a
    header that has one. *)
Theorem starting_block_follows_rule tableFooter fork plan header
  startingBlock blockCount :
  PlanFooter tableFooter fork = Ok plan ->
  (forall headerPage, fork !! 0%nat = Some headerPage ->
     DeserializeTableFooterMetadata (contents headerPage)
       (u32 (pd_lower headerPage - SizeOfPageHeaderData))
     = (startingBlock, blockCount)) ->
  header_seen header (len fork) startingBlock blockCount ->
  fp_newStartingBlock plan =
    spec_starting_block header (fp_actualBlockCount plan)
  /\ (forall s c block,
        header = Parsed s c -> 1 <= s ->
        in_range (fp_newStartingBlock plan) (fp_actualBlockCount plan) block ->
        ~ in_range s c block).
Proof.
  intros Hplan Hparse Hseen.
  assert (Hrule : fp_newStartingBlock plan =
                  spec_starting_block header (fp_actualBlockCount plan)).
  { destruct (fork !! 0%nat) as [headerPage|] eqn:Hhead.
    - destruct (PlanFooter_header _ _ _ _ Hplan Hhead) as (_ & _ & ->).
      rewrite (Hparse _ eq_refl). cbn [fst snd].
      now apply ChooseStartingBlock_rule.
    - destruct (PlanFooter_Ok _ _ _ Hplan)
        as (whole & page & _ & _ & _ & _ & _ & _ & _ & _ & ->).
      assert (Hempty : len fork = 0) by (destruct fork; [reflexivity|discriminate]).
      rewrite Hempty in *. cbn [ChooseStartingBlock Z.eqb].
      destruct header as [| |s c]; cbn in Hseen; [reflexivity|lia|lia]. }
  split; [exact Hrule|].
  intros s c block -> Hs Hin. rewrite Hrule in Hin.
  cbn in Hseen. eapply spec_starting_block_disjoint; [exact Hs|lia|exact Hin].
Qed.

(** C6. The footer stream that [CStoreWriteFooter] lays out is the [int32]
    length, the serialized table footer, the serialized postscript and one
    byte with the postscript's length; the leading [int32] is the length
    of the whole stream, itself included, and the last byte is the length
    of the postscript (which stays below 256). *)
Theorem footer_stream_layout tableFooter fork plan :
  PlanFooter tableFooter fork = Ok plan ->
  len (SerializePostScript (len (SerializeTableFooter tableFooter)))
    < CSTORE_POSTSCRIPT_SIZE_MAX ->
  let footerBytes := SerializeTableFooter tableFooter in
  let postscript := SerializePostScript (len footerBytes) in
  let stream := fp_wholeFooter plan in
  stream =
    int32_bytes (len stream) ++ footerBytes ++ postscript
      ++ [byte_of_Z (len postscript)]
  /\ fp_dataLength plan = len stream
  /\ int32_of_bytes stream = len stream
  /\ exists final, last stream = Some final /\ Z_of_byte final = len postscript.
Proof.
  intros Hplan Hsmall footerBytes postscript stream.
  destruct (PlanFooter_Ok _ _ _ Hplan)
    as (whole & page & Hlay & Hstream & Hlen & _).
  destruct (LayOutFooter_Ok _ _ Hlay) as (Hwhole & Hmax & _).
  fold footerBytes in Hwhole. fold postscript in Hwhole.
  assert (Hsame : len stream = len whole).
  { subst stream. rewrite Hstream, Hwhole, PatchFooterLength_eq.
    rewrite !len_app. unfold len, int32_bytes. now rewrite !length_le_bytes. }
  assert (Hshape : stream = int32_bytes (len stream) ++ footerBytes
                     ++ postscript ++ [byte_of_Z (len postscript)]).
  { rewrite Hsame. subst stream. rewrite Hstream. rewrite Hwhole at 1.
    apply PatchFooterLength_eq. }
  split; [exact Hshape|]. split; [congruence|]. split.
  - rewrite Hshape at 1. apply int32_of_int32_bytes.
    pose proof (len_nonneg stream). unfold MaxAllocSize in Hmax. lia.
  - exists (byte_of_Z (len postscript)). split.
    + rewrite Hshape. rewrite !app_assoc. apply last_snoc.
    + rewrite Z_of_byte_of_Z. apply u8_small.
      pose proof (len_nonneg postscript).
      unfold CSTORE_POSTSCRIPT_SIZE_MAX in Hsmall. fold footerBytes postscript in Hsmall. lia.
Qed.
End FooterClaims.

Lemma starting_block_follows_rule_witness :
  match @PlanFooter small_pages (plain_codec None 0) (empty_footer 4)
          footer_fork_once with
  | Ok plan => fp_newStartingBlock plan = 2
  | Err _ => False
  end.
Proof.
  destruct (@PlanFooter small_pages (plain_codec None 0) (empty_footer 4)
              footer_fork_once) as [plan|e] eqn:Hplan;
    [|vm_compute in Hplan; discriminate].
  destruct (@starting_block_follows_rule small_pages (plain_codec None 0)
              (empty_footer 4) footer_fork_once plan (Parsed 1 1) 1 1 Hplan)
    as [Hrule _].
  - intros headerPage Hpage. vm_compute in Hpage. inversion Hpage. vm_compute. reflexivity.
  - cbn. repeat split; vm_compute; congruence.
  - rewrite Hrule. vm_compute in Hplan. inversion Hplan. vm_compute. reflexivity.
Defined.

Lemma footer_stream_layout_witness :
  match @PlanFooter small_pages (plain_codec None 0) (empty_footer 4) [] with
  | Ok plan => int32_of_bytes (fp_wholeFooter plan) = 11
  | Err _ => False
  end.
Proof.
  destruct (@PlanFooter small_pages (plain_codec None 0) (empty_footer 4) [])
    as [plan|e] eqn:Hplan; [|vm_compute in Hplan; discriminate].
  destruct (@footer_stream_layout small_pages (plain_codec None 0)
              (empty_footer 4) [] plan Hplan) as (_ & _ & -> & _).
  - vm_compute. reflexivity.
  - vm_compute in Hplan. inversion Hplan. vm_compute. reflexivity.
Defined.


Section PostscriptOverflow.
Context {host : Host} {collab : Collaborators}.

Lemma LayOutFooter_trap tableFooter :
  USE_ASSERT_CHECKING = true ->
  CSTORE_POSTSCRIPT_SIZE_MAX
    <= len (SerializePostScript (len (SerializeTableFooter tableFooter))) ->
  LayOutFooter tableFooter = Err AssertTrap
  \/ LayOutFooter tableFooter = Err HostError.
Proof.
  intros Hon Hwide. unfold LayOutFooter.
  destruct (appendBinaryStringInfo [] (int32_bytes 0)) as [w1|e1] eqn:H1.
  2:{ right. unfold appendBinaryStringInfo, enlargeStringInfo in H1.
      destruct (_ <? 0); [inversion H1; reflexivity|].
      destruct (_ <=? _); [inversion H1; reflexivity|discriminate]. }
  cbn [bind].
  destruct (appendBinaryStringInfo w1 _) as [w2|e2] eqn:H2.
  2:{ right. unfold appendBinaryStringInfo, enlargeStringInfo in H2.
      destruct (_ <? 0); [inversion H2; reflexivity|].
      destruct (_ <=? _); [inversion H2; reflexivity|discriminate]. }
  cbn [bind].
  destruct (appendBinaryStringInfo w2 _) as [w3|e3] eqn:H3.
  2:{ right. unfold appendBinaryStringInfo, enlargeStringInfo in H3.
      destruct (_ <? 0); [inversion H3; reflexivity|].
      destruct (_ <=? _); [inversion H3; reflexivity|discriminate]. }
  cbn [bind]. left. unfold Assert. rewrite Hon.
  destruct (Z.ltb_spec (len (SerializePostScript (len (SerializeTableFooter tableFooter))))
              CSTORE_POSTSCRIPT_SIZE_MAX); [lia|reflexivity].
Qed.

(** C8, as the code has it. With a postscript of 256 bytes or more, a build
    with assertion checking stops [CStoreWriteFooter] at its [Assert] (or at
    the host's refusal to grow the footer buffer) before any page is
    touched; a build without assertion checking raises nothing there: when
    the footer is laid out, its last byte is the postscript's length
    modulo 256. *)
Theorem postscript_overflow_only_asserted tableFooter fork loggingEnabled :
  CSTORE_POSTSCRIPT_SIZE_MAX
    <= len (SerializePostScript (len (SerializeTableFooter tableFooter))) ->
  (USE_ASSERT_CHECKING = true ->
     CStoreWriteFooter tableFooter fork loggingEnabled = Err AssertTrap
     \/ CStoreWriteFooter tableFooter fork loggingEnabled = Err HostError)
  /\ (USE_ASSERT_CHECKING = false ->
      forall wholeFooter,
        LayOutFooter tableFooter = Ok wholeFooter ->
        exists final,
          last wholeFooter = Some final
          /\ Z_of_byte final =
               len (SerializePostScript (len (SerializeTableFooter tableFooter)))
                 mod 256).
Proof.
  intros Hwide. split.
  - intros Hon. unfold CStoreWriteFooter, PlanFooter.
    destruct (LayOutFooter_trap tableFooter Hon Hwide) as [-> | ->]; auto.
  - intros _ wholeFooter Hlay.
    destruct (LayOutFooter_Ok _ _ Hlay) as (-> & _ & _).
    eexists. split.
    + rewrite !app_assoc. apply last_snoc.
    + rewrite Z_of_byte_of_Z. reflexivity.
Qed.
End PostscriptOverflow.

(** C8, as the specification has it, fails: in a build without assertion
    checking a postscript of 256 bytes is written out, no error is raised,
    and the size byte at the end of the footer pages is 0. *)
Lemma postscript_overflow_not_reported :
  let collab := plain_codec None 254 in
  CSTORE_POSTSCRIPT_SIZE_MAX
    <= len (SerializePostScript (len (SerializeTableFooter (empty_footer 4))))
  /\ exists written,
       @CStoreWriteFooter small_pages_release collab (empty_footer 4) [] false
         = Ok written
       /\ last (@fork_bytes small_pages_release (drop 1 (fw_fork written)))
            = Some x00.
Proof.
  split; [vm_compute; discriminate|].
  eexists. split; vm_compute; reflexivity.
Qed.

Lemma postscript_overflow_only_asserted_witness :
  let collab := plain_codec None 254 in
  @CStoreWriteFooter small_pages collab (empty_footer 4) [] false = Err AssertTrap
  \/ @CStoreWriteFooter small_pages collab (empty_footer 4) [] false = Err HostError.
Proof.
  intros collab.
  apply (@postscript_overflow_only_asserted small_pages collab
           (empty_footer 4) [] false).
  - vm_compute. discriminate.
  - reflexivity.
Defined.


Section FooterPingPong.
Context {host : Host} {collab : Collaborators}.

Lemma WriteFooterPage_invariant fork s c first actual wholeFooter dataLength
  loggingEnabled i st st' :
  1 <= first -> first <= len fork -> len fork <= P_NEW ->
  1 <= s -> s + c <= len fork ->
  (forall b, in_range first actual b -> ~ in_range s c b) ->
  (Z.of_nat i < actual) ->
  pages_invariant fork s c first i st ->
  WriteFooterPage wholeFooter dataLength (len fork) first loggingEnabled
    (Z.of_nat i) st = Ok st' ->
  pages_invariant fork s c first (S i) st'.
Proof.
  intros Hfirst Hfit Hmax Hs Hsc Hdisj Hi (Hlen & Hbound & Hkeep & Htrace) Hstep.
  unfold WriteFooterPage in Hstep.
  rewrite (u32_small (Z.of_nat i + first)) in Hstep
    by (unfold P_NEW, InvalidBlockNumber in Hbound; lia).
  assert (Hout : ~ in_range s c (first + Z.of_nat i)).
  { apply Hdisj. unfold in_range. lia. }
  unfold in_range in Hout.
  inv_bind Hstep as [fork' buffer] Hread. inv_bind Hstep as page Hpage.
  inv_bind Hstep as inside Hinside.
  inversion Hstep; subst st'; clear Hstep.
  unfold pages_invariant; cbn [fw_fork fw_trace]. rewrite len_insert.
  assert (Hbuf : buffer = first + Z.of_nat i /\
                 len fork' = Z.max (len fork) (first + Z.of_nat (S i)) /\
                 first + Z.of_nat (S i) <= P_NEW /\
                 forall b : nat, Z.of_nat b < len fork -> fork' !! b = fw_fork st !! b).
  { unfold ReadBufferExtended in Hread.
    destruct (Z.leb_spec (len fork) (Z.of_nat i + first)) as [Hnew|Hold].
    - rewrite Z.eqb_refl in Hread.
      destruct (Z.ltb_spec (len (fw_fork st)) P_NEW) as [Hroom|]; [|discriminate].
      inversion Hread; subst fork' buffer.
      rewrite len_app. change (len [zero_page]) with 1.
      repeat split; try lia.
      intros b Hb. apply lookup_app_l. unfold len in *. lia.
    - destruct (Z.eqb_spec (Z.of_nat i + first) P_NEW) as [|_]; [lia|].
      destruct (fw_fork st !! Z.to_nat (Z.of_nat i + first)); [|discriminate].
      inversion Hread; subst fork' buffer. repeat split; try lia. }
  destruct Hbuf as (-> & Hlen' & Hbound' & Hsame).
  split; [exact Hlen'|]. split; [exact Hbound'|]. split.
  - intros b Hb. rewrite list_lookup_insert_ne.
    + rewrite Hsame; [apply Hkeep; exact Hb|].
      destruct Hb as [->|Hb]; [|unfold in_range in Hb]; lia.
    + destruct Hb as [->|Hb]; [|unfold in_range in Hb]; lia.
  - intros b Hb. apply in_app_or in Hb. destruct Hb as [Hb|Hb].
    + apply Htrace in Hb. lia.
    + destruct Hb as [Hb|Hb]; [inversion Hb; lia|].
      destruct loggingEnabled; [|contradiction].
      destruct Hb as [Hb|[]]. discriminate.
Qed.

Lemma RunFooterPages_invariant (plan : FooterPlan) fork s c loggingEnabled k st :
  fp_fork plan = fork -> fp_originalBlockCount plan = len fork ->
  1 <= fp_newStartingBlock plan -> fp_newStartingBlock plan <= len fork ->
  len fork <= P_NEW -> 1 <= s -> s + c <= len fork ->
  (forall b, in_range (fp_newStartingBlock plan) (fp_actualBlockCount plan) b ->
             ~ in_range s c b) ->
  Z.of_nat k <= fp_actualBlockCount plan ->
  RunFooterPages plan loggingEnabled k = Ok st ->
  pages_invariant fork s c (fp_newStartingBlock plan) k st.
Proof.
  intros Hfork Horig Hfirst Hfit Hmax Hs Hsc Hdisj Hk Hrun.
  unfold RunFooterPages in Hrun.
  eapply (for_loop_invariant (pages_invariant fork s c (fp_newStartingBlock plan)));
    [| |exact Hrun].
  - unfold pages_invariant; cbn. rewrite Hfork.
    repeat split; try lia; contradiction.
  - intros i t t' Hi Hinv Hstep. rewrite Horig in Hstep.
    eapply WriteFooterPage_invariant; eauto. lia.
Qed.

(** C4. While a valid footer occupies the blocks
    [startingBlock, startingBlock + blockCount) of the footer fork, every
    prefix of the page loop of [CStoreWriteFooter] leaves those blocks and
    the header page as they were and writes none of them; the header page
    is rewritten (and logged) after all the pages of the new footer, as the
    last write of the call, and it does not touch the old footer either. *)
Theorem header_rewritten_last tableFooter fork plan headerPage startingBlock
  blockCount loggingEnabled :
  PlanFooter tableFooter fork = Ok plan ->
  fork !! 0%nat = Some headerPage ->
  DeserializeTableFooterMetadata (contents headerPage)
    (u32 (pd_lower headerPage - SizeOfPageHeaderData))
    = (startingBlock, blockCount) ->
  1 <= startingBlock -> 0 <= blockCount ->
  startingBlock + blockCount <= len fork -> len fork <= P_NEW ->
  (forall k st,
     Z.of_nat k <= fp_actualBlockCount plan ->
     RunFooterPages plan loggingEnabled k = Ok st ->
     (forall b : nat,
        b = 0%nat \/ in_range startingBlock blockCount (Z.of_nat b) ->
        fw_fork st !! b = fork !! b)
     /\ (forall b, In (PageWritten b) (fw_trace st) ->
           b <> 0 /\ ~ in_range startingBlock blockCount b))
  /\ (forall written,
        CStoreWriteFooter tableFooter fork loggingEnabled = Ok written ->
        exists st,
          RunFooterPages plan loggingEnabled
            (Z.to_nat (fp_actualBlockCount plan)) = Ok st
          /\ fw_trace written = fw_trace st ++ [PageWritten 0; PageLogged 0]
          /\ (forall b : nat,
                in_range startingBlock blockCount (Z.of_nat b) ->
                fw_fork written !! b = fork !! b)).
Proof.
  intros Hplan Hhead Hparse Hs Hc Hsc Hmax.
  destruct (PlanFooter_header _ _ _ _ Hplan Hhead) as (Hfork & Hbuf & Hnew).
  destruct (PlanFooter_Ok _ _ _ Hplan)
    as (whole & page & _ & _ & _ & Hcount & Horig & _).
  rewrite Hparse in Hnew. cbn [fst snd] in Hnew.
  assert (Hseen : header_seen (Parsed startingBlock blockCount) (len fork)
                    startingBlock blockCount).
  { cbn. unfold P_NEW, InvalidBlockNumber in Hmax. repeat split; lia. }
  rewrite (ChooseStartingBlock_rule _ _ _ _ _ Hseen) in Hnew.
  assert (Hdisj : forall b,
             in_range (fp_newStartingBlock plan) (fp_actualBlockCount plan) b ->
             ~ in_range startingBlock blockCount b).
  { intros b. rewrite Hnew. now apply spec_starting_block_disjoint. }
  assert (Hfirst : 1 <= fp_newStartingBlock plan <= len fork).
  { rewrite Hnew. cbn. destruct (Z.eqb_spec startingBlock 0); [lia|].
    destruct (Z.ltb_spec (fp_actualBlockCount plan) startingBlock); lia. }
  assert (Hprefix : forall k st,
             Z.of_nat k <= fp_actualBlockCount plan ->
             RunFooterPages plan loggingEnabled k = Ok st ->
             pages_invariant fork startingBlock blockCount
               (fp_newStartingBlock plan) k st).
  { intros k st Hk Hrun.
    eapply RunFooterPages_invariant; eauto; lia. }
  split.
  - intros k st Hk Hrun. destruct (Hprefix k st Hk Hrun) as (_ & _ & Hkeep & Htrace).
    split; [exact Hkeep|]. intros b Hb. apply Htrace in Hb.
    split; [lia|]. apply Hdisj. unfold in_range. lia.
  - intros written Hwrite. unfold CStoreWriteFooter in Hwrite.
    rewrite Hplan in Hwrite. cbn [bind] in Hwrite.
    inv_bind Hwrite as st Hrun. exists st. split; [exact Hrun|].
    assert (Hrange : 0 <= fp_actualBlockCount plan)
      by (rewrite Hcount; apply u32_range).
    destruct (Hprefix (Z.to_nat (fp_actualBlockCount plan)) st ltac:(lia) Hrun)
      as (_ & _ & Hkeep & _).
    unfold WriteFooterHeader in Hwrite. inv_bind Hwrite as hp Hhp.
    inv_bind Hwrite as fits Hfits.
    inversion Hwrite; subst written; cbn. rewrite Hbuf.
    split; [reflexivity|]. intros b Hb.
    rewrite list_lookup_insert_ne by (unfold in_range in Hb; lia).
    apply Hkeep. now right.
Qed.
End FooterPingPong.

Lemma header_rewritten_last_witness :
  match @CStoreWriteFooter small_pages (plain_codec None 0) (empty_footer 4)
          footer_fork_once true with
  | Ok written =>
      fw_trace written
      = [PageWritten 2; PageLogged 2; PageWritten 0; PageLogged 0]
      /\ fw_fork written !! 1%nat = footer_fork_once !! 1%nat
  | Err _ => False
  end.
Proof.
  destruct (@PlanFooter small_pages (plain_codec None 0) (empty_footer 4)
              footer_fork_once) as [plan|e] eqn:Hplan;
    [|vm_compute in Hplan; discriminate].
  destruct (@CStoreWriteFooter small_pages (plain_codec None 0) (empty_footer 4)
              footer_fork_once true) as [written|e] eqn:Hwrite;
    [|vm_compute in Hwrite; discriminate].
  destruct (@header_rewritten_last small_pages (plain_codec None 0)
              (empty_footer 4) footer_fork_once plan
              {| pd_lower := 16; pd_upper := 32; pd_flags := 0;
                 contents := le_bytes 4 1 ++ le_bytes 4 1 ++ replicate 16 x00 |}
              1 1 true Hplan)
    as [_ Hlast]; try (vm_compute; congruence); try reflexivity.
  destruct (Hlast written Hwrite) as (st & Hrun & Htrace & Hkeep).
  split.
  - rewrite Htrace. vm_compute in Hplan. inversion Hplan; subst plan.
    vm_compute in Hrun. inversion Hrun. reflexivity.
  - apply Hkeep. vm_compute. split; congruence.
Defined.


(** ** The paged writer *)

Section PageProperties.
Context {host : Host}.
Hypothesis Hhost : host_ok.

Lemma length_page_bytes : Z.of_nat page_bytes = BLCKSZ - SizeOfPageHeaderData.
Proof. unfold page_bytes. destruct Hhost as (? & ? & ?). lia. Qed.

Lemma page_ok_PageInit p : page_ok (PageInit p).
Proof.
  destruct Hhost as (? & ? & ?). unfold page_ok, PageInit; cbn.
  unfold len. rewrite length_replicate, length_page_bytes. lia.
Qed.

Lemma payload_PageInit p : payload (PageInit p) = [].
Proof. unfold payload, PageInit; cbn. now rewrite Z.sub_diag. Qed.

(** A freshly initialized page has room. *)
Lemma PageInit_has_room p : 0 < pd_upper (PageInit p) - pd_lower (PageInit p).
Proof. destruct Hhost as (? & ? & ?). cbn. lia. Qed.

Lemma len_payload p :
  page_ok p -> len (payload p) = pd_lower p - SizeOfPageHeaderData.
Proof.
  intros (Hl & Hu & Hb & Hc). unfold payload, len in *.
  rewrite length_take. lia.
Qed.

Lemma len_take_drop {A} (l : list A) (off n : Z) :
  0 <= off -> 0 <= n -> off + n <= len l ->
  len (take (Z.to_nat n) (drop (Z.to_nat off) l)) = n.
Proof.
  intros Hoff Hn Hfit. unfold len in *. rewrite length_take, length_drop. lia.
Qed.

Lemma payload_memcpy p source pd_flags' :
  page_ok p -> pd_lower p + len source <= pd_upper p ->
  payload {| pd_lower := pd_lower p + len source; pd_upper := pd_upper p;
             pd_flags := pd_flags';
             contents :=
               memcpy_at (contents p) (pd_lower p - SizeOfPageHeaderData) source |}
  = payload p ++ source.
Proof.
  intros (Hl & Hu & Hb & Hc) Hfit. unfold payload, memcpy_at; cbn.
  set (off := Z.to_nat (pd_lower p - SizeOfPageHeaderData)).
  assert (Hoff : length (take off (contents p)) = off).
  { rewrite length_take. unfold len in *. lia. }
  replace (Z.to_nat (pd_lower p + len source - SizeOfPageHeaderData))
    with (length (take off (contents p) ++ source))
    by (rewrite length_app, Hoff; unfold len; lia).
  rewrite app_assoc. apply take_app_length.
Qed.

Lemma page_ok_memcpy p source pd_flags' :
  page_ok p -> pd_lower p + len source <= pd_upper p ->
  page_ok {| pd_lower := pd_lower p + len source; pd_upper := pd_upper p;
             pd_flags := pd_flags';
             contents :=
               memcpy_at (contents p) (pd_lower p - SizeOfPageHeaderData) source |}.
Proof.
  intros (Hl & Hu & Hb & Hc) Hfit. unfold page_ok; cbn.
  pose proof (len_nonneg source).
  repeat split; try lia.
  unfold memcpy_at, len in *.
  rewrite !length_app, length_take, length_drop. lia.
Qed.

(** The copy into a well-formed page: as many bytes as fit. *)
Lemma CopyIntoPage_spec data dataLength dataOffset page :
  page_ok page ->
  0 <= dataOffset -> dataOffset < dataLength -> dataLength <= len data ->
  dataLength < 2 ^ 31 ->
  exists page',
    let copySize :=
      Z.min (pd_upper page - pd_lower page) (dataLength - dataOffset) in
    CopyIntoPage data dataLength dataOffset page = Ok (page', copySize)
    /\ page_ok page'
    /\ payload page' =
         payload page
         ++ take (Z.to_nat copySize) (drop (Z.to_nat dataOffset) data)
    /\ (copySize = 0 -> page_full page)
    /\ (dataOffset + copySize < dataLength -> page_full page').
Proof.
  intros Hok Hoff Hrest Hdata Hint.
  pose proof Hok as (Hl & Hu & Hb & Hc). destruct Hhost as (Hh & Hhb & Hblk).
  set (copySize := Z.min (pd_upper page - pd_lower page) (dataLength - dataOffset)).
  set (source := take (Z.to_nat copySize) (drop (Z.to_nat dataOffset) data)).
  assert (Hsrc : len source = copySize).
  { apply len_take_drop; unfold copySize; lia. }
  eexists. cbn zeta. unfold CopyIntoPage, Assert.
  destruct (Z.ltb_spec 0 (pd_lower page)); [|lia].
  replace (if USE_ASSERT_CHECKING then Ok tt else Ok tt) with (@Ok unit tt)
    by (destruct USE_ASSERT_CHECKING; reflexivity).
  cbn [bind]. rewrite u32_small, i32_small by lia.
  replace (if pd_upper page - pd_lower page <? dataLength - dataOffset
           then pd_upper page - pd_lower page else dataLength - dataOffset)
    with copySize
    by (unfold copySize; destruct (Z.ltb_spec (pd_upper page - pd_lower page)
                                     (dataLength - dataOffset)); lia).
  fold source.
  destruct (Z.ltb_spec copySize 0); [unfold copySize in *; lia|].
  destruct (Z.ltb_spec (len (contents page))
              (pd_lower page - SizeOfPageHeaderData + copySize));
    [unfold copySize in *; lia|].
  destruct (Z.ltb_spec (len data) (dataOffset + copySize));
    [unfold copySize in *; lia|].
  cbn [orb bind]. rewrite <- Hsrc.
  split; [reflexivity|]. split; [|split; [|split]].
  - apply page_ok_memcpy; [exact Hok|]. rewrite Hsrc. unfold copySize. lia.
  - apply payload_memcpy; [exact Hok|]. rewrite Hsrc. unfold copySize. lia.
  - rewrite Hsrc. unfold page_full, copySize. lia.
  - rewrite Hsrc. unfold page_full, copySize; cbn. lia.
Qed.

Lemma fork_bytes_app fork fork' :
  fork_bytes (fork ++ fork') = fork_bytes fork ++ fork_bytes fork'.
Proof. unfold fork_bytes. now rewrite map_app, concat_app. Qed.

Lemma fork_bytes_singleton p : fork_bytes [p] = payload p.
Proof. unfold fork_bytes; cbn. apply app_nil_r. Qed.

(** Replacing a page. *)
Lemma fork_bytes_insert fork (i : nat) p p' :
  fork !! i = Some p ->
  fork_bytes (<[i := p']> fork)
  = fork_bytes (take i fork) ++ payload p' ++ fork_bytes (drop (S i) fork)
  /\ fork_bytes fork
     = fork_bytes (take i fork) ++ payload p ++ fork_bytes (drop (S i) fork).
Proof.
  intros Hi. pose proof (lookup_lt_Some _ _ _ Hi) as Hlt.
  assert (Hcons : forall q rest, fork_bytes (q :: rest) = payload q ++ fork_bytes rest)
    by reflexivity.
  split.
  - rewrite insert_take_drop by exact Hlt.
    now rewrite fork_bytes_app, Hcons.
  - rewrite <- (take_drop_middle fork i p Hi) at 1.
    now rewrite fork_bytes_app, Hcons.
Qed.
End PageProperties.

Section WriteToFileProperties.
Context {host : Host}.
Hypothesis Hhost : host_ok.
Variables (data : list byte) (dataLength : Z) (fork0 : list Page) (active0 : Z).
Hypothesis Hdata : dataLength <= len data.
Hypothesis Hint : dataLength < 2 ^ 31.

Local Abbreviation write_invariant :=
  (write_invariant data dataLength fork0 active0).

Lemma take_more (off n : Z) :
  0 <= off -> 0 <= n ->
  take (Z.to_nat off) data ++ take (Z.to_nat n) (drop (Z.to_nat off) data)
  = take (Z.to_nat (off + n)) data.
Proof.
  intros Hoff Hn. rewrite take_take_drop. f_equal. lia.
Qed.

Lemma WriteToFile_step_new st :
  write_invariant st -> dw_dataOffset st < dataLength ->
  len fork0 <= dw_blockNumber st ->
  match WriteToFile_step data dataLength (len fork0) st with
  | Ok st' =>
      write_invariant st'
      /\ dw_dataOffset st < dw_dataOffset st'
      /\ len fork0 <= dw_blockNumber st'
      /\ len (dw_fork st') + (dataLength - dw_dataOffset st')
           <= len (dw_fork st) + (dataLength - dw_dataOffset st)
  | Err e => e = HostError /\ P_NEW <= len (dw_fork st)
  end.
Proof.
  intros (Hpages & Hlen & Hoff & Hbn & Hact0 & Hbytes & Hend) Hrest Hnew.
  pose proof (len_nonneg fork0). pose proof (len_nonneg (dw_fork st)).
  unfold WriteToFile_step.
  destruct (Z.leb_spec (len fork0) (dw_blockNumber st)); [|lia].
  unfold ReadBufferExtended. rewrite Z.eqb_refl.
  destruct (Z.ltb_spec (len (dw_fork st)) P_NEW) as [Hroom|Hfull];
    [|cbn; split; [reflexivity|lia]].
  cbn [bind]. unfold BufferGetPage.
  replace (Z.to_nat (len (dw_fork st))) with (length (dw_fork st) + 0)%nat
    by (unfold len; lia).
  rewrite lookup_app_r by lia.
  replace (length (dw_fork st) + 0 - length (dw_fork st))%nat with 0%nat by lia.
  cbn [lookup list_lookup of_option bind].
  destruct (CopyIntoPage_spec Hhost data dataLength (dw_dataOffset st)
              (PageInit zero_page) (page_ok_PageInit Hhost _))
    as (page' & Hcopy & Hok' & Hpayload & Hzero & Hfull'); try lia.
  cbn zeta in *. rewrite Hcopy. cbn [bind].
  set (copySize := Z.min (pd_upper (PageInit zero_page) - pd_lower (PageInit zero_page))
                     (dataLength - dw_dataOffset st)) in *.
  assert (Hcs : 1 <= copySize <= dataLength - dw_dataOffset st).
  { pose proof (PageInit_has_room Hhost zero_page). unfold copySize. lia. }
  clearbody copySize.
  rewrite insert_app_r, payload_PageInit in *. cbn [insert list_insert app] in *.
  unfold P_NEW, InvalidBlockNumber in *.
  rewrite u32_small, i32_small by lia.
  unfold write_invariant; cbn [dw_fork dw_blockNumber dw_dataOffset dw_activeBlockNumber].
  rewrite len_app, fork_bytes_app, fork_bytes_singleton, Hpayload. cbn [app].
  change (len [page']) with 1.
  unfold P_NEW, InvalidBlockNumber.
  split; [|lia]. split; [apply Forall_app; split; [exact Hpages|now constructor]|].
  split; [lia|]. split; [lia|]. split; [lia|]. split; [lia|]. split.
  - rewrite len_app, Hbytes, len_take_drop by lia. lia.
  - intros Hat. destruct (Hend Hat) as (Hstream & Hlast & Hact).
    split; [|split; [lia|unfold at_end; rewrite len_app; change (len [page']) with 1; lia]].
    rewrite Hstream, <- app_assoc. f_equal. apply take_more; lia.
Qed.

Lemma WriteToFile_step_old st :
  write_invariant st -> dw_dataOffset st < dataLength ->
  dw_blockNumber st < len fork0 ->
  exists st',
    WriteToFile_step data dataLength (len fork0) st = Ok st'
    /\ write_invariant st'
    /\ makes_progress (len fork0) st st'
    /\ dw_dataOffset st <= dw_dataOffset st'
    /\ dw_blockNumber st' = dw_blockNumber st + 1
    /\ len (dw_fork st') = len (dw_fork st).
Proof.
  intros (Hpages & Hlen & Hoff & Hbn & Hact0 & Hbytes & Hend) Hrest Hold.
  pose proof (len_nonneg fork0). pose proof (len_nonneg (dw_fork st)).
  unfold WriteToFile_step.
  destruct (Z.leb_spec (len fork0) (dw_blockNumber st)); [lia|].
  unfold ReadBufferExtended.
  destruct (Z.eqb_spec (dw_blockNumber st) P_NEW) as [|_]; [lia|].
  destruct (dw_fork st !! Z.to_nat (dw_blockNumber st)) as [page|] eqn:Hpage.
  2:{ apply lookup_ge_None in Hpage. unfold len in *. lia. }
  cbn [bind]. unfold BufferGetPage. rewrite Hpage. cbn [of_option bind].
  assert (Hok : page_ok page) by (eapply Forall_lookup_1; eauto).
  destruct (CopyIntoPage_spec Hhost data dataLength (dw_dataOffset st) page Hok)
    as (page' & Hcopy & Hok' & Hpayload & Hzero & Hfull'); try lia.
  cbn zeta in *. rewrite Hcopy. cbn [bind].
  set (copySize := Z.min (pd_upper page - pd_lower page)
                     (dataLength - dw_dataOffset st)) in *.
  assert (Hcs : 0 <= copySize <= dataLength - dw_dataOffset st).
  { destruct Hok as (? & ? & ?). unfold copySize. lia. }
  clearbody copySize.
  unfold P_NEW, InvalidBlockNumber in *.
  rewrite u32_small, i32_small by lia.
  eexists. split; [reflexivity|].
  destruct (fork_bytes_insert (dw_fork st) _ page page' Hpage) as (Hnew & Hcur).
  unfold write_invariant, makes_progress;
    cbn [dw_fork dw_blockNumber dw_dataOffset dw_activeBlockNumber].
  rewrite len_insert. unfold P_NEW, InvalidBlockNumber.
  split; [|split; [|repeat split; lia]].
  - split; [now apply Forall_insert|]. split; [lia|]. split; [lia|]. split; [lia|].
    split; [lia|]. split.
    + rewrite Hnew, Hpayload. rewrite Hcur in Hbytes.
      rewrite !len_app in *. rewrite len_take_drop by lia. lia.
    + intros Hat. destruct (Hend Hat) as (Hstream & Hlast & Hact).
      split; [|split; [lia|unfold at_end; rewrite len_insert; lia]].
      assert (Htail : drop (S (Z.to_nat (dw_blockNumber st))) (dw_fork st) = []).
      { apply drop_ge. unfold len in *. lia. }
      rewrite Hnew, Hpayload, Htail. rewrite Hcur, Htail in Hstream.
      change (fork_bytes []) with (@nil byte) in *. rewrite app_nil_r in *.
      rewrite !app_assoc, Hstream, <- app_assoc. f_equal. apply take_more; lia.
  - destruct (Z.eq_dec copySize 0) as [Hz|Hnz]; [right|left; lia].
    split; [lia|]. split; [lia|]. split; [|reflexivity].
    exists page. split; [exact Hpage|]. now apply Hzero.
Qed.

(** One iteration under the invariant: it makes progress, it keeps the
    invariant, and it brings the loop closer to its end. *)
Lemma WriteToFile_step_spec st :
  write_invariant st -> dw_dataOffset st < dataLength ->
  match WriteToFile_step data dataLength (len fork0) st with
  | Ok st' =>
      write_invariant st'
      /\ makes_progress (len fork0) st st'
      /\ iterations_left dataLength (len fork0) st'
           < iterations_left dataLength (len fork0) st
      /\ len (dw_fork st') + (dataLength - dw_dataOffset st')
           <= len (dw_fork st) + (dataLength - dw_dataOffset st)
  | Err e => e = HostError /\ P_NEW <= len (dw_fork st)
  end.
Proof.
  intros Hinv Hrest.
  destruct (Z.le_gt_cases (len fork0) (dw_blockNumber st)) as [Hnew|Hold].
  - pose proof (WriteToFile_step_new st Hinv Hrest Hnew) as Hstep.
    destruct (WriteToFile_step data dataLength (len fork0) st) as [st'|e];
      [|exact Hstep].
    destruct Hstep as (Hinv' & Hoff & Hbn & Hroom).
    split; [exact Hinv'|]. split; [now left|]. split; [|exact Hroom].
    unfold iterations_left. lia.
  - destruct (WriteToFile_step_old st Hinv Hrest Hold)
      as (st' & -> & Hinv' & Hprog & Hoff & Hbn & Hlen).
    split; [exact Hinv'|]. split; [exact Hprog|]. split.
    + unfold iterations_left. lia.
    + lia.
Qed.

(** The loop under the invariant: with enough fuel it ends with all the
    bytes copied, unless the host refuses to grow the fork. *)
Lemma WriteToFile_loop_spec fuel st :
  write_invariant st ->
  iterations_left dataLength (len fork0) st <= Z.of_nat fuel ->
  match WriteToFile_loop fuel data dataLength (len fork0) st with
  | Ok st' => write_invariant st' /\ dw_dataOffset st' = dataLength
  | Err e =>
      e = HostError
      /\ ~ has_room (dw_fork st) (dataLength - dw_dataOffset st)
  end.
Proof.
  revert st. induction fuel as [|fuel IH]; intros st Hinv Hfuel.
  - pose proof Hinv as (_ & _ & Hoff & _).
    cbn [WriteToFile_loop]. rewrite u32_small by lia.
    destruct (Z.ltb_spec (dw_dataOffset st) dataLength) as [Hrest|Hdone].
    + unfold iterations_left in Hfuel. lia.
    + split; [exact Hinv|lia].
  - pose proof Hinv as (_ & _ & Hoff & _).
    cbn [WriteToFile_loop]. rewrite u32_small by lia.
    destruct (Z.ltb_spec (dw_dataOffset st) dataLength) as [Hrest|Hdone];
      [|split; [exact Hinv|lia]].
    pose proof (WriteToFile_step_spec st Hinv Hrest) as Hstep.
    destruct (WriteToFile_step data dataLength (len fork0) st) as [st'|e].
    + destruct Hstep as (Hinv' & _ & Hless & Hroom). cbn [bind].
      specialize (IH st' Hinv' ltac:(lia)).
      destruct (WriteToFile_loop fuel data dataLength (len fork0) st') as [st''|e];
        [exact IH|].
      destruct IH as [-> Hno]. split; [reflexivity|].
      unfold has_room in *. lia.
    + cbn [bind]. destruct Hstep as [-> Hfull]. split; [reflexivity|].
      unfold has_room. lia.
Qed.

Lemma iterates_invariant start st :
  write_invariant start ->
  iterates data dataLength (len fork0) start st -> write_invariant st.
Proof.
  intros Hstart Hit. induction Hit as [|st st' _ IH Hcond Hstep]; [exact Hstart|].
  pose proof IH as (_ & _ & Hoff & _). rewrite u32_small in Hcond by lia.
  pose proof (WriteToFile_step_spec st IH Hcond) as Hspec.
  rewrite Hstep in Hspec. apply Hspec.
Qed.
End WriteToFileProperties.

Section WriteToFileClaims.
Context {host : Host}.

Lemma WriteToFile_loop_more_fuel data dataLength blockCount fuel fuel' st :
  (fuel <= fuel')%nat ->
  WriteToFile_loop fuel data dataLength blockCount st <> Err OutOfFuel ->
  WriteToFile_loop fuel' data dataLength blockCount st
  = WriteToFile_loop fuel data dataLength blockCount st.
Proof.
  revert fuel' st. induction fuel as [|fuel IH]; intros fuel' st Hle Hrun.
  - cbn [WriteToFile_loop] in *.
    destruct (u32 (dw_dataOffset st) <? dataLength) eqn:Hcond; [congruence|].
    destruct fuel'; cbn [WriteToFile_loop]; now rewrite Hcond.
  - destruct fuel' as [|fuel']; [lia|]. cbn [WriteToFile_loop] in *.
    destruct (u32 (dw_dataOffset st) <? dataLength); [|reflexivity].
    destruct (WriteToFile_step data dataLength blockCount st) as [st'|e];
      [|reflexivity].
    cbn [bind] in *. apply IH; [lia|exact Hrun].
Qed.

Lemma write_invariant_start data dataLength writeState :
  fork_ok (dataFork (relation writeState)) ->
  0 <= activeBlockNumber writeState < 2 ^ 32 -> 0 <= dataLength ->
  write_invariant data dataLength (dataFork (relation writeState))
    (activeBlockNumber writeState) (WriteToFile_start writeState).
Proof.
  intros [Hpages Hlen] Hactive Hpos. unfold write_invariant, WriteToFile_start.
  cbn [dw_fork dw_blockNumber dw_dataOffset dw_activeBlockNumber].
  split; [exact Hpages|]. split; [lia|]. split; [lia|]. split; [lia|].
  split; [lia|]. split; [lia|]. intros Hat. split; [|split; [apply Hat|exact Hat]].
  change (Z.to_nat 0) with 0%nat. cbn [take]. now rewrite app_nil_r.
Qed.

(** A call that returns has put its bytes into the data fork. *)
Lemma WriteToFile_Ok writeState data dataLength writeState' :
  host_ok ->
  fork_ok (dataFork (relation writeState)) ->
  0 <= activeBlockNumber writeState < 2 ^ 32 ->
  0 <= dataLength <= len data -> dataLength < 2 ^ 31 ->
  WriteToFile writeState data dataLength = Ok writeState' ->
  let fork := dataFork (relation writeState) in
  fork_ok (dataFork (relation writeState'))
  /\ 0 <= activeBlockNumber writeState' < 2 ^ 32
  /\ len (fork_bytes (dataFork (relation writeState')))
     = len (fork_bytes fork) + dataLength
  /\ (at_end fork (activeBlockNumber writeState) ->
      fork_bytes (dataFork (relation writeState'))
        = fork_bytes fork ++ take (Z.to_nat dataLength) data
      /\ at_end (dataFork (relation writeState'))
           (activeBlockNumber writeState')).
Proof.
  intros Hhost Hfork Hactive [Hpos Hdata] Hint Hok fork.
  set (start := WriteToFile_start writeState).
  pose proof (write_invariant_start data dataLength writeState Hfork Hactive Hpos)
    as Hstart. fold fork start in Hstart.
  assert (Hbound : iterations_left dataLength (len fork) start
                   <= Z.of_nat (WriteToFile_fuel fork dataLength)).
  { unfold iterations_left, WriteToFile_fuel, start, WriteToFile_start, len; cbn. lia. }
  pose proof (WriteToFile_loop_spec Hhost data dataLength fork
                (activeBlockNumber writeState) Hdata Hint _ start Hstart Hbound)
    as Hloop.
  unfold WriteToFile in Hok.
  destruct (Z.eqb_spec dataLength 0) as [->|Hnz].
  - inversion Hok; subst writeState'. fold fork.
    split; [exact Hfork|]. split; [exact Hactive|]. split; [lia|]. intros Hat.
    cbn. now rewrite app_nil_r.
  - cbn zeta in Hok. fold fork start in Hok.
    destruct (WriteToFile_loop _ _ _ _ start) as [st'|e']; [|discriminate].
    cbn in Hok. inversion Hok; subst writeState'; cbn.
    destruct Hloop as ((Hpages & Hlen & _ & _ & Hact' & Hbytes & Hend) & Hall).
    rewrite Hall in *. split; [split; [exact Hpages|lia]|].
    split; [exact Hact'|]. split; [exact Hbytes|]. intros Hat.
    destruct (Hend Hat) as (Hstream & _ & Hact). now split.
Qed.

(** C9. Every call of [WriteToFile] on a fork of initialized pages, with
    the length of its buffer, ends, and when it returns all [dataLength]
    bytes are in the pages of the fork: every iteration copies a byte or
    leaves a full block of the fork behind, a freshly initialized page has
    room, so the fuel of the model is never used up; the call fails only
    when the host cannot grow the fork. When the active block is the last
    one, the bytes are appended to the fork as a byte stream. *)
Theorem WriteToFile_copies_all_bytes writeState data dataLength :
  host_ok ->
  fork_ok (dataFork (relation writeState)) ->
  0 <= activeBlockNumber writeState < 2 ^ 32 ->
  0 <= dataLength <= len data -> dataLength < 2 ^ 31 ->
  let fork := dataFork (relation writeState) in
  let start := WriteToFile_start writeState in
  (forall st st',
     iterates data dataLength (len fork) start st ->
     u32 (dw_dataOffset st) < dataLength ->
     WriteToFile_step data dataLength (len fork) st = Ok st' ->
     makes_progress (len fork) st st')
  /\ (forall p, 0 < pd_upper (PageInit p) - pd_lower (PageInit p))
  /\ (forall fuel,
        (WriteToFile_fuel fork dataLength <= fuel)%nat ->
        WriteToFile_loop fuel data dataLength (len fork) start <> Err OutOfFuel
        /\ WriteToFile_loop fuel data dataLength (len fork) start
           = WriteToFile_loop (WriteToFile_fuel fork dataLength) data
               dataLength (len fork) start)
  /\ (forall e, WriteToFile writeState data dataLength = Err e ->
        e = HostError /\ ~ has_room fork dataLength)
  /\ (forall writeState',
        WriteToFile writeState data dataLength = Ok writeState' ->
        fork_ok (dataFork (relation writeState'))
        /\ 0 <= activeBlockNumber writeState' < 2 ^ 32
        /\ len (fork_bytes (dataFork (relation writeState')))
           = len (fork_bytes fork) + dataLength
        /\ (at_end fork (activeBlockNumber writeState) ->
            fork_bytes (dataFork (relation writeState'))
              = fork_bytes fork ++ take (Z.to_nat dataLength) data
            /\ at_end (dataFork (relation writeState'))
                 (activeBlockNumber writeState'))).
Proof.
  intros Hhost Hfork Hactive [Hpos Hdata] Hint fork start.
  pose proof (write_invariant_start data dataLength writeState Hfork Hactive Hpos)
    as Hstart. fold fork start in Hstart.
  assert (Hbound : iterations_left dataLength (len fork) start
                   <= Z.of_nat (WriteToFile_fuel fork dataLength)).
  { unfold iterations_left, WriteToFile_fuel, start, WriteToFile_start, len; cbn. lia. }
  pose proof (WriteToFile_loop_spec Hhost data dataLength fork
                (activeBlockNumber writeState) Hdata Hint _ start Hstart Hbound)
    as Hloop.
  assert (Hfuel : WriteToFile_loop (WriteToFile_fuel fork dataLength) data
                    dataLength (len fork) start <> Err OutOfFuel).
  { destruct (WriteToFile_loop _ _ _ _ start) as [st'|e]; [discriminate|].
    destruct Hloop as [-> _]. discriminate. }
  split; [|split; [|split; [|split]]].
  - intros st st' Hit Hcond Hstep.
    pose proof (iterates_invariant Hhost data dataLength fork _ Hdata Hint
                  start st Hstart Hit) as Hinv.
    pose proof Hinv as (_ & _ & Hoff & _). rewrite u32_small in Hcond by lia.
    pose proof (WriteToFile_step_spec Hhost data dataLength fork _ Hdata Hint
                  st Hinv Hcond) as Hspec.
    rewrite Hstep in Hspec. apply Hspec.
  - apply PageInit_has_room. exact Hhost.
  - intros fuel Hle.
    rewrite (WriteToFile_loop_more_fuel _ _ _ _ _ _ Hle Hfuel). now split.
  - intros e Herr. unfold WriteToFile in Herr.
    destruct (Z.eqb_spec dataLength 0); [discriminate|].
    cbn zeta in Herr. fold fork start in Herr.
    destruct (WriteToFile_loop _ _ _ _ start) as [st'|e']; [discriminate|].
    cbn in Herr. inversion Herr; subst e'. destruct Hloop as [-> Hno].
    split; [reflexivity|]. unfold start, WriteToFile_start in Hno; cbn in Hno.
    now rewrite Z.sub_0_r in Hno.
  - intros writeState' Hok.
    now apply (WriteToFile_Ok writeState data dataLength writeState').
Qed.
End WriteToFileClaims.

Lemma small_pages_ok : @host_ok small_pages.
Proof. unfold host_ok; cbn. lia. Qed.

Lemma WriteToFile_copies_all_bytes_witness :
  match fresh_writer 4 2 with
  | Ok writeState =>
      exists writeState',
        @WriteToFile small_pages writeState thirty_bytes 30 = Ok writeState'
        /\ @fork_bytes small_pages (dataFork (relation writeState'))
           = thirty_bytes
  | Err _ => False
  end.
Proof.
  destruct (fresh_writer 4 2) as [writeState|e] eqn:Hbegin;
    [|vm_compute in Hbegin; discriminate].
  assert (Hfork : dataFork (relation writeState) = []
                  /\ activeBlockNumber writeState = 0).
  { vm_compute in Hbegin. inversion Hbegin. split; reflexivity. }
  destruct Hfork as [Hfork Hactive].
  destruct (@WriteToFile_copies_all_bytes small_pages writeState thirty_bytes 30)
    as (_ & _ & _ & Herr & Hok).
  - exact small_pages_ok.
  - rewrite Hfork. split; [constructor|vm_compute; discriminate].
  - rewrite Hactive. lia.
  - vm_compute. split; discriminate.
  - lia.
  - destruct (@WriteToFile small_pages writeState thirty_bytes 30)
      as [writeState'|e] eqn:Hwrite.
    + exists writeState'. split; [reflexivity|].
      destruct (Hok writeState' eq_refl) as (_ & _ & _ & Hstream).
      destruct Hstream as [-> _].
      * rewrite Hfork, Hactive. vm_compute. repeat split; discriminate.
      * rewrite Hfork. reflexivity.
    + destruct (Herr e eq_refl) as [_ Hno]. exfalso. apply Hno.
      rewrite Hfork. vm_compute. discriminate.
Defined.


(** ** Block statistics *)

Lemma load_Some {A} (array : list A) (i : Z) x :
  load array i = Ok x <-> 0 <= i /\ array !! Z.to_nat i = Some x.
Proof.
  unfold load, of_option. destruct (Z.ltb_spec i 0).
  - split; [discriminate|lia].
  - destruct (array !! Z.to_nat i); split; intros H'; try discriminate.
    + inversion H'. now split.
    + destruct H' as [_ H']. now inversion H'.
    + destruct H' as [_ H']. discriminate.
Qed.

Lemma store_Some {A} (array : list A) (i : Z) x array' :
  store array i x = Ok array' <->
  0 <= i < len array /\ array' = <[Z.to_nat i := x]> array.
Proof.
  unfold store, len.
  destruct (Z.leb_spec 0 i), (Z.ltb_spec i (Z.of_nat (length array))); cbn;
    split; intros H'; try discriminate; try lia.
  - inversion H'. split; [lia|reflexivity].
  - destruct H' as [_ ->]. reflexivity.
Qed.

Lemma load_nat {A} (array : list A) (i : nat) x :
  load array (Z.of_nat i) = Ok x <-> array !! i = Some x.
Proof.
  rewrite load_Some, Nat2Z.id. split; [now intros [_ H]|]. split; [lia|assumption].
Qed.

Lemma DatumCopy_datum_ok {host : Host} attribute datum :
  datum_ok attribute datum ->
  DatumCopy datum (attbyval attribute) (attlen attribute) = Ok datum.
Proof.
  unfold DatumCopy. intros [->|(object & -> & Hext & Hlen)]; [reflexivity|].
  destruct (attbyval attribute); [reflexivity|].
  pose proof (len_nonneg object) as Hpos.
  rewrite Hlen. cbn [DatumGetPointer bind]. unfold read_object.
  rewrite u32_small by lia.
  destruct (Z.ltb_spec (len object) (len object)); [lia|].
  cbn. now rewrite take_ge by (unfold len; lia).
Qed.

Section Statistics.
Variable cmp : Datum -> Datum -> Z.
Hypothesis Horder : total_order cmp.

Lemma cmp_swap_le a b : 0 <= cmp a b -> cmp b a <= 0.
Proof.
  destruct Horder as (_ & Hswap & _). intros H.
  destruct (Z.lt_ge_cases 0 (cmp b a)) as [Hpos|]; [|assumption].
  apply Hswap in Hpos. lia.
Qed.

Lemma cmp_swap_ge a b : cmp a b <= 0 -> 0 <= cmp b a.
Proof.
  destruct Horder as (_ & Hswap & _). intros H.
  destruct (Z.lt_ge_cases (cmp b a) 0) as [Hneg|]; [|assumption].
  apply Hswap in Hneg. lia.
Qed.

(** A smaller minimum and a larger maximum bound what the old ones bound. *)
Lemma covers_widen node node' value :
  cmp (minimumValue node') (minimumValue node) <= 0 ->
  0 <= cmp (maximumValue node') (maximumValue node) ->
  covers cmp node value -> covers cmp node' value.
Proof.
  destruct Horder as (_ & _ & Htrans). intros Hmin Hmax [Hlow Hhigh]. split.
  - eapply Htrans; eassumption.
  - apply cmp_swap_ge. eapply Htrans; apply cmp_swap_le; eassumption.
Qed.
End Statistics.

(** [UpdateBlockSkipNodeMinMax] with a comparison function that is a total
    order: the node bounds the new value and what it bound before, and a
    tie keeps the incumbent. *)
Lemma UpdateBlockSkipNodeMinMax_covers {host : Host} node value attribute
  function node' :
  let cmp := compare_with function (attcollation attribute) in
  total_order cmp -> datum_ok attribute value ->
  UpdateBlockSkipNodeMinMax node value (attbyval attribute) (attlen attribute)
    (attcollation attribute) (Some function) = Ok node' ->
  hasMinMax node' = true
  /\ node_rowCount node' = node_rowCount node
  /\ covers cmp node' value
  /\ (hasMinMax node = true ->
      (forall other, covers cmp node other -> covers cmp node' other)
      /\ (cmp value (minimumValue node) = 0 ->
          minimumValue node' = minimumValue node)
      /\ (cmp value (maximumValue node) = 0 ->
          maximumValue node' = maximumValue node)).
Proof.
  intros cmp Horder Hdatum. unfold UpdateBlockSkipNodeMinMax.
  rewrite (DatumCopy_datum_ok _ _ Hdatum).
  pose proof Horder as (Hrefl & Hswap & Htrans).
  destruct (hasMinMax node) eqn:Hhas; cbn [negb bind].
  - change (i32 (function (attcollation attribute) value (minimumValue node)))
      with (cmp value (minimumValue node)).
    change (i32 (function (attcollation attribute) value (maximumValue node)))
      with (cmp value (maximumValue node)).
    assert (Hwiden : forall low high,
               cmp low (minimumValue node) <= 0 ->
               0 <= cmp high (maximumValue node) ->
               forall other, covers cmp node other ->
                             covers cmp (set_min_max node low high) other).
    { intros low high Hlow Hhigh other.
      now apply (covers_widen cmp Horder node). }
    destruct (Z.ltb_spec (cmp value (minimumValue node)) 0) as [Hmin|Hmin];
      destruct (Z.ltb_spec 0 (cmp value (maximumValue node))) as [Hmax|Hmax];
      cbn; intros [= <-];
      (split; [reflexivity|]); (split; [reflexivity|]);
      (split; [unfold covers; cbn [minimumValue maximumValue set_min_max]|
               intros _; split; [apply Hwiden|split; cbn; intros; try reflexivity; lia]]);
      rewrite ?Hrefl; try lia.
    + split; [lia|now apply cmp_swap_ge].
    + split; [now apply cmp_swap_le|lia].
    + split; [now apply cmp_swap_le|now apply cmp_swap_ge].
  - cbn. intros [= <-]. cbn.
    split; [reflexivity|]. split; [reflexivity|].
    split; [|discriminate]. unfold covers; cbn. rewrite Hrefl. lia.
Qed.


(** ** The stripe assembler *)

Section AssemblerProperties.
Context {host : Host} {collab : Collaborators}.

(** What [WriteCell] does to the working block and the skip node of a
    column, for a null and for a value. *)
Lemma WriteCell_spec writeState columnValues isNull blockRowIndex column
  blockData node blockData' node' :
  WriteCell writeState columnValues isNull blockRowIndex column blockData node
    = Ok (blockData', node') ->
  0 <= blockRowIndex < len (existsArray blockData)
  /\ existsArray blockData' =
       <[Z.to_nat blockRowIndex := negb isNull]> (existsArray blockData)
  /\ if isNull then
       data_valueBuffer blockData' = data_valueBuffer blockData
       /\ node' = bump_rowCount node
     else
       exists comparisonFunction attributeForm columnValue buffer buffer' node1,
         load (comparisonFunctionArray writeState) column = Ok comparisonFunction
         /\ load (attrs (tupleDescriptor writeState)) column = Ok attributeForm
         /\ load columnValues column = Ok columnValue
         /\ data_valueBuffer blockData = Some buffer
         /\ SerializeSingleDatum buffer columnValue (attbyval attributeForm)
              (attlen attributeForm) (attalign attributeForm) = Ok buffer'
         /\ UpdateBlockSkipNodeMinMax node columnValue
              (attbyval attributeForm) (attlen attributeForm)
              (attcollation attributeForm) comparisonFunction = Ok node1
         /\ data_valueBuffer blockData' = Some buffer'
         /\ node' = bump_rowCount node1.
Proof.
  unfold WriteCell. intros H. inv_bind H as [bd nd] Hcell.
  injection H as <- <-. destruct isNull.
  - inv_bind Hcell as flags Hflags. injection Hcell as <- <-.
    apply store_Some in Hflags as [Hrange ->]. cbn. auto.
  - inv_bind Hcell as comparisonFunction Hcmp.
    inv_bind Hcell as attributeForm Hatt.
    inv_bind Hcell as flags Hflags. inv_bind Hcell as columnValue Hvalue.
    inv_bind Hcell as buffer Hbuffer. inv_bind Hcell as buffer' Hserialize.
    inv_bind Hcell as node1 Hupdate. injection Hcell as <- <-.
    apply store_Some in Hflags as [Hrange ->]. cbn.
    split; [exact Hrange|]. split; [reflexivity|].
    exists comparisonFunction, attributeForm, columnValue, buffer, buffer', node1.
    unfold deref, of_option in Hbuffer.
    destruct (data_valueBuffer blockData); [|discriminate].
    injection Hbuffer as ->. auto 10.
Qed.

Lemma WriteRowColumn_columns writeState columnValues columnNulls blockIndex
  blockRowIndex before count after :
  for_loop count
    (WriteRowColumn writeState columnValues columnNulls blockIndex blockRowIndex)
    before = Ok after ->
  columns_written writeState columnValues columnNulls blockIndex blockRowIndex
    before count after.
Proof.
  apply (for_loop_invariant
           (columns_written writeState columnValues columnNulls blockIndex
              blockRowIndex before)).
  - unfold columns_written. repeat split; auto. intros c Hc. lia.
  - intros j [bd nodes] [bd' nodes'] _ (Hlen1 & Hlen2 & Hrest & Hdone) Hstep.
    cbn [fst snd] in *. unfold WriteRowColumn in Hstep.
    inv_bind Hstep as blockData Hbd. inv_bind Hstep as cnodes Hnodes.
    inv_bind Hstep as node Hnode. inv_bind Hstep as isNull Hnull.
    inv_bind Hstep as [blockData' node'] Hcell.
    inv_bind Hstep as cnodes' Hstore1. inv_bind Hstep as nodes1 Hstore2.
    inv_bind Hstep as bd1 Hstore3. injection Hstep as <- <-.
    apply load_nat in Hbd, Hnodes, Hnull. apply load_Some in Hnode as [Hpos Hnode].
    apply store_Some in Hstore1 as [_ ->], Hstore2 as [Hr2 ->], Hstore3 as [Hr3 ->].
    rewrite Nat2Z.id in *. unfold len in Hr2, Hr3.
    destruct (Hrest j (Nat.le_refl j)) as [Hbd0 Hnodes0].
    unfold columns_written; cbn [fst snd]. rewrite !length_insert.
    split; [exact Hlen1|]. split; [exact Hlen2|]. split.
    + intros c Hc. rewrite !list_lookup_insert_ne by lia. apply Hrest. lia.
    + intros c Hc. destruct (Nat.eq_dec c j) as [->|Hne].
      * exists blockData, cnodes, node, isNull, blockData', node'.
        rewrite !list_lookup_insert_eq by lia.
        rewrite <- Hbd0, <- Hnodes0. auto 10.
      * rewrite !list_lookup_insert_ne by lia. apply Hdone. lia.
Qed.
End AssemblerProperties.

Section RowProperties.
Context {host : Host} {collab : Collaborators}.

Lemma same_session_refl ws : same_session ws ws.
Proof. unfold same_session. auto 10. Qed.

Lemma same_session_trans ws1 ws2 ws3 :
  same_session ws1 ws2 -> same_session ws2 ws3 -> same_session ws1 ws3.
Proof.
  unfold same_session. intros (?&?&?&?&?&?&?&?&?) (?&?&?&?&?&?&?&?&?).
  repeat split; congruence.
Qed.

(** [EnsureStripe] keeps an open stripe, and opens an empty one otherwise. *)
Lemma EnsureStripe_spec ws R C ws1 :
  EnsureStripe ws R C = Ok ws1 ->
  same_session ws ws1
  /\ match stripeBuffers ws with
     | Some _ => ws1 = ws
     | None =>
         R <> 0
         /\ exists buffers skipList,
              CreateEmptyStripeBuffers (u32 (stripeMaxRowCount ws)) R C = Ok buffers
              /\ CreateEmptyStripeSkipList (u32 (stripeMaxRowCount ws)) R C
                 = Ok skipList
              /\ stripeBuffers ws1 = Some buffers
              /\ stripeSkipList ws1 = Some skipList
     end.
Proof.
  unfold EnsureStripe. destruct (stripeBuffers ws) eqn:Hopen.
  - intros [= <-]. split; [apply same_session_refl|reflexivity].
  - intros H. inv_bind H as buffers Hb. inv_bind H as skipList Hs.
    inv_bind H as blockData Hd. injection H as <-.
    split; [unfold same_session; cbn; auto 10|].
    split.
    + intros ->. unfold CreateEmptyStripeBuffers in Hb. discriminate.
    + exists buffers, skipList. cbn. auto.
Qed.

Lemma CreateEmptyStripeBuffers_spec S R C buffers :
  CreateEmptyStripeBuffers S R C = Ok buffers ->
  rowCount buffers = 0 /\ columnCount buffers = C.
Proof.
  unfold CreateEmptyStripeBuffers. intros H. inv_bind H as u Hu.
  injection H as <-. auto.
Qed.

Lemma CreateEmptyStripeSkipList_spec S R C skipList c nodes b node :
  CreateEmptyStripeSkipList S R C = Ok skipList ->
  blockSkipNodeArray skipList !! c = Some nodes -> nodes !! b = Some node ->
  node = zero_skip_node.
Proof.
  unfold CreateEmptyStripeSkipList. intros H. inv_bind H as u Hu.
  injection H as <-. cbn. intros Hc Hb.
  apply lookup_replicate in Hc as [-> _].
  now apply lookup_replicate in Hb as [-> _].
Qed.

(** [SerializeBlockData] leaves the skip list and the row count alone. *)
Lemma SerializeBlockData_frame ws blockIndex n ws' :
  SerializeBlockData ws blockIndex n = Ok ws' ->
  same_session ws ws'
  /\ stripeSkipList ws' = stripeSkipList ws
  /\ exists buffers buffers',
       stripeBuffers ws = Some buffers /\ stripeBuffers ws' = Some buffers'
       /\ rowCount buffers' = rowCount buffers
       /\ columnCount buffers' = columnCount buffers.
Proof.
  unfold SerializeBlockData. intros H. inv_bind H as buffers Hb.
  inv_bind H as array Ha. inv_bind H as [[array' blockData] compression] Hv.
  injection H as <-. unfold deref, of_option in Hb.
  destruct (stripeBuffers ws) as [buffers0|]; [|discriminate].
  injection Hb as ->.
  split; [unfold same_session; cbn; auto 10|]. split; [reflexivity|].
  exists buffers, (set_columnBuffers buffers array'). cbn. auto.
Qed.

(** [AddRow]: the stripe is there, the row goes to block
    [rowCount / blockRowCount] at position [rowCount mod blockRowCount],
    and every column gets its cell. *)
Lemma AddRow_spec ws columnValues columnNulls ws' blockIndex blockRowIndex :
  AddRow ws columnValues columnNulls = Ok (ws', blockIndex, blockRowIndex) ->
  let R := u32 (blockRowCount (tableFooter ws)) in
  let C := u32 (natts (tupleDescriptor ws)) in
  exists ws1 buffers skipList nodes',
    EnsureStripe ws R C = Ok ws1
    /\ stripeBuffers ws1 = Some buffers
    /\ stripeSkipList ws1 = Some skipList
    /\ R <> 0
    /\ blockIndex = u32 (rowCount buffers / R)
    /\ blockRowIndex = u32 (rowCount buffers mod R)
    /\ columns_written ws1 columnValues columnNulls blockIndex blockRowIndex
         (blockDataArray ws1, blockSkipNodeArray skipList) (Z.to_nat C)
         (blockDataArray ws', nodes')
    /\ stripeBuffers ws' = Some buffers
    /\ stripeSkipList ws'
       = Some (set_blockCount (set_nodes skipList nodes') (u32 (blockIndex + 1)))
    /\ same_session ws ws'.
Proof.
  intros H R C. unfold AddRow in H. cbn zeta in H. fold R C in H.
  inv_bind H as ws1 Hensure.
  inv_bind H as buffers Hb. inv_bind H as skipList Hs. inv_bind H as u HR.
  inv_bind H as [blockData nodes'] Hloop. injection H as <- <- <-.
  destruct (EnsureStripe_spec _ _ _ _ Hensure) as [Hsame _].
  unfold deref, of_option in Hb, Hs.
  destruct (stripeBuffers ws1) as [buffers0|] eqn:Hb0; [|discriminate].
  destruct (stripeSkipList ws1) as [skipList0|] eqn:Hs0; [|discriminate].
  injection Hb as ->. injection Hs as ->.
  apply WriteRowColumn_columns in Hloop.
  exists ws1, buffers, skipList, nodes'. fold R C.
  destruct (Z.eqb_spec R 0) as [|HR0]; [discriminate|].
  split; [exact Hensure|]. split; [exact Hb0|]. split; [exact Hs0|].
  split; [exact HR0|]. split; [reflexivity|]. split; [reflexivity|].
  split; [exact Hloop|]. split; [reflexivity|]. split; [reflexivity|].
  unfold same_session in *. cbn. exact Hsame.
Qed.

(** [StageRow]: [AddRow], then the row is counted. *)
Lemma StageRow_spec ws columnValues columnNulls ws' :
  StageRow ws columnValues columnNulls = Ok ws' ->
  exists ws1 blockIndex blockRowIndex buffers buffers',
    AddRow ws columnValues columnNulls = Ok (ws1, blockIndex, blockRowIndex)
    /\ stripeBuffers ws1 = Some buffers
    /\ stripeBuffers ws' = Some buffers'
    /\ rowCount buffers' = u32 (rowCount buffers + 1)
    /\ columnCount buffers' = columnCount buffers
    /\ stripeSkipList ws' = stripeSkipList ws1
    /\ same_session ws ws'.
Proof.
  unfold StageRow. intros H. inv_bind H as [[ws1 blockIndex] blockRowIndex] Hadd.
  inv_bind H as ws2 Hblock. inv_bind H as buffers2 Hb. injection H as <-.
  destruct (AddRow_spec _ _ _ _ _ _ Hadd)
    as (ws0 & buffers & skipList & nodes' & _ & _ & _ & _ & _ & _ & _ & Hb1 & _ & Hsame).
  exists ws1, blockIndex, blockRowIndex, buffers.
  unfold deref, of_option in Hb.
  destruct (stripeBuffers ws2) as [buffers2'|] eqn:Hb2; [|discriminate].
  injection Hb as ->.
  exists (set_rowCount buffers2 (u32 (rowCount buffers2 + 1))).
  assert (Hframe : same_session ws1 ws2 /\ stripeSkipList ws2 = stripeSkipList ws1
                   /\ rowCount buffers2 = rowCount buffers
                   /\ columnCount buffers2 = columnCount buffers).
  { destruct (blockRowIndex =? _).
    - destruct (SerializeBlockData_frame _ _ _ _ Hblock)
        as (Hs & Hl & b1 & b2 & Hb1' & Hb2' & Hrc & Hcc).
      rewrite Hb1 in Hb1'. rewrite Hb2 in Hb2'.
      injection Hb1' as <-. injection Hb2' as <-. auto.
    - injection Hblock as <-. rewrite Hb1 in Hb2. injection Hb2 as <-.
      split; [apply same_session_refl|auto]. }
  destruct Hframe as (Hsame2 & Hlist & Hrc & Hcc). cbn. rewrite Hrc.
  repeat split; auto; try lia.
  all: try (pose proof (same_session_trans _ _ _ Hsame Hsame2) as Hs;
            unfold same_session in Hs; cbn; apply Hs).
Qed.

(** A staged row is counted: the stripe holds one row more. *)
Lemma StageRow_rowCount ws columnValues columnNulls ws' bound :
  rows_bounded ws bound -> 0 < bound <= 2 ^ 32 - 1 ->
  StageRow ws columnValues columnNulls = Ok ws' ->
  exists buffers1 buffers' skipList',
    (forall buffers, stripeBuffers ws = Some buffers ->
       rowCount buffers1 = rowCount buffers)
    /\ (stripeBuffers ws = None -> rowCount buffers1 = 0)
    /\ 0 <= rowCount buffers1 < bound
    /\ stripeBuffers ws' = Some buffers'
    /\ rowCount buffers' = rowCount buffers1 + 1
    /\ stripeSkipList ws' = Some skipList'
    /\ blockCount skipList'
       = rowCount buffers1 / u32 (blockRowCount (tableFooter ws)) + 1.
Proof.
  intros Hbound Hb Hstage.
  destruct (StageRow_spec _ _ _ _ Hstage)
    as (ws1 & bi & bri & b1 & b' & Hadd & Hb1 & Hb' & Hrc & _ & Hlist & _).
  destruct (AddRow_spec _ _ _ _ _ _ Hadd)
    as (ws0 & buffers & skipList & nodes' & Hensure & Hb0 & _ & HR & -> & _ & _
        & Hb1' & Hs1 & _).
  rewrite Hb1 in Hb1'. injection Hb1' as ->.
  exists buffers, b'. eexists.
  destruct (EnsureStripe_spec _ _ _ _ Hensure) as [_ Hcase].
  assert (Hfacts : (forall old, stripeBuffers ws = Some old ->
                      rowCount buffers = rowCount old)
                   /\ (stripeBuffers ws = None -> rowCount buffers = 0)
                   /\ 0 <= rowCount buffers < bound).
  { destruct (stripeBuffers ws) as [old|] eqn:Hopen.
    - subst ws0. rewrite Hopen in Hb0. injection Hb0 as ->.
      split; [now intros ? [= <-]|]. split; [discriminate|].
      apply Hbound. exact Hopen.
    - destruct Hcase as (_ & fresh & freshList & Hfresh & _ & Hb2 & _).
      rewrite Hb0 in Hb2. injection Hb2 as ->.
      apply CreateEmptyStripeBuffers_spec in Hfresh as [Hzero _].
      split; [discriminate|]. split; [now intros _|]. lia. }
  destruct Hfacts as (Hold & Hnone & Hrange).
  split; [exact Hold|]. split; [exact Hnone|]. split; [exact Hrange|].
  split; [exact Hb'|]. split; [rewrite Hrc; apply u32_small; lia|].
  rewrite Hlist, Hs1. split; [reflexivity|]. cbn [blockCount set_blockCount].
  pose proof (u32_range (blockRowCount (tableFooter ws))) as HRrange.
  set (R := u32 (blockRowCount (tableFooter ws))) in *.
  assert (Hdiv : 0 <= rowCount buffers / R <= rowCount buffers).
  { split; [apply Z.div_pos; lia|]. apply Z.div_le_upper_bound; nia. }
  rewrite (u32_small (rowCount buffers / R)) by lia.
  apply u32_small. lia.
Qed.
End RowProperties.

Lemma rows_of_block_0 R b : rows_of_block R b 0 = [].
Proof. reflexivity. Qed.

Lemma rows_of_block_succ R b n :
  0 <= n ->
  rows_of_block R b (n + 1)
  = rows_of_block R b n ++ (if decide (n / R = b) then [n] else []).
Proof.
  intros Hn. unfold rows_of_block.
  rewrite seqZ_app by lia. rewrite filter_app. f_equal.
Qed.

Lemma len_rows_of_block_succ R b n :
  0 <= n ->
  len (rows_of_block R b (n + 1))
  = len (rows_of_block R b n) + (if decide (n / R = b) then 1 else 0).
Proof.
  intros Hn. rewrite rows_of_block_succ by exact Hn. rewrite len_app.
  now destruct (decide (n / R = b)).
Qed.

Lemma len_rows_of_block_le R b n :
  0 <= n -> len (rows_of_block R b n) <= n.
Proof.
  intros Hn. unfold rows_of_block, len.
  pose proof (length_filter (fun i => i / R = b) (seqZ 0 n)) as Hle.
  rewrite length_seqZ in Hle. lia.
Qed.

Lemma UpdateBlockSkipNodeMinMax_rowCount {host : Host}
  node value byValue length collation
  function node' :
  UpdateBlockSkipNodeMinMax node value byValue length collation function
    = Ok node' ->
  node_rowCount node' = node_rowCount node.
Proof.
  unfold UpdateBlockSkipNodeMinMax. destruct function as [f|]; [|now intros [= <-]].
  intros H. inv_bind H as [low high] Hpair. now injection H as <-.
Qed.

Section CountProperties.
Context {host : Host} {collab : Collaborators}.

Lemma WriteCell_rowCount ws columnValues isNull blockRowIndex column blockData
  node blockData' node' :
  WriteCell ws columnValues isNull blockRowIndex column blockData node
    = Ok (blockData', node') ->
  node_rowCount node' = u32 (node_rowCount node + 1).
Proof.
  intros H. apply WriteCell_spec in H as (_ & _ & H). destruct isNull.
  - destruct H as [_ ->]. reflexivity.
  - destruct H as (f & a & v & buf & buf' & node1 & _ & _ & _ & _ & _ & Hupd & _ & ->).
    cbn. now rewrite (UpdateBlockSkipNodeMinMax_rowCount _ _ _ _ _ _ _ Hupd).
Qed.

(** Counting survives a staged row. *)
Lemma StageRow_counts ws columnValues columnNulls ws' n :
  stripe_counts ws n -> 0 <= n < 2 ^ 32 - 1 ->
  StageRow ws columnValues columnNulls = Ok ws' ->
  stripe_counts ws' (n + 1).
Proof.
  intros Hcounts Hn Hstage.
  destruct (StageRow_spec _ _ _ _ Hstage)
    as (ws1 & blockIndex & blockRowIndex & buffers1 & buffers' & Hadd & Hb1 & Hb'
        & Hrc & _ & Hlist & Hsame).
  destruct (AddRow_spec _ _ _ _ _ _ Hadd)
    as (ws0 & buffers & skipList & nodes' & Hensure & Hb0 & Hs0 & HR & -> & ->
        & Hcols & Hb1' & Hs1 & _).
  rewrite Hb1 in Hb1'. injection Hb1' as ->.
  set (R := u32 (blockRowCount (tableFooter ws))) in *.
  set (C := u32 (natts (tupleDescriptor ws))) in *.
  assert (HRpos : 0 < R) by (pose proof (u32_range (blockRowCount (tableFooter ws))); lia).
  assert (Hopen : rowCount buffers = n /\ counts_tracked R C n skipList).
  { destruct (EnsureStripe_spec _ _ _ _ Hensure) as [_ Hcase].
    unfold stripe_counts in Hcounts.
    destruct (stripeBuffers ws) as [buffers0|] eqn:Hopen.
    - subst ws0. rewrite Hopen in Hb0. injection Hb0 as ->.
      rewrite Hs0 in Hcounts. exact Hcounts.
    - destruct Hcase as (_ & fresh & freshList & Hfresh & HfreshList & Hb & Hs).
      rewrite Hb0 in Hb. injection Hb as ->. rewrite Hs0 in Hs. injection Hs as ->.
      subst n. split; [eapply CreateEmptyStripeBuffers_spec; eauto|].
      intros c b nodes node _ Hc Hb.
      now rewrite (CreateEmptyStripeSkipList_spec _ _ _ _ _ _ _ _ HfreshList Hc Hb). }
  destruct Hopen as [Hrows Htracked]. rewrite Hrows in *.
  assert (Hindex : u32 (n / R) = n / R).
  { apply u32_small. split; [apply Z.div_pos; lia|].
    apply Z.le_lt_trans with n; [|lia]. apply Z.div_le_upper_bound; nia. }
  rewrite Hindex in *.
  destruct Hsame as (Hfooter & _ & _ & _ & Hdesc & _).
  unfold stripe_counts. rewrite Hb', Hlist, Hs1, Hfooter, Hdesc. fold R C.
  split; [rewrite Hrc; apply u32_small; lia|].
  intros c b nodes node Hc Hnodes Hnode. cbn in Hnodes.
  destruct Hcols as (_ & _ & _ & Hdone).
  destruct (Hdone c ltac:(lia))
    as (blockData & cnodes & old & isNull & blockData' & new & _ & Hcn & _ & Hold
        & _ & Hcell & _ & Hafter).
  cbn [fst snd] in Hcn, Hafter. rewrite Hafter in Hnodes. injection Hnodes as <-.
  rewrite len_rows_of_block_succ by lia.
  assert (Hdiv : 0 <= n / R) by (apply Z.div_pos; lia).
  destruct (decide (n / R = Z.of_nat b)) as [Heq|Hne].
  - replace b with (Z.to_nat (n / R)) in Hnode by lia.
    rewrite list_lookup_insert_eq in Hnode by (eapply lookup_lt_Some; eauto).
    injection Hnode as <-.
    rewrite (WriteCell_rowCount _ _ _ _ _ _ _ _ _ Hcell).
    rewrite (Htracked c (Z.to_nat (n / R)) cnodes old Hc Hcn Hold).
    rewrite Z2Nat.id by (apply Z.div_pos; lia). rewrite Heq.
    pose proof (len_rows_of_block_le R (Z.of_nat b) n (proj1 Hn)).
    pose proof (len_nonneg (rows_of_block R (Z.of_nat b) n)).
    apply u32_small. lia.
  - rewrite list_lookup_insert_ne in Hnode by lia.
    rewrite (Htracked c b cnodes node Hc Hcn Hnode). lia.
Qed.

Lemma StageRows_counts rows ws ws' n :
  stripe_counts ws n -> 0 <= n -> n + len rows < 2 ^ 32 ->
  StageRows ws rows = Ok ws' ->
  stripe_counts ws' (n + len rows).
Proof.
  revert ws n. induction rows as [|[columnValues columnNulls] rows IH];
    intros ws n Hcounts Hn Hbound Hrun.
  - injection Hrun as <-. change (len []) with 0. now rewrite Z.add_0_r.
  - cbn [StageRows] in Hrun. inv_bind Hrun as ws1 Hstage.
    unfold len in *. cbn [length] in *.
    replace (n + Z.of_nat (S (length rows))) with (n + 1 + Z.of_nat (length rows)) by lia.
    apply (IH ws1); [|lia|lia|exact Hrun].
    eapply StageRow_counts; eauto. lia.
Qed.
End CountProperties.


(** ** Appending to the data fork *)

Section AppendProperties.
Context {host : Host}.
Hypothesis Hhost : host_ok.

Lemma appended_refl ws : appended ws ws [].
Proof.
  unfold appended. repeat (split; [reflexivity|]).
  intros Hok. split; [exact Hok|]. change (len []) with 0.
  split; [lia|]. intros Hat. now rewrite app_nil_r.
Qed.

Lemma appended_trans ws1 ws2 ws3 a b :
  appended ws1 ws2 a -> appended ws2 ws3 b -> appended ws1 ws3 (a ++ b).
Proof.
  unfold appended.
  intros (?&?&?&?&?&?&?&?&?&?&?&?&H12) (?&?&?&?&?&?&?&?&?&?&?&?&H23).
  repeat (split; [congruence|]).
  intros Hok. destruct (H12 Hok) as (Hok2 & Hlen2 & Hend2).
  destruct (H23 Hok2) as (Hok3 & Hlen3 & Hend3).
  split; [exact Hok3|]. split; [rewrite len_app; lia|].
  intros Hat. destruct (Hend2 Hat) as [Hs2 Hat2].
  destruct (Hend3 Hat2) as [Hs3 Hat3].
  split; [|exact Hat3]. now rewrite Hs3, Hs2, app_assoc.
Qed.

(** One [StringInfo] written. *)
Lemma WriteStringInfo_appended ws s ws' :
  len s < MaxAllocSize ->
  WriteStringInfo ws s = Ok ws' -> appended ws ws' s.
Proof.
  intros Hlen Hwrite. pose proof (len_nonneg s) as Hpos.
  unfold MaxAllocSize in Hlen. unfold WriteStringInfo in Hwrite.
  rewrite u32_small in Hwrite by lia.
  assert (Hfields : tableFooter ws' = tableFooter ws
            /\ compressionType ws' = compressionType ws
            /\ stripeMaxRowCount ws' = stripeMaxRowCount ws
            /\ logging ws' = logging ws
            /\ tupleDescriptor ws' = tupleDescriptor ws
            /\ currentFileOffset ws' = currentFileOffset ws
            /\ comparisonFunctionArray ws' = comparisonFunctionArray ws
            /\ stripeBuffers ws' = stripeBuffers ws
            /\ stripeSkipList ws' = stripeSkipList ws
            /\ blockDataArray ws' = blockDataArray ws
            /\ compressionBuffer ws' = compressionBuffer ws
            /\ footerFork (relation ws') = footerFork (relation ws)).
  { unfold WriteToFile in Hwrite. destruct (len s =? 0).
    - injection Hwrite as <-. auto 15.
    - inv_bind Hwrite as st Hloop. injection Hwrite as <-. cbn. auto 15. }
  unfold appended. destruct Hfields as (?&?&?&?&?&?&?&?&?&?&?&?).
  repeat (split; [assumption|]).
  intros [Hfork Hactive].
  destruct (WriteToFile_Ok ws s (len s) ws' Hhost Hfork Hactive) as (Hf & Ha & Hl & He);
    [lia|lia|exact Hwrite|].
  split; [split; assumption|]. split; [exact Hl|].
  intros Hat. destruct (He Hat) as [Hstream Hat'].
  split; [|exact Hat']. rewrite Hstream. f_equal.
  apply take_ge. unfold len. lia.
Qed.

(** A loop whose iterations append: it appends the concatenation. *)
Lemma for_loop_appended (P : nat -> list byte -> Prop) n
  (body : nat -> TableWriteState -> result TableWriteState) ws ws' :
  (forall i ws1 ws2, (i < n)%nat -> body i ws1 = Ok ws2 ->
     exists s, P i s /\ appended ws1 ws2 s) ->
  for_loop n body ws = Ok ws' ->
  exists pieces,
    length pieces = n
    /\ (forall i s, pieces !! i = Some s -> P i s)
    /\ appended ws ws' (concat pieces).
Proof.
  intros Hbody.
  apply (for_loop_invariant
           (fun j wsj =>
              exists pieces,
                length pieces = j
                /\ (forall i s, pieces !! i = Some s -> P i s)
                /\ appended ws wsj (concat pieces))).
  - exists []. split; [reflexivity|]. split; [intros i s; discriminate|].
    apply appended_refl.
  - intros j ws1 ws2 Hj (pieces & Hlen & Hall & Happ) Hstep.
    destruct (Hbody j ws1 ws2 Hj Hstep) as (s & Hs & Happ').
    exists (pieces ++ [s]). split; [rewrite length_app; cbn; lia|]. split.
    + intros i t Hi. apply lookup_app_Some in Hi as [Hi|[Hge Hi]].
      * now apply Hall.
      * rewrite Hlen in *. apply list_lookup_singleton_Some in Hi as [Hz ->].
        replace i with j by lia. exact Hs.
    + rewrite concat_app. cbn. rewrite app_nil_r.
      eapply appended_trans; eassumption.
Qed.

(** The pieces of a loop that reads its buffers from an array. *)
Lemma pieces_of_array {A} (array : list A) (f : A -> list byte) n pieces :
  length pieces = n ->
  (forall i s, pieces !! i = Some s ->
     exists x, array !! i = Some x /\ s = f x) ->
  pieces = map f (take n array).
Proof.
  intros Hlen Hall. apply list_eq. intros i.
  rewrite list_lookup_fmap. destruct (pieces !! i) as [s|] eqn:Hi.
  - destruct (Hall i s Hi) as (x & Hx & ->).
    rewrite lookup_take_lt by (apply lookup_lt_Some in Hi; lia).
    now rewrite Hx.
  - apply lookup_ge_None in Hi. rewrite lookup_take_ge by lia. reflexivity.
Qed.
End AppendProperties.

Section WriteStripeProperties.
Context {host : Host} {collab : Collaborators}.
Hypothesis Hhost : host_ok.

Lemma FlushSkipLists_appended columnCount skipListBufferArray ws ws' :
  Forall (fun s => len s < MaxAllocSize)
    (take (Z.to_nat columnCount) skipListBufferArray) ->
  FlushSkipLists columnCount skipListBufferArray ws = Ok ws' ->
  appended ws ws' (concat (take (Z.to_nat columnCount) skipListBufferArray)).
Proof.
  intros Hbound Hrun. unfold FlushSkipLists in Hrun.
  apply (for_loop_appended
           (fun i s => skipListBufferArray !! i = Some s)) in Hrun.
  - destruct Hrun as (pieces & Hlen & Hall & Happ).
    replace (take (Z.to_nat columnCount) skipListBufferArray) with pieces;
      [exact Happ|].
    rewrite <- (map_id (take _ skipListBufferArray)).
    apply pieces_of_array; [exact Hlen|]. intros i s Hi. exists s.
    split; [now apply Hall|reflexivity].
  - intros i ws1 ws2 Hi Hbody. inv_bind Hbody as s Hs. apply load_nat in Hs.
    exists s. split; [exact Hs|]. apply WriteStringInfo_appended; auto.
    apply (Forall_lookup_1 _ _ i s Hbound).
    rewrite lookup_take_lt by lia. exact Hs.
Qed.

Lemma FlushColumnData_appended stripeBuffers blockCount c ws ws' :
  stripe_buffers_ok stripeBuffers ->
  FlushColumnData stripeBuffers blockCount c ws = Ok ws' ->
  exists columnBuffers,
    columnBuffersArray stripeBuffers !! c = Some columnBuffers
    /\ appended ws ws' (column_bytes blockCount columnBuffers).
Proof.
  intros Hok Hrun. unfold FlushColumnData in Hrun.
  inv_bind Hrun as columnBuffers Hcb. apply load_nat in Hcb.
  inv_bind Hrun as ws1 Hexists.
  exists columnBuffers. split; [exact Hcb|].
  assert (Hblocks : Forall block_buffers_ok (blockBuffersArray columnBuffers)).
  { eapply (Forall_lookup_1 _ _ _ _ Hok Hcb). }
  unfold column_bytes. cbn zeta.
  set (blocks := blockBuffersArray columnBuffers) in *.
  eapply appended_trans.
  - apply (for_loop_appended
             (fun i s => exists bb, blocks !! i = Some bb
                                    /\ existsBuffer bb = Some s)) in Hexists.
    + destruct Hexists as (pieces & Hlen & Hall & Happ).
      replace (map (fun bb => buffer_bytes (existsBuffer bb))
                 (take (Z.to_nat blockCount) blocks)) with pieces; [exact Happ|].
      apply pieces_of_array; [exact Hlen|]. intros i s Hi.
      destruct (Hall i s Hi) as (bb & Hbb & Hs). exists bb.
      split; [exact Hbb|]. now rewrite Hs.
    + intros i wsa wsb Hi Hbody. inv_bind Hbody as bb Hbb.
      inv_bind Hbody as s Hs. apply load_nat in Hbb.
      unfold deref, of_option in Hs.
      destruct (existsBuffer bb) as [s'|] eqn:Hbuf; [|discriminate].
      injection Hs as ->. exists s. split; [eauto|].
      apply WriteStringInfo_appended; auto.
      destruct (Forall_lookup_1 _ _ _ _ Hblocks Hbb) as (Hb & _).
      now apply Hb.
  - apply (for_loop_appended
             (fun i s => exists bb, blocks !! i = Some bb
                                    /\ valueBuffer bb = Some s)) in Hrun.
    + destruct Hrun as (pieces & Hlen & Hall & Happ).
      replace (map (fun bb => buffer_bytes (valueBuffer bb))
                 (take (Z.to_nat blockCount) blocks)) with pieces; [exact Happ|].
      apply pieces_of_array; [exact Hlen|]. intros i s Hi.
      destruct (Hall i s Hi) as (bb & Hbb & Hs). exists bb.
      split; [exact Hbb|]. now rewrite Hs.
    + intros i wsa wsb Hi Hbody. inv_bind Hbody as bb Hbb.
      inv_bind Hbody as s Hs. apply load_nat in Hbb.
      unfold deref, of_option in Hs.
      destruct (valueBuffer bb) as [s'|] eqn:Hbuf; [|discriminate].
      injection Hs as ->. exists s. split; [eauto|].
      apply WriteStringInfo_appended; auto.
      destruct (Forall_lookup_1 _ _ _ _ Hblocks Hbb) as (_ & Hb & _).
      now apply Hb.
Qed.

(** [WriteStripe] appends the three regions of the stripe, in their order,
    and nothing else. *)
Lemma WriteStripe_appended image ws' :
  image_ok image ->
  WriteStripe image = Ok ws' ->
  appended (si_writeState image) ws' (stripe_bytes image).
Proof.
  intros (Hskip & Hbuffers & Hfooter) Hrun. unfold WriteStripe in Hrun.
  inv_bind Hrun as ws1 Hlists. inv_bind Hrun as ws2 Hdata.
  unfold stripe_bytes, skip_region, data_region. cbn zeta.
  set (C := Z.to_nat (u32 (natts (tupleDescriptor (si_writeState image))))) in *.
  eapply appended_trans; [exact (FlushSkipLists_appended _ _ _ _ Hskip Hlists)|].
  eapply appended_trans; [|exact (WriteStringInfo_appended Hhost _ _ _ Hfooter Hrun)].
  apply (for_loop_appended
           (fun c s => exists cb,
                columnBuffersArray (si_stripeBuffers image) !! c = Some cb
                /\ s = column_bytes (blockCount (si_stripeSkipList image)) cb))
    in Hdata.
  - destruct Hdata as (pieces & Hlen & Hall & Happ).
    replace (map (column_bytes (blockCount (si_stripeSkipList image)))
               (take C (columnBuffersArray (si_stripeBuffers image))))
      with pieces; [exact Happ|].
    apply pieces_of_array; [exact Hlen|]. exact Hall.
  - intros c wsa wsb Hc Hbody.
    destruct (FlushColumnData_appended _ _ _ _ _ Hbuffers Hbody) as (cb & Hcb & Happ).
    exists (column_bytes (blockCount (si_stripeSkipList image)) cb).
    split; [eauto|exact Happ].
Qed.
End WriteStripeProperties.


(** ** The buffers of the stripe stay [StringInfo]s *)

Lemma MaxAllocSize_int : MaxAllocSize < 2 ^ 31.
Proof. reflexivity. Qed.

Lemma SerializeBoolArray_length flags n buffer :
  SerializeBoolArray flags n = Ok buffer ->
  len buffer = Z.quot (u32 (n + 7)) 8 /\ len buffer < MaxAllocSize.
Proof.
  unfold SerializeBoolArray. intros H. inv_bind H as u Hlarge.
  set (byteCount := Z.quot (u32 (n + 7)) 8) in *.
  assert (Hrange : 0 <= byteCount < 2 ^ 29).
  { pose proof (u32_range (n + 7)) as Hu. unfold byteCount.
    rewrite Z.quot_div_nonneg by lia. split; [apply Z.div_pos; lia|].
    apply Z.div_lt_upper_bound; lia. }
  rewrite i32_small in Hlarge by lia.
  destruct u. apply enlargeStringInfo_Ok in Hlarge as [_ Hlarge].
  change (len []) with 0 in Hlarge.
  assert (Hlen : len buffer = byteCount); [|lia].
  revert H. apply (for_loop_invariant (fun _ buf => len buf = byteCount)).
  - unfold len. rewrite length_replicate. lia.
  - intros i buf buf' _ Hbuf Hstep. inv_bind Hstep as flag Hflag.
    destruct flag; [|now injection Hstep as <-].
    inv_bind Hstep as old Hold. apply store_Some in Hstep as [_ ->].
    now rewrite len_insert.
Qed.

Lemma SerializeSingleDatum_bounded {host : Host}
  buffer datum byValue length align buffer' :
  SerializeSingleDatum buffer datum byValue length align = Ok buffer' ->
  len buffer' < MaxAllocSize.
Proof.
  unfold SerializeSingleDatum. intros H. inv_bind H as datumLength Hlen.
  inv_bind H as known Hknown.
  inv_bind H as u Hlarge. inv_bind H as image Himage. inv_bind H as u' Hfit.
  injection H as <-.
  set (aligned := u32 (att_align_nominal (u32 datumLength) align)) in *.
  destruct u. apply enlargeStringInfo_Ok in Hlarge as [Hpos Hlarge].
  pose proof (u32_range (att_align_nominal (u32 datumLength) align)) as Hu.
  fold aligned in Hu.
  assert (Hsame : i32 aligned = aligned).
  { unfold i32 in *. rewrite Z.mod_small in * by lia.
    destruct (Z.ltb_spec aligned (2 ^ 31)); lia. }
  rewrite Hsame in *.
  destruct (Z.ltb_spec aligned (len image)); [discriminate|].
  pose proof (len_nonneg image).
  rewrite len_app. unfold memcpy_at, len in *.
  rewrite !length_app, length_take, length_drop, length_replicate. lia.
Qed.

Lemma block_buffers_ok_empty : block_buffers_ok empty_block_buffers.
Proof. unfold block_buffers_ok, buffer_ok; cbn. repeat split; discriminate. Qed.

Lemma store_block_buffers_ok array c b blockBuffers array' :
  Forall (fun cb => Forall block_buffers_ok (blockBuffersArray cb)) array ->
  block_buffers_ok blockBuffers ->
  store_block_buffers array c b blockBuffers = Ok array' ->
  Forall (fun cb => Forall block_buffers_ok (blockBuffersArray cb)) array'.
Proof.
  intros Hall Hnew H. unfold store_block_buffers in H.
  inv_bind H as cb Hcb. inv_bind H as blocks Hblocks.
  apply load_Some in Hcb as [_ Hcb].
  apply store_Some in Hblocks as [_ ->]. apply store_Some in H as [_ ->].
  apply Forall_insert; [exact Hall|]. cbn.
  apply Forall_insert; [|exact Hnew].
  apply (Forall_lookup_1 _ _ _ _ Hall Hcb).
Qed.

Lemma store_block_buffers_length array c b blockBuffers array' :
  store_block_buffers array c b blockBuffers = Ok array' ->
  length array' = length array.
Proof.
  intros H. unfold store_block_buffers in H.
  inv_bind H as cb Hcb. inv_bind H as blocks Hblocks.
  apply store_Some in H as [_ ->]. apply length_insert.
Qed.

Section BufferProperties.
Context {host : Host} {collab : Collaborators}.
Hypothesis Hcollab : collaborators_ok.

Lemma SerializeBlockData_buffers_ok ws blockIndex n ws' :
  buffers_ok ws -> 1 <= n -> n + 7 < 2 ^ 32 ->
  SerializeBlockData ws blockIndex n = Ok ws' ->
  buffers_ok ws'.
Proof.
  intros [Hdata Hstripe] Hn Hwrap H. unfold SerializeBlockData in H.
  inv_bind H as buffers Hb. unfold deref, of_option in Hb.
  destruct (stripeBuffers ws) as [buffers0|] eqn:Hopen; [|discriminate].
  injection Hb as ->. specialize (Hstripe buffers eq_refl).
  inv_bind H as array Hexists.
  inv_bind H as [[array' blockData] compression] Hvalues. injection H as <-.
  assert (Harray : Forall (fun cb => Forall block_buffers_ok (blockBuffersArray cb))
                     array).
  { revert Hexists.
    apply (for_loop_invariant
             (fun _ arr =>
                Forall (fun cb => Forall block_buffers_ok (blockBuffersArray cb))
                  arr)); [exact Hstripe|].
    intros c arr arr' _ Harr Hstep. unfold SerializeBlockExists in Hstep.
    inv_bind Hstep as cb Hcb. inv_bind Hstep as bb Hbb.
    inv_bind Hstep as bd Hbd. inv_bind Hstep as buffer Hbuffer.
    apply load_nat in Hcb. apply load_Some in Hbb as [_ Hbb].
    eapply store_block_buffers_ok; [exact Harr| |exact Hstep].
    destruct (SerializeBoolArray_length _ _ _ Hbuffer) as [Hlen Hmax].
    pose proof (Forall_lookup_1 _ _ _ _ (Forall_lookup_1 _ _ _ _ Harr Hcb) Hbb)
      as (_ & Hv & _).
    unfold block_buffers_ok, buffer_ok; cbn.
    split; [intros bytes [= <-]; exact Hmax|]. split; [exact Hv|].
    intros bytes [= <-]. rewrite Hlen, u32_small by lia.
    rewrite Z.quot_div_nonneg by lia. apply Z.div_le_lower_bound; lia. }
  assert (Hboth : Forall (fun cb => Forall block_buffers_ok (blockBuffersArray cb))
                    array'
                  /\ Forall (fun bd => buffer_ok (data_valueBuffer bd)) blockData).
  { revert Hvalues.
    apply (for_loop_invariant
             (fun _ st =>
                Forall (fun cb => Forall block_buffers_ok (blockBuffersArray cb))
                  st.1.1
                /\ Forall (fun bd => buffer_ok (data_valueBuffer bd)) st.1.2));
      [split; assumption|].
    intros c [[arr bds] cmp] [[arr' bds'] cmp'] _ [Harr Hbds] Hstep.
    cbn [fst snd] in *. unfold SerializeBlockValues in Hstep.
    inv_bind Hstep as cb Hcb. inv_bind Hstep as bb Hbb.
    inv_bind Hstep as bd Hbd. inv_bind Hstep as serialized Hser.
    apply load_nat in Hcb, Hbd. apply load_Some in Hbb as [_ Hbb].
    unfold deref, of_option in Hser.
    destruct (data_valueBuffer bd) as [bytes|] eqn:Hbytes; [|discriminate].
    injection Hser as <-.
    pose proof (Forall_lookup_1 _ _ _ _ (Forall_lookup_1 _ _ _ _ Harr Hcb) Hbb)
      as (He & _ & Hne).
    pose proof (Forall_lookup_1 _ _ _ _ Hbds Hbd bytes Hbytes) as Hbound.
    cbn beta in Hbound.
    assert (Hcopy : forall s, len s < MaxAllocSize ->
                              len (CopyStringInfo s) < MaxAllocSize).
    { intros s Hs. unfold CopyStringInfo. destruct (0 <? len s); [exact Hs|].
      reflexivity. }
    destruct (CompressBuffer bytes (compressionType ws)) as [out|] eqn:Hcomp;
      inv_bind Hstep as arr1 Hstore; inv_bind Hstep as bds1 Hstore2;
      injection Hstep as <- <- <-; apply store_Some in Hstore2 as [_ ->].
    - split.
      + eapply store_block_buffers_ok; [exact Harr| |exact Hstore].
        unfold block_buffers_ok, buffer_ok; cbn.
        split; [exact He|]. split; [|exact Hne].
        intros s [= <-]. apply Hcopy.
        destruct Hcollab as (_ & _ & Hcodec). eapply Hcodec; eauto.
      + apply Forall_insert; [exact Hbds|]. intros s [= <-]. reflexivity.
    - split.
      + eapply store_block_buffers_ok; [exact Harr| |exact Hstore].
        unfold block_buffers_ok, buffer_ok; cbn.
        split; [exact He|]. split; [|exact Hne].
        intros s [= <-]. now apply Hcopy.
      + apply Forall_insert; [exact Hbds|]. intros s [= <-]. reflexivity. }
  destruct Hboth as [Harray' Hblock].
  split; cbn; [exact Hblock|]. intros buffers' [= <-]. exact Harray'.
Qed.
End BufferProperties.

Section StageProperties.
Context {host : Host} {collab : Collaborators}.
Hypothesis Hcollab : collaborators_ok.

Lemma CreateEmptyStripeBuffers_ok S R C buffers :
  CreateEmptyStripeBuffers S R C = Ok buffers -> stripe_buffers_ok buffers.
Proof.
  unfold CreateEmptyStripeBuffers. intros H. inv_bind H as u Hu.
  injection H as <-. unfold stripe_buffers_ok; cbn.
  apply Forall_replicate; cbn. apply Forall_replicate.
  apply block_buffers_ok_empty.
Qed.

Lemma EnsureStripe_buffers_ok ws R C ws1 :
  buffers_ok ws -> EnsureStripe ws R C = Ok ws1 -> buffers_ok ws1.
Proof.
  intros Hok H. unfold EnsureStripe in H.
  destruct (stripeBuffers ws) eqn:Hopen; [now injection H as <-|].
  inv_bind H as buffers Hb. inv_bind H as skipList Hs.
  inv_bind H as blockData Hd. injection H as <-.
  split; cbn.
  - revert Hd.
    apply (for_loop_invariant
             (fun _ bds => Forall (fun bd => buffer_ok (data_valueBuffer bd)) bds));
      [apply Hok|].
    intros c bds bds' _ Hbds Hstep. inv_bind Hstep as bd Hbd.
    apply store_Some in Hstep as [_ ->].
    apply Forall_insert; [exact Hbds|]. intros s [= <-]. reflexivity.
  - intros buffers' [= <-]. eapply CreateEmptyStripeBuffers_ok; eauto.
Qed.

Lemma WriteCell_buffer_ok ws columnValues isNull blockRowIndex column
  blockData node blockData' node' :
  buffer_ok (data_valueBuffer blockData) ->
  WriteCell ws columnValues isNull blockRowIndex column blockData node
    = Ok (blockData', node') ->
  buffer_ok (data_valueBuffer blockData').
Proof.
  intros Hok H. apply WriteCell_spec in H as (_ & _ & H). destruct isNull.
  - destruct H as [-> _]. exact Hok.
  - destruct H as (f & a & v & buf & buf' & node1 & _ & _ & _ & _ & Hser & _ & -> & _).
    intros s [= <-]. eapply SerializeSingleDatum_bounded; eauto.
Qed.

Lemma AddRow_buffers_ok ws columnValues columnNulls ws' blockIndex blockRowIndex :
  buffers_ok ws ->
  AddRow ws columnValues columnNulls = Ok (ws', blockIndex, blockRowIndex) ->
  buffers_ok ws'.
Proof.
  intros Hok Hadd.
  destruct (AddRow_spec _ _ _ _ _ _ Hadd)
    as (ws1 & buffers & skipList & nodes' & Hensure & Hb1 & _ & _ & _ & _ & Hcols
        & Hb' & _ & _).
  destruct (EnsureStripe_buffers_ok _ _ _ _ Hok Hensure) as [Hdata Hstripe].
  split.
  - apply Forall_lookup. intros c bd Hbd.
    destruct Hcols as (_ & _ & Hrest & Hdone). cbn [fst snd] in *.
    destruct (Nat.lt_ge_cases c
                (Z.to_nat (u32 (natts (tupleDescriptor ws))))) as [Hc|Hc].
    + destruct (Hdone c Hc)
        as (bd0 & cnodes & node & isNull & bd' & node' & Hbd0 & _ & _ & _ & _
            & Hcell & Hafter & _).
      rewrite Hafter in Hbd. injection Hbd as <-.
      eapply WriteCell_buffer_ok; [|exact Hcell].
      apply (Forall_lookup_1 _ _ _ _ Hdata Hbd0).
    + destruct (Hrest c Hc) as [Hsame _]. rewrite Hsame in Hbd.
      apply (Forall_lookup_1 _ _ _ _ Hdata Hbd).
  - intros buffers' Hb. rewrite Hb' in Hb. injection Hb as <-.
    now apply Hstripe.
Qed.

(** A staged row keeps the buffers in order and leaves a stripe with a
    block. *)
Lemma StageRow_buffers_ok ws columnValues columnNulls ws' :
  buffers_ok ws ->
  u32 (blockRowCount (tableFooter ws)) + 7 < 2 ^ 32 ->
  rows_bounded ws (2 ^ 32 - 1) ->
  StageRow ws columnValues columnNulls = Ok ws' ->
  buffers_ok ws'
  /\ exists buffers skipList,
       stripeBuffers ws' = Some buffers /\ stripeSkipList ws' = Some skipList
       /\ 1 <= blockCount skipList.
Proof.
  intros Hok Hwrap Hrows Hstage. pose proof Hstage as Hspec.
  apply StageRow_spec in Hspec
    as (ws1 & bi & bri & b1 & b' & Hadd & Hb1 & Hb' & _ & _ & Hlist & _).
  pose proof (AddRow_buffers_ok _ _ _ _ _ _ Hok Hadd) as Hok1.
  destruct (StageRow_rowCount _ _ _ _ _ Hrows ltac:(lia) Hstage)
    as (b1' & b2' & sl' & _ & _ & Hrange & _ & _ & Hsl' & Hcount).
  destruct (AddRow_spec _ _ _ _ _ _ Hadd)
    as (ws0 & buffers & skipList & nodes' & _ & _ & _ & HR & -> & _ & _ & Hb1'
        & Hs1 & _).
  split.
  - unfold StageRow in Hstage. rewrite Hadd in Hstage. cbn [bind] in Hstage.
    inv_bind Hstage as ws2 Hblock. inv_bind Hstage as buffers2 Hb2.
    injection Hstage as <-.
    assert (Hok2 : buffers_ok ws2).
    { destruct (_ =? _).
      - eapply SerializeBlockData_buffers_ok; [exact Hcollab|exact Hok1| | |exact Hblock].
        + pose proof (u32_range (blockRowCount (tableFooter ws))). lia.
        + exact Hwrap.
      - now injection Hblock as <-. }
    destruct Hok2 as [Hdata Hstripe]. split; cbn; [exact Hdata|].
    intros buffers' [= <-]. unfold deref, of_option in Hb2.
    destruct (stripeBuffers ws2) as [b2|] eqn:Hopen; [|discriminate].
    injection Hb2 as ->. apply (Hstripe buffers2 eq_refl).
  - exists b', sl'. split; [exact Hb'|]. split; [exact Hsl'|].
    rewrite Hcount.
    pose proof (u32_range (blockRowCount (tableFooter ws))).
    assert (0 <= rowCount b1' / u32 (blockRowCount (tableFooter ws)))
      by (apply Z.div_pos; lia).
    lia.
Qed.
End StageProperties.


(** ** The stripe flusher *)

Section PlacementProperties.
Context {host : Host} {collab : Collaborators}.

Lemma PlaceBlock_blocks columnBuffers before count (eo vo : Z)
  (st' : list ColumnBlockSkipNode * Z * Z) :
  for_loop count (PlaceBlock columnBuffers) (before, eo, vo) = Ok st' ->
  blocks_placed columnBuffers before count (fst (fst st')).
Proof.
  apply (for_loop_invariant
           (fun j (s : list ColumnBlockSkipNode * Z * Z) =>
              blocks_placed columnBuffers before j (fst (fst s)))).
  - unfold blocks_placed; cbn. split; [reflexivity|]. split; [reflexivity|].
    intros b Hb. lia.
  - intros j [[nodes eo1] vo1] [[nodes' eo'] vo'] _ (Hlen & Hrest & Hdone) Hstep.
    cbn [fst snd] in *. unfold PlaceBlock in Hstep.
    inv_bind Hstep as bb Hbb. inv_bind Hstep as e He. inv_bind Hstep as v Hv.
    inv_bind Hstep as node Hnode. inv_bind Hstep as nodes1 Hstore.
    injection Hstep as <- <- <-.
    apply load_nat in Hbb, Hnode. apply store_Some in Hstore as [Hr ->].
    rewrite Nat2Z.id in *. unfold len in Hr.
    unfold deref, of_option in He, Hv.
    destruct (existsBuffer bb) as [e'|] eqn:Hebuf; [|discriminate].
    destruct (valueBuffer bb) as [v'|] eqn:Hvbuf; [|discriminate].
    injection He as ->. injection Hv as ->.
    unfold blocks_placed. rewrite length_insert.
    split; [exact Hlen|]. split.
    + intros b Hb. rewrite list_lookup_insert_ne by lia. apply Hrest. lia.
    + intros b Hb. destruct (Nat.eq_dec b j) as [->|Hne].
      * exists bb, e, v, node, eo1, vo1.
        rewrite list_lookup_insert_eq by lia.
        rewrite <- (Hrest j (Nat.le_refl j)). auto.
      * destruct (Hdone b ltac:(lia)) as (bb0 & e0 & v0 & n0 & eo0 & vo0 & H0).
        exists bb0, e0, v0, n0, eo0, vo0.
        rewrite list_lookup_insert_ne by lia. exact H0.
Qed.

Lemma PlaceColumn_columns stripeBuffers blockCount before count after :
  for_loop count (PlaceColumn stripeBuffers blockCount) before = Ok after ->
  columns_placed stripeBuffers blockCount before count after.
Proof.
  apply (for_loop_invariant (columns_placed stripeBuffers blockCount before)).
  - unfold columns_placed. split; [reflexivity|]. split; [reflexivity|].
    intros c Hc. lia.
  - intros j arr arr' _ (Hlen & Hrest & Hdone) Hstep. unfold PlaceColumn in Hstep.
    inv_bind Hstep as nodes Hnodes. inv_bind Hstep as cb Hcb.
    inv_bind Hstep as [[nodes' eo] vo] Hloop.
    apply load_nat in Hnodes, Hcb. apply store_Some in Hstep as [Hr ->].
    rewrite Nat2Z.id in *. unfold len in Hr.
    apply PlaceBlock_blocks in Hloop.
    cbn [fst snd] in Hloop.
    unfold columns_placed. rewrite length_insert.
    split; [exact Hlen|]. split.
    + intros c Hc. rewrite list_lookup_insert_ne by lia. apply Hrest. lia.
    + intros c Hc. destruct (Nat.eq_dec c j) as [->|Hne].
      * exists nodes, cb, nodes'. rewrite list_lookup_insert_eq by lia.
        rewrite <- (Hrest j (Nat.le_refl j)). auto.
      * rewrite list_lookup_insert_ne by lia. apply Hdone. lia.
Qed.

Lemma same_statistics_placement node eo el vo vl kind :
  same_statistics node (set_placement node eo el vo vl kind).
Proof. unfold same_statistics; cbn. auto. Qed.

(** Placing the blocks keeps the statistics of every node. *)
Lemma columns_placed_statistics stripeBuffers blockCount before count after
  c nodes' b node' :
  columns_placed stripeBuffers blockCount before count after ->
  after !! c = Some nodes' -> nodes' !! b = Some node' ->
  exists nodes node,
    before !! c = Some nodes /\ nodes !! b = Some node
    /\ same_statistics node node'.
Proof.
  intros (_ & Hrest & Hdone) Hc Hb.
  destruct (Nat.lt_ge_cases c count) as [Hlt|Hge].
  - destruct (Hdone c Hlt) as (nodes & cb & nodes1 & Hbefore & _ & Hafter & Hblocks).
    rewrite Hafter in Hc. injection Hc as ->. exists nodes.
    destruct Hblocks as (_ & Hbrest & Hbdone).
    destruct (Nat.lt_ge_cases b (Z.to_nat blockCount)) as [Hblt|Hbge].
    + destruct (Hbdone b Hblt) as (bb & e & v & node & eo & vo & _ & _ & _ & Hn & Hn').
      rewrite Hn' in Hb. injection Hb as <-. exists node.
      split; [exact Hbefore|]. split; [exact Hn|].
      apply same_statistics_placement.
    + exists node'. rewrite <- (Hbrest b Hbge). split; [exact Hbefore|].
      split; [exact Hb|]. unfold same_statistics. auto.
  - exists nodes', node'. rewrite <- (Hrest c Hge).
    split; [exact Hc|]. split; [exact Hb|]. unfold same_statistics. auto.
Qed.
End PlacementProperties.

Section PrepareProperties.
Context {host : Host} {collab : Collaborators}.

(** What [PrepareStripe] went through when it returns an image. *)
Lemma PrepareStripe_inv ws image :
  PrepareStripe ws = Ok image ->
  exists buffers0 skipList ws1 buffers nodes skipListBufferArray stripeFooter,
    stripeBuffers ws = Some buffers0
    /\ stripeSkipList ws = Some skipList
    /\ u32 (blockRowCount (tableFooter ws)) <> 0
    /\ (if 0 <? u32 (rowCount buffers0 mod u32 (blockRowCount (tableFooter ws)))
        then SerializeBlockData ws
               (u32 (rowCount buffers0 / u32 (blockRowCount (tableFooter ws))))
               (u32 (rowCount buffers0 mod u32 (blockRowCount (tableFooter ws))))
             = Ok ws1
        else ws1 = ws)
    /\ stripeBuffers ws1 = Some buffers
    /\ for_loop (Z.to_nat (u32 (natts (tupleDescriptor ws))))
         (PlaceColumn buffers (blockCount skipList))
         (blockSkipNodeArray skipList) = Ok nodes
    /\ CreateSkipListBufferArray (set_nodes skipList nodes) (tupleDescriptor ws1)
       = Ok skipListBufferArray
    /\ CreateStripeFooter (set_nodes skipList nodes) skipListBufferArray
       = Ok stripeFooter
    /\ image
       = {| si_writeState :=
              set_stripe ws1 (Some buffers) (Some (set_nodes skipList nodes));
            si_stripeBuffers := buffers;
            si_stripeSkipList := set_nodes skipList nodes;
            si_skipListBufferArray := skipListBufferArray;
            si_stripeFooter := stripeFooter;
            si_stripeFooterBuffer := SerializeStripeFooter stripeFooter |}.
Proof.
  unfold PrepareStripe. intros H.
  inv_bind H as buffers0 Hb0. inv_bind H as skipList Hsl.
  inv_bind H as u Hzero.
  destruct (u32 (blockRowCount (tableFooter ws)) =? 0) eqn:HR; [discriminate|].
  apply Z.eqb_neq in HR. clear Hzero u.
  inv_bind H as ws1 Hlast. inv_bind H as buffers Hb.
  inv_bind H as nodes Hplace. inv_bind H as arr Harr. inv_bind H as sf Hsf.
  injection H as <-.
  unfold deref, of_option in Hb0, Hsl, Hb.
  destruct (stripeBuffers ws) as [b0|] eqn:Hopen; [|discriminate].
  injection Hb0 as ->.
  destruct (stripeSkipList ws) as [sl|] eqn:Hlist; [|discriminate].
  injection Hsl as ->.
  destruct (stripeBuffers ws1) as [b1|] eqn:Hopen1; [|discriminate].
  injection Hb as ->.
  exists buffers0, skipList, ws1, buffers, nodes, arr, sf.
  split; [reflexivity|]. split; [reflexivity|]. split; [exact HR|].
  split.
  { destruct (0 <? _); [exact Hlast|]. now injection Hlast as <-. }
  split; [exact Hopen1|].
  split; [exact Hplace|]. split; [exact Harr|]. split; [exact Hsf|].
  reflexivity.
Qed.
End PrepareProperties.

Section ImageProperties.
Context {host : Host} {collab : Collaborators}.
Hypothesis Hcollab : collaborators_ok.

Lemma CreateSkipListBufferArray_bounded skipList tupleDescriptor array :
  CreateSkipListBufferArray skipList tupleDescriptor = Ok array ->
  Forall (fun s => len s < MaxAllocSize) array.
Proof.
  unfold CreateSkipListBufferArray.
  apply (for_loop_invariant
           (fun _ a => Forall (fun s : list byte => len s < MaxAllocSize) a)).
  - apply Forall_replicate. reflexivity.
  - intros j a a' _ Ha Hstep. inv_bind Hstep as nodes Hnodes.
    inv_bind Hstep as att Hatt. apply store_Some in Hstep as [_ ->].
    apply Forall_insert; [exact Ha|]. apply Hcollab.
Qed.

(** The image of a stripe is made of [StringInfo]s, and preparing it keeps
    the session and the buffers in order. *)
Lemma PrepareStripe_image_ok ws image :
  buffers_ok ws ->
  u32 (blockRowCount (tableFooter ws)) + 7 < 2 ^ 32 ->
  PrepareStripe ws = Ok image ->
  image_ok image
  /\ buffers_ok (si_writeState image)
  /\ same_session ws (si_writeState image).
Proof.
  intros Hok Hwrap H.
  destruct (PrepareStripe_inv _ _ H)
    as (b0 & sl & ws1 & buffers & nodes & arr & sf
        & Hb0 & Hsl & HR & Hlast & Hb & Hplace & Harr & Hsf & ->).
  assert (H1 : buffers_ok ws1 /\ same_session ws ws1).
  { destruct (0 <? u32 (rowCount b0 mod u32 (blockRowCount (tableFooter ws))))
      eqn:Hpos.
    - apply Z.ltb_lt in Hpos. split.
      + apply (SerializeBlockData_buffers_ok Hcollab _ _ _ _ Hok) in Hlast;
          [exact Hlast|lia|].
        pose proof (u32_range (blockRowCount (tableFooter ws))) as Hr.
        pose proof (u32_small (rowCount b0 mod u32 (blockRowCount (tableFooter ws))))
          as Hs.
        pose proof (Z.mod_pos_bound (rowCount b0)
                      (u32 (blockRowCount (tableFooter ws))) ltac:(lia)) as Hm.
        rewrite Hs by lia. lia.
      + now apply SerializeBlockData_frame in Hlast as [Hs _].
    - subst ws1. split; [exact Hok|apply same_session_refl]. }
  destruct H1 as [[Hdata Hstripe] Hsame].
  split; [|split].
  - unfold image_ok. cbn [si_writeState si_skipListBufferArray si_stripeBuffers
                          si_stripeFooterBuffer].
    split; [|split].
    + apply Forall_take. eapply CreateSkipListBufferArray_bounded. exact Harr.
    + apply Hstripe. exact Hb.
    + apply Hcollab.
  - split; cbn.
    + exact Hdata.
    + intros buffers' Heq. injection Heq as <-. apply Hstripe. exact Hb.
  - unfold same_session in *. cbn. exact Hsame.
Qed.
End ImageProperties.

(** ** The lengths a stripe reports *)

Lemma u64_add_l a b : u64 (u64 a + b) = u64 (a + b).
Proof. unfold u64. apply Zplus_mod_idemp_l. Qed.

Lemma u64_add_r a b : u64 (a + u64 b) = u64 (a + b).
Proof. unfold u64. apply Zplus_mod_idemp_r. Qed.

Lemma u64_add a a' b b' :
  u64 a = u64 a' -> u64 b = u64 b' -> u64 (a + b) = u64 (a' + b').
Proof.
  intros Ha Hb. rewrite <- u64_add_l, <- u64_add_r, Ha, Hb.
  now rewrite u64_add_l, u64_add_r.
Qed.

Lemma u64_u64 a : u64 (u64 a) = u64 a.
Proof. unfold u64. apply Zmod_mod. Qed.

Lemma sumZ_app l k : sumZ (l ++ k) = sumZ l + sumZ k.
Proof.
  unfold sumZ. induction l as [|x l IH]; cbn [foldr app]; [reflexivity|]. lia.
Qed.

Lemma sumZ_nonneg l : Forall (fun x => 0 <= x) l -> 0 <= sumZ l.
Proof.
  unfold sumZ. induction 1 as [|x l Hx _ IH]; cbn [foldr]; lia.
Qed.

Lemma len_concat {A} (ls : list (list A)) : len (concat ls) = sumZ (map len ls).
Proof.
  induction ls as [|l ls IH]; [reflexivity|].
  cbn [concat map]. rewrite len_app, IH. reflexivity.
Qed.

(** Sums of lists that agree modulo [2 ^ 64] entry by entry agree modulo
    [2 ^ 64]. *)
Lemma sumZ_pointwise l k :
  length l = length k ->
  (forall i x y, l !! i = Some x -> k !! i = Some y -> u64 x = u64 y) ->
  u64 (sumZ l) = u64 (sumZ k).
Proof.
  revert k. induction l as [|x l IH]; intros [|y k] Hlen Hall;
    try discriminate; [reflexivity|].
  change (sumZ (x :: l)) with (x + sumZ l).
  change (sumZ (y :: k)) with (y + sumZ k). apply u64_add.
  - apply (Hall 0%nat); reflexivity.
  - apply IH; [now injection Hlen|]. intros i. apply (Hall (S i)).
Qed.

Lemma sumZ_zip l k :
  length l = length k -> sumZ (zip_with Z.add l k) = sumZ l + sumZ k.
Proof.
  revert k. induction l as [|x l IH]; intros [|y k] Hlen; try discriminate;
    [reflexivity|].
  injection Hlen as Hlen. specialize (IH k Hlen).
  change (sumZ (zip_with Z.add (x :: l) (y :: k)))
    with (x + y + sumZ (zip_with Z.add l k)).
  change (sumZ (x :: l)) with (x + sumZ l).
  change (sumZ (y :: k)) with (y + sumZ k). lia.
Qed.

Section SizeProperties.
Context {host : Host} {collab : Collaborators}.

Lemma SumBlockSizes_spec nodes blockCount existsSize valueSize :
  SumBlockSizes nodes blockCount = Ok (existsSize, valueSize) ->
  existsSize = u64 (sumZ (map existsLength (take (Z.to_nat blockCount) nodes)))
  /\ valueSize = u64 (sumZ (map valueLength (take (Z.to_nat blockCount) nodes)))
  /\ (Z.to_nat blockCount <= length nodes)%nat.
Proof.
  unfold SumBlockSizes. intros H.
  apply (for_loop_invariant
           (fun j (s : Z * Z) =>
              fst s = u64 (sumZ (map existsLength (take j nodes)))
              /\ snd s = u64 (sumZ (map valueLength (take j nodes)))
              /\ (j <= length nodes)%nat)) in H; [exact H| |].
  - cbn. split; [reflexivity|]. split; [reflexivity|lia].
  - intros j [e v] [e' v'] _ (He & Hv & Hj) Hstep. cbn [fst snd] in *.
    inv_bind Hstep as node Hnode. injection Hstep as <- <-.
    apply load_nat in Hnode. pose proof (lookup_lt_Some _ _ _ Hnode) as Hlt.
    rewrite (take_S_r _ _ _ Hnode), !map_app, !sumZ_app.
    change (sumZ (map existsLength [node])) with (existsLength node + 0).
    change (sumZ (map valueLength [node])) with (valueLength node + 0).
    rewrite He, Hv, !u64_add_l, !Z.add_0_r. auto with lia.
Qed.
End SizeProperties.

Section FooterSizeProperties.
Context {host : Host} {collab : Collaborators}.

Lemma CreateStripeFooter_spec skipList array stripeFooter :
  CreateStripeFooter skipList array = Ok stripeFooter ->
  length (skipListSizeArray stripeFooter) = Z.to_nat (skip_columnCount skipList)
  /\ forall c, (c < Z.to_nat (skip_columnCount skipList))%nat ->
       footer_column skipList array (skipListSizeArray stripeFooter)
         (existsSizeArray stripeFooter) (valueSizeArray stripeFooter) c.
Proof.
  unfold CreateStripeFooter. intros H. inv_bind H as [[sk ex] va] Hloop.
  injection H as <-. cbn [skipListSizeArray existsSizeArray valueSizeArray].
  set (n := Z.to_nat (skip_columnCount skipList)) in *.
  apply (for_loop_invariant
           (fun j (s : list Z * list Z * list Z) =>
              length (fst (fst s)) = n /\ length (snd (fst s)) = n
              /\ length (snd s) = n
              /\ forall c, (c < j)%nat ->
                   footer_column skipList array (fst (fst s)) (snd (fst s))
                     (snd s) c)) in Hloop.
  - cbn [fst snd] in Hloop. destruct Hloop as (Hsk & _ & _ & Hall). auto.
  - cbn [fst snd]. rewrite length_replicate.
    split; [reflexivity|]. split; [reflexivity|]. split; [reflexivity|]. lia.
  - intros j [[sk1 ex1] va1] [[sk2 ex2] va2] Hj (Hsk & Hex & Hva & Hall) Hstep.
    cbn [fst snd] in *.
    inv_bind Hstep as nodes Hnodes. inv_bind Hstep as [e v] Hsum.
    inv_bind Hstep as ex' Hex'. inv_bind Hstep as va' Hva'.
    inv_bind Hstep as s Hs. inv_bind Hstep as sk' Hsk'.
    injection Hstep as <- <- <-.
    apply load_nat in Hnodes, Hs.
    apply store_Some in Hex' as [_ ->]. apply store_Some in Hva' as [_ ->].
    apply store_Some in Hsk' as [_ ->]. rewrite Nat2Z.id, !length_insert.
    split; [exact Hsk|]. split; [exact Hex|]. split; [exact Hva|].
    intros c Hc. destruct (Nat.eq_dec c j) as [->|Hne].
    + exists nodes, e, v, s. rewrite !list_lookup_insert_eq by lia. auto 10.
    + destruct (Hall c ltac:(lia)) as (n0 & e0 & v0 & s0 & H0).
      exists n0, e0, v0, s0. rewrite !list_lookup_insert_ne by lia. exact H0.
Qed.

Lemma SumStripeSizes_spec columnCount stripeFooter skipListLength dataLength :
  SumStripeSizes columnCount stripeFooter = Ok (skipListLength, dataLength) ->
  let n := Z.to_nat columnCount in
  skipListLength = u64 (sumZ (take n (skipListSizeArray stripeFooter)))
  /\ dataLength
     = u64 (sumZ (take n (existsSizeArray stripeFooter))
            + sumZ (take n (valueSizeArray stripeFooter)))
  /\ (n <= length (skipListSizeArray stripeFooter))%nat
  /\ (n <= length (existsSizeArray stripeFooter))%nat
  /\ (n <= length (valueSizeArray stripeFooter))%nat.
Proof.
  intros H n. unfold SumStripeSizes in H.
  apply (for_loop_invariant
           (fun j (s : Z * Z) =>
              fst s = u64 (sumZ (take j (skipListSizeArray stripeFooter)))
              /\ snd s
                 = u64 (sumZ (take j (existsSizeArray stripeFooter))
                        + sumZ (take j (valueSizeArray stripeFooter)))
              /\ (j <= length (skipListSizeArray stripeFooter))%nat
              /\ (j <= length (existsSizeArray stripeFooter))%nat
              /\ (j <= length (valueSizeArray stripeFooter))%nat)) in H;
    [exact H| |].
  - cbn. split; [reflexivity|]. split; [reflexivity|]. lia.
  - intros j [s d] [s' d'] _ (Hs & Hd & Hj1 & Hj2 & Hj3) Hstep.
    cbn [fst snd] in *.
    inv_bind Hstep as x Hx. inv_bind Hstep as e He. inv_bind Hstep as v Hv.
    injection Hstep as <- <-. apply load_nat in Hx, He, Hv.
    pose proof (lookup_lt_Some _ _ _ Hx). pose proof (lookup_lt_Some _ _ _ He).
    pose proof (lookup_lt_Some _ _ _ Hv).
    rewrite (take_S_r _ _ _ Hx), (take_S_r _ _ _ He), (take_S_r _ _ _ Hv),
      !sumZ_app.
    change (sumZ [x]) with (x + 0). change (sumZ [e]) with (e + 0).
    change (sumZ [v]) with (v + 0).
    rewrite Hs, Hd, !u64_add_l, !Z.add_0_r.
    split; [reflexivity|]. split; [|lia].
    rewrite <- Z.add_assoc, u64_add_l. f_equal. lia.
Qed.

Lemma CreateSkipListBufferArray_spec skipList tupleDescriptor array :
  CreateSkipListBufferArray skipList tupleDescriptor = Ok array ->
  forall c, (c < Z.to_nat (skip_columnCount skipList))%nat ->
    exists nodes attributeForm,
      blockSkipNodeArray skipList !! c = Some nodes
      /\ attrs tupleDescriptor !! c = Some attributeForm
      /\ array !! c
         = Some (SerializeColumnSkipList nodes (blockCount skipList)
                   (attbyval attributeForm) (attlen attributeForm)).
Proof.
  unfold CreateSkipListBufferArray. intros H.
  set (n := Z.to_nat (skip_columnCount skipList)) in *.
  apply (for_loop_invariant
           (fun j (a : list (list byte)) =>
              length a = n
              /\ forall c, (c < j)%nat ->
                   exists nodes attributeForm,
                     blockSkipNodeArray skipList !! c = Some nodes
                     /\ attrs tupleDescriptor !! c = Some attributeForm
                     /\ a !! c
                        = Some (SerializeColumnSkipList nodes
                                  (blockCount skipList)
                                  (attbyval attributeForm)
                                  (attlen attributeForm)))) in H.
  - exact (proj2 H).
  - rewrite length_replicate. split; [reflexivity|lia].
  - intros j a a' Hj [Hlen Hall] Hstep.
    inv_bind Hstep as nodes Hnodes. inv_bind Hstep as att Hatt.
    apply load_nat in Hnodes, Hatt. apply store_Some in Hstep as [_ ->].
    rewrite Nat2Z.id, length_insert. split; [exact Hlen|].
    intros c Hc. destruct (Nat.eq_dec c j) as [->|Hne].
    + exists nodes, att. rewrite list_lookup_insert_eq by lia. auto.
    + destruct (Hall c ltac:(lia)) as (n0 & a0 & H0).
      exists n0, a0. rewrite list_lookup_insert_ne by lia. exact H0.
Qed.
End FooterSizeProperties.

Lemma lookup_all_length {A} (l : list A) n :
  (forall i, (i < n)%nat -> is_Some (l !! i)) -> (n <= length l)%nat.
Proof.
  intros H. destruct n as [|n]; [lia|].
  specialize (H n ltac:(lia)). apply lookup_lt_is_Some in H. lia.
Qed.

(** Two arrays whose first [n] entries agree modulo [2 ^ 64] through [f] and
    [g] have sums that agree modulo [2 ^ 64]. *)
Lemma sumZ_take_pointwise {A B} (f : A -> Z) (g : B -> Z) n
  (l : list A) (k : list B) :
  (forall i, (i < n)%nat ->
     exists x y, l !! i = Some x /\ k !! i = Some y /\ u64 (f x) = u64 (g y)) ->
  u64 (sumZ (map f (take n l))) = u64 (sumZ (map g (take n k))).
Proof.
  intros H.
  assert (Hl : (n <= length l)%nat).
  { apply lookup_all_length. intros i Hi.
    destruct (H i Hi) as (x & _ & -> & _). eauto. }
  assert (Hk : (n <= length k)%nat).
  { apply lookup_all_length. intros i Hi.
    destruct (H i Hi) as (_ & y & _ & -> & _). eauto. }
  apply sumZ_pointwise.
  - rewrite !length_map, !length_take. lia.
  - intros i x y Hx Hy.
    rewrite list_lookup_fmap in Hx. rewrite list_lookup_fmap in Hy.
    destruct (Nat.lt_ge_cases i n) as [Hi|Hi].
    + rewrite lookup_take_lt in Hx by exact Hi.
      rewrite lookup_take_lt in Hy by exact Hi.
      destruct (H i Hi) as (x0 & y0 & Hx0 & Hy0 & Heq).
      rewrite Hx0 in Hx. rewrite Hy0 in Hy. cbn in Hx, Hy.
      injection Hx as <-. injection Hy as <-. exact Heq.
    + rewrite lookup_take_ge in Hx by exact Hi. discriminate.
Qed.

Section LengthProperties.
Context {host : Host} {collab : Collaborators}.

(** The two sums of a placed column are the length of its data region,
    modulo [2 ^ 64]. *)
Lemma column_lengths columnBuffers before nodes blockCount existsSize valueSize :
  blocks_placed columnBuffers before (Z.to_nat blockCount) nodes ->
  SumBlockSizes nodes blockCount = Ok (existsSize, valueSize) ->
  u64 (existsSize + valueSize) = u64 (len (column_bytes blockCount columnBuffers)).
Proof.
  intros (_ & _ & Hplaced) Hsum.
  apply SumBlockSizes_spec in Hsum as (-> & -> & _).
  unfold column_bytes. rewrite len_app, !len_concat, !map_map.
  rewrite u64_add_l, u64_add_r. apply u64_add.
  - apply (sumZ_take_pointwise existsLength
             (fun bb => len (buffer_bytes (existsBuffer bb)))).
    intros b Hb.
    destruct (Hplaced b Hb) as (bb & e & v & node & eo & vo & Hbb & He & Hv & _ & Hn).
    eexists _, bb. split; [exact Hn|]. split; [exact Hbb|].
    rewrite He. cbn. apply u64_u64.
  - apply (sumZ_take_pointwise valueLength
             (fun bb => len (buffer_bytes (valueBuffer bb)))).
    intros b Hb.
    destruct (Hplaced b Hb) as (bb & e & v & node & eo & vo & Hbb & He & Hv & _ & Hn).
    eexists _, bb. split; [exact Hn|]. split; [exact Hbb|].
    rewrite Hv. cbn. apply u64_u64.
Qed.
End LengthProperties.

Section StripeLengthProperties.
Context {host : Host} {collab : Collaborators}.

(** The two lengths that [FlushStripe] adds up from the stripe footer are
    the lengths of the skip-list region and of the data region, modulo
    [2 ^ 64]. *)
Lemma stripe_lengths ws image skipListLength dataLength :
  PrepareStripe ws = Ok image ->
  SumStripeSizes (u32 (natts (tupleDescriptor (si_writeState image))))
    (si_stripeFooter image) = Ok (skipListLength, dataLength) ->
  skipListLength = u64 (len (skip_region image))
  /\ dataLength = u64 (len (data_region image))
  /\ (Z.to_nat (u32 (natts (tupleDescriptor (si_writeState image))))
      <= Z.to_nat (skip_columnCount (si_stripeSkipList image)))%nat.
Proof.
  intros Hprep Hsum.
  destruct (PrepareStripe_inv _ _ Hprep)
    as (b0 & sl & ws1 & buffers & nodes & arr & sf
        & Hb0 & Hsl & HR & Hlast & Hb & Hplace & Harr & Hsf & ->).
  assert (Htd : tupleDescriptor ws1 = tupleDescriptor ws).
  { destruct (0 <? _).
    - apply SerializeBlockData_frame in Hlast as [Hs _]. apply Hs.
    - now subst ws1. }
  unfold skip_region, data_region.
  cbn [si_writeState si_stripeFooter si_skipListBufferArray si_stripeBuffers
       si_stripeSkipList] in *.
  change (tupleDescriptor (set_stripe ws1 (Some buffers)
                             (Some (set_nodes sl nodes))))
    with (tupleDescriptor ws1) in *.
  rewrite Htd in *.
  set (C := Z.to_nat (u32 (natts (tupleDescriptor ws)))) in *.
  apply SumStripeSizes_spec in Hsum. cbn zeta in Hsum. fold C in Hsum.
  destruct Hsum as (-> & -> & Hsk & Hex & Hva).
  destruct (CreateStripeFooter_spec _ _ _ Hsf) as [Hlen Hcolumns].
  change (skip_columnCount (set_nodes sl nodes)) with (skip_columnCount sl) in *.
  apply PlaceColumn_columns in Hplace. destruct Hplace as (_ & _ & Hplaced).
  split; [|split; [|lia]].
  - rewrite len_concat.
    rewrite <- (map_id (take C (skipListSizeArray sf))).
    apply (sumZ_take_pointwise id len). intros c Hc.
    destruct (Hcolumns c ltac:(lia)) as (n0 & e0 & v0 & s0 & _ & _ & Hs0 & Hk0 & _).
    exists (u64 (len s0)), s0. split; [exact Hk0|]. split; [exact Hs0|].
    apply u64_u64.
  - rewrite len_concat, map_map.
    rewrite <- sumZ_zip by (rewrite !length_take; lia).
    apply sumZ_pointwise.
    + rewrite length_zip_with, length_map, !length_take.
      assert ((C <= length (columnBuffersArray buffers))%nat); [|lia].
      apply lookup_all_length. intros c Hc.
      destruct (Hplaced c Hc) as (? & cb & ? & _ & -> & _). eauto.
    + intros c x y Hx Hy. apply lookup_zip_with_Some in Hx as (e & v & -> & He & Hv).
      rewrite list_lookup_fmap in Hy.
      destruct (Nat.lt_ge_cases c C) as [Hc|Hc];
        [|rewrite lookup_take_ge in He by exact Hc; discriminate].
      rewrite lookup_take_lt in He by exact Hc.
      rewrite lookup_take_lt in Hv by exact Hc.
      rewrite lookup_take_lt in Hy by exact Hc.
      destruct (Hcolumns c ltac:(lia))
        as (n0 & e0 & v0 & s0 & Hn0 & Hsum0 & _ & _ & He0 & Hv0).
      rewrite He0 in He. rewrite Hv0 in Hv. injection He as <-. injection Hv as <-.
      destruct (Hplaced c Hc) as (nodes0 & cb & nodes' & _ & Hcb & Hafter & Hblocks).
      rewrite Hcb in Hy. cbn in Hy. injection Hy as <-.
      cbn [blockSkipNodeArray set_nodes] in Hn0. rewrite Hafter in Hn0.
      injection Hn0 as <-.
      apply (column_lengths _ _ _ _ _ _ Hblocks Hsum0).
Qed.
End StripeLengthProperties.

Section FlushProperties.
Context {host : Host} {collab : Collaborators}.
Hypothesis Hhost : host_ok.
Hypothesis Hcollab : collaborators_ok.

(** [FlushStripe]: the image of the stripe is appended to the data fork,
    the metadata report the lengths of its three sections modulo [2 ^ 64],
    and the offset moves on by them. *)
Lemma FlushStripe_spec ws stripeMetadata ws' :
  buffers_ok ws ->
  u32 (blockRowCount (tableFooter ws)) + 7 < 2 ^ 32 ->
  FlushStripe ws = Ok (stripeMetadata, ws') ->
  exists image ws2,
    PrepareStripe ws = Ok image
    /\ image_ok image
    /\ buffers_ok (si_writeState image)
    /\ same_session ws (si_writeState image)
    /\ appended (si_writeState image) ws2 (stripe_bytes image)
    /\ (Z.to_nat (u32 (natts (tupleDescriptor ws)))
        <= Z.to_nat (skip_columnCount (si_stripeSkipList image)))%nat
    /\ stripeMetadata
       = {| fileOffset := currentFileOffset ws;
            skipListLength := u64 (len (skip_region image));
            dataLength := u64 (len (data_region image));
            footerLength := u64 (len (si_stripeFooterBuffer image)) |}
    /\ ws'
       = set_footer ws2 (tableFooter ws2)
           (u64 (u64 (u64 (currentFileOffset ws
                           + u64 (len (skip_region image)))
                      + u64 (len (data_region image)))
                 + len (si_stripeFooterBuffer image))).
Proof.
  intros Hok Hwrap H. unfold FlushStripe in H.
  inv_bind H as image Hprep. inv_bind H as ws2 Hwrite.
  inv_bind H as [skip data] Hsum. injection H as <- <-.
  destruct (PrepareStripe_image_ok Hcollab _ _ Hok Hwrap Hprep)
    as (Himage & Hok1 & Hsame).
  pose proof (WriteStripe_appended Hhost _ _ Himage Hwrite) as Happ.
  assert (Htd : tupleDescriptor ws2 = tupleDescriptor (si_writeState image))
    by apply Happ.
  assert (Hcfo : currentFileOffset ws2 = currentFileOffset ws).
  { destruct Happ as (_ & _ & _ & _ & _ & -> & _).
    destruct Hsame as (_ & _ & _ & _ & _ & _ & -> & _). reflexivity. }
  rewrite Htd in Hsum.
  destruct (stripe_lengths _ _ _ _ Hprep Hsum) as (-> & -> & Hcount).
  assert (Htd1 : tupleDescriptor (si_writeState image) = tupleDescriptor ws)
    by apply Hsame.
  rewrite Htd1 in Hcount.
  exists image, ws2. rewrite Hcfo. auto 10.
Qed.
End FlushProperties.

(** ** The offsets of a session *)

Section OffsetProperties.
Context {host : Host} {collab : Collaborators}.
Hypothesis Hhost : host_ok.
Hypothesis Hcollab : collaborators_ok.

(** A data fork holds less than [2 ^ 47] bytes. *)
Lemma fork_bytes_bound fork :
  fork_ok fork -> len (fork_bytes fork) < 2 ^ 47.
Proof.
  intros [Hpages Hlen].
  assert (Hsum : len (fork_bytes fork)
                 <= len fork * (BLCKSZ - SizeOfPageHeaderData)).
  { clear Hlen. induction Hpages as [|p fork Hp _ IH].
    - reflexivity.
    - change (fork_bytes (p :: fork)) with (payload p ++ fork_bytes fork).
      rewrite len_app, (len_payload p Hp).
      destruct Hp as (? & ? & ? & _).
      unfold len in *. cbn [length]. lia. }
  destruct Hhost as (? & ? & ?). unfold P_NEW, InvalidBlockNumber in Hlen.
  pose proof (len_nonneg fork). nia.
Qed.

(** A stripe of a table with a column and a block has a byte in its data
    region. *)
Lemma data_region_pos ws image :
  PrepareStripe ws = Ok image ->
  image_ok image ->
  1 <= u32 (natts (tupleDescriptor ws)) ->
  (forall skipList, stripeSkipList ws = Some skipList -> 1 <= blockCount skipList) ->
  1 <= len (data_region image).
Proof.
  intros Hprep (_ & Hbuffers & _) Hcolumns Hblocks.
  destruct (PrepareStripe_inv _ _ Hprep)
    as (b0 & sl & ws1 & buffers & nodes & arr & sf
        & Hb0 & Hsl & HR & Hlast & Hb & Hplace & Harr & Hsf & ->).
  assert (Htd : tupleDescriptor ws1 = tupleDescriptor ws).
  { destruct (0 <? _).
    - apply SerializeBlockData_frame in Hlast as [Hs _]. apply Hs.
    - now subst ws1. }
  specialize (Hblocks sl Hsl).
  unfold data_region.
  cbn [si_writeState si_stripeBuffers si_stripeSkipList] in *.
  change (tupleDescriptor (set_stripe ws1 (Some buffers)
                             (Some (set_nodes sl nodes))))
    with (tupleDescriptor ws1).
  change (blockCount (set_nodes sl nodes)) with (blockCount sl).
  rewrite Htd.
  apply PlaceColumn_columns in Hplace. destruct Hplace as (_ & _ & Hplaced).
  destruct (Hplaced 0%nat ltac:(lia))
    as (nodes0 & cb & nodes' & _ & Hcb & _ & (_ & _ & Hplaced0)).
  destruct (Hplaced0 0%nat ltac:(lia))
    as (bb & e & v & node & eo & vo & Hbb & He & _).
  unfold stripe_buffers_ok in Hbuffers.
  pose proof (Forall_lookup_1 _ _ 0%nat cb Hbuffers Hcb) as Hcolumn.
  pose proof (Forall_lookup_1 _ _ 0%nat bb Hcolumn Hbb) as (_ & _ & Hone).
  specialize (Hone e He).
  destruct (columnBuffersArray buffers) as [|cb' cbs]; [discriminate|].
  injection Hcb as ->.
  destruct (Z.to_nat (u32 (natts (tupleDescriptor ws)))) as [|C] eqn:HC; [lia|].
  cbn [take map concat]. rewrite len_app. unfold column_bytes.
  destruct (blockBuffersArray cb) as [|bb' bbs]; [discriminate|].
  injection Hbb as ->.
  destruct (Z.to_nat (blockCount sl)) as [|B] eqn:HB; [lia|].
  cbn [take map concat]. rewrite !len_app, He.
  change (buffer_bytes (Some e)) with e.
  repeat match goal with |- context [len ?l] =>
    lazymatch goal with
    | _ : 0 <= len l |- _ => fail
    | _ => pose proof (len_nonneg l)
    end end.
  lia.
Qed.
End OffsetProperties.

Section FlushOffsetProperties.
Context {host : Host} {collab : Collaborators}.
Hypothesis Hhost : host_ok.
Hypothesis Hcollab : collaborators_ok.

(** A flush in a session: the metadata start at the offset of the writer,
    the three lengths are the lengths of the three regions, and the offset
    moves on by their sum, as far as the data fork grows. *)
Lemma FlushStripe_offsets ws stripeMetadata ws' :
  session_ok ws ->
  FlushStripe ws = Ok (stripeMetadata, ws') ->
  exists image,
    PrepareStripe ws = Ok image
    /\ fileOffset stripeMetadata = currentFileOffset ws
    /\ skipListLength stripeMetadata = len (skip_region image)
    /\ dataLength stripeMetadata = len (data_region image)
    /\ footerLength stripeMetadata = len (si_stripeFooterBuffer image)
    /\ 1 <= dataLength stripeMetadata
    /\ currentFileOffset ws' = stripe_end stripeMetadata
    /\ writer_ok ws'
    /\ len (fork_bytes (dataFork (relation ws')))
       = len (fork_bytes (dataFork (relation ws))) + len (stripe_bytes image)
    /\ tableFooter ws' = tableFooter ws
    /\ tupleDescriptor ws' = tupleDescriptor ws.
Proof.
  intros (Hwriter & Hok & Hwrap & Hcolumns & Hopen & Hoffset) Hflush.
  destruct (FlushStripe_spec Hhost Hcollab _ _ _ Hok Hwrap Hflush)
    as (image & ws2 & Hprep & Himage & Hok1 & Hsame & Happ & _ & -> & ->).
  exists image. split; [exact Hprep|].
  assert (Hpos : 1 <= len (data_region image)).
  { apply (data_region_pos ws image Hprep Himage Hcolumns).
    intros sl Hsl. destruct (PrepareStripe_inv _ _ Hprep) as (b0 & _ & _ & _ & _ & _ & _ & Hb0 & _).
    destruct (Hopen b0 Hb0) as (sl' & Hsl' & Hone). congruence. }
  destruct Hsame as (Htf & _ & _ & _ & Htd & _ & Hcfo & Hactive & Hrel).
  assert (Hwriter1 : writer_ok (si_writeState image)).
  { unfold writer_ok in *. rewrite Hrel, Hactive. exact Hwriter. }
  destruct Happ as (Htf2 & _ & _ & _ & Htd2 & Hcfo2 & _ & _ & _ & _ & _ & _ & Hfork).
  destruct (Hfork Hwriter1) as (Hwriter2 & Hlen & _).
  rewrite Hrel in Hlen.
  pose proof (fork_bytes_bound Hhost _ (proj1 Hwriter2)) as Hbound.
  destruct Hoffset as (_ & _ & Hcfo0 & Hahead).
  pose proof (len_nonneg (skip_region image)).
  pose proof (len_nonneg (si_stripeFooterBuffer image)).
  pose proof (len_nonneg (fork_bytes (dataFork (relation ws)))).
  assert (Hbytes : len (stripe_bytes image)
                   = len (skip_region image) + len (data_region image)
                     + len (si_stripeFooterBuffer image)).
  { unfold stripe_bytes. rewrite !len_app. lia. }
  cbn [fileOffset skipListLength dataLength footerLength currentFileOffset
       set_footer tableFooter tupleDescriptor relation dataFork].
  unfold stripe_end.
  cbn [fileOffset skipListLength dataLength footerLength].
  rewrite !(u64_small (len (skip_region image))) by lia.
  rewrite !(u64_small (len (data_region image))) by lia.
  rewrite !(u64_small (len (si_stripeFooterBuffer image))) by lia.
  rewrite (u64_small (currentFileOffset ws + len (skip_region image))) by lia.
  rewrite (u64_small (currentFileOffset ws + len (skip_region image)
                      + len (data_region image))) by lia.
  rewrite u64_small by lia.
  split; [reflexivity|]. split; [reflexivity|]. split; [reflexivity|].
  split; [reflexivity|]. split; [exact Hpos|]. split; [reflexivity|].
  split; [exact Hwriter2|]. split; [exact Hlen|].
  split; [congruence|congruence].
Qed.
End FlushOffsetProperties.

Lemma chained_snoc stripes stripe :
  chained stripes ->
  (forall a, last stripes = Some a ->
     fileOffset a < fileOffset stripe /\ fileOffset stripe = stripe_end a) ->
  chained (stripes ++ [stripe]).
Proof.
  intros Hchain Hlast n a b Ha Hb.
  destruct (Nat.lt_ge_cases (S n) (length stripes)) as [Hlt|Hge].
  - rewrite lookup_app_l in Ha, Hb by lia. exact (Hchain n a b Ha Hb).
  - rewrite lookup_app_r in Hb by lia.
    apply list_lookup_singleton_Some in Hb as [Hn <-].
    rewrite lookup_app_l in Ha by lia.
    apply Hlast. rewrite last_lookup. rewrite <- Ha. f_equal. lia.
Qed.

Section SessionProperties.
Context {host : Host} {collab : Collaborators}.
Hypothesis Hhost : host_ok.
Hypothesis Hcollab : collaborators_ok.

(** The offsets after a flush, once the metadata are appended to the
    footer. *)
Lemma flushed_offset_ok ws stripeMetadata ws' ws'' :
  session_ok ws ->
  FlushStripe ws = Ok (stripeMetadata, ws') ->
  tableFooter ws'' = AppendStripeMetadata (tableFooter ws') stripeMetadata ->
  currentFileOffset ws'' = currentFileOffset ws' ->
  relation ws'' = relation ws' ->
  offset_ok ws''.
Proof.
  intros Hsession Hflush Htf Hcfo Hrel.
  destruct (FlushStripe_offsets Hhost Hcollab _ _ _ Hsession Hflush)
    as (image & _ & Hstart & Hskip & Hdata & Hfooter & Hpos & Hend & _ & Hlen
        & Htf' & _).
  destruct Hsession as (_ & _ & _ & _ & _ & Hchain & Hlast & Hcfo0 & Hahead).
  pose proof (len_nonneg (skip_region image)).
  pose proof (len_nonneg (si_stripeFooterBuffer image)).
  assert (Hbytes : len (stripe_bytes image)
                   = len (skip_region image) + len (data_region image)
                     + len (si_stripeFooterBuffer image)).
  { unfold stripe_bytes. rewrite !len_app. lia. }
  unfold offset_ok. rewrite Htf, Hcfo, Hrel, Htf'.
  cbn [stripeMetadataList AppendStripeMetadata].
  split; [|split; [|split]].
  - apply chained_snoc; [exact Hchain|]. intros a Ha.
    destruct (Hlast a Ha) as [Hlt Heq]. rewrite Hstart. auto.
  - intros stripe Hstripe. rewrite last_snoc in Hstripe.
    injection Hstripe as <-. split; [|exact Hend].
    rewrite Hend. unfold stripe_end. lia.
  - rewrite Hend. unfold stripe_end. lia.
  - rewrite Hend, Hlen. unfold stripe_end. lia.
Qed.

Lemma buffers_ok_reset ws :
  Forall (fun blockData => buffer_ok (data_valueBuffer blockData))
    (blockDataArray (MemoryContextReset ws)).
Proof.
  cbn. apply Forall_map, Forall_forall. intros blockData _ bytes Hbytes.
  discriminate.
Qed.

(** A staged row keeps the session in order. *)
Lemma StageRow_session ws columnValues columnNulls ws' :
  session_ok ws ->
  rows_bounded ws (2 ^ 32 - 1) ->
  StageRow ws columnValues columnNulls = Ok ws' ->
  session_ok ws'.
Proof.
  intros (Hwriter & Hok & Hwrap & Hcolumns & Hopen & Hoffset) Hrows Hstage.
  destruct (StageRow_buffers_ok Hcollab _ _ _ _ Hok Hwrap Hrows Hstage)
    as (Hok1 & b1 & sl1 & Hb1 & Hsl1 & Hone).
  apply StageRow_spec in Hstage
    as (_ & _ & _ & _ & _ & _ & _ & _ & _ & _ & _ & Hsame).
  destruct Hsame as (Htf & _ & _ & _ & Htd & _ & Hcfo & Hactive & Hrel).
  unfold session_ok, writer_ok, open_ok, offset_ok in *.
  rewrite Htf, Htd, Hcfo, Hactive, Hrel.
  split; [exact Hwriter|]. split; [exact Hok1|]. split; [exact Hwrap|].
  split; [exact Hcolumns|]. split; [|exact Hoffset].
  intros _ _. exists sl1. auto.
Qed.

Lemma rows_bounded_le ws bound bound' :
  rows_bounded ws bound -> bound <= bound' -> rows_bounded ws bound'.
Proof. intros H Hle buffers Hb. specialize (H buffers Hb). lia. Qed.

(** [CStoreWriteRow] keeps the session in order. *)
Lemma CStoreWriteRow_session ws columnValues columnNulls ws' :
  between_rows ws ->
  CStoreWriteRow ws columnValues columnNulls = Ok ws' ->
  between_rows ws'.
Proof.
  intros (Hsession & Hrows & Hmax) Hwrite. unfold CStoreWriteRow in Hwrite.
  inv_bind Hwrite as ws1 Hstage. inv_bind Hwrite as buffers Hbuffers.
  assert (Hrows' : rows_bounded ws (2 ^ 32 - 1))
    by (apply (rows_bounded_le _ _ _ Hrows); lia).
  pose proof (StageRow_session _ _ _ _ Hsession Hrows' Hstage) as Hsession1.
  destruct (StageRow_rowCount _ _ _ _ _ Hrows' ltac:(lia) Hstage)
    as (b1 & b' & sl' & _ & _ & Hrange & Hb' & Hrc & _).
  rewrite Hb' in Hbuffers. injection Hbuffers as <-.
  apply StageRow_spec in Hstage
    as (_ & _ & _ & _ & _ & _ & _ & _ & _ & _ & _ & Hsame).
  destruct Hsame as (Htf & _ & Hmax1 & _ & Htd & _ & Hcfo & Hactive & Hrel).
  destruct (Z.leb_spec (stripeMaxRowCount ws1) (rowCount b')) as [Hfull|Hroom].
  - inv_bind Hwrite as [md ws2] Hflush. injection Hwrite as <-.
    pose proof Hsession as (_ & _ & Hwrap & Hcolumns & _).
    pose proof (flushed_offset_ok ws1 md ws2
                  (set_footer (set_stripe (MemoryContextReset ws2) None None)
                     (AppendStripeMetadata (tableFooter ws2) md)
                     (currentFileOffset ws2))
                  Hsession1 Hflush eq_refl eq_refl eq_refl) as Hoffset'.
    destruct (FlushStripe_offsets Hhost Hcollab _ _ _ Hsession1 Hflush)
      as (image & _ & _ & _ & _ & _ & _ & _ & Hwriter2 & _ & Htf2 & Htd2).
    assert (Hmax2 : stripeMaxRowCount ws2 = stripeMaxRowCount ws).
    { destruct (FlushStripe_spec Hhost Hcollab _ _ _ (proj1 (proj2 Hsession1))
                  (proj1 (proj2 (proj2 Hsession1))) Hflush)
        as (image' & ws3 & _ & _ & _ & Hsame' & Happ & _ & _ & ->).
      cbn [stripeMaxRowCount set_footer].
      destruct Happ as (_ & _ & -> & _). 
      destruct Hsame' as (_ & _ & -> & _). exact Hmax1. }
    split; [|split].
    + split; [exact Hwriter2|]. split.
      { split; [apply buffers_ok_reset|]. intros b Hb. discriminate. }
      split.
      { cbn [tableFooter set_footer AppendStripeMetadata blockRowCount].
        rewrite Htf2, Htf. exact Hwrap. }
      split.
      { change (1 <= u32 (natts (tupleDescriptor ws2))).
        rewrite Htd2, Htd. exact Hcolumns. }
      split; [|exact Hoffset']. intros b Hb. discriminate.
    + intros b Hb. discriminate.
    + change (stripeMaxRowCount ws2 < 2 ^ 32). rewrite Hmax2. exact Hmax.
  - injection Hwrite as <-. split; [exact Hsession1|]. split.
    + intros b Hb. rewrite Hb' in Hb. injection Hb as <-. lia.
    + rewrite Hmax1. exact Hmax.
Qed.

Lemma WriteRows_session rows ws ws' :
  between_rows ws -> WriteRows ws rows = Ok ws' -> between_rows ws'.
Proof.
  revert ws. induction rows as [|[columnValues columnNulls] rows IH];
    intros ws Hsession Hrun.
  - now injection Hrun as <-.
  - cbn [WriteRows] in Hrun. inv_bind Hrun as ws1 Hwrite.
    apply (IH ws1); [|exact Hrun].
    exact (CStoreWriteRow_session _ _ _ _ Hsession Hwrite).
Qed.

(** The stripes of the footer are chained after [CStoreEndWrite], too. *)
Lemma CStoreEndWrite_chained ws ws' :
  session_ok ws -> CStoreEndWrite ws = Ok ws' ->
  chained (stripeMetadataList (tableFooter ws')).
Proof.
  intros Hsession Hend. unfold CStoreEndWrite in Hend.
  inv_bind Hend as ws1 Hflush. inv_bind Hend as written Hwritten.
  injection Hend as <-. cbn [tableFooter].
  unfold FlushOpenStripe in Hflush.
  destruct (stripeBuffers ws) as [buffers|].
  - inv_bind Hflush as [md ws2] Hflush2. injection Hflush as <-.
    apply (flushed_offset_ok ws md ws2
             (set_footer (MemoryContextReset ws2)
                (AppendStripeMetadata (tableFooter ws2) md)
                (currentFileOffset ws2))
             Hsession Hflush2 eq_refl eq_refl eq_refl).
  - injection Hflush as <-. apply Hsession.
Qed.
End SessionProperties.

Section BeginProperties.
Context {host : Host} {collab : Collaborators}.

(** [CStoreBeginWrite] starts a session in order: on a new table, and on a
    table whose footer is in order. *)
Lemma CStoreBeginWrite_session rel kind stripeRows blockRows logging
  tupleDescriptor ws :
  fork_ok (dataFork rel) ->
  (forall footer, CStoreReadFooter rel = Some footer -> footer_ok footer) ->
  1 <= u32 (natts tupleDescriptor) ->
  CStoreBeginWrite rel kind stripeRows blockRows logging tupleDescriptor
    = Ok ws ->
  u32 (blockRowCount (tableFooter ws)) + 7 < 2 ^ 32 ->
  stripeRows < 2 ^ 32 ->
  between_rows ws.
Proof.
  intros Hfork Hfooter Hcolumns Hbegin Hwrap Hmax. unfold CStoreBeginWrite in Hbegin.
  inv_bind Hbegin as u Hzero. inv_bind Hbegin as functions Hfunctions.
  injection Hbegin as <-. cbn [tableFooter] in Hwrap.
  split; [|split; [intros b Hb; discriminate|exact Hmax]].
  split; [|split; [|split; [|split; [|split]]]].
  - split; [exact Hfork|]. cbn [activeBlockNumber]. apply u32_range.
  - split.
    + cbn [blockDataArray]. apply Forall_replicate. intros bytes Hbytes.
      discriminate.
    + intros buffers Hbuffers. discriminate.
  - exact Hwrap.
  - exact Hcolumns.
  - intros buffers Hbuffers. discriminate.
  - unfold offset_ok.
    cbn [tableFooter currentFileOffset relation].
    pose proof (len_nonneg (fork_bytes (dataFork rel))) as Hused.
    destruct (CStoreReadFooter rel) as [footer|] eqn:Hread.
    + destruct (Hfooter footer eq_refl) as [Hchain Hlast].
      split; [exact Hchain|].
      destruct (last (stripeMetadataList footer)) as [stripe|] eqn:Hstripe.
      * destruct (Hlast stripe eq_refl) as (H1 & H2 & H3 & H4 & H5 & H6).
        unfold stripe_end in *. rewrite Z.add_0_l.
        rewrite (u64_small (skipListLength stripe)) by lia.
        rewrite (u64_small (skipListLength stripe + dataLength stripe)) by lia.
        rewrite (u64_small (skipListLength stripe + dataLength stripe
                            + footerLength stripe)) by lia.
        rewrite u64_small by lia.
        split; [|lia]. intros a Ha. injection Ha as <-. lia.
      * split; [discriminate|lia].
    + cbn [stripeMetadataList last].
      split; [intros n a b Ha; discriminate|]. split; [discriminate|lia].
Qed.
End BeginProperties.

Lemma plain_codec_ok existing postscript :
  @collaborators_ok (plain_codec existing postscript).
Proof.
  unfold collaborators_ok; cbn. split; [|split].
  - intros nodes blockCount _ _. unfold len. rewrite length_take.
    unfold MaxAllocSize. lia.
  - intros footer. unfold len. rewrite length_take. unfold MaxAllocSize. lia.
  - discriminate.
Qed.

Section OffsetClaims.
Context {host : Host} {collab : Collaborators}.
Hypothesis Hhost : host_ok.
Hypothesis Hcollab : collaborators_ok.

(** C1, as the code has it: for a table with at least one column. In a
    session that [CStoreBeginWrite] starts on a new table or on a footer
    whose stripes are chained, the stripes of the footer stay chained after
    any rows and after [CStoreEndWrite]: every stripe starts after the
    stripe before it, at the file offset of that stripe plus its skip-list,
    data and footer lengths. And wherever the session flushes,
    [FlushStripe] returns metadata whose file offset is the offset of the
    writer before the flush, and moves the offset of the writer on by the
    sum of the three lengths it returns, which is not zero. *)
Theorem stripe_offsets_chained rel kind stripeRows blockRows logging
  tupleDescriptor ws0 rows ws :
  fork_ok (dataFork rel) ->
  (forall footer, CStoreReadFooter rel = Some footer -> footer_ok footer) ->
  1 <= u32 (natts tupleDescriptor) ->
  CStoreBeginWrite rel kind stripeRows blockRows logging tupleDescriptor
    = Ok ws0 ->
  u32 (blockRowCount (tableFooter ws0)) + 7 < 2 ^ 32 ->
  stripeRows < 2 ^ 32 ->
  WriteRows ws0 rows = Ok ws ->
  chained (stripeMetadataList (tableFooter ws))
  /\ (forall ws', CStoreEndWrite ws = Ok ws' ->
        chained (stripeMetadataList (tableFooter ws')))
  /\ (forall ws1 stripeMetadata ws2,
        flush_point ws ws1 ->
        FlushStripe ws1 = Ok (stripeMetadata, ws2) ->
        fileOffset stripeMetadata = currentFileOffset ws1
        /\ currentFileOffset ws2
           = currentFileOffset ws1 + skipListLength stripeMetadata
             + dataLength stripeMetadata + footerLength stripeMetadata
        /\ fileOffset stripeMetadata < currentFileOffset ws2).
Proof.
  intros Hfork Hfooter Hcolumns Hbegin Hwrap Hmax Hrows.
  pose proof (CStoreBeginWrite_session _ _ _ _ _ _ _ Hfork Hfooter Hcolumns
                Hbegin Hwrap Hmax) as Hsession0.
  pose proof (WriteRows_session Hhost Hcollab _ _ _ Hsession0 Hrows)
    as (Hsession & Hbound & Hmax').
  split; [apply Hsession|]. split.
  - intros ws' Hend. exact (CStoreEndWrite_chained Hhost Hcollab _ _ Hsession Hend).
  - intros ws1 md ws2 Hpoint Hflush.
    assert (Hsession1 : session_ok ws1).
    { destruct Hpoint as [->|(values & nulls & Hstage)]; [exact Hsession|].
      assert (Hbound' : rows_bounded ws (2 ^ 32 - 1))
        by (apply (rows_bounded_le _ _ _ Hbound); lia).
      exact (StageRow_session Hcollab _ _ _ _ Hsession Hbound' Hstage). }
    destruct (FlushStripe_offsets Hhost Hcollab _ _ _ Hsession1 Hflush)
      as (image & _ & Hstart & Hskip & Hdata & Hfoot & Hpos & Hend & _).
    pose proof (len_nonneg (skip_region image)).
    pose proof (len_nonneg (si_stripeFooterBuffer image)).
    unfold stripe_end in Hend. rewrite Hstart in Hend.
    split; [exact Hstart|]. split; [exact Hend|]. lia.
Qed.
End OffsetClaims.

Lemma stripe_offsets_chained_witness :
  match fresh_writer 2 2 with
  | Ok ws0 =>
      match @WriteRows small_pages (plain_codec None 0) ws0
              (int4_rows [10; 20; 30; 40; 50]) with
      | Ok ws =>
          chained (stripeMetadataList (tableFooter ws))
          /\ length (stripeMetadataList (tableFooter ws)) = 2%nat
      | Err _ => False
      end
  | Err _ => False
  end.
Proof.
  destruct (fresh_writer 2 2) as [ws0|e] eqn:Hbegin;
    [|vm_compute in Hbegin; discriminate].
  destruct (@WriteRows small_pages (plain_codec None 0) ws0
              (int4_rows [10; 20; 30; 40; 50])) as [ws|e] eqn:Hrows.
  - split;
      [|vm_compute in Hbegin; injection Hbegin as <-;
        vm_compute in Hrows; injection Hrows as <-; reflexivity].
    refine (proj1 (@stripe_offsets_chained small_pages (plain_codec None 0)
                     small_pages_ok (plain_codec_ok None 0)
                     empty_relation COMPRESSION_NONE 2 2 false int4_table ws0
                     (int4_rows [10; 20; 30; 40; 50]) ws _ _ _ _ _ _ _)).
    + split; [constructor|vm_compute; discriminate].
    + discriminate.
    + vm_compute. discriminate.
    + exact Hbegin.
    + vm_compute in Hbegin. injection Hbegin as <-. vm_compute. reflexivity.
    + reflexivity.
    + exact Hrows.
  - vm_compute in Hbegin. injection Hbegin as <-.
    vm_compute in Hrows. discriminate.
Defined.

(** C1, as the specification has it, fails on a table without columns:
    [CStoreBeginWrite] accepts it, a stripe of it has no skip list, no data
    and an empty footer, so [FlushStripe] moves the file offset on by
    nothing. Two rows in stripes of one row leave two stripes at the same
    file offset: each starts where the one before ends, but not after
    it. *)
Lemma stripe_offsets_not_strict :
  match @CStoreBeginWrite small_pages (plain_codec None 0) empty_relation
          COMPRESSION_NONE 1 2 false no_columns with
  | Ok ws0 =>
      match @WriteRows small_pages (plain_codec None 0) ws0
              [([], []); ([], [])] with
      | Ok ws =>
          exists first second,
            stripeMetadataList (tableFooter ws) = [first; second]
            /\ fileOffset second = fileOffset first
            /\ fileOffset second = stripe_end first
            /\ ~ chained (stripeMetadataList (tableFooter ws))
      | Err _ => False
      end
  | Err _ => False
  end.
Proof.
  assert (Hfacts :
            match @CStoreBeginWrite small_pages (plain_codec None 0)
                    empty_relation COMPRESSION_NONE 1 2 false no_columns with
            | Ok ws0 =>
                match @WriteRows small_pages (plain_codec None 0) ws0
                        [([], []); ([], [])] with
                | Ok ws =>
                    stripeMetadataList (tableFooter ws)
                    = [ {| fileOffset := 0; skipListLength := 0;
                           dataLength := 0; footerLength := 0 |};
                        {| fileOffset := 0; skipListLength := 0;
                           dataLength := 0; footerLength := 0 |} ]
                | Err _ => False
                end
            | Err _ => False
            end).
  { vm_compute. reflexivity. }
  destruct (@CStoreBeginWrite small_pages (plain_codec None 0) empty_relation
              COMPRESSION_NONE 1 2 false no_columns) as [ws0|e];
    [|exact Hfacts].
  destruct (@WriteRows small_pages (plain_codec None 0) ws0
              [([], []); ([], [])]) as [ws|e]; [|exact Hfacts].
  rewrite Hfacts. eexists. eexists. split; [reflexivity|].
  split; [reflexivity|]. split; [reflexivity|].
  intros Hchain.
  destruct (Hchain 0%nat _ _ eq_refl eq_refl) as [Hbefore _].
  cbn in Hbefore. lia.
Qed.

(** ** The bytes of a stripe *)

Section StripeClaims.
Context {host : Host} {collab : Collaborators}.
Hypothesis Hhost : host_ok.
Hypothesis Hcollab : collaborators_ok.

(** A flush at the end of the data fork appends the image of the stripe. *)
Lemma FlushStripe_bytes ws stripeMetadata ws' :
  buffers_ok ws ->
  u32 (blockRowCount (tableFooter ws)) + 7 < 2 ^ 32 ->
  writer_ok ws ->
  at_end (dataFork (relation ws)) (activeBlockNumber ws) ->
  FlushStripe ws = Ok (stripeMetadata, ws') ->
  exists image,
    PrepareStripe ws = Ok image
    /\ fork_bytes (dataFork (relation ws'))
       = fork_bytes (dataFork (relation ws)) ++ stripe_bytes image
    /\ writer_ok ws'
    /\ at_end (dataFork (relation ws')) (activeBlockNumber ws')
    /\ (Z.to_nat (u32 (natts (tupleDescriptor ws)))
        <= Z.to_nat (skip_columnCount (si_stripeSkipList image)))%nat.
Proof.
  intros Hok Hwrap Hwriter Hend Hflush.
  destruct (FlushStripe_spec Hhost Hcollab _ _ _ Hok Hwrap Hflush)
    as (image & ws2 & Hprep & Himage & _ & Hsame & Happ & Hcount & _ & ->).
  exists image. split; [exact Hprep|].
  destruct Hsame as (_ & _ & _ & _ & _ & _ & _ & Hactive & Hrel).
  destruct Happ as (_ & _ & _ & _ & _ & _ & _ & _ & _ & _ & _ & _ & Hfork).
  unfold writer_ok in Hfork at 1. rewrite Hrel, Hactive in Hfork.
  destruct (Hfork Hwriter) as (Hwriter2 & _ & Hbytes).
  destruct (Hbytes Hend) as [Hstream Hend2].
  split; [exact Hstream|]. split; [exact Hwriter2|]. split; [exact Hend2|].
  exact Hcount.
Qed.

(** The buffers that make up the image of a stripe: for every column of the
    table a serialized skip list, and for every block of the stripe an
    exists buffer and a value buffer. *)
Lemma PrepareStripe_pieces ws image :
  PrepareStripe ws = Ok image ->
  si_stripeFooterBuffer image = SerializeStripeFooter (si_stripeFooter image)
  /\ tupleDescriptor (si_writeState image) = tupleDescriptor ws
  /\ (forall c,
        (c < Z.to_nat (u32 (natts (tupleDescriptor ws))))%nat ->
        (c < Z.to_nat (skip_columnCount (si_stripeSkipList image)))%nat ->
        exists nodes attributeForm,
          blockSkipNodeArray (si_stripeSkipList image) !! c = Some nodes
          /\ attrs (tupleDescriptor ws) !! c = Some attributeForm
          /\ si_skipListBufferArray image !! c
             = Some (SerializeColumnSkipList nodes
                       (blockCount (si_stripeSkipList image))
                       (attbyval attributeForm) (attlen attributeForm)))
  /\ (forall c,
        (c < Z.to_nat (u32 (natts (tupleDescriptor ws))))%nat ->
        exists columnBuffers,
          columnBuffersArray (si_stripeBuffers image) !! c = Some columnBuffers
          /\ forall b,
               (b < Z.to_nat (blockCount (si_stripeSkipList image)))%nat ->
               exists blockBuffers existsBytes valueBytes,
                 blockBuffersArray columnBuffers !! b = Some blockBuffers
                 /\ existsBuffer blockBuffers = Some existsBytes
                 /\ valueBuffer blockBuffers = Some valueBytes).
Proof.
  intros Hprep.
  destruct (PrepareStripe_inv _ _ Hprep)
    as (b0 & sl & ws1 & buffers & nodes & arr & sf
        & Hb0 & Hsl & HR & Hlast & Hb & Hplace & Harr & Hsf & ->).
  assert (Htd : tupleDescriptor ws1 = tupleDescriptor ws).
  { destruct (0 <? _).
    - apply SerializeBlockData_frame in Hlast as [Hs _]. apply Hs.
    - now subst ws1. }
  cbn [si_stripeFooterBuffer si_stripeFooter si_stripeSkipList
       si_skipListBufferArray si_stripeBuffers si_writeState].
  split; [reflexivity|]. split; [exact Htd|]. split.
  - intros c _ Hc. rewrite Htd in Harr.
    exact (CreateSkipListBufferArray_spec _ _ _ Harr c Hc).
  - intros c Hc. apply PlaceColumn_columns in Hplace.
    destruct Hplace as (_ & _ & Hplaced).
    destruct (Hplaced c Hc) as (nodes0 & cb & nodes' & _ & Hcb & _ & Hblocks).
    exists cb. split; [exact Hcb|]. intros b Hb'.
    destruct Hblocks as (_ & _ & Hdone).
    destruct (Hdone b Hb') as (bb & e & v & _ & _ & _ & Hbb & He & Hv & _).
    exists bb, e, v. auto.
Qed.
End StripeClaims.

Section StripeOrder.
Context {host : Host} {collab : Collaborators}.
Hypothesis Hhost : host_ok.
Hypothesis Hcollab : collaborators_ok.

Lemma StageRows_session rows ws ws' n :
  session_ok ws -> rows_bounded ws (n + 1) -> 0 <= n ->
  n + len rows < 2 ^ 32 ->
  StageRows ws rows = Ok ws' ->
  session_ok ws' /\ rows_bounded ws' (n + len rows + 1).
Proof.
  revert ws n. induction rows as [|[columnValues columnNulls] rows IH];
    intros ws n Hsession Hrows Hn Hbound Hrun.
  - injection Hrun as <-. change (len []) with 0. rewrite Z.add_0_r. auto.
  - cbn [StageRows] in Hrun. inv_bind Hrun as ws1 Hstage.
    unfold len in *. cbn [length] in *.
    replace (n + Z.of_nat (S (length rows)) + 1)
      with (n + 1 + Z.of_nat (length rows) + 1) by lia.
    assert (Hrows' : rows_bounded ws (2 ^ 32 - 1))
      by (apply (rows_bounded_le _ _ _ Hrows); lia).
    apply (IH ws1); [| |lia|lia|exact Hrun].
    + exact (StageRow_session Hcollab _ _ _ _ Hsession Hrows' Hstage).
    + destruct (StageRow_rowCount _ _ _ _ (n + 1) Hrows ltac:(lia) Hstage)
        as (b1 & b' & sl' & _ & _ & Hrange & Hb' & Hrc & _).
      intros b Hb. rewrite Hb' in Hb. injection Hb as <-. lia.
Qed.

(** C3. A flush at the end of the data fork appends to the byte stream of
    the fork exactly: the serialized skip lists of the columns of the table
    in column order; then, column after column, all exists buffers of the
    column in block order followed by all value buffers of the column in
    block order; then the serialized stripe footer. Every column of the
    table and every block of the stripe has its buffers there. *)
Theorem stripe_sections_in_order ws stripeMetadata ws' :
  buffers_ok ws ->
  u32 (blockRowCount (tableFooter ws)) + 7 < 2 ^ 32 ->
  writer_ok ws ->
  at_end (dataFork (relation ws)) (activeBlockNumber ws) ->
  FlushStripe ws = Ok (stripeMetadata, ws') ->
  exists image,
    let C := Z.to_nat (u32 (natts (tupleDescriptor ws))) in
    let B := Z.to_nat (blockCount (si_stripeSkipList image)) in
    let exists_bytes := fun blockBuffers => buffer_bytes (existsBuffer blockBuffers) in
    let value_bytes := fun blockBuffers => buffer_bytes (valueBuffer blockBuffers) in
    PrepareStripe ws = Ok image
    /\ fork_bytes (dataFork (relation ws'))
       = fork_bytes (dataFork (relation ws))
         ++ concat (take C (si_skipListBufferArray image))
         ++ concat
              (map (fun columnBuffers =>
                      concat (map exists_bytes
                                (take B (blockBuffersArray columnBuffers)))
                      ++ concat (map value_bytes
                                   (take B (blockBuffersArray columnBuffers))))
                 (take C (columnBuffersArray (si_stripeBuffers image))))
         ++ SerializeStripeFooter (si_stripeFooter image)
    /\ (forall c, (c < C)%nat ->
          exists nodes attributeForm,
            blockSkipNodeArray (si_stripeSkipList image) !! c = Some nodes
            /\ attrs (tupleDescriptor ws) !! c = Some attributeForm
            /\ si_skipListBufferArray image !! c
               = Some (SerializeColumnSkipList nodes
                         (blockCount (si_stripeSkipList image))
                         (attbyval attributeForm) (attlen attributeForm)))
    /\ (forall c, (c < C)%nat ->
          exists columnBuffers,
            columnBuffersArray (si_stripeBuffers image) !! c = Some columnBuffers
            /\ forall b, (b < B)%nat ->
                 exists blockBuffers existsBytes valueBytes,
                   blockBuffersArray columnBuffers !! b = Some blockBuffers
                   /\ existsBuffer blockBuffers = Some existsBytes
                   /\ valueBuffer blockBuffers = Some valueBytes)
    /\ at_end (dataFork (relation ws')) (activeBlockNumber ws').
Proof.
  intros Hok Hwrap Hwriter Hend Hflush.
  destruct (FlushStripe_bytes Hhost Hcollab _ _ _ Hok Hwrap Hwriter Hend Hflush)
    as (image & Hprep & Hbytes & _ & Hend' & Hcount).
  destruct (PrepareStripe_pieces _ _ Hprep) as (Hfooter & Htd & Hlists & Hdata).
  exists image. cbn zeta. split; [exact Hprep|]. split.
  - rewrite Hbytes. unfold stripe_bytes, skip_region, data_region, column_bytes.
    rewrite Hfooter, Htd. reflexivity.
  - split; [|split; [exact Hdata|exact Hend']].
    intros c Hc. apply Hlists; lia.
Qed.
End StripeOrder.

(** The staged writers are in order. *)
Lemma staged_writer_session values ws :
  len values < 2 ^ 32 ->
  staged_writer values = Ok ws -> @session_ok small_pages ws.
Proof.
  intros Hlen Hstaged. unfold staged_writer in Hstaged.
  inv_bind Hstaged as ws0 Hbegin.
  assert (Hbetween : @between_rows small_pages ws0).
  { apply (@CStoreBeginWrite_session small_pages (plain_codec None 0)
             empty_relation COMPRESSION_NONE 4 2 false int4_table ws0).
    - split; [constructor|vm_compute; discriminate].
    - discriminate.
    - vm_compute. discriminate.
    - exact Hbegin.
    - vm_compute in Hbegin. injection Hbegin as <-. vm_compute. reflexivity.
    - reflexivity. }
  destruct Hbetween as (Hsession & _ & _).
  apply (@StageRows_session small_pages (plain_codec None 0)
           (plain_codec_ok None 0) _ _ _ 0 Hsession) in Hstaged.
  - apply Hstaged.
  - intros b Hb. vm_compute in Hbegin. injection Hbegin as <-. discriminate.
  - lia.
  - unfold int4_rows, len in *. rewrite length_map. lia.
Qed.

Lemma stripe_sections_in_order_witness :
  match staged_writer [10; 20; 30] with
  | Ok ws =>
      match @FlushStripe small_pages (plain_codec None 0) ws with
      | Ok (_, ws') =>
          exists image,
            @PrepareStripe (plain_codec None 0) ws = Ok image
            /\ @fork_bytes small_pages (dataFork (relation ws'))
               = concat (take 1 (si_skipListBufferArray image))
                 ++ concat
                      (map (fun columnBuffers =>
                              concat (map (fun blockBuffers =>
                                             buffer_bytes (existsBuffer blockBuffers))
                                        (take 2 (blockBuffersArray columnBuffers)))
                              ++ concat (map (fun blockBuffers =>
                                                buffer_bytes (valueBuffer blockBuffers))
                                           (take 2 (blockBuffersArray columnBuffers))))
                         (take 1 (columnBuffersArray (si_stripeBuffers image))))
                 ++ @SerializeStripeFooter (plain_codec None 0)
                      (si_stripeFooter image)
      | Err _ => False
      end
  | Err _ => False
  end.
Proof.
  assert (Hfacts :
            match staged_writer [10; 20; 30] with
            | Ok ws =>
                dataFork (relation ws) = [] /\ activeBlockNumber ws = 0
                /\ natts (tupleDescriptor ws) = 1
                /\ is_ok (@FlushStripe small_pages (plain_codec None 0) ws) = true
                /\ match @PrepareStripe (plain_codec None 0) ws with
                   | Ok image => blockCount (si_stripeSkipList image) = 2
                   | Err _ => True
                   end
            | Err _ => False
            end).
  { vm_compute. repeat split. }
  destruct (staged_writer [10; 20; 30]) as [ws|e] eqn:Hstaged; [|exact Hfacts].
  destruct Hfacts as (Hfork & Hactive & Hnatts & Hflushes & Hblocks).
  destruct (staged_writer_session [10; 20; 30] ws eq_refl Hstaged)
    as (Hwriter & Hok & Hwrap & _).
  destruct (@FlushStripe small_pages (plain_codec None 0) ws)
    as [[md ws']|e] eqn:Hflush; [|discriminate].
  destruct (@stripe_sections_in_order small_pages (plain_codec None 0)
              small_pages_ok (plain_codec_ok None 0) ws md ws'
              Hok Hwrap Hwriter)
    as (image & Hprep & Hbytes & _); [|exact Hflush|].
  - rewrite Hfork, Hactive. vm_compute. repeat split; discriminate.
  - exists image. split; [exact Hprep|].
    rewrite Hprep in Hblocks.
    rewrite Hblocks, Hfork, Hnatts in Hbytes. exact Hbytes.
Defined.

(** ** Cells, row counts and statistics of a stripe *)

Lemma SerializeSingleDatum_appends {host : Host}
  buffer datum byValue length align buffer' :
  SerializeSingleDatum buffer datum byValue length align = Ok buffer' ->
  exists bytes, buffer' = buffer ++ bytes.
Proof.
  unfold SerializeSingleDatum. intros H. inv_bind H as datumLength Hlen.
  inv_bind H as known Hknown.
  inv_bind H as u Hlarge. inv_bind H as image Himage. inv_bind H as u' Hfit.
  injection H as <-. eauto.
Qed.

Lemma TYPEALIGN_pow2 k n :
  0 <= k -> 
  TYPEALIGN (2 ^ k) n = (n + (2 ^ k - 1)) / 2 ^ k * 2 ^ k.
Proof.
  intros Hk. unfold TYPEALIGN.
  change (2 ^ k - 1) with (Z.pred (2 ^ k)). rewrite <- Z.ones_equiv.
  rewrite <- Z.ldiff_land, Z.ldiff_ones_r by lia.
  rewrite Z.shiftr_div_pow2, Z.shiftl_mul_pow2 by lia. reflexivity.
Qed.

Lemma TYPEALIGN_bounds k n :
  0 <= k -> n <= TYPEALIGN (2 ^ k) n < n + 2 ^ k.
Proof.
  intros Hk. rewrite TYPEALIGN_pow2 by lia.
  assert (Hpos : 0 < 2 ^ k) by (apply Z.pow_pos_nonneg; lia).
  pose proof (Z.div_mod (n + (2 ^ k - 1)) (2 ^ k) ltac:(lia)) as Hdm.
  pose proof (Z.mod_pos_bound (n + (2 ^ k - 1)) (2 ^ k) Hpos) as Hm.
  lia.
Qed.

(** The alignments [att_align_nominal] knows add fewer than eight bytes. *)
Lemma att_align_nominal_bounds n align :
  n <= att_align_nominal n align < n + 8.
Proof.
  unfold att_align_nominal.
  pose proof (TYPEALIGN_bounds 1 n ltac:(lia)).
  pose proof (TYPEALIGN_bounds 2 n ltac:(lia)).
  pose proof (TYPEALIGN_bounds 3 n ltac:(lia)).
  change (2 ^ 1) with 2 in *. change (2 ^ 2) with 4 in *.
  change (2 ^ 3) with 8 in *.
  destruct (Ascii.eqb align "i"); [lia|].
  destruct (Ascii.eqb align "c"); [lia|].
  destruct (Ascii.eqb align "d"); lia.
Qed.

(** The assertion of [att_align_nominal] can only trap. *)
Lemma att_align_nominal_assert_Err {host : Host} align e :
  att_align_nominal_assert align = Err e -> e = AssertTrap.
Proof.
  unfold att_align_nominal_assert, Assert.
  destruct (Ascii.eqb align "i"); [discriminate|].
  destruct (Ascii.eqb align "c"); [discriminate|].
  destruct (Ascii.eqb align "d"); [discriminate|].
  destruct USE_ASSERT_CHECKING; [|discriminate].
  destruct (Ascii.eqb align "s"); [discriminate|]. now intros [= <-].
Qed.

(** Only a type of fixed length has an extent for a by-value datum. *)
Lemma att_addlength_datum_by_value {host : Host} typeLength word datumLength :
  att_addlength_datum typeLength (ByValue word) = Ok datumLength ->
  0 < typeLength /\ datumLength = typeLength.
Proof.
  unfold att_addlength_datum.
  destruct (Z.ltb_spec 0 typeLength) as [Hpos|Hneg].
  - intros [= <-]. auto.
  - destruct (typeLength =? -1); [discriminate|].
    destruct (Assert (typeLength =? -2)); discriminate.
Qed.

(** What [SerializeSingleDatum] appends when it returns: the image of the
    datum, then zeroes up to the aligned length. *)
Lemma SerializeSingleDatum_image {host : Host} buffer datum byValue typeLength
  align buffer' :
  SerializeSingleDatum buffer datum byValue typeLength align = Ok buffer' ->
  exists datumLength image,
    att_addlength_datum typeLength datum = Ok datumLength
    /\ (if 0 <? typeLength then
          if byValue then store_att_byval datum typeLength
          else do object <- DatumGetPointer datum; read_object object typeLength
        else do _ <- Assert (negb byValue);
             do object <- DatumGetPointer datum;
             read_object object (u32 datumLength)) = Ok image
    /\ len image <= u32 (att_align_nominal (u32 datumLength) align) < 2 ^ 31
    /\ buffer' =
       buffer ++ image
       ++ replicate
            (Z.to_nat (u32 (att_align_nominal (u32 datumLength) align))
             - length image) x00.
Proof.
  unfold SerializeSingleDatum. intros H. inv_bind H as datumLength Hlen.
  inv_bind H as known Hknown.
  inv_bind H as u Hlarge. inv_bind H as image Himage. inv_bind H as u' Hfit.
  injection H as <-.
  set (aligned := u32 (att_align_nominal (u32 datumLength) align)) in *.
  destruct u. apply enlargeStringInfo_Ok in Hlarge as [Hpos Hlarge].
  pose proof (u32_range (att_align_nominal (u32 datumLength) align)) as Hu.
  fold aligned in Hu.
  assert (Hsame : i32 aligned = aligned).
  { unfold i32 in *. rewrite Z.mod_small in * by lia.
    destruct (Z.ltb_spec aligned (2 ^ 31)); lia. }
  rewrite Hsame in *.
  destruct (Z.ltb_spec aligned (len image)); [discriminate|].
  pose proof (len_nonneg buffer). unfold MaxAllocSize in Hlarge.
  exists datumLength, image. split; [exact Hlen|]. split; [exact Himage|].
  split; [lia|]. f_equal. unfold memcpy_at. change (Z.to_nat 0) with 0%nat.
  rewrite take_0, Nat.add_0_l, drop_replicate. reflexivity.
Qed.

(** What [SerializeSingleDatum] appends when it returns is what the
    specification says: the bytes of the datum, of the extent that
    [att_addlength_datum] finds, and fewer than eight zeroes up to the
    aligned length. *)
Lemma SerializeSingleDatum_spec {host : Host} buffer datum byValue typeLength
  align buffer' :
  SerializeSingleDatum buffer datum byValue typeLength align = Ok buffer' ->
  exists datumLength,
    att_addlength_datum typeLength datum = Ok datumLength
    /\ let extent := u32 datumLength in
       len (datum_image datum extent) = extent
       /\ extent <= att_align_nominal extent align < extent + 8
       /\ buffer' = buffer ++ spec_serialize_datum datum extent align.
Proof.
  intros H.
  destruct (SerializeSingleDatum_image _ _ _ _ _ _ H)
    as (datumLength & image & Hlen & Himage & Hfit & ->).
  exists datumLength. split; [exact Hlen|]. cbv zeta.
  set (extent := u32 datumLength) in *.
  pose proof (u32_range datumLength) as Hextent. fold extent in Hextent.
  pose proof (att_align_nominal_bounds extent align) as Halign.
  assert (Hbytes : image = datum_image datum extent /\ len image = extent).
  { destruct (Z.ltb_spec 0 typeLength) as [Hpos|Hneg].
    - unfold att_addlength_datum in Hlen.
      destruct (Z.ltb_spec 0 typeLength); [|lia]. injection Hlen as <-.
      destruct byValue.
      + unfold store_att_byval in Himage.
        destruct datum as [word|object]; [|discriminate].
        destruct ((typeLength =? 1) || (typeLength =? 2) || (typeLength =? 4)
                  || (typeLength =? 8)) eqn:Hwidth; [|discriminate].
        injection Himage as <-.
        assert (Hsmall : typeLength <= 8).
        { repeat (apply orb_prop in Hwidth as [Hwidth|Hwidth]);
            apply Z.eqb_eq in Hwidth; lia. }
        unfold extent. rewrite u32_small by lia. cbn [datum_image].
        split; [reflexivity|]. unfold len. rewrite length_le_bytes. lia.
      + destruct datum as [word|object]; [discriminate|].
        cbn [DatumGetPointer bind] in Himage. unfold read_object in Himage.
        destruct (Z.ltb_spec (len object) typeLength); [discriminate|].
        injection Himage as <-.
        assert (Hlong : len (take (Z.to_nat typeLength) object) = typeLength)
          by (unfold len in *; rewrite length_take; lia).
        rewrite Hlong in Hfit. unfold extent. rewrite u32_small by lia.
        split; [reflexivity|exact Hlong].
    - inv_bind Himage as u Hassert. destruct datum as [word|object];
        [discriminate|].
      cbn [DatumGetPointer bind] in Himage. unfold read_object in Himage.
      fold extent in Himage.
      destruct (Z.ltb_spec (len object) extent); [discriminate|].
      injection Himage as <-. split; [reflexivity|].
      unfold len in *. rewrite length_take. lia. }
  destruct Hbytes as [-> Himg]. rewrite Himg in Hfit.
  assert (Hsame : u32 (att_align_nominal extent align)
                  = att_align_nominal extent align).
  { destruct (Z.lt_ge_cases (att_align_nominal extent align) (2 ^ 32))
      as [Hlt|Hge]; [apply u32_small; lia|].
    exfalso.
    assert (Hwrap : u32 (att_align_nominal extent align)
                    = att_align_nominal extent align - 2 ^ 32).
    { unfold u32. symmetry. apply (Z.mod_unique _ _ 1); lia. }
    lia. }
  rewrite Hsame in *.
  split; [exact Himg|]. split; [lia|].
  unfold spec_serialize_datum. do 3 f_equal. unfold len in Himg. lia.
Qed.

(** The copy that [DatumCopy] returns is the deep copy of the
    specification. *)
Lemma DatumCopy_spec {host : Host} datum byValue typeLength datumLength copy :
  att_addlength_datum typeLength datum = Ok datumLength ->
  DatumCopy datum byValue typeLength = Ok copy ->
  copy = spec_copy_datum byValue datum (u32 datumLength).
Proof.
  unfold DatumCopy, spec_copy_datum. intros Hlen H.
  destruct byValue; [now injection H as <-|].
  rewrite Hlen in H. cbn [bind] in H.
  destruct datum as [word|object]; [discriminate|].
  cbn [DatumGetPointer bind] in H. unfold read_object in H.
  destruct (len object <? u32 datumLength); [discriminate|].
  now injection H as <-.
Qed.

(** [UpdateBlockSkipNodeMinMax] does to the statistics of a node what the
    specification says, and keeps the row count. *)
Lemma UpdateBlockSkipNodeMinMax_spec {host : Host} node value byValue length
  collation function datumLength node' :
  att_addlength_datum length value = Ok datumLength ->
  UpdateBlockSkipNodeMinMax node value byValue length collation function
    = Ok node' ->
  (hasMinMax node', minimumValue node', maximumValue node')
  = spec_update_min_max
      (option_map (fun f => compare_with f collation) function) node value
      (spec_copy_datum byValue value (u32 datumLength)).
Proof.
  intros Hlen. unfold UpdateBlockSkipNodeMinMax, spec_update_min_max.
  destruct function as [f|]; cbn [option_map]; [|now intros [= <-]].
  intros H. inv_bind H as [low high] Hpair. injection H as <-.
  cbn [hasMinMax minimumValue maximumValue set_min_max].
  unfold compare_with.
  destruct (hasMinMax node); cbn [negb] in Hpair.
  - inv_bind Hpair as low' Hlow. inv_bind Hpair as high' Hhigh.
    injection Hpair as <- <-.
    destruct (i32 (f collation value (minimumValue node)) <? 0);
      destruct (0 <? i32 (f collation value (maximumValue node)));
      repeat match goal with
        | Hcopy : DatumCopy _ _ _ = Ok _ |- _ =>
            apply (DatumCopy_spec _ _ _ _ _ Hlen) in Hcopy; subst
        | Hkeep : Ok _ = Ok _ |- _ => injection Hkeep as <-
        end; reflexivity.
  - inv_bind Hpair as low' Hlow. inv_bind Hpair as high' Hhigh.
    injection Hpair as <- <-.
    apply (DatumCopy_spec _ _ _ _ _ Hlen) in Hlow, Hhigh. now subst.
Qed.

Section StripeRows.
Context {host : Host} {collab : Collaborators}.

(** [CStoreWriteRow] stages its row, and flushes the stripe if that is
    full. *)
Lemma CStoreWriteRow_stages ws columnValues columnNulls ws' :
  CStoreWriteRow ws columnValues columnNulls = Ok ws' ->
  exists ws1 buffers,
    StageRow ws columnValues columnNulls = Ok ws1
    /\ stripeBuffers ws1 = Some buffers
    /\ if stripeMaxRowCount ws1 <=? rowCount buffers
       then exists stripeMetadata ws2,
              FlushStripe ws1 = Ok (stripeMetadata, ws2)
              /\ stripeBuffers ws' = None
       else ws' = ws1.
Proof.
  unfold CStoreWriteRow. intros H. inv_bind H as ws1 Hstage.
  inv_bind H as buffers Hb. unfold deref, of_option in Hb.
  destruct (stripeBuffers ws1) as [b|] eqn:Hopen; [|discriminate].
  injection Hb as ->. exists ws1, buffers.
  split; [exact Hstage|]. split; [exact Hopen|].
  destruct (stripeMaxRowCount ws1 <=? rowCount buffers).
  - inv_bind H as [md ws2] Hflush. injection H as <-. exists md, ws2. auto.
  - now injection H as <-.
Qed.

(** While the stripe has room, writing rows is staging them. *)
Lemma WriteRows_stages rows ws ws' n :
  stripe_counts ws n -> 0 <= n ->
  n + len rows < Z.max 1 (stripeMaxRowCount ws) -> n + len rows < 2 ^ 32 ->
  WriteRows ws rows = Ok ws' ->
  StageRows ws rows = Ok ws'.
Proof.
  revert ws n. induction rows as [|[columnValues columnNulls] rows IH];
    intros ws n Hcounts Hn Hroom Hbound Hrun.
  - exact Hrun.
  - cbn [WriteRows] in Hrun. cbn [StageRows].
    unfold len in *. cbn [length] in *.
    inv_bind Hrun as ws1 Hwrite.
    destruct (CStoreWriteRow_stages _ _ _ _ Hwrite)
      as (ws2 & buffers & Hstage & Hb & Hcase).
    rewrite Hstage. cbn [bind].
    pose proof (StageRow_counts _ _ _ _ n Hcounts ltac:(lia) Hstage) as Hcounts2.
    assert (Hrc : rowCount buffers = n + 1).
    { unfold stripe_counts in Hcounts2. rewrite Hb in Hcounts2.
      destruct (stripeSkipList ws2); [apply Hcounts2|contradiction]. }
    assert (Hmax : stripeMaxRowCount ws2 = stripeMaxRowCount ws).
    { apply StageRow_spec in Hstage
        as (_ & _ & _ & _ & _ & _ & _ & _ & _ & _ & _ & Hsame). apply Hsame. }
    destruct (Z.leb_spec (stripeMaxRowCount ws2) (rowCount buffers)); [lia|].
    subst ws1. apply (IH ws2 (n + 1)); [exact Hcounts2|lia|lia|lia|exact Hrun].
Qed.

(** Preparing the stripe for the flush keeps the row counts. *)
Lemma PrepareStripe_counts ws n image :
  stripe_counts ws n ->
  PrepareStripe ws = Ok image ->
  counts_tracked (u32 (blockRowCount (tableFooter ws)))
    (u32 (natts (tupleDescriptor ws))) n (si_stripeSkipList image).
Proof.
  intros Hcounts Hprep.
  destruct (PrepareStripe_inv _ _ Hprep)
    as (b0 & sl & ws1 & buffers & nodes & arr & sf
        & Hb0 & Hsl & HR & Hlast & Hb & Hplace & Harr & Hsf & ->).
  unfold stripe_counts in Hcounts. rewrite Hb0, Hsl in Hcounts.
  destruct Hcounts as [_ Htracked].
  cbn [si_stripeSkipList]. intros c b cnodes node Hc Hcn Hnode.
  cbn [blockSkipNodeArray set_nodes] in Hcn.
  apply PlaceColumn_columns in Hplace.
  destruct (columns_placed_statistics _ _ _ _ _ _ _ _ _ Hplace Hcn Hnode)
    as (nodes0 & node0 & Hn0 & Hnode0 & (_ & _ & _ & Hsame)).
  rewrite Hsame. exact (Htracked c b nodes0 node0 Hc Hn0 Hnode0).
Qed.
End StripeRows.

Section CellClaims.
Context {host : Host} {collab : Collaborators}.

Lemma WriteCell_cell ws columnValues isNull blockRowIndex (column : nat)
  blockData node blockData' node' :
  WriteCell ws columnValues isNull blockRowIndex (Z.of_nat column) blockData node
    = Ok (blockData', node') ->
  cell_written ws columnValues isNull blockRowIndex column blockData node
    blockData' node'.
Proof.
  intros H. pose proof (WriteCell_rowCount _ _ _ _ _ _ _ _ _ H) as Hcount.
  apply WriteCell_spec in H as (Hrange & Hflags & H).
  split; [exact Hrange|]. split; [exact Hflags|]. split; [exact Hcount|].
  destruct isNull.
  - destruct H as [Hbuffer ->]. cbn. auto.
  - destruct H as (f & att & value & buffer & buffer' & node1
                   & Hf & Hatt & Hvalue & Hb & Hser & Hupd & Hb' & ->).
    apply load_nat in Hf, Hatt, Hvalue.
    destruct (SerializeSingleDatum_spec _ _ _ _ _ _ Hser)
      as (datumLength & Hlen & Himage & Halign & ->).
    exists f, att, value, buffer, datumLength.
    split; [exact Hf|]. split; [exact Hatt|]. split; [exact Hvalue|].
    split; [exact Hb|]. split; [exact Hlen|]. cbn zeta.
    split; [exact Himage|]. split; [exact Halign|]. split; [exact Hb'|].
    cbn [hasMinMax minimumValue maximumValue bump_rowCount].
    exact (UpdateBlockSkipNodeMinMax_spec _ _ _ _ _ _ _ _ Hlen Hupd).
Qed.
End CellClaims.

Section RowClaims.
Context {host : Host} {collab : Collaborators}.

(** The stripe that [AddRow] works on holds the rows counted so far. *)
Lemma EnsureStripe_counts ws n ws0 buffers :
  stripe_counts ws n ->
  EnsureStripe ws (u32 (blockRowCount (tableFooter ws)))
    (u32 (natts (tupleDescriptor ws))) = Ok ws0 ->
  stripeBuffers ws0 = Some buffers ->
  rowCount buffers = n.
Proof.
  intros Hcounts Hensure Hb0.
  destruct (EnsureStripe_spec _ _ _ _ Hensure) as [_ Hcase].
  unfold stripe_counts in Hcounts.
  destruct (stripeBuffers ws) as [buffers0|] eqn:Hopen.
  - subst ws0. rewrite Hopen in Hb0. injection Hb0 as ->.
    destruct (stripeSkipList ws); [apply Hcounts|contradiction].
  - destruct Hcase as (_ & fresh & freshList & Hfresh & _ & Hb & _).
    rewrite Hb0 in Hb. injection Hb as ->. subst n.
    eapply CreateEmptyStripeBuffers_spec; eauto.
Qed.

(** C7. The row that [CStoreWriteRow] receives after [rows] of the stripe
    goes to position [n mod R] of block [n / R], for [n] the number of
    those rows. For every column, a null sets the exists flag at that
    position to false, leaves the value buffer and the minimum and maximum
    of the block as they are, and counts the row in the skip node. A value
    sets the flag to true and counts the row; it appends to the value
    buffer the bytes of the datum and fewer than eight zeroes up to its
    aligned length, as section 4.2 of the specification says; and it
    updates the statistics as section 4.3 says: nothing changes without a
    comparison function, the first value of a block is copied into the
    minimum and the maximum, and a later value replaces the minimum if it
    compares below it and the maximum if it compares above it. After the
    row, and in the skip lists that a flush would write, the row count of
    every skip node is the number of rows of the stripe that fell into its
    block. *)
Theorem cells_and_row_counts ws rows ws1 columnValues columnNulls ws2 :
  stripeBuffers ws = None ->
  len rows < Z.max 1 (stripeMaxRowCount ws) ->
  len rows < 2 ^ 32 - 1 ->
  WriteRows ws rows = Ok ws1 ->
  CStoreWriteRow ws1 columnValues columnNulls = Ok ws2 ->
  let R := u32 (blockRowCount (tableFooter ws1)) in
  let C := u32 (natts (tupleDescriptor ws1)) in
  let n := len rows in
  exists ws0 buffers skipList ws' nodes' ws'',
    EnsureStripe ws1 R C = Ok ws0
    /\ stripeBuffers ws0 = Some buffers
    /\ stripeSkipList ws0 = Some skipList
    /\ rowCount buffers = n
    /\ AddRow ws1 columnValues columnNulls = Ok (ws', n / R, n mod R)
    /\ stripeSkipList ws'
       = Some (set_blockCount (set_nodes skipList nodes') (n / R + 1))
    /\ (forall c, (c < Z.to_nat C)%nat ->
          exists blockData nodes node isNull blockData' node',
            blockDataArray ws0 !! c = Some blockData
            /\ blockSkipNodeArray skipList !! c = Some nodes
            /\ nodes !! Z.to_nat (n / R) = Some node
            /\ columnNulls !! c = Some isNull
            /\ blockDataArray ws' !! c = Some blockData'
            /\ nodes' !! c = Some (<[Z.to_nat (n / R) := node']> nodes)
            /\ cell_written ws0 columnValues isNull (n mod R) c blockData node
                 blockData' node')
    /\ StageRow ws1 columnValues columnNulls = Ok ws''
    /\ stripe_counts ws'' (n + 1)
    /\ (forall image,
          PrepareStripe ws'' = Ok image ->
          counts_tracked R C (n + 1) (si_stripeSkipList image)).
Proof.
  intros Hclosed Hroom Hbound Hrows Hwrite R C n.
  pose proof (len_nonneg rows) as Hn. fold n in Hn, Hroom, Hbound.
  assert (Hcounts0 : stripe_counts ws 0).
  { unfold stripe_counts. now rewrite Hclosed. }
  pose proof (WriteRows_stages rows ws ws1 0 Hcounts0 ltac:(lia) ltac:(lia)
                ltac:(lia) Hrows) as Hstages.
  pose proof (StageRows_counts rows ws ws1 0 Hcounts0 ltac:(lia) ltac:(lia)
                Hstages) as Hcounts1.
  rewrite Z.add_0_l in Hcounts1. fold n in Hcounts1.
  destruct (CStoreWriteRow_stages _ _ _ _ Hwrite)
    as (ws'' & buffers'' & Hstage & _ & _).
  pose proof (StageRow_counts _ _ _ _ n Hcounts1 ltac:(lia) Hstage) as Hcounts2.
  destruct (StageRow_spec _ _ _ _ Hstage)
    as (ws' & bi & bri & b1 & b' & Hadd & _ & _ & _ & _ & _ & Hsame).
  destruct (AddRow_spec _ _ _ _ _ _ Hadd)
    as (ws0 & buffers & skipList & nodes' & Hensure & Hb0 & Hs0 & HR & Hbi & Hbri
        & Hcols & _ & Hs1 & _).
  fold R C in Hensure, HR, Hbi, Hbri, Hcols.
  pose proof (EnsureStripe_counts _ _ _ _ Hcounts1 Hensure Hb0) as Hrc.
  rewrite Hrc in Hbi, Hbri.
  pose proof (u32_range (blockRowCount (tableFooter ws1))) as HRrange.
  fold R in HRrange.
  assert (Hdiv : 0 <= n / R <= n).
  { split; [apply Z.div_pos; lia|]. apply Z.div_le_upper_bound; nia. }
  pose proof (Z.mod_pos_bound n R ltac:(lia)) as Hmod.
  rewrite u32_small in Hbi, Hbri by lia. subst bi bri.
  rewrite (u32_small (n / R + 1)) in Hs1 by lia.
  exists ws0, buffers, skipList, ws', nodes', ws''.
  split; [exact Hensure|]. split; [exact Hb0|]. split; [exact Hs0|].
  split; [exact Hrc|]. split; [exact Hadd|]. split; [exact Hs1|].
  split; [|split; [exact Hstage|split; [exact Hcounts2|]]].
  - intros c Hc. destruct Hcols as (_ & _ & _ & Hdone).
    destruct (Hdone c Hc)
      as (blockData & nodes & node & isNull & blockData' & node'
          & Hbd & Hnodes & _ & Hnode & Hnull & Hcell & Hbd' & Hnodes').
    cbn [fst snd] in Hbd, Hnodes, Hbd', Hnodes'.
    exists blockData, nodes, node, isNull, blockData', node'.
    split; [exact Hbd|]. split; [exact Hnodes|]. split; [exact Hnode|].
    split; [exact Hnull|]. split; [exact Hbd'|]. split; [exact Hnodes'|].
    exact (WriteCell_cell _ _ _ _ _ _ _ _ _ Hcell).
  - intros image Hprep.
    pose proof (PrepareStripe_counts _ _ _ Hcounts2 Hprep) as Htracked.
    destruct Hsame as (Htf & _ & _ & _ & Htd & _).
    rewrite Htf, Htd in Htracked. exact Htracked.
Qed.
End RowClaims.

Lemma cells_and_row_counts_witness :
  match fresh_writer 4 2 with
  | Ok ws =>
      match @WriteRows small_pages (plain_codec None 0) ws (int4_rows [10]) with
      | Ok ws1 =>
          exists ws' blockData' skipList' nodes' node',
            @AddRow small_pages ws1 [ByValue 20] [false]
            = Ok (ws', 0, 1)
            /\ blockDataArray ws' !! 0%nat = Some blockData'
            /\ existsArray blockData' = [true; true]
            /\ data_valueBuffer blockData'
               = Some (le_bytes 4 10 ++ le_bytes 4 20)
            /\ stripeSkipList ws' = Some skipList'
            /\ blockSkipNodeArray skipList' !! 0%nat = Some nodes'
            /\ nodes' !! 0%nat = Some node'
            /\ node_rowCount node' = 2
            /\ hasMinMax node' = true
            /\ minimumValue node' = ByValue 10
            /\ maximumValue node' = ByValue 20
      | Err _ => False
      end
  | Err _ => False
  end.
Proof.
  destruct (fresh_writer 4 2) as [ws|e] eqn:Hbegin;
    [|vm_compute in Hbegin; discriminate].
  assert (Hclosed : stripeBuffers ws = None /\ stripeMaxRowCount ws = 4).
  { vm_compute in Hbegin. injection Hbegin as <-. split; reflexivity. }
  destruct Hclosed as [Hclosed Hmax].
  destruct (@WriteRows small_pages (plain_codec None 0) ws (int4_rows [10]))
    as [ws1|e] eqn:Hrows.
  2:{ vm_compute in Hbegin. injection Hbegin as <-. vm_compute in Hrows.
      discriminate. }
  destruct (@CStoreWriteRow small_pages (plain_codec None 0) ws1
              [ByValue 20] [false]) as [ws2|e] eqn:Hwrite.
  2:{ vm_compute in Hbegin. injection Hbegin as <-.
      vm_compute in Hrows. injection Hrows as <-. vm_compute in Hwrite.
      discriminate. }
  destruct (@cells_and_row_counts small_pages (plain_codec None 0) ws
              (int4_rows [10]) ws1 [ByValue 20] [false] ws2 Hclosed)
    as (ws0 & buffers & skipList & ws' & nodes' & ws'' & Hensure & _ & Hlist
        & _ & Hadd & Hlist' & Hcells & _).
  - rewrite Hmax. reflexivity.
  - reflexivity.
  - exact Hrows.
  - exact Hwrite.
  - vm_compute in Hbegin. injection Hbegin as <-.
    vm_compute in Hrows. injection Hrows as <-.
    vm_compute in Hensure. injection Hensure as <-.
    vm_compute in Hlist. injection Hlist as <-.
    destruct (Hcells 0%nat) as (blockData & nodes & node & isNull & blockData'
                              & node' & Hbd & Hnodes & Hnode & Hnull & Hbd'
                              & Hnodes' & Hrange & Hflags & Hcount & Hcell).
    { vm_compute. lia. }
    vm_compute in Hbd. injection Hbd as <-.
    vm_compute in Hnodes. injection Hnodes as <-.
    vm_compute in Hnode. injection Hnode as <-.
    vm_compute in Hnull. injection Hnull as <-.
    destruct Hcell as (f & att & value & buffer & datumLength & Hf & Hatt
                       & Hvalue & Hbuffer & Hlen & _ & _ & Hbytes & Hminmax).
    vm_compute in Hf. injection Hf as <-.
    vm_compute in Hatt. injection Hatt as <-.
    vm_compute in Hvalue. injection Hvalue as <-.
    vm_compute in Hbuffer. injection Hbuffer as <-.
    vm_compute in Hlen. injection Hlen as <-.
    vm_compute in Hadd, Hflags, Hcount, Hbytes.
    vm_compute in Hminmax. injection Hminmax as Hhas Hlow Hhigh.
    exists ws', blockData'. eexists. eexists. exists node'.
    split; [exact Hadd|]. split; [exact Hbd'|]. split; [exact Hflags|].
    split; [exact Hbytes|]. split; [exact Hlist'|].
    split; [exact Hnodes'|]. split; [reflexivity|]. auto.
Defined.

(** ** Minimum and maximum of a block *)

Lemma value_at_snoc rows columnValues columnNulls i c value :
  value_at (rows ++ [(columnValues, columnNulls)]) i c value ->
  (0 <= i < len rows /\ value_at rows i c value)
  \/ (i = len rows /\ columnNulls !! c = Some false
      /\ columnValues !! c = Some value).
Proof.
  intros (values & nulls & Hi & Hrow & Hnull & Hvalue).
  apply lookup_app_Some in Hrow as [Hrow|[Hge Hrow]].
  - left. pose proof (lookup_lt_Some _ _ _ Hrow) as Hlt.
    split; [unfold len; lia|]. exists values, nulls. auto.
  - right. apply list_lookup_singleton_Some in Hrow as [Hzero Heq].
    injection Heq as <- <-. split; [unfold len; lia|auto].
Qed.

Lemma value_at_range rows i c value :
  value_at rows i c value -> 0 <= i < len rows.
Proof.
  intros (values & nulls & Hi & Hrow & _).
  pose proof (lookup_lt_Some _ _ _ Hrow). unfold len, Row in *. lia.
Qed.

Lemma value_at_app rows rows' i c value :
  value_at rows i c value -> value_at (rows ++ rows') i c value.
Proof.
  intros (values & nulls & Hi & Hrow & Hrest). exists values, nulls.
  split; [exact Hi|]. split; [|exact Hrest]. now apply lookup_app_l_Some.
Qed.

Section MinMaxProperties.
Context {host : Host} {collab : Collaborators}.

Lemma column_ordered_same ws ws' c f att :
  same_session ws ws' -> column_ordered ws c f att -> column_ordered ws' c f att.
Proof.
  intros (_ & _ & _ & _ & Htd & Hcmp & _). unfold column_ordered.
  now rewrite Htd, Hcmp.
Qed.

(** The bounds survive a staged row. *)
Lemma StageRow_minmax ws columnValues columnNulls ws' rows c f att :
  stripe_minmax ws (compare_with f (attcollation att)) c rows ->
  len rows < 2 ^ 32 - 1 ->
  column_ordered ws c f att ->
  (forall value, columnNulls !! c = Some false ->
     columnValues !! c = Some value -> datum_ok att value) ->
  StageRow ws columnValues columnNulls = Ok ws' ->
  stripe_minmax ws' (compare_with f (attcollation att)) c
    (rows ++ [(columnValues, columnNulls)]).
Proof.
  intros Hminmax Hbound Hcolumn Hdatum Hstage.
  set (cmp := compare_with f (attcollation att)) in *.
  destruct (StageRow_spec _ _ _ _ Hstage)
    as (ws1 & blockIndex & blockRowIndex & buffers1 & buffers' & Hadd & Hb1 & Hb'
        & Hrc & _ & Hlist & Hsame).
  destruct (AddRow_spec _ _ _ _ _ _ Hadd)
    as (ws0 & buffers & skipList & nodes' & Hensure & Hb0 & Hs0 & HR & -> & ->
        & Hcols & Hb1' & Hs1 & _).
  rewrite Hb1 in Hb1'. injection Hb1' as ->.
  set (R := u32 (blockRowCount (tableFooter ws))) in *.
  set (C := u32 (natts (tupleDescriptor ws))) in *.
  set (n := len rows) in *. pose proof (len_nonneg rows) as Hn. fold n in Hn.
  assert (HRpos : 0 < R)
    by (pose proof (u32_range (blockRowCount (tableFooter ws))); lia).
  destruct (EnsureStripe_spec _ _ _ _ Hensure) as [Hsame0 Hcase].
  assert (Hopen : rowCount buffers = n /\ minmax_tracked cmp R c rows skipList).
  { unfold stripe_minmax in Hminmax.
    destruct (stripeBuffers ws) as [buffers0|] eqn:Hopen.
    - subst ws0. rewrite Hopen in Hb0. injection Hb0 as ->.
      rewrite Hs0 in Hminmax. exact Hminmax.
    - destruct Hcase as (_ & fresh & freshList & Hfresh & _ & Hb & _).
      rewrite Hb0 in Hb. injection Hb as ->. subst rows.
      split; [eapply CreateEmptyStripeBuffers_spec; eauto|].
      intros b nodes node i value _ _ Hvalue.
      apply value_at_range in Hvalue. change (len []) with 0 in Hvalue. lia. }
  destruct Hopen as [Hrows Htracked]. rewrite Hrows in *.
  assert (Hindex : u32 (n / R) = n / R).
  { apply u32_small. split; [apply Z.div_pos; lia|].
    apply Z.le_lt_trans with n; [|lia]. apply Z.div_le_upper_bound; nia. }
  rewrite Hindex in *.
  pose proof (column_ordered_same _ _ _ _ _ Hsame0 Hcolumn)
    as (Hf & Hatt & Hc & Horder).
  destruct Hsame as (Hfooter & _).
  unfold stripe_minmax. rewrite Hb', Hlist, Hs1, Hfooter. fold R.
  split.
  { rewrite Hrc, len_app. change (len [(columnValues, columnNulls)]) with 1.
    fold n. apply u32_small. lia. }
  intros b nodes1 node1 i value Hnodes1 Hnode1 Hvalue Hblock.
  cbn [blockSkipNodeArray set_blockCount set_nodes] in Hnodes1.
  destruct Hcols as (_ & _ & _ & Hdone).
  assert (Hdesc : tupleDescriptor ws0 = tupleDescriptor ws) by apply Hsame0.
  assert (Hcount : (c < Z.to_nat C)%nat) by (unfold C; rewrite <- Hdesc; lia).
  destruct (Hdone c Hcount)
    as (blockData & cnodes & old & isNull & blockData' & new & _ & Hcn & _ & Hold
        & Hnull & Hcell & _ & Hafter).
  cbn [fst snd] in Hcn, Hafter. rewrite Hafter in Hnodes1. injection Hnodes1 as <-.
  assert (Hdiv : 0 <= n / R) by (apply Z.div_pos; lia).
  apply value_at_snoc in Hvalue. fold n in Hvalue.
  destruct (decide (n / R = Z.of_nat b)) as [Heq|Hne].
  - replace b with (Z.to_nat (n / R)) in * by lia.
    rewrite list_lookup_insert_eq in Hnode1 by (eapply lookup_lt_Some; eauto).
    injection Hnode1 as <-.
    apply WriteCell_spec in Hcell as (_ & _ & Hcell). destruct isNull.
    + destruct Hcell as [_ ->].
      destruct Hvalue as [[_ Hvalue]|(_ & Hfalse & _)]; [|congruence].
      exact (Htracked _ _ _ _ _ Hcn Hold Hvalue Hblock).
    + destruct Hcell as (f' & att' & value0 & buf & buf' & node1 & Hf' & Hatt'
                         & Hvalue0 & _ & _ & Hupdate & _ & ->).
      apply load_nat in Hf', Hatt', Hvalue0.
      rewrite Hf in Hf'. injection Hf' as <-.
      rewrite Hatt in Hatt'. injection Hatt' as <-.
      destruct (UpdateBlockSkipNodeMinMax_covers old value0 att f node1 Horder
                  (Hdatum value0 Hnull Hvalue0) Hupdate)
        as (Hhas & _ & Hcovers & Hwiden).
      change (hasMinMax node1 = true /\ covers cmp node1 value).
      split; [exact Hhas|].
      destruct Hvalue as [[_ Hvalue]|(_ & _ & Hnew)].
      * destruct (Htracked _ _ _ _ _ Hcn Hold Hvalue Hblock) as [Hhad Hcovered].
        destruct (Hwiden Hhad) as (Hall & _). exact (Hall value Hcovered).
      * rewrite Hvalue0 in Hnew. injection Hnew as <-. exact Hcovers.
  - rewrite list_lookup_insert_ne in Hnode1 by lia.
    destruct Hvalue as [[_ Hvalue]|(Hi & _)].
    + exact (Htracked _ _ _ _ _ Hcn Hnode1 Hvalue Hblock).
    + subst i. contradiction.
Qed.
End MinMaxProperties.

Lemma btint4cmp_total_order collation :
  total_order (compare_with btint4cmp collation).
Proof.
  unfold total_order, compare_with, btint4cmp.
  assert (Hcases : forall a b,
            i32 (if DatumGetInt32 a <? DatumGetInt32 b then -1
                 else if DatumGetInt32 b <? DatumGetInt32 a then 1 else 0)
            = (if DatumGetInt32 a <? DatumGetInt32 b then -1
               else if DatumGetInt32 b <? DatumGetInt32 a then 1 else 0)).
  { intros a b. destruct (_ <? _); [reflexivity|]. destruct (_ <? _); reflexivity. }
  split; [|split].
  - intros a. rewrite Hcases. rewrite Z.ltb_irrefl. reflexivity.
  - intros a b. rewrite !Hcases.
    destruct (Z.ltb_spec (DatumGetInt32 a) (DatumGetInt32 b)),
      (Z.ltb_spec (DatumGetInt32 b) (DatumGetInt32 a)); lia.
  - intros a b c. rewrite !Hcases.
    destruct (Z.ltb_spec (DatumGetInt32 a) (DatumGetInt32 b)),
      (Z.ltb_spec (DatumGetInt32 b) (DatumGetInt32 a)),
      (Z.ltb_spec (DatumGetInt32 b) (DatumGetInt32 c)),
      (Z.ltb_spec (DatumGetInt32 c) (DatumGetInt32 b)),
      (Z.ltb_spec (DatumGetInt32 a) (DatumGetInt32 c)),
      (Z.ltb_spec (DatumGetInt32 c) (DatumGetInt32 a)); lia.
Qed.

Section MinMaxClaims.
Context {host : Host} {collab : Collaborators}.

Lemma StageRows_minmax rows ws ws' rows0 c f att :
  stripe_minmax ws (compare_with f (attcollation att)) c rows0 ->
  len rows0 + len rows < 2 ^ 32 ->
  column_ordered ws c f att ->
  (forall i value, value_at rows i c value -> datum_ok att value) ->
  StageRows ws rows = Ok ws' ->
  stripe_minmax ws' (compare_with f (attcollation att)) c (rows0 ++ rows)
  /\ column_ordered ws' c f att.
Proof.
  revert ws rows0. induction rows as [|[columnValues columnNulls] rows IH];
    intros ws rows0 Hminmax Hbound Hcolumn Hdatum Hrun.
  - injection Hrun as <-. rewrite app_nil_r. auto.
  - cbn [StageRows] in Hrun. inv_bind Hrun as ws1 Hstage.
    pose proof (len_nonneg rows). pose proof (len_nonneg rows0).
    assert (Hlen : len rows0 + (1 + len rows) < 2 ^ 32).
    { unfold len in *. cbn [length] in Hbound. lia. }
    clear Hbound. rename Hlen into Hbound.
    specialize (IH ws1 (rows0 ++ [(columnValues, columnNulls)])).
    rewrite <- app_assoc in IH. apply IH.
    + apply (StageRow_minmax ws _ _ ws1 rows0 c f att Hminmax ltac:(lia) Hcolumn);
        [|exact Hstage].
      intros value Hnull Hvalue. apply (Hdatum 0).
      exists columnValues, columnNulls. cbn. auto with lia.
    + rewrite len_app. change (len [(columnValues, columnNulls)]) with 1. lia.
    + apply StageRow_spec in Hstage
        as (_ & _ & _ & _ & _ & _ & _ & _ & _ & _ & _ & Hsame).
      exact (column_ordered_same _ _ _ _ _ Hsame Hcolumn).
    + intros i value (values & nulls & Hi & Hrow & Hrest).
      apply (Hdatum (i + 1)). exists values, nulls.
      split; [lia|]. split; [|exact Hrest].
      replace (Z.to_nat (i + 1)) with (S (Z.to_nat i)) by lia. exact Hrow.
    + exact Hrun.
Qed.

(** Preparing the stripe for the flush keeps the bounds. *)
Lemma PrepareStripe_minmax ws cmp c rows image :
  stripe_minmax ws cmp c rows ->
  PrepareStripe ws = Ok image ->
  minmax_tracked cmp (u32 (blockRowCount (tableFooter ws))) c rows
    (si_stripeSkipList image).
Proof.
  intros Hminmax Hprep.
  destruct (PrepareStripe_inv _ _ Hprep)
    as (b0 & sl & ws1 & buffers & nodes & arr & sf
        & Hb0 & Hsl & HR & Hlast & Hb & Hplace & Harr & Hsf & ->).
  unfold stripe_minmax in Hminmax. rewrite Hb0, Hsl in Hminmax.
  destruct Hminmax as [_ Htracked].
  cbn [si_stripeSkipList]. intros b cnodes node i value Hcn Hnode Hvalue Hblock.
  cbn [blockSkipNodeArray set_nodes] in Hcn.
  apply PlaceColumn_columns in Hplace.
  destruct (columns_placed_statistics _ _ _ _ _ _ _ _ _ Hplace Hcn Hnode)
    as (nodes0 & node0 & Hn0 & Hnode0 & (Hhas & Hmin & Hmax & _)).
  destruct (Htracked b nodes0 node0 i value Hn0 Hnode0 Hvalue Hblock)
    as [Hhad Hcovers].
  split; [congruence|]. unfold covers in *. rewrite Hmin, Hmax. exact Hcovers.
Qed.
End MinMaxClaims.

Section UnorderedColumns.
Context {host : Host} {collab : Collaborators}.

(** A column without comparison function gets no minimum and maximum. *)
Lemma StageRow_unbounded ws columnValues columnNulls ws' c :
  comparisonFunctionArray ws !! c = Some None ->
  stripe_unbounded ws c ->
  StageRow ws columnValues columnNulls = Ok ws' ->
  stripe_unbounded ws' c /\ comparisonFunctionArray ws' !! c = Some None.
Proof.
  intros Hnone Hclean Hstage.
  destruct (StageRow_spec _ _ _ _ Hstage)
    as (ws1 & blockIndex & blockRowIndex & buffers1 & buffers' & Hadd & Hb1 & Hb'
        & _ & _ & Hlist & Hsame).
  split; [|destruct Hsame as (_ & _ & _ & _ & _ & -> & _); exact Hnone].
  destruct (AddRow_spec _ _ _ _ _ _ Hadd)
    as (ws0 & buffers & skipList & nodes' & Hensure & Hb0 & Hs0 & HR & -> & ->
        & Hcols & _ & Hs1 & _).
  destruct (EnsureStripe_spec _ _ _ _ Hensure) as [Hsame0 Hcase].
  assert (Hbefore : forall nodes (b : nat) node,
            blockSkipNodeArray skipList !! c = Some nodes ->
            nodes !! b = Some node -> hasMinMax node = false).
  { destruct (stripeBuffers ws) as [buffers0|] eqn:Hopen.
    - subst ws0. intros nodes b node. exact (Hclean _ _ _ _ _ Hopen Hs0).
    - destruct Hcase as (_ & fresh & freshList & _ & HfreshList & _ & Hs).
      rewrite Hs0 in Hs. injection Hs as ->. intros nodes b node Hc Hb.
      now rewrite (CreateEmptyStripeSkipList_spec _ _ _ _ _ _ _ _ HfreshList Hc Hb). }
  intros b' sl' nodes1 b node1 _ Hsl' Hnodes1 Hnode1.
  rewrite Hlist, Hs1 in Hsl'. injection Hsl' as <-.
  cbn [blockSkipNodeArray set_blockCount set_nodes] in Hnodes1.
  destruct Hcols as (_ & _ & Hrest & Hdone).
  set (C := Z.to_nat (u32 (natts (tupleDescriptor ws)))) in *.
  destruct (Nat.lt_ge_cases c C) as [Hlt|Hge].
  - destruct (Hdone c Hlt)
      as (blockData & cnodes & old & isNull & blockData' & new & _ & Hcn & _ & Hold
          & _ & Hcell & _ & Hafter).
    cbn [fst snd] in Hcn, Hafter. rewrite Hafter in Hnodes1. injection Hnodes1 as <-.
    set (bi := Z.to_nat (u32 (rowCount buffers
                              / u32 (blockRowCount (tableFooter ws))))) in *.
    destruct (Nat.eq_dec b bi) as [->|Hne].
    + rewrite list_lookup_insert_eq in Hnode1 by (eapply lookup_lt_Some; eauto).
      injection Hnode1 as <-.
      apply WriteCell_spec in Hcell as (_ & _ & Hcell). destruct isNull.
      * destruct Hcell as [_ ->]. exact (Hbefore _ _ _ Hcn Hold).
      * destruct Hcell as (f' & att' & value0 & buf & buf' & node1 & Hf' & _ & _
                           & _ & _ & Hupdate & _ & ->).
        apply load_nat in Hf'.
        assert (Harray : comparisonFunctionArray ws0 = comparisonFunctionArray ws)
          by apply Hsame0.
        rewrite Harray, Hnone in Hf'. injection Hf' as <-.
        unfold UpdateBlockSkipNodeMinMax in Hupdate. injection Hupdate as <-.
        exact (Hbefore _ _ _ Hcn Hold).
    + rewrite list_lookup_insert_ne in Hnode1 by lia.
      exact (Hbefore _ _ _ Hcn Hnode1).
  - destruct (Hrest c Hge) as [_ Hsame']. cbn [fst snd] in Hsame'.
    rewrite Hsame' in Hnodes1. exact (Hbefore _ _ _ Hnodes1 Hnode1).
Qed.

Lemma StageRows_unbounded rows ws ws' c :
  comparisonFunctionArray ws !! c = Some None ->
  stripe_unbounded ws c ->
  StageRows ws rows = Ok ws' ->
  stripe_unbounded ws' c /\ comparisonFunctionArray ws' !! c = Some None.
Proof.
  revert ws. induction rows as [|[columnValues columnNulls] rows IH];
    intros ws Hnone Hclean Hrun.
  - injection Hrun as <-. auto.
  - cbn [StageRows] in Hrun. inv_bind Hrun as ws1 Hstage.
    destruct (StageRow_unbounded _ _ _ _ _ Hnone Hclean Hstage) as [Hclean1 Hnone1].
    exact (IH ws1 Hnone1 Hclean1 Hrun).
Qed.
End UnorderedColumns.

Section CoverageClaims.
Context {host : Host} {collab : Collaborators}.

(** C2. Let column [c] have a comparison function that implements a total
    order. After the row that [CStoreWriteRow] receives after [rows] of the
    stripe, in the skip list of the writer and in the skip list that a
    flush would write, the node of every block that holds a non-null
    value [v] of the column has a minimum and a maximum, and
    [cmp(min, v) <= 0 <= cmp(max, v)]. An update with a value that ties
    with the minimum (the maximum) keeps the minimum (the maximum) datum.
    The nodes of a column without comparison function have no minimum and
    maximum. *)
Theorem minmax_covers_values ws (rows : list Row) ws1 columnValues columnNulls
  ws2 c f att :
  let cmp := compare_with f (attcollation att) in
  let stripe := rows ++ [(columnValues, columnNulls)] in
  let R := u32 (blockRowCount (tableFooter ws1)) in
  stripeBuffers ws = None ->
  len rows < Z.max 1 (stripeMaxRowCount ws) ->
  len rows < 2 ^ 32 - 1 ->
  column_ordered ws c f att ->
  (forall i value, value_at stripe i c value -> datum_ok att value) ->
  WriteRows ws rows = Ok ws1 ->
  CStoreWriteRow ws1 columnValues columnNulls = Ok ws2 ->
  exists ws',
    StageRow ws1 columnValues columnNulls = Ok ws'
    /\ (forall skipList,
          stripeSkipList ws' = Some skipList
          \/ (exists image,
                PrepareStripe ws' = Ok image
                /\ si_stripeSkipList image = skipList) ->
          forall (b : nat) nodes node i value,
            blockSkipNodeArray skipList !! c = Some nodes ->
            nodes !! b = Some node ->
            value_at stripe i c value -> i / R = Z.of_nat b ->
            hasMinMax node = true
            /\ cmp (minimumValue node) value <= 0
            /\ 0 <= cmp (maximumValue node) value)
    /\ (forall node value node',
          hasMinMax node = true -> datum_ok att value ->
          UpdateBlockSkipNodeMinMax node value (attbyval att) (attlen att)
            (attcollation att) (Some f) = Ok node' ->
          (cmp value (minimumValue node) = 0 ->
           minimumValue node' = minimumValue node)
          /\ (cmp value (maximumValue node) = 0 ->
              maximumValue node' = maximumValue node))
    /\ (forall (c' : nat) skipList nodes (b : nat) node,
          comparisonFunctionArray ws !! c' = Some None ->
          stripeSkipList ws' = Some skipList ->
          blockSkipNodeArray skipList !! c' = Some nodes ->
          nodes !! b = Some node ->
          hasMinMax node = false).
Proof.
  intros cmp stripe R Hclosed Hroom Hbound Hcolumn Hdatum Hrows Hwrite.
  pose proof (len_nonneg rows) as Hn.
  assert (Hcounts0 : stripe_counts ws 0).
  { unfold stripe_counts. now rewrite Hclosed. }
  pose proof (WriteRows_stages rows ws ws1 0 Hcounts0 ltac:(lia) ltac:(lia)
                ltac:(lia) Hrows) as Hstages.
  assert (Hminmax0 : stripe_minmax ws cmp c []).
  { unfold stripe_minmax. now rewrite Hclosed. }
  destruct (StageRows_minmax rows ws ws1 [] c f att Hminmax0) as [Hminmax1 Hcolumn1].
  { change (len []) with 0. lia. }
  { exact Hcolumn. }
  { intros i value Hvalue. apply (Hdatum i). now apply value_at_app. }
  { exact Hstages. }
  cbn [app] in Hminmax1.
  destruct (CStoreWriteRow_stages _ _ _ _ Hwrite) as (ws' & buffers' & Hstage & _).
  exists ws'. split; [exact Hstage|].
  assert (Hminmax2 : stripe_minmax ws' cmp c stripe).
  { apply (StageRow_minmax ws1 _ _ ws' rows c f att Hminmax1 Hbound Hcolumn1);
      [|exact Hstage].
    intros value Hnull Hvalue. apply (Hdatum (len rows)).
    exists columnValues, columnNulls. split; [lia|].
    unfold stripe, len. rewrite Nat2Z.id, list_lookup_middle by reflexivity. auto. }
  assert (Hfooter : tableFooter ws' = tableFooter ws1).
  { apply StageRow_spec in Hstage
      as (_ & _ & _ & _ & _ & _ & _ & _ & _ & _ & _ & Hsame). apply Hsame. }
  split.
  - intros skipList Hlist b nodes node i value Hnodes Hnode Hvalue Hblock.
    assert (Htracked : minmax_tracked cmp R c stripe skipList).
    { destruct Hlist as [Hlist|(image & Hprep & <-)].
      - unfold stripe_minmax in Hminmax2. rewrite Hlist in Hminmax2.
        destruct (stripeBuffers ws') as [b'|].
        + rewrite Hfooter in Hminmax2. apply Hminmax2.
        + apply value_at_range in Hvalue. rewrite Hminmax2 in Hvalue.
          change (len []) with 0 in Hvalue. lia.
      - pose proof (PrepareStripe_minmax _ _ _ _ _ Hminmax2 Hprep) as Htracked.
        rewrite Hfooter in Htracked. exact Htracked. }
    destruct (Htracked b nodes node i value Hnodes Hnode Hvalue Hblock)
      as [Hhas [Hlow Hhigh]].
    auto.
  - split.
    + intros node value node' Hhas Hvalue Hupdate.
      destruct Hcolumn as (_ & _ & _ & Horder).
      destruct (UpdateBlockSkipNodeMinMax_covers node value att f node' Horder
                  Hvalue Hupdate) as (_ & _ & _ & Hties).
      destruct (Hties Hhas) as (_ & Hmin & Hmax). auto.
    + intros c' skipList nodes b node Hnone Hlist Hnodes Hnode.
      assert (Hclean : stripe_unbounded ws c').
      { intros buffers0 sl0 nodes0 b0 node0 Hopen. congruence. }
      destruct (StageRows_unbounded _ _ _ _ Hnone Hclean Hstages)
        as [Hclean1 Hnone1].
      destruct (StageRow_unbounded _ _ _ _ _ Hnone1 Hclean1 Hstage)
        as [Hclean2 _].
      destruct (StageRow_spec _ _ _ _ Hstage)
        as (_ & _ & _ & _ & open & _ & _ & Hopen & _).
      exact (Hclean2 open skipList nodes b node Hopen Hlist Hnodes Hnode).
Qed.
End CoverageClaims.

Lemma minmax_covers_values_witness :
  match fresh_writer 4 2 with
  | Ok ws =>
      match @WriteRows small_pages (plain_codec None 0) ws
              (int4_rows [30; 10]) with
      | Ok ws1 =>
          exists ws' skipList,
            @StageRow small_pages (plain_codec None 0) ws1 [ByValue 20] [false] = Ok ws'
            /\ stripeSkipList ws' = Some skipList
            /\ forall (b : nat) nodes node i value,
                 blockSkipNodeArray skipList !! 0%nat = Some nodes ->
                 nodes !! b = Some node ->
                 value_at (int4_rows [30; 10; 20]) i 0 value ->
                 i / 2 = Z.of_nat b ->
                 hasMinMax node = true
                 /\ compare_with btint4cmp 0 (minimumValue node) value <= 0
                 /\ 0 <= compare_with btint4cmp 0 (maximumValue node) value
      | Err _ => False
      end
  | Err _ => False
  end.
Proof.
  assert (Hfacts :
            match fresh_writer 4 2 with
            | Ok ws =>
                stripeBuffers ws = None /\ stripeMaxRowCount ws = 4
                /\ comparisonFunctionArray ws = [Some btint4cmp]
                /\ tupleDescriptor ws = int4_table
                /\ match @WriteRows small_pages (plain_codec None 0) ws
                           (int4_rows [30; 10]) with
                   | Ok ws1 =>
                       blockRowCount (tableFooter ws1) = 2
                       /\ is_ok (@CStoreWriteRow small_pages (plain_codec None 0)
                                   ws1 [ByValue 20] [false]) = true
                       /\ match @StageRow small_pages (plain_codec None 0) ws1
                                  [ByValue 20] [false] with
                          | Ok ws' => is_Some (stripeSkipList ws')
                          | Err _ => True
                          end
                   | Err _ => False
                   end
            | Err _ => False
            end).
  { vm_compute. repeat split. eauto. }
  destruct (fresh_writer 4 2) as [ws|e] eqn:Hbegin; [|exact Hfacts].
  destruct Hfacts as (Hclosed & Hmax & Hfunctions & Htable & Hfacts).
  destruct (@WriteRows small_pages (plain_codec None 0) ws (int4_rows [30; 10]))
    as [ws1|e] eqn:Hrows; [|exact Hfacts].
  destruct Hfacts as (HR & Hwrites & Hlist).
  destruct (@CStoreWriteRow small_pages (plain_codec None 0) ws1
              [ByValue 20] [false]) as [ws2|e] eqn:Hwrite; [|discriminate].
  destruct (@minmax_covers_values small_pages (plain_codec None 0) ws
              (int4_rows [30; 10]) ws1 [ByValue 20] [false] ws2 0%nat
              btint4cmp int4_column Hclosed)
    as (ws' & Hstage & Hcovers & _ & _).
  - rewrite Hmax. reflexivity.
  - reflexivity.
  - unfold column_ordered. rewrite Hfunctions, Htable.
    split; [reflexivity|]. split; [reflexivity|]. split; [reflexivity|].
    apply btint4cmp_total_order.
  - intros i value _. left. reflexivity.
  - exact Hrows.
  - exact Hwrite.
  - rewrite Hstage in Hlist. destruct Hlist as [skipList Hlist].
    exists ws', skipList. split; [exact Hstage|]. split; [exact Hlist|].
    intros b nodes node i value Hnodes Hnode Hvalue Hblock.
    apply (Hcovers skipList (or_introl Hlist) b nodes node i value Hnodes Hnode
             Hvalue).
    rewrite HR. exact Hblock.
Defined.

(** ** The block row count of a resumed table *)

(** C10. On a table whose footer records blocks of four rows,
    [CStoreBeginWrite] keeps the footer whatever its [blockRowCount]
    argument is, and rows are partitioned into blocks of four: with the
    argument 2, two rows leave the first block open, with both rows in it.
    But the argument is not ignored: it is the size of the exists arrays
    that [CStoreBeginWrite] allocates, and the third row of the block,
    which the same session with the argument 4 takes, is written beyond
    the end of an array of two flags. *)
Theorem block_row_count_argument_sizes_arrays :
  (forall argument ws,
     resumed_writer argument = Ok ws ->
     tableFooter ws = empty_footer 4
     /\ blockDataArray ws
        = [{| existsArray := replicate (Z.to_nat argument) false;
              data_valueBuffer := None |}])
  /\ match resumed_session 2 [10; 20] with
     | Ok ws =>
         option_map rowCount (stripeBuffers ws) = Some 2
         /\ option_map blockCount (stripeSkipList ws) = Some 1
         /\ map existsArray (blockDataArray ws) = [[true; true]]
     | Err _ => False
     end
  /\ resumed_session 2 [10; 20; 30] = Err Undefined
  /\ match resumed_session 4 [10; 20; 30] with
     | Ok ws =>
         option_map rowCount (stripeBuffers ws) = Some 3
         /\ option_map blockCount (stripeSkipList ws) = Some 1
         /\ map existsArray (blockDataArray ws) = [[true; true; true; false]]
     | Err _ => False
     end.
Proof.
  split; [|split; [|split]].
  - intros argument ws Hbegin. unfold resumed_writer, CStoreBeginWrite in Hbegin.
    inv_bind Hbegin as u Hzero. inv_bind Hbegin as functions Hfunctions.
    injection Hbegin as <-. split; reflexivity.
  - vm_compute. repeat split.
  - vm_compute. reflexivity.
  - vm_compute. repeat split.
Qed.

(** ** Flushes of a session happen at the end of the data fork *)

Section SessionFlushes.
Context {host : Host} {collab : Collaborators}.
Hypothesis Hhost : host_ok.
Hypothesis Hcollab : collaborators_ok.

Lemma CStoreWriteRow_at_end ws columnValues columnNulls ws' :
  between_rows ws ->
  at_end (dataFork (relation ws)) (activeBlockNumber ws) ->
  CStoreWriteRow ws columnValues columnNulls = Ok ws' ->
  at_end (dataFork (relation ws')) (activeBlockNumber ws').
Proof.
  intros (Hsession & Hrows & Hmax) Hend Hwrite.
  destruct (CStoreWriteRow_stages _ _ _ _ Hwrite)
    as (ws1 & buffers & Hstage & Hb & Hcase).
  assert (Hrows' : rows_bounded ws (2 ^ 32 - 1))
    by (apply (rows_bounded_le _ _ _ Hrows); lia).
  pose proof (StageRow_session Hcollab _ _ _ _ Hsession Hrows' Hstage)
    as (Hwriter1 & Hok1 & Hwrap1 & _).
  assert (Hend1 : at_end (dataFork (relation ws1)) (activeBlockNumber ws1)).
  { apply StageRow_spec in Hstage
      as (_ & _ & _ & _ & _ & _ & _ & _ & _ & _ & _ & Hsame).
    destruct Hsame as (_ & _ & _ & _ & _ & _ & _ & -> & ->). exact Hend. }
  unfold CStoreWriteRow in Hwrite. rewrite Hstage in Hwrite.
  cbn [bind] in Hwrite. rewrite Hb in Hwrite. cbn [deref of_option bind] in Hwrite.
  destruct (stripeMaxRowCount ws1 <=? rowCount buffers).
  - inv_bind Hwrite as [md ws2] Hflush. injection Hwrite as <-.
    destruct (FlushStripe_bytes Hhost Hcollab _ _ _ Hok1 Hwrap1 Hwriter1 Hend1
                Hflush) as (image & _ & _ & _ & Hend2 & _).
    exact Hend2.
  - injection Hwrite as <-. exact Hend1.
Qed.

Lemma WriteRows_at_end rows ws ws' :
  between_rows ws ->
  at_end (dataFork (relation ws)) (activeBlockNumber ws) ->
  WriteRows ws rows = Ok ws' ->
  at_end (dataFork (relation ws')) (activeBlockNumber ws').
Proof.
  revert ws. induction rows as [|[columnValues columnNulls] rows IH];
    intros ws Hsession Hend Hrun.
  - now injection Hrun as <-.
  - cbn [WriteRows] in Hrun. inv_bind Hrun as ws1 Hwrite.
    apply (IH ws1); [| |exact Hrun].
    + exact (CStoreWriteRow_session Hhost Hcollab _ _ _ _ Hsession Hwrite).
    + exact (CStoreWriteRow_at_end _ _ _ _ Hsession Hend Hwrite).
Qed.

(** In a session on a table whose data fork ends with the active block, as
    that of a new table does, every flush finds the writer as
    [FlushStripe_bytes] needs it. *)
Lemma session_flush_ready rel kind stripeRows blockRows logging
  tupleDescriptor ws0 rows ws ws1 :
  fork_ok (dataFork rel) ->
  (forall footer, CStoreReadFooter rel = Some footer -> footer_ok footer) ->
  1 <= u32 (natts tupleDescriptor) ->
  CStoreBeginWrite rel kind stripeRows blockRows logging tupleDescriptor
    = Ok ws0 ->
  u32 (blockRowCount (tableFooter ws0)) + 7 < 2 ^ 32 ->
  stripeRows < 2 ^ 32 ->
  len (dataFork rel) <= activeBlockNumber ws0 + 1 ->
  WriteRows ws0 rows = Ok ws ->
  flush_point ws ws1 ->
  buffers_ok ws1
  /\ u32 (blockRowCount (tableFooter ws1)) + 7 < 2 ^ 32
  /\ writer_ok ws1
  /\ at_end (dataFork (relation ws1)) (activeBlockNumber ws1).
Proof.
  intros Hfork Hfooter Hcolumns Hbegin Hwrap Hmax Hlast Hrows Hpoint.
  pose proof (CStoreBeginWrite_session _ _ _ _ _ _ _ Hfork Hfooter Hcolumns
                Hbegin Hwrap Hmax) as Hsession0.
  assert (Hend0 : at_end (dataFork (relation ws0)) (activeBlockNumber ws0)).
  { pose proof Hsession0 as ((Hwriter0 & _) & _).
    assert (Hrel : relation ws0 = rel).
    { unfold CStoreBeginWrite in Hbegin. inv_bind Hbegin as u Hzero.
      inv_bind Hbegin as functions Hfunctions. now injection Hbegin as <-. }
    rewrite Hrel. split; [apply Hwriter0|exact Hlast]. }
  pose proof (WriteRows_session Hhost Hcollab _ _ _ Hsession0 Hrows)
    as Hsession.
  pose proof (WriteRows_at_end _ _ _ Hsession0 Hend0 Hrows) as Hend.
  destruct Hsession as (Hsession & Hbound & Hmax').
  destruct Hpoint as [->|(values & nulls & Hstage)].
  - destruct Hsession as (Hwriter & Hok & Hwrap' & _). auto.
  - assert (Hbound' : rows_bounded ws (2 ^ 32 - 1))
      by (apply (rows_bounded_le _ _ _ Hbound); lia).
    pose proof (StageRow_session Hcollab _ _ _ _ Hsession Hbound' Hstage)
      as (Hwriter1 & Hok1 & Hwrap1 & _).
    split; [exact Hok1|]. split; [exact Hwrap1|]. split; [exact Hwriter1|].
    apply StageRow_spec in Hstage
      as (_ & _ & _ & _ & _ & _ & _ & _ & _ & _ & _ & Hsame).
    destruct Hsame as (_ & _ & _ & _ & _ & _ & _ & -> & ->). exact Hend.
Qed.
End SessionFlushes.

(** ** The flags of a block, bit by bit *)

Lemma testbit_1 m : Z.testbit 1 m = (m =? 0).
Proof. now destruct m. Qed.

Lemma flag_at_zero n i : flag_at (replicate n x00) i = false.
Proof.
  unfold flag_at. destruct (replicate n x00 !! Z.to_nat (i / 8)) as [b|] eqn:Hb;
    [|reflexivity].
  apply lookup_replicate in Hb as [-> _]. apply Z.testbit_0_l.
Qed.

Lemma flag_at_set buffer (i j : Z) old :
  0 <= i -> 0 <= j ->
  buffer !! Z.to_nat (i / 8) = Some old ->
  flag_at (<[Z.to_nat (i / 8) :=
              byte_of_Z (Z.lor (Z_of_byte old) (Z.shiftl 1 (i mod 8)))]> buffer) j
  = flag_at buffer j || (j =? i).
Proof.
  intros Hi Hj Hold. unfold flag_at.
  assert (Hmi : 0 <= i mod 8 < 8) by (apply Z.mod_pos_bound; lia).
  assert (Hmj : 0 <= j mod 8 < 8) by (apply Z.mod_pos_bound; lia).
  destruct (Z.eq_dec (j / 8) (i / 8)) as [Heq|Hne].
  - rewrite Heq, list_lookup_insert_eq by (eapply lookup_lt_Some; exact Hold).
    rewrite Hold, Z_of_byte_of_Z. unfold u8.
    rewrite Z.mod_pow2_bits_low by lia.
    rewrite Z.lor_spec, Z.shiftl_spec by lia.
    f_equal. rewrite testbit_1.
    destruct (Z.eqb_spec j i) as [->|Hji].
    + rewrite Z.sub_diag. reflexivity.
    + destruct (Z.eqb_spec (j mod 8 - i mod 8) 0) as [H0|H0]; [|reflexivity].
      exfalso. apply Hji.
      rewrite (Z.div_mod j 8), (Z.div_mod i 8) by lia. lia.
  - rewrite list_lookup_insert_ne.
    2:{ intros H. apply Hne. apply Z2Nat.inj in H; [lia| |];
        apply Z.div_pos; lia. }
    destruct (Z.eqb_spec j i) as [->|_]; [contradiction|].
    now rewrite orb_false_r.
Qed.

(** X1. [SerializeBoolArray] on the first [n] flags of an array that has
    them returns [(n + 7) / 8] bytes in which bit [i mod 8] of byte [i / 8]
    is flag [i] for [i < n], and every bit after the flags is zero. *)
Theorem SerializeBoolArray_packs (flags : list bool) n :
  0 <= n <= len flags -> n + 7 < 2 ^ 32 ->
  exists buffer,
    SerializeBoolArray flags n = Ok buffer
    /\ len buffer = (n + 7) / 8
    /\ forall i, 0 <= i ->
         flag_at buffer i =
         if i <? n then default false (flags !! Z.to_nat i) else false.
Proof.
  intros Hn Hwrap. unfold SerializeBoolArray.
  rewrite u32_small by lia. rewrite Z.quot_div_nonneg by lia.
  set (byteCount := (n + 7) / 8).
  assert (Hcount : 0 <= byteCount < 2 ^ 29).
  { unfold byteCount. split; [apply Z.div_pos; lia|].
    apply Z.div_lt_upper_bound; lia. }
  rewrite i32_small by lia.
  assert (Hlarge : enlargeStringInfo [] byteCount = Ok tt).
  { unfold enlargeStringInfo. change (len []) with 0.
    destruct (byteCount <? 0) eqn:E1; [lia|].
    unfold MaxAllocSize. cbn [bind].
    destruct (Z.ltb_spec byteCount 0); try lia.
    repeat match goal with
           | |- context [if ?c then _ else _] => destruct c eqn:?
           end; try reflexivity; try lia. }
  rewrite Hlarge. cbn [bind].
  destruct (for_loop_total
              (fun k buffer =>
                 len buffer = byteCount
                 /\ forall i, 0 <= i ->
                      flag_at buffer i =
                      if i <? Z.of_nat k
                      then default false (flags !! Z.to_nat i) else false)
              (Z.to_nat n)
              (fun boolArrayIndex buffer =>
                 do flag <- load flags (Z.of_nat boolArrayIndex);
                 if (flag : bool) then
                   let byteIndex := Z.quot (Z.of_nat boolArrayIndex) 8 in
                   let bitIndex := Z.rem (Z.of_nat boolArrayIndex) 8 in
                   do old <- load buffer byteIndex;
                   store buffer byteIndex
                     (byte_of_Z (Z.lor (Z_of_byte old) (Z.shiftl 1 bitIndex)))
                 else Ok buffer)
              (replicate (Z.to_nat byteCount) x00))
    as (buffer & Hrun & Hlen & Hbits).
  - split; [unfold len; rewrite length_replicate; lia|].
    intros i Hi. rewrite flag_at_zero. now destruct (Z.ltb_spec i (Z.of_nat 0)); [lia|].
  - intros k buffer Hk [Hlen Hbits].
    destruct (flags !! k) as [flag|] eqn:Hflag.
    2:{ apply lookup_ge_None in Hflag. unfold len in Hn. lia. }
    unfold load at 1. destruct (Z.ltb_spec (Z.of_nat k) 0); [lia|].
    rewrite Nat2Z.id, Hflag. cbn [of_option bind].
    assert (Hnext : forall i, 0 <= i ->
              (if i <? Z.of_nat (S k) then default false (flags !! Z.to_nat i)
               else false)
              = (if i <? Z.of_nat k then default false (flags !! Z.to_nat i)
                 else false) || ((i =? Z.of_nat k) && flag)).
    { intros i Hi. destruct (Z.ltb_spec i (Z.of_nat (S k))),
        (Z.ltb_spec i (Z.of_nat k)), (Z.eqb_spec i (Z.of_nat k)); try lia;
        cbn; rewrite ?orb_false_r; try reflexivity.
      subst i. now rewrite Nat2Z.id, Hflag. }
    destruct flag.
    + cbn zeta. rewrite Z.quot_div_nonneg, Z.rem_mod_nonneg by lia.
      assert (Hbyte : 0 <= Z.of_nat k / 8 < byteCount).
      { split; [apply Z.div_pos; lia|]. unfold byteCount.
        apply Z.div_lt_upper_bound; [lia|].
        pose proof (Z.mul_div_le (n + 7) 8 ltac:(lia)).
        pose proof (Z.mod_pos_bound (n + 7) 8 ltac:(lia)).
        pose proof (Z.div_mod (n + 7) 8 ltac:(lia)). lia. }
      destruct (lookup_lt_is_Some_2 buffer (Z.to_nat (Z.of_nat k / 8)))
        as [old Hold]; [unfold len in Hlen; lia|].
      unfold load. destruct (Z.ltb_spec (Z.of_nat k / 8) 0); [lia|].
      rewrite Hold. cbn [of_option bind]. unfold store.
      destruct (Z.leb_spec 0 (Z.of_nat k / 8)); [|lia].
      destruct (Z.ltb_spec (Z.of_nat k / 8) (Z.of_nat (length buffer)));
        [|unfold len in Hlen; lia].
      cbn [andb]. eexists. split; [reflexivity|].
      split; [now rewrite len_insert|].
      intros i Hi. rewrite flag_at_set by (try lia; exact Hold).
      rewrite Hbits, Hnext by lia. now rewrite andb_true_r.
    + eexists. split; [reflexivity|]. split; [exact Hlen|].
      intros i Hi. rewrite Hbits, Hnext by lia.
      now rewrite andb_false_r, orb_false_r.
  - exists buffer. split; [exact Hrun|]. split; [exact Hlen|].
    intros i Hi. rewrite Hbits by lia. now rewrite Z2Nat.id by lia.
Qed.

Lemma SerializeBoolArray_packs_witness :
  exists buffer,
    SerializeBoolArray [true; false; true; true; false; false; false; false; true] 9
      = Ok buffer
    /\ len buffer = (9 + 7) / 8
    /\ forall i, 0 <= i ->
         flag_at buffer i =
         if i <? 9
         then default false
                ([true; false; true; true; false; false; false; false; true]
                   !! Z.to_nat i)
         else false.
Proof.
  apply (SerializeBoolArray_packs
           [true; false; true; true; false; false; false; false; true] 9).
  - unfold len. cbn. lia.
  - lia.
Defined.

(** ** The bytes of a datum *)

(** X2. A by-value datum is appended as the low bytes of its word in
    little-endian order, zero padded to the alignment of the type with fewer
    than eight bytes; what was in the buffer stays, and the bytes written
    read back as the word modulo the width of the type. *)
Theorem SerializeSingleDatum_by_value {host : Host}
  buffer word typeLength align buffer' :
  SerializeSingleDatum buffer (ByValue word) true typeLength align = Ok buffer' ->
  exists padding,
    buffer' =
    buffer ++ le_bytes (Z.to_nat typeLength) word ++ replicate padding x00
    /\ typeLength + Z.of_nat padding = att_align_nominal typeLength align
    /\ (padding < 8)%nat
    /\ le_value (take (Z.to_nat typeLength) (drop (length buffer) buffer'))
       = word mod 2 ^ (8 * typeLength).
Proof.
  intros H.
  destruct (SerializeSingleDatum_image _ _ _ _ _ _ H)
    as (datumLength & image & Hlen & Himage & Hfit & ->).
  destruct (att_addlength_datum_by_value _ _ _ Hlen) as [Hpos ->].
  destruct (Z.ltb_spec 0 typeLength) as [_|Hneg]; [|lia].
  unfold store_att_byval in Himage.
  destruct ((typeLength =? 1) || (typeLength =? 2) || (typeLength =? 4)
            || (typeLength =? 8)) eqn:Hwidth; [|discriminate].
  injection Himage as <-.
  assert (Hsmall : typeLength <= 8).
  { repeat (apply orb_prop in Hwidth as [Hwidth|Hwidth]);
      apply Z.eqb_eq in Hwidth; lia. }
  rewrite (u32_small typeLength) in * by lia.
  pose proof (att_align_nominal_bounds typeLength align) as Halign.
  rewrite u32_small in * by lia.
  unfold len in Hfit. rewrite length_le_bytes in *.
  exists (Z.to_nat (att_align_nominal typeLength align) - Z.to_nat typeLength)%nat.
  split; [reflexivity|]. split; [lia|]. split; [lia|].
  rewrite drop_app_length, take_app_length'
    by (rewrite length_le_bytes; reflexivity).
  rewrite le_value_le_bytes. now rewrite Z2Nat.id by lia.
Qed.

Lemma SerializeSingleDatum_by_value_witness :
  exists padding,
    [x07; x01; x02; x00; x00; x00; x00; x00; x00] =
    [x07] ++ le_bytes (Z.to_nat 2) 513 ++ replicate padding x00
    /\ 2 + Z.of_nat padding = att_align_nominal 2 "d"
    /\ (padding < 8)%nat
    /\ le_value (take (Z.to_nat 2)
                   (drop (length [x07])
                      [x07; x01; x02; x00; x00; x00; x00; x00; x00]))
       = 513 mod 2 ^ (8 * 2).
Proof.
  apply (@SerializeSingleDatum_by_value small_pages [x07] 513 2 "d").
  reflexivity.
Defined.

(** X3. A by-reference datum is appended as the first bytes of its object,
    as many as its extent: the length of the type if that is fixed, else
    what [att_addlength_datum] reads from the object itself (the header of
    a varlena, the terminating NUL of a C string), as a [uint32]. When
    [SerializeSingleDatum] returns, the object holds that many bytes, they
    follow what was in the buffer, and fewer than eight zeroes pad them to
    the alignment of the type. When the object is shorter than the extent
    it states, the call does not return: the copy reads past the object,
    unless the alignment of the type trips the assertion of
    [att_align_nominal] or the host refuses to enlarge the buffer first.
    When the extent cannot be read, the call fails as that read does. *)
Theorem SerializeSingleDatum_by_reference {host : Host} buffer object
  typeLength align :
  match att_addlength_datum typeLength (ByReference object) with
  | Ok datumLength =>
      let extent := u32 datumLength in
      (forall buffer',
         SerializeSingleDatum buffer (ByReference object) false typeLength align
           = Ok buffer' ->
         exists padding,
           buffer'
           = buffer ++ take (Z.to_nat extent) object ++ replicate padding x00
           /\ extent <= len object
           /\ extent + Z.of_nat padding = att_align_nominal extent align
           /\ (padding < 8)%nat)
      /\ (len object < extent ->
          match
            SerializeSingleDatum buffer (ByReference object) false typeLength
              align
          with
          | Ok _ => False
          | Err e => e = Undefined \/ e = HostError \/ e = AssertTrap
          end)
  | Err e =>
      SerializeSingleDatum buffer (ByReference object) false typeLength align
        = Err e
  end.
Proof.
  destruct (att_addlength_datum typeLength (ByReference object))
    as [datumLength|e] eqn:Hlen.
  - cbv zeta. pose proof (u32_range datumLength) as Hextent. split.
    + intros buffer' H.
      destruct (SerializeSingleDatum_spec _ _ _ _ _ _ H)
        as (datumLength' & Hlen' & Himage & Halign & ->).
      rewrite Hlen in Hlen'. injection Hlen' as <-.
      cbn [datum_image] in Himage.
      exists (Z.to_nat (att_align_nominal (u32 datumLength) align
                        - u32 datumLength)).
      split; [reflexivity|].
      split; [unfold len in *; rewrite length_take in Himage; lia|].
      split; lia.
    + intros Hshort. unfold SerializeSingleDatum. rewrite Hlen. cbn [bind].
      destruct (att_align_nominal_assert align) as [known|e] eqn:Hknown.
      2:{ cbn [bind]. right. right.
          exact (att_align_nominal_assert_Err _ _ Hknown). }
      cbn [bind].
      destruct (enlargeStringInfo buffer _) as [u|e] eqn:Hlarge.
      * cbn [bind negb DatumGetPointer]. unfold read_object.
        destruct (Z.ltb_spec 0 typeLength) as [Hpos|Hneg].
        -- unfold att_addlength_datum in Hlen.
           destruct (Z.ltb_spec 0 typeLength); [|lia]. injection Hlen as <-.
           assert (Hle : u32 typeLength <= typeLength)
             by (unfold u32; apply Z.mod_le; lia).
           destruct (Z.ltb_spec (len object) typeLength); [now left|lia].
        -- unfold Assert. destruct USE_ASSERT_CHECKING; cbn [bind];
             (destruct (Z.ltb_spec (len object) (u32 datumLength));
                [now left|lia]).
      * cbn [bind]. right. left. unfold enlargeStringInfo in Hlarge.
        destruct (_ <? 0); [now injection Hlarge as <-|].
        destruct (_ <=? _); [now injection Hlarge as <-|discriminate].
  - unfold SerializeSingleDatum. rewrite Hlen. reflexivity.
Qed.

Lemma SerializeSingleDatum_by_reference_witness :
  (exists padding,
     @SerializeSingleDatum small_pages [xff] (ByReference [x07; x61; x62]) false
       (-1) "i"
     = Ok ([xff] ++ take 3 [x07; x61; x62] ++ replicate padding x00)
     /\ padding = 1%nat)
  /\ @SerializeSingleDatum small_pages [xff] (ByReference [x09; x61; x62]) false
       (-1) "i"
     = Err Undefined
  /\ @SerializeSingleDatum small_pages [xff] (ByReference [x0c; x61; x62]) false
       (-1) "i"
     = Err Undefined.
Proof.
  split; [|split].
  - pose proof (@SerializeSingleDatum_by_reference small_pages [xff]
                  [x07; x61; x62] (-1) "i") as Hhere.
    change (@att_addlength_datum small_pages (-1) (ByReference [x07; x61; x62]))
      with (@Ok Z 3) in Hhere.
    destruct Hhere as [Hreturns _].
    destruct (Hreturns _ eq_refl) as (padding & Hbytes & _ & Hpadding & _).
    exists padding. change (u32 3) with 3 in Hbytes, Hpadding.
    change (att_align_nominal 3 "i") with 4 in Hpadding.
    change (Z.to_nat 3) with 3%nat in Hbytes.
    split; [|lia]. rewrite <- Hbytes. reflexivity.
  - pose proof (@SerializeSingleDatum_by_reference small_pages [xff]
                  [x09; x61; x62] (-1) "i") as Hhere.
    change (@att_addlength_datum small_pages (-1) (ByReference [x09; x61; x62]))
      with (@Ok Z 4) in Hhere.
    destruct Hhere as [_ Hshort]. specialize (Hshort eq_refl).
    destruct (@SerializeSingleDatum small_pages [xff]
                (ByReference [x09; x61; x62]) false (-1) "i") as [bytes|e] eqn:Hrun;
      [contradiction|].
    vm_compute in Hrun. symmetry. exact Hrun.
  - exact (@SerializeSingleDatum_by_reference small_pages [xff]
             [x0c; x61; x62] (-1) "i").
Defined.

(** ** The minimum of a node is not above its maximum *)

(** One update keeps the two in order, and each of them is the new value or
    what it was. *)
Lemma UpdateBlockSkipNodeMinMax_sorted {host : Host}
  node value attribute function node' :
  let cmp := compare_with function (attcollation attribute) in
  total_order cmp -> datum_ok attribute value ->
  (hasMinMax node = true -> cmp (minimumValue node) (maximumValue node) <= 0) ->
  UpdateBlockSkipNodeMinMax node value (attbyval attribute) (attlen attribute)
    (attcollation attribute) (Some function) = Ok node' ->
  cmp (minimumValue node') (maximumValue node') <= 0.
Proof.
  intros cmp Horder Hdatum Hbefore. unfold UpdateBlockSkipNodeMinMax.
  rewrite (DatumCopy_datum_ok _ _ Hdatum).
  pose proof Horder as (Hrefl & Hswap & Htrans).
  destruct (hasMinMax node) eqn:Hhas; cbn [negb bind].
  - specialize (Hbefore eq_refl).
    change (i32 (function (attcollation attribute) value (minimumValue node)))
      with (cmp value (minimumValue node)).
    change (i32 (function (attcollation attribute) value (maximumValue node)))
      with (cmp value (maximumValue node)).
    destruct (Z.ltb_spec (cmp value (minimumValue node)) 0) as [Hmin|Hmin];
      destruct (Z.ltb_spec 0 (cmp value (maximumValue node))) as [Hmax|Hmax];
      cbn; intros [= <-]; cbn [minimumValue maximumValue set_min_max].
    + rewrite Hrefl. lia.
    + exact Hmax.
    + now apply (cmp_swap_le cmp Horder).
    + exact Hbefore.
  - cbn. intros [= <-]. cbn. rewrite Hrefl. lia.
Qed.

Section SortedStatistics.
Context {host : Host} {collab : Collaborators}.

Lemma StageRow_sorted ws columnValues columnNulls ws' c f att :
  column_ordered ws c f att ->
  (forall value, columnNulls !! c = Some false ->
     columnValues !! c = Some value -> datum_ok att value) ->
  stripe_sorted ws (compare_with f (attcollation att)) c ->
  StageRow ws columnValues columnNulls = Ok ws' ->
  stripe_sorted ws' (compare_with f (attcollation att)) c.
Proof.
  intros Hcolumn Hdatum Hsorted Hstage.
  set (cmp := compare_with f (attcollation att)) in *.
  destruct (StageRow_spec _ _ _ _ Hstage)
    as (ws1 & blockIndex & blockRowIndex & buffers1 & buffers' & Hadd & Hb1 & Hb'
        & _ & _ & Hlist & Hsame).
  destruct (AddRow_spec _ _ _ _ _ _ Hadd)
    as (ws0 & buffers & skipList & nodes' & Hensure & Hb0 & Hs0 & HR & -> & ->
        & Hcols & _ & Hs1 & _).
  destruct (EnsureStripe_spec _ _ _ _ Hensure) as [Hsame0 Hcase].
  assert (Hbefore : nodes_sorted cmp c skipList).
  { destruct (stripeBuffers ws) as [buffers0|] eqn:Hopen.
    - subst ws0. exact (Hsorted _ Hs0).
    - destruct Hcase as (_ & fresh & freshList & _ & HfreshList & _ & Hs).
      rewrite Hs0 in Hs. injection Hs as ->. intros nodes b node Hc Hb.
      rewrite (CreateEmptyStripeSkipList_spec _ _ _ _ _ _ _ _ HfreshList Hc Hb).
      discriminate. }
  pose proof (column_ordered_same _ _ _ _ _ Hsame0 Hcolumn)
    as (Hf & Hatt & Hc & Horder).
  intros sl' Hsl' nodes1 b node1 Hnodes1 Hnode1.
  rewrite Hlist, Hs1 in Hsl'. injection Hsl' as <-.
  cbn [blockSkipNodeArray set_blockCount set_nodes] in Hnodes1.
  destruct Hcols as (_ & _ & _ & Hdone).
  assert (Hdesc : tupleDescriptor ws0 = tupleDescriptor ws) by apply Hsame0.
  assert (Hcount : (c < Z.to_nat (u32 (natts (tupleDescriptor ws))))%nat)
    by (rewrite <- Hdesc; lia).
  destruct (Hdone c Hcount)
    as (blockData & cnodes & old & isNull & blockData' & new & _ & Hcn & _ & Hold
        & Hnull & Hcell & _ & Hafter).
  cbn [fst snd] in Hcn, Hafter. rewrite Hafter in Hnodes1. injection Hnodes1 as <-.
  set (bi := Z.to_nat (u32 (rowCount buffers
                            / u32 (blockRowCount (tableFooter ws))))) in *.
  destruct (Nat.eq_dec b bi) as [->|Hne].
  - rewrite list_lookup_insert_eq in Hnode1 by (eapply lookup_lt_Some; eauto).
    injection Hnode1 as <-.
    apply WriteCell_spec in Hcell as (_ & _ & Hcell). destruct isNull.
    + destruct Hcell as [_ ->]. exact (Hbefore _ _ _ Hcn Hold).
    + destruct Hcell as (f' & att' & value0 & buf & buf' & node1 & Hf' & Hatt'
                         & Hvalue0 & _ & _ & Hupdate & _ & ->).
      apply load_nat in Hf', Hatt', Hvalue0.
      rewrite Hf in Hf'. injection Hf' as <-.
      rewrite Hatt in Hatt'. injection Hatt' as <-.
      intros _.
      exact (UpdateBlockSkipNodeMinMax_sorted old value0 att f node1 Horder
               (Hdatum value0 Hnull Hvalue0) (Hbefore _ _ _ Hcn Hold) Hupdate).
  - rewrite list_lookup_insert_ne in Hnode1 by lia.
    exact (Hbefore _ _ _ Hcn Hnode1).
Qed.

Lemma StageRows_sorted rows ws ws' c f att :
  column_ordered ws c f att ->
  (forall i value, value_at rows i c value -> datum_ok att value) ->
  stripe_sorted ws (compare_with f (attcollation att)) c ->
  StageRows ws rows = Ok ws' ->
  stripe_sorted ws' (compare_with f (attcollation att)) c.
Proof.
  revert ws. induction rows as [|[columnValues columnNulls] rows IH];
    intros ws Hcolumn Hdatum Hsorted Hrun.
  - now injection Hrun as <-.
  - cbn [StageRows] in Hrun. inv_bind Hrun as ws1 Hstage.
    apply (IH ws1); [| | |exact Hrun].
    + apply StageRow_spec in Hstage
        as (_ & _ & _ & _ & _ & _ & _ & _ & _ & _ & _ & Hsame).
      exact (column_ordered_same _ _ _ _ _ Hsame Hcolumn).
    + intros i value (values & nulls & Hi & Hrow & Hrest).
      apply (Hdatum (i + 1)). exists values, nulls.
      split; [lia|]. split; [|exact Hrest].
      replace (Z.to_nat (i + 1)) with (S (Z.to_nat i)) by lia. exact Hrow.
    + apply (StageRow_sorted ws columnValues columnNulls ws1 c f att Hcolumn);
        [|exact Hsorted|exact Hstage].
      intros value Hnull Hvalue. apply (Hdatum 0).
      exists columnValues, columnNulls. cbn. auto with lia.
Qed.

(** X4. Let column [c] have a comparison function that implements a total
    order. After any rows staged into a new stripe, every skip node of the
    column that has a minimum and a maximum has [cmp(min, max) <= 0], in the
    skip list of the writer and in the skip list that a flush of the stripe
    writes. *)
Theorem minimum_not_above_maximum ws (rows : list Row) ws' c f att :
  let cmp := compare_with f (attcollation att) in
  stripeSkipList ws = None ->
  column_ordered ws c f att ->
  (forall i value, value_at rows i c value -> datum_ok att value) ->
  StageRows ws rows = Ok ws' ->
  forall skipList,
    stripeSkipList ws' = Some skipList
    \/ (exists image,
          PrepareStripe ws' = Ok image /\ si_stripeSkipList image = skipList) ->
    forall nodes (b : nat) node,
      blockSkipNodeArray skipList !! c = Some nodes -> nodes !! b = Some node ->
      hasMinMax node = true ->
      cmp (minimumValue node) (maximumValue node) <= 0.
Proof.
  intros cmp Hclosed Hcolumn Hdatum Hrun skipList Hlist.
  assert (Hsorted0 : stripe_sorted ws cmp c) by (intros sl Hsl; congruence).
  pose proof (StageRows_sorted _ _ _ _ _ _ Hcolumn Hdatum Hsorted0 Hrun) as Hsorted.
  destruct Hlist as [Hlist|(image & Hprep & <-)]; [exact (Hsorted _ Hlist)|].
  destruct (PrepareStripe_inv _ _ Hprep)
    as (b0 & sl & ws1 & buffers & nodes0 & arr & sf
        & Hb0 & Hsl & HR & Hlast & Hb & Hplace & Harr & Hsf & ->).
  cbn [si_stripeSkipList]. intros nodes b node Hcn Hnode Hhas.
  cbn [blockSkipNodeArray set_nodes] in Hcn.
  apply PlaceColumn_columns in Hplace.
  destruct (columns_placed_statistics _ _ _ _ _ _ _ _ _ Hplace Hcn Hnode)
    as (nodes1 & node1 & Hn1 & Hnode1 & (Hhas1 & Hmin & Hmax & _)).
  rewrite Hmin, Hmax. apply (Hsorted _ Hsl nodes1 b node1 Hn1 Hnode1). congruence.
Qed.
End SortedStatistics.

Lemma minimum_not_above_maximum_witness :
  match fresh_writer 4 2 with
  | Ok ws =>
      match @StageRows small_pages (plain_codec None 0) ws (int4_rows [30; 10; 20]) with
      | Ok ws' =>
          forall skipList,
            stripeSkipList ws' = Some skipList ->
            forall nodes (b : nat) node,
              blockSkipNodeArray skipList !! 0%nat = Some nodes ->
              nodes !! b = Some node ->
              hasMinMax node = true ->
              compare_with btint4cmp 0 (minimumValue node) (maximumValue node) <= 0
      | Err _ => False
      end
  | Err _ => False
  end.
Proof.
  assert (Hfacts :
            match fresh_writer 4 2 with
            | Ok ws =>
                stripeSkipList ws = None
                /\ comparisonFunctionArray ws = [Some btint4cmp]
                /\ tupleDescriptor ws = int4_table
                /\ is_ok (@StageRows small_pages (plain_codec None 0) ws
                            (int4_rows [30; 10; 20])) = true
            | Err _ => False
            end).
  { vm_compute. repeat split. }
  destruct (fresh_writer 4 2) as [ws|e] eqn:Hbegin; [|exact Hfacts].
  destruct Hfacts as (Hclosed & Hfunctions & Htable & Hstaged).
  destruct (@StageRows small_pages (plain_codec None 0) ws (int4_rows [30; 10; 20]))
    as [ws'|e] eqn:Hrows; [|discriminate].
  intros skipList Hlist.
  apply (@minimum_not_above_maximum small_pages (plain_codec None 0) ws
           (int4_rows [30; 10; 20]) ws' 0%nat btint4cmp int4_column Hclosed).
  - unfold column_ordered. rewrite Hfunctions, Htable.
    split; [reflexivity|]. split; [reflexivity|]. split; [reflexivity|].
    apply btint4cmp_total_order.
  - intros i value _. left. reflexivity.
  - exact Hrows.
  - left. exact Hlist.
Defined.

(** ** The file offset of a writer and the bytes of the data fork *)

Section StreamOffsets.
Context {host : Host} {collab : Collaborators}.
Hypothesis Hhost : host_ok.
Hypothesis Hcollab : collaborators_ok.

(** A flush moves the offset of the writer on by the bytes it writes. *)
Lemma FlushStripe_stream ws stripeMetadata ws' :
  session_ok ws ->
  currentFileOffset ws = len (fork_bytes (dataFork (relation ws))) ->
  FlushStripe ws = Ok (stripeMetadata, ws') ->
  currentFileOffset ws' = len (fork_bytes (dataFork (relation ws'))).
Proof.
  intros Hsession Hexact Hflush.
  destruct (FlushStripe_offsets Hhost Hcollab _ _ _ Hsession Hflush)
    as (image & _ & Hstart & Hskip & Hdata & Hfoot & _ & Hend & _ & Hlen & _).
  rewrite Hend, Hlen. unfold stripe_end, stripe_bytes.
  rewrite !len_app. lia.
Qed.

Lemma CStoreWriteRow_stream ws columnValues columnNulls ws' :
  between_rows ws ->
  currentFileOffset ws = len (fork_bytes (dataFork (relation ws))) ->
  CStoreWriteRow ws columnValues columnNulls = Ok ws' ->
  currentFileOffset ws' = len (fork_bytes (dataFork (relation ws'))).
Proof.
  intros (Hsession & Hrows & Hmax) Hexact Hwrite.
  unfold CStoreWriteRow in Hwrite.
  inv_bind Hwrite as ws1 Hstage. inv_bind Hwrite as buffers Hbuffers.
  assert (Hrows' : rows_bounded ws (2 ^ 32 - 1))
    by (apply (rows_bounded_le _ _ _ Hrows); lia).
  pose proof (StageRow_session Hcollab _ _ _ _ Hsession Hrows' Hstage)
    as Hsession1.
  assert (Hexact1 : currentFileOffset ws1
                    = len (fork_bytes (dataFork (relation ws1)))).
  { apply StageRow_spec in Hstage
      as (_ & _ & _ & _ & _ & _ & _ & _ & _ & _ & _ & Hsame).
    destruct Hsame as (_ & _ & _ & _ & _ & _ & -> & _ & ->). exact Hexact. }
  destruct (stripeMaxRowCount ws1 <=? rowCount buffers).
  - inv_bind Hwrite as [md ws2] Hflush. injection Hwrite as <-.
    exact (FlushStripe_stream _ _ _ Hsession1 Hexact1 Hflush).
  - now injection Hwrite as <-.
Qed.

Lemma WriteRows_stream rows ws ws' :
  between_rows ws ->
  currentFileOffset ws = len (fork_bytes (dataFork (relation ws))) ->
  WriteRows ws rows = Ok ws' ->
  currentFileOffset ws' = len (fork_bytes (dataFork (relation ws'))).
Proof.
  revert ws. induction rows as [|[columnValues columnNulls] rows IH];
    intros ws Hsession Hexact Hrun.
  - now injection Hrun as <-.
  - cbn [WriteRows] in Hrun. inv_bind Hrun as ws1 Hwrite.
    apply (IH ws1); [| |exact Hrun].
    + exact (CStoreWriteRow_session Hhost Hcollab _ _ _ _ Hsession Hwrite).
    + exact (CStoreWriteRow_stream _ _ _ _ Hsession Hexact Hwrite).
Qed.

(** X5. In a session on a table whose file offset is the number of bytes
    on its data fork and whose active block ends the fork, as on a new
    table, the file offset of the writer stays the number of bytes on the
    data fork after any rows. So wherever the session flushes, the bytes of
    the stripe lie in the byte stream of the data fork at the file offset
    that the metadata of the stripe record, and they are as many as the
    three lengths of the metadata add up to. *)
Theorem stripes_lie_at_their_offsets rel kind stripeRows blockRows logging
  tupleDescriptor ws0 rows ws :
  fork_ok (dataFork rel) ->
  (forall footer, CStoreReadFooter rel = Some footer -> footer_ok footer) ->
  1 <= u32 (natts tupleDescriptor) ->
  CStoreBeginWrite rel kind stripeRows blockRows logging tupleDescriptor
    = Ok ws0 ->
  u32 (blockRowCount (tableFooter ws0)) + 7 < 2 ^ 32 ->
  stripeRows < 2 ^ 32 ->
  len (dataFork rel) <= activeBlockNumber ws0 + 1 ->
  currentFileOffset ws0 = len (fork_bytes (dataFork rel)) ->
  WriteRows ws0 rows = Ok ws ->
  currentFileOffset ws = len (fork_bytes (dataFork (relation ws)))
  /\ forall ws1 stripeMetadata ws2,
       flush_point ws ws1 ->
       FlushStripe ws1 = Ok (stripeMetadata, ws2) ->
       let size :=
         skipListLength stripeMetadata + dataLength stripeMetadata
         + footerLength stripeMetadata in
       exists image,
         PrepareStripe ws1 = Ok image
         /\ len (stripe_bytes image) = size
         /\ fileOffset stripeMetadata = len (fork_bytes (dataFork (relation ws)))
         /\ take (Z.to_nat size)
              (drop (Z.to_nat (fileOffset stripeMetadata))
                 (fork_bytes (dataFork (relation ws2))))
            = stripe_bytes image
         /\ len (fork_bytes (dataFork (relation ws2)))
            = fileOffset stripeMetadata + size.
Proof.
  intros Hfork Hfooter Hcolumns Hbegin Hwrap Hmax Hlast Hexact0 Hrows.
  pose proof (CStoreBeginWrite_session _ _ _ _ _ _ _ Hfork Hfooter Hcolumns
                Hbegin Hwrap Hmax) as Hsession0.
  assert (Hrel : relation ws0 = rel).
  { unfold CStoreBeginWrite in Hbegin. inv_bind Hbegin as u Hzero.
    inv_bind Hbegin as functions Hfunctions. now injection Hbegin as <-. }
  rewrite <- Hrel in Hexact0.
  pose proof (WriteRows_stream _ _ _ Hsession0 Hexact0 Hrows) as Hexact.
  split; [exact Hexact|].
  intros ws1 md ws2 Hpoint Hflush size.
  destruct (session_flush_ready Hhost Hcollab _ _ _ _ _ _ _ _ _ _ Hfork Hfooter
              Hcolumns Hbegin Hwrap Hmax Hlast Hrows Hpoint)
    as (Hok1 & Hwrap1 & Hwriter1 & Hend1).
  pose proof (WriteRows_session Hhost Hcollab _ _ _ Hsession0 Hrows)
    as (Hsession & Hbound & Hmax').
  assert (Hsame : currentFileOffset ws1 = currentFileOffset ws
                  /\ relation ws1 = relation ws /\ session_ok ws1).
  { destruct Hpoint as [->|(values & nulls & Hstage)]; [auto|].
    assert (Hbound' : rows_bounded ws (2 ^ 32 - 1))
      by (apply (rows_bounded_le _ _ _ Hbound); lia).
    pose proof (StageRow_session Hcollab _ _ _ _ Hsession Hbound' Hstage).
    apply StageRow_spec in Hstage
      as (_ & _ & _ & _ & _ & _ & _ & _ & _ & _ & _ & Hsame).
    destruct Hsame as (_ & _ & _ & _ & _ & _ & -> & _ & ->). auto. }
  destruct Hsame as (Hcfo1 & Hrel1 & Hsession1).
  destruct (FlushStripe_bytes Hhost Hcollab _ _ _ Hok1 Hwrap1 Hwriter1 Hend1
              Hflush) as (image & Hprep & Hbytes & _).
  destruct (FlushStripe_offsets Hhost Hcollab _ _ _ Hsession1 Hflush)
    as (image' & Hprep' & Hstart & Hskip & Hdata & Hfoot & _).
  rewrite Hprep in Hprep'. injection Hprep' as <-.
  assert (Hsize : len (stripe_bytes image) = size).
  { unfold size, stripe_bytes. rewrite !len_app. lia. }
  exists image. split; [exact Hprep|]. split; [exact Hsize|].
  rewrite Hstart, Hcfo1, Hexact, Hbytes, Hrel1. split; [reflexivity|].
  split.
  - unfold len. rewrite Nat2Z.id, drop_app_length.
    apply take_ge. unfold len in Hsize. lia.
  - rewrite len_app. lia.
Qed.
End StreamOffsets.

Lemma stripes_lie_at_their_offsets_witness :
  match fresh_writer 2 2 with
  | Ok ws0 =>
      match @WriteRows small_pages (plain_codec None 0) ws0
              (int4_rows [10; 20; 30; 40; 50]) with
      | Ok ws =>
          currentFileOffset ws
          = len (@fork_bytes small_pages (dataFork (relation ws)))
          /\ 0 < currentFileOffset ws
      | Err _ => False
      end
  | Err _ => False
  end.
Proof.
  assert (Hfacts :
            match fresh_writer 2 2 with
            | Ok ws0 =>
                u32 (blockRowCount (tableFooter ws0)) + 7 < 2 ^ 32
                /\ activeBlockNumber ws0 = 0 /\ currentFileOffset ws0 = 0
                /\ match @WriteRows small_pages (plain_codec None 0) ws0
                           (int4_rows [10; 20; 30; 40; 50]) with
                   | Ok ws => 0 < currentFileOffset ws
                   | Err _ => False
                   end
            | Err _ => False
            end).
  { vm_compute. repeat split. }
  destruct (fresh_writer 2 2) as [ws0|e] eqn:Hbegin; [|exact Hfacts].
  destruct Hfacts as (Hwrap & Hactive & Hoffset & Hfacts).
  destruct (@WriteRows small_pages (plain_codec None 0) ws0
              (int4_rows [10; 20; 30; 40; 50])) as [ws|e] eqn:Hrows;
    [|exact Hfacts].
  split; [|exact Hfacts].
  refine (proj1 (@stripes_lie_at_their_offsets small_pages (plain_codec None 0)
                   small_pages_ok (plain_codec_ok None 0)
                   empty_relation COMPRESSION_NONE 2 2 false int4_table ws0
                   (int4_rows [10; 20; 30; 40; 50]) ws _ _ _ Hbegin Hwrap _ _ _
                   Hrows)).
  - split; [constructor|vm_compute; discriminate].
  - discriminate.
  - vm_compute. discriminate.
  - reflexivity.
  - rewrite Hactive. vm_compute. discriminate.
  - rewrite Hoffset. reflexivity.
Defined.

(** ** The stripes of a session *)

Section StripeCount.
Context {host : Host} {collab : Collaborators}.
Hypothesis Hhost : host_ok.
Hypothesis Hcollab : collaborators_ok.

(** A row joins the open stripe, and closes it when it is the last the
    stripe may hold. *)
Lemma CStoreWriteRow_count ws columnValues columnNulls ws' n :
  let S := Z.max 1 (stripeMaxRowCount ws) in
  between_rows ws -> open_rows ws n -> 0 <= n < S ->
  CStoreWriteRow ws columnValues columnNulls = Ok ws' ->
  stripeMaxRowCount ws' = stripeMaxRowCount ws
  /\ if n + 1 <? S then
       tableFooter ws' = tableFooter ws /\ open_rows ws' (n + 1)
     else
       exists stripeMetadata,
         stripeMetadataList (tableFooter ws')
         = stripeMetadataList (tableFooter ws) ++ [stripeMetadata]
         /\ open_rows ws' 0.
Proof.
  intros S (Hsession & Hrows & Hmax) Hopen Hn Hwrite.
  unfold CStoreWriteRow in Hwrite.
  inv_bind Hwrite as ws1 Hstage. inv_bind Hwrite as buffers Hbuffers.
  assert (Hrows' : rows_bounded ws (2 ^ 32 - 1))
    by (apply (rows_bounded_le _ _ _ Hrows); lia).
  pose proof (StageRow_session Hcollab _ _ _ _ Hsession Hrows' Hstage)
    as Hsession1.
  destruct (StageRow_rowCount _ _ _ _ _ Hrows' ltac:(lia) Hstage)
    as (b1 & b' & sl' & Hsome & Hnone & _ & Hb' & Hrc & _).
  rewrite Hb' in Hbuffers. injection Hbuffers as <-.
  assert (Hcount : rowCount b' = n + 1).
  { rewrite Hrc. unfold open_rows in Hopen.
    destruct (stripeBuffers ws) as [b0|].
    - rewrite (Hsome b0 eq_refl). lia.
    - rewrite (Hnone eq_refl). lia. }
  apply StageRow_spec in Hstage
    as (_ & _ & _ & _ & _ & _ & _ & _ & _ & _ & _ & Hsame).
  destruct Hsame as (Htf & _ & Hmax1 & _).
  rewrite Hcount, Hmax1 in Hwrite. fold S.
  destruct (Z.leb_spec (stripeMaxRowCount ws) (n + 1)) as [Hfull|Hroom].
  - inv_bind Hwrite as [md ws2] Hflush. injection Hwrite as <-.
    destruct (FlushStripe_spec Hhost Hcollab _ _ _ (proj1 (proj2 Hsession1))
                (proj1 (proj2 (proj2 Hsession1))) Hflush)
      as (image & ws3 & _ & _ & _ & Hsame' & Happ & _ & _ & ->).
    destruct Happ as (Htf3 & _ & Hmax3 & _).
    destruct Hsame' as (Htf' & _ & Hmax' & _).
    split.
    + cbn [stripeMaxRowCount set_footer set_stripe MemoryContextReset
           set_blockData]. congruence.
    + destruct (Z.ltb_spec (n + 1) S) as [Hlt|_]; [unfold S in Hlt; lia|].
      exists md. split; [|reflexivity].
      cbn [tableFooter set_footer AppendStripeMetadata stripeMetadataList].
      congruence.
  - injection Hwrite as <-. split; [exact Hmax1|].
    destruct (Z.ltb_spec (n + 1) S) as [_|Hge]; [|unfold S in Hge; lia].
    split; [exact Htf|]. unfold open_rows. rewrite Hb'. lia.
Qed.

Lemma WriteRows_count (rows : list Row) ws ws' n :
  let S := Z.max 1 (stripeMaxRowCount ws) in
  between_rows ws -> open_rows ws n -> 0 <= n < S ->
  WriteRows ws rows = Ok ws' ->
  exists added,
    stripeMetadataList (tableFooter ws')
    = stripeMetadataList (tableFooter ws) ++ added
    /\ len added = (n + len rows) / S
    /\ open_rows ws' ((n + len rows) mod S)
    /\ stripeMaxRowCount ws' = stripeMaxRowCount ws.
Proof.
  revert ws n. induction rows as [|[columnValues columnNulls] rows IH];
    intros ws n S Hsession Hopen Hn Hrun.
  - injection Hrun as <-. exists []. change (len []) with 0.
    rewrite app_nil_r, Z.add_0_r, Z.div_small, Z.mod_small by lia. auto.
  - cbn [WriteRows] in Hrun. inv_bind Hrun as ws1 Hwrite.
    pose proof (CStoreWriteRow_session Hhost Hcollab _ _ _ _ Hsession Hwrite)
      as Hsession1.
    destruct (CStoreWriteRow_count _ _ _ _ n Hsession Hopen Hn Hwrite)
      as [Hmax Hcase]. fold S in Hcase.
    match goal with
    | |- context [@len ?T (@cons ?U ?row rows)] =>
        assert (Hlen : @len T (@cons U row rows) = 1 + @len Row rows)
          by (unfold len, Row; cbn [length]; lia);
        rewrite Hlen; clear Hlen
    end.
    pose proof (len_nonneg rows) as Hpos.
    destruct (Z.ltb_spec (n + 1) S) as [Hlt|Hge].
    + destruct Hcase as [Htf Hopen1].
      destruct (IH ws1 (n + 1) Hsession1 Hopen1) as (added & Hlist & Hadded & Hrest);
        [rewrite Hmax; fold S; lia|exact Hrun|].
      rewrite Hmax in Hadded, Hrest. fold S in Hadded, Hrest.
      exists added. rewrite Hlist, Htf.
      replace (n + (1 + len rows)) with (n + 1 + len rows) by lia.
      destruct Hrest as [Hopen' Hmax']. rewrite Hmax'. auto.
    + destruct Hcase as (md & Hlist1 & Hopen1).
      destruct (IH ws1 0 Hsession1 Hopen1) as (added & Hlist & Hadded & Hrest);
        [rewrite Hmax; fold S; lia|exact Hrun|].
      rewrite Hmax in Hadded, Hrest. fold S in Hadded, Hrest.
      exists (md :: added). rewrite Hlist, Hlist1, <- app_assoc.
      split; [reflexivity|].
      assert (Hfull : n + (1 + len rows) = 1 * S + len rows) by lia.
      rewrite Hfull, Z.div_add_l by lia.
      rewrite (Z.add_comm (1 * S)), Z.mod_add by lia.
      rewrite Z.add_0_l in Hadded, Hrest.
      destruct Hrest as [Hopen' Hmax']. rewrite Hmax'.
      split; [|auto]. unfold len in *. cbn [length]. lia.
Qed.

(** X6. In a session on a table with [stripeMaxRowCount] [S] (a maximum
    below one counts as one), [n] rows add [n / S] stripes to the footer,
    after the stripes that were there, and leave [n mod S] rows in the open
    stripe, which exists only if it holds a row. [CStoreEndWrite] adds the
    open stripe, so that the session adds [(n + S - 1) / S] stripes. *)
Theorem session_adds_stripes rel kind stripeRows blockRows logging
  tupleDescriptor ws0 (rows : list Row) ws :
  let S := Z.max 1 stripeRows in
  fork_ok (dataFork rel) ->
  (forall footer, CStoreReadFooter rel = Some footer -> footer_ok footer) ->
  1 <= u32 (natts tupleDescriptor) ->
  CStoreBeginWrite rel kind stripeRows blockRows logging tupleDescriptor
    = Ok ws0 ->
  u32 (blockRowCount (tableFooter ws0)) + 7 < 2 ^ 32 ->
  stripeRows < 2 ^ 32 ->
  WriteRows ws0 rows = Ok ws ->
  (exists added,
     stripeMetadataList (tableFooter ws)
     = stripeMetadataList (tableFooter ws0) ++ added
     /\ len added = len rows / S)
  /\ match stripeBuffers ws with
     | Some buffers => rowCount buffers = len rows mod S /\ 1 <= rowCount buffers
     | None => len rows mod S = 0
     end
  /\ forall ws',
       CStoreEndWrite ws = Ok ws' ->
       exists added,
         stripeMetadataList (tableFooter ws')
         = stripeMetadataList (tableFooter ws0) ++ added
         /\ len added = (len rows + S - 1) / S.
Proof.
  intros S Hfork Hfooter Hcolumns Hbegin Hwrap Hmax Hrows.
  pose proof (CStoreBeginWrite_session _ _ _ _ _ _ _ Hfork Hfooter Hcolumns
                Hbegin Hwrap Hmax) as Hsession0.
  assert (Hstart : stripeBuffers ws0 = None /\ stripeMaxRowCount ws0 = stripeRows).
  { unfold CStoreBeginWrite in Hbegin. inv_bind Hbegin as u Hzero.
    inv_bind Hbegin as functions Hfunctions. now injection Hbegin as <-. }
  destruct Hstart as [Hclosed HS].
  assert (Hopen0 : open_rows ws0 0) by (unfold open_rows; now rewrite Hclosed).
  destruct (WriteRows_count rows ws0 ws 0 Hsession0 Hopen0) as (added & Hlist & Hadded & Hopen & _);
    [rewrite HS; lia|exact Hrows|].
  rewrite HS, Z.add_0_l in Hadded, Hopen. fold S in Hadded, Hopen.
  pose proof (len_nonneg rows) as Hn.
  assert (HSpos : 1 <= S) by (unfold S; lia).
  pose proof (Z.mod_pos_bound (len rows) S ltac:(lia)) as Hmod.
  pose proof (Z.div_mod (len rows) S ltac:(lia)) as Hdiv.
  split; [exists added; auto|]. split.
  { unfold open_rows in Hopen. destruct (stripeBuffers ws); [|exact Hopen].
    destruct Hopen as [-> Hone]. auto. }
  intros ws' Hend.
  pose proof (WriteRows_session Hhost Hcollab _ _ _ Hsession0 Hrows)
    as (Hsession & _).
  unfold CStoreEndWrite in Hend.
  inv_bind Hend as ws1 Hflush. inv_bind Hend as written Hwritten.
  injection Hend as <-. cbn [tableFooter].
  unfold FlushOpenStripe in Hflush. unfold open_rows in Hopen.
  destruct (stripeBuffers ws) as [buffers|].
  - inv_bind Hflush as [md ws2] Hflush2. injection Hflush as <-.
    destruct (FlushStripe_offsets Hhost Hcollab _ _ _ Hsession Hflush2)
      as (image & _ & _ & _ & _ & _ & _ & _ & _ & _ & Htf & _).
    exists (added ++ [md]).
    cbn [tableFooter set_footer AppendStripeMetadata stripeMetadataList].
    rewrite Htf, Hlist, <- app_assoc. split; [reflexivity|].
    rewrite len_app, Hadded. change (len [md]) with 1.
    replace (len rows + S - 1)
      with ((len rows / S + 1) * S + (len rows mod S - 1)) by lia.
    rewrite Z.div_add_l, (Z.div_small (len rows mod S - 1)) by lia. lia.
  - injection Hflush as <-. exists added. split; [exact Hlist|].
    rewrite Hadded.
    replace (len rows + S - 1) with (len rows / S * S + (S - 1)) by lia.
    rewrite Z.div_add_l, (Z.div_small (S - 1)) by lia. lia.
Qed.
End StripeCount.

Lemma session_adds_stripes_witness :
  match fresh_writer 2 2 with
  | Ok ws0 =>
      match @WriteRows small_pages (plain_codec None 0) ws0
              (int4_rows [10; 20; 30; 40; 50]) with
      | Ok ws =>
          (exists added,
             stripeMetadataList (tableFooter ws)
             = stripeMetadataList (tableFooter ws0) ++ added
             /\ len added = 2)
          /\ option_map rowCount (stripeBuffers ws) = Some 1
      | Err _ => False
      end
  | Err _ => False
  end.
Proof.
  assert (Hfacts :
            match fresh_writer 2 2 with
            | Ok ws0 =>
                u32 (blockRowCount (tableFooter ws0)) + 7 < 2 ^ 32
                /\ match @WriteRows small_pages (plain_codec None 0) ws0
                           (int4_rows [10; 20; 30; 40; 50]) with
                   | Ok ws => option_map rowCount (stripeBuffers ws) = Some 1
                   | Err _ => False
                   end
            | Err _ => False
            end).
  { vm_compute. repeat split. }
  destruct (fresh_writer 2 2) as [ws0|e] eqn:Hbegin; [|exact Hfacts].
  destruct Hfacts as (Hwrap & Hfacts).
  destruct (@WriteRows small_pages (plain_codec None 0) ws0
              (int4_rows [10; 20; 30; 40; 50])) as [ws|e] eqn:Hrows;
    [|exact Hfacts].
  split; [|exact Hfacts].
  refine (proj1 (@session_adds_stripes small_pages (plain_codec None 0)
                   small_pages_ok (plain_codec_ok None 0)
                   empty_relation COMPRESSION_NONE 2 2 false int4_table ws0
                   (int4_rows [10; 20; 30; 40; 50]) ws _ _ _ Hbegin Hwrap _
                   Hrows)).
  - split; [constructor|vm_compute; discriminate].
  - discriminate.
  - vm_compute. discriminate.
  - reflexivity.
Defined.

(** ** Where the blocks of a column lie *)

Lemma stream_snoc {A} (f : A -> list byte) (l : list A) b x :
  l !! b = Some x ->
  concat (map f (take (S b) l)) = concat (map f (take b l)) ++ f x.
Proof.
  intros Hx. rewrite (take_S_r _ _ _ Hx), map_app, concat_app. cbn.
  now rewrite app_nil_r.
Qed.

(** A buffer of a stream lies behind the buffers before it. *)
Lemma stream_lookup {A} (f : A -> list byte) (l : list A) (b n : nat) x :
  l !! b = Some x -> (b < n)%nat ->
  take (length (f x))
    (drop (length (concat (map f (take b l)))) (concat (map f (take n l))))
  = f x.
Proof.
  intros Hx Hb.
  assert (Hin : take n l !! b = Some x) by (rewrite lookup_take_lt; assumption).
  rewrite <- (take_drop_middle _ _ _ Hin), take_take.
  replace (b `min` n)%nat with b by lia.
  rewrite map_app, concat_app. cbn [map concat].
  rewrite drop_app_length. apply take_app_length.
Qed.

Section BlockOffsets.
Context {host : Host} {collab : Collaborators}.

(** The loop of [FlushStripe] over the blocks of a column keeps two running
    offsets. *)
Lemma PlaceBlock_offsets columnBuffers before count
  (st' : list ColumnBlockSkipNode * Z * Z) :
  for_loop count (PlaceBlock columnBuffers) (before, 0, 0) = Ok st' ->
  snd (fst st') = u64 (len (exists_stream count columnBuffers))
  /\ snd st' = u64 (len (value_stream count columnBuffers))
  /\ forall b, (b < count)%nat ->
       exists blockBuffers e v node,
         blockBuffersArray columnBuffers !! b = Some blockBuffers
         /\ existsBuffer blockBuffers = Some e
         /\ valueBuffer blockBuffers = Some v
         /\ fst (fst st') !! b = Some node
         /\ placed_at columnBuffers b blockBuffers node.
Proof.
  apply (for_loop_invariant
           (fun j (s : list ColumnBlockSkipNode * Z * Z) =>
              snd (fst s) = u64 (len (exists_stream j columnBuffers))
              /\ snd s = u64 (len (value_stream j columnBuffers))
              /\ forall b, (b < j)%nat ->
                   exists blockBuffers e v node,
                     blockBuffersArray columnBuffers !! b = Some blockBuffers
                     /\ existsBuffer blockBuffers = Some e
                     /\ valueBuffer blockBuffers = Some v
                     /\ fst (fst s) !! b = Some node
                     /\ placed_at columnBuffers b blockBuffers node)).
  - cbn. split; [reflexivity|]. split; [reflexivity|]. intros b Hb. lia.
  - intros j [[nodes eo] vo] [[nodes' eo'] vo'] _ (Heo & Hvo & Hdone) Hstep.
    cbn [fst snd] in *. unfold PlaceBlock in Hstep.
    inv_bind Hstep as bb Hbb. inv_bind Hstep as e He. inv_bind Hstep as v Hv.
    inv_bind Hstep as node Hnode. inv_bind Hstep as nodes1 Hstore.
    injection Hstep as <- <- <-.
    apply load_nat in Hbb, Hnode. apply store_Some in Hstore as [Hr ->].
    rewrite Nat2Z.id in *. unfold len in Hr.
    unfold deref, of_option in He, Hv.
    destruct (existsBuffer bb) as [e'|] eqn:Hebuf; [|discriminate].
    destruct (valueBuffer bb) as [v'|] eqn:Hvbuf; [|discriminate].
    injection He as ->. injection Hv as ->.
    assert (Hes : len (exists_stream (S j) columnBuffers)
                  = len (exists_stream j columnBuffers) + len e).
    { unfold exists_stream. rewrite (stream_snoc _ _ _ _ Hbb), len_app, Hebuf.
      reflexivity. }
    assert (Hvs : len (value_stream (S j) columnBuffers)
                  = len (value_stream j columnBuffers) + len v).
    { unfold value_stream. rewrite (stream_snoc _ _ _ _ Hbb), len_app, Hvbuf.
      reflexivity. }
    split; [rewrite Heo, Hes; apply u64_add; [apply u64_u64|apply u64_u64]|].
    split; [rewrite Hvo, Hvs; apply u64_add; [apply u64_u64|apply u64_u64]|].
    intros b Hb. destruct (Nat.eq_dec b j) as [->|Hne].
    + exists bb, e, v. eexists. rewrite list_lookup_insert_eq by lia.
      split; [exact Hbb|]. split; [exact Hebuf|]. split; [exact Hvbuf|].
      split; [reflexivity|]. unfold placed_at. cbn. rewrite Hebuf, Hvbuf. auto.
    + destruct (Hdone b ltac:(lia)) as (bb0 & e0 & v0 & n0 & H0).
      exists bb0, e0, v0, n0. rewrite list_lookup_insert_ne by lia. exact H0.
Qed.

Lemma PlaceColumn_offsets stripeBuffers blockCount before count after :
  for_loop count (PlaceColumn stripeBuffers blockCount) before = Ok after ->
  forall c, (c < count)%nat ->
    exists columnBuffers nodes,
      columnBuffersArray stripeBuffers !! c = Some columnBuffers
      /\ after !! c = Some nodes
      /\ forall b, (b < Z.to_nat blockCount)%nat ->
           exists blockBuffers e v node,
             blockBuffersArray columnBuffers !! b = Some blockBuffers
             /\ existsBuffer blockBuffers = Some e
             /\ valueBuffer blockBuffers = Some v
             /\ nodes !! b = Some node
             /\ placed_at columnBuffers b blockBuffers node.
Proof.
  apply (for_loop_invariant
           (fun j (arr : list (list ColumnBlockSkipNode)) =>
              forall c, (c < j)%nat ->
                exists columnBuffers nodes,
                  columnBuffersArray stripeBuffers !! c = Some columnBuffers
                  /\ arr !! c = Some nodes
                  /\ forall b, (b < Z.to_nat blockCount)%nat ->
                       exists blockBuffers e v node,
                         blockBuffersArray columnBuffers !! b = Some blockBuffers
                         /\ existsBuffer blockBuffers = Some e
                         /\ valueBuffer blockBuffers = Some v
                         /\ nodes !! b = Some node
                         /\ placed_at columnBuffers b blockBuffers node)).
  - intros c Hc. lia.
  - intros j arr arr' _ Hdone Hstep. unfold PlaceColumn in Hstep.
    inv_bind Hstep as nodes Hnodes. inv_bind Hstep as cb Hcb.
    inv_bind Hstep as [[nodes' eo] vo] Hloop.
    apply load_nat in Hnodes, Hcb. apply store_Some in Hstep as [Hr ->].
    rewrite Nat2Z.id in *. unfold len in Hr.
    apply PlaceBlock_offsets in Hloop as (_ & _ & Hblocks).
    cbn [fst snd] in Hblocks.
    intros c Hc. destruct (Nat.eq_dec c j) as [->|Hne].
    + exists cb, nodes'. rewrite list_lookup_insert_eq by lia. auto.
    + rewrite list_lookup_insert_ne by lia. apply Hdone. lia.
Qed.
End BlockOffsets.

(** A stream of fewer than [2 ^ 32] [StringInfo]s is shorter than
    [2 ^ 62] bytes. *)
Lemma stream_bounded {A} (f : A -> list byte) (l : list A) (n : nat) :
  Forall (fun x => len (f x) < MaxAllocSize) l ->
  Z.of_nat n <= 2 ^ 32 ->
  0 <= len (concat (map f (take n l))) < 2 ^ 62.
Proof.
  intros Hall Hn.
  assert (Hsum : 0 <= len (concat (map f (take n l)))
                 <= Z.of_nat n * MaxAllocSize).
  { clear Hn. revert n. induction Hall as [|x l Hx _ IH]; intros n.
    - rewrite take_nil. unfold len, MaxAllocSize. cbn. lia.
    - destruct n as [|n]; [unfold len, MaxAllocSize; cbn; lia|].
      cbn [take map concat]. rewrite len_app.
      specialize (IH n). pose proof (len_nonneg (f x)). lia. }
  unfold MaxAllocSize in Hsum. lia.
Qed.

Section StripeMetadata.
Context {host : Host} {collab : Collaborators}.
Hypothesis Hhost : host_ok.
Hypothesis Hcollab : collaborators_ok.

(** The streams of the columns of a stripe image do not reach [2 ^ 62]
    bytes. *)
Lemma image_streams_bounded image c columnBuffers (n : nat) :
  image_ok image ->
  columnBuffersArray (si_stripeBuffers image) !! c = Some columnBuffers ->
  Z.of_nat n <= 2 ^ 32 ->
  0 <= len (exists_stream n columnBuffers) < 2 ^ 62
  /\ 0 <= len (value_stream n columnBuffers) < 2 ^ 62.
Proof.
  intros (_ & Hbuffers & _) Hcb Hn.
  pose proof (Forall_lookup_1 _ _ _ _ Hbuffers Hcb) as Hblocks.
  split; apply stream_bounded; try exact Hn;
    apply (Forall_impl _ _ _ Hblocks); intros bb (He & Hv & _);
    unfold buffer_ok in *.
  - destruct (existsBuffer bb) as [e|]; [now apply He|reflexivity].
  - destruct (valueBuffer bb) as [v|]; [now apply Hv|reflexivity].
Qed.

(** What a flush has placed, without the wrap-around. *)
Lemma FlushStripe_placed ws stripeMetadata ws' :
  buffers_ok ws ->
  u32 (blockRowCount (tableFooter ws)) + 7 < 2 ^ 32 ->
  (forall skipList,
     stripeSkipList ws = Some skipList -> blockCount skipList <= 2 ^ 32) ->
  FlushStripe ws = Ok (stripeMetadata, ws') ->
  exists image,
    PrepareStripe ws = Ok image
    /\ image_ok image
    /\ tupleDescriptor (si_writeState image) = tupleDescriptor ws
    /\ (Z.to_nat (u32 (natts (tupleDescriptor ws)))
        <= Z.to_nat (skip_columnCount (si_stripeSkipList image)))%nat
    /\ blockCount (si_stripeSkipList image) <= 2 ^ 32
    /\ forall c, (c < Z.to_nat (u32 (natts (tupleDescriptor ws))))%nat ->
         exists columnBuffers nodes,
           columnBuffersArray (si_stripeBuffers image) !! c = Some columnBuffers
           /\ blockSkipNodeArray (si_stripeSkipList image) !! c = Some nodes
           /\ forall b,
                (b < Z.to_nat (blockCount (si_stripeSkipList image)))%nat ->
                exists blockBuffers e v node,
                  blockBuffersArray columnBuffers !! b = Some blockBuffers
                  /\ existsBuffer blockBuffers = Some e
                  /\ valueBuffer blockBuffers = Some v
                  /\ nodes !! b = Some node
                  /\ existsBlockOffset node = len (exists_stream b columnBuffers)
                  /\ existsLength node = len e
                  /\ valueBlockOffset node = len (value_stream b columnBuffers)
                  /\ valueLength node = len v
                  /\ node_valueCompressionType node
                     = valueCompressionType blockBuffers.
Proof.
  intros Hok Hwrap Hcount Hflush.
  destruct (FlushStripe_spec Hhost Hcollab _ _ _ Hok Hwrap Hflush)
    as (image & ws2 & Hprep & Himage & _ & Hsame & _ & Hcolumns & _).
  exists image. split; [exact Hprep|]. split; [exact Himage|].
  split; [apply Hsame|]. split; [exact Hcolumns|].
  destruct (PrepareStripe_inv _ _ Hprep)
    as (b0 & sl & ws1 & buffers & nodes & arr & sf
        & Hb0 & Hsl & HR & Hlast & Hb & Hplace & Harr & Hsf & Heq).
  specialize (Hcount sl Hsl).
  assert (HB : blockCount (si_stripeSkipList image) = blockCount sl)
    by (rewrite Heq; reflexivity).
  assert (Hbuffers : si_stripeBuffers image = buffers)
    by (rewrite Heq; reflexivity).
  assert (Hnodes : blockSkipNodeArray (si_stripeSkipList image) = nodes)
    by (rewrite Heq; reflexivity).
  rewrite HB, Hnodes. split; [exact Hcount|]. intros c Hc.
  destruct (PlaceColumn_offsets _ _ _ _ _ Hplace c Hc)
    as (cb & cnodes & Hcb & Hcn & Hblocks).
  rewrite <- Hbuffers in Hcb.
  exists cb, cnodes. split; [exact Hcb|]. split; [exact Hcn|].
  intros b Hb'.
  destruct (Hblocks b Hb') as (bb & e & v & node & Hbb & He & Hv & Hnode & Hat).
  exists bb, e, v, node.
  destruct (image_streams_bounded image c cb b Himage Hcb ltac:(lia))
    as [Hes Hvs].
  pose proof (Forall_lookup_1 _ _ _ _
                (Forall_lookup_1 _ _ _ _ (proj1 (proj2 Himage)) Hcb) Hbb)
    as (Hebound & Hvbound & _).
  specialize (Hebound e He). specialize (Hvbound v Hv).
  pose proof (len_nonneg e). pose proof (len_nonneg v).
  unfold MaxAllocSize in *.
  destruct Hat as (Heo & Hel & Hvo & Hvl & Hkind).
  rewrite He in Hel. rewrite Hv in Hvl.
  change (buffer_bytes (Some e)) with e in Hel.
  change (buffer_bytes (Some v)) with v in Hvl.
  rewrite u64_small in Heo by lia. rewrite u64_small in Hel by lia.
  rewrite u64_small in Hvo by lia. rewrite u64_small in Hvl by lia.
  auto 10.
Qed.

(** X7. A flush gives every block of every column of the stripe a skip node
    that locates the buffers of the block: the exists buffer lies in the
    exists stream of its column (the exists buffers of the blocks of the
    column in block order) at [existsBlockOffset] with [existsLength] bytes,
    the value buffer lies in the value stream of the column at
    [valueBlockOffset] with [valueLength] bytes, and the node has the
    compression type of the value buffer. *)
Theorem skip_nodes_locate_blocks ws stripeMetadata ws' :
  buffers_ok ws ->
  u32 (blockRowCount (tableFooter ws)) + 7 < 2 ^ 32 ->
  (forall skipList,
     stripeSkipList ws = Some skipList -> blockCount skipList <= 2 ^ 32) ->
  FlushStripe ws = Ok (stripeMetadata, ws') ->
  exists image,
    PrepareStripe ws = Ok image
    /\ let B := Z.to_nat (blockCount (si_stripeSkipList image)) in
       forall c b,
         (c < Z.to_nat (u32 (natts (tupleDescriptor ws))))%nat -> (b < B)%nat ->
         exists columnBuffers blockBuffers e v nodes node,
           columnBuffersArray (si_stripeBuffers image) !! c = Some columnBuffers
           /\ blockBuffersArray columnBuffers !! b = Some blockBuffers
           /\ existsBuffer blockBuffers = Some e
           /\ valueBuffer blockBuffers = Some v
           /\ blockSkipNodeArray (si_stripeSkipList image) !! c = Some nodes
           /\ nodes !! b = Some node
           /\ take (Z.to_nat (existsLength node))
                (drop (Z.to_nat (existsBlockOffset node))
                   (exists_stream B columnBuffers)) = e
           /\ take (Z.to_nat (valueLength node))
                (drop (Z.to_nat (valueBlockOffset node))
                   (value_stream B columnBuffers)) = v
           /\ node_valueCompressionType node = valueCompressionType blockBuffers.
Proof.
  intros Hok Hwrap Hcount Hflush.
  destruct (FlushStripe_placed _ _ _ Hok Hwrap Hcount Hflush)
    as (image & Hprep & _ & _ & _ & _ & Hplaced).
  exists image. split; [exact Hprep|]. intros B c b Hc Hb.
  destruct (Hplaced c Hc) as (cb & nodes & Hcb & Hnodes & Hblocks).
  destruct (Hblocks b Hb)
    as (bb & e & v & node & Hbb & He & Hv & Hnode & Heo & Hel & Hvo & Hvl & Hkind).
  exists cb, bb, e, v, nodes, node.
  split; [exact Hcb|]. split; [exact Hbb|]. split; [exact He|].
  split; [exact Hv|]. split; [exact Hnodes|]. split; [exact Hnode|].
  rewrite Heo, Hel, Hvo, Hvl. unfold len. rewrite !Nat2Z.id.
  split; [|split; [|exact Hkind]].
  - pose proof (stream_lookup
                  (fun blockBuffers => buffer_bytes (existsBuffer blockBuffers))
                  _ b B bb Hbb Hb) as Hfound.
    cbn beta in Hfound. rewrite He in Hfound. exact Hfound.
  - pose proof (stream_lookup
                  (fun blockBuffers => buffer_bytes (valueBuffer blockBuffers))
                  _ b B bb Hbb Hb) as Hfound.
    cbn beta in Hfound. rewrite Hv in Hfound. exact Hfound.
Qed.

(** X8. The stripe footer that a flush writes has, for every column of the
    table, the length of the serialized skip list of the column, the length
    of its exists stream and the length of its value stream. *)
Theorem stripe_footer_sizes ws stripeMetadata ws' :
  buffers_ok ws ->
  u32 (blockRowCount (tableFooter ws)) + 7 < 2 ^ 32 ->
  (forall skipList,
     stripeSkipList ws = Some skipList -> blockCount skipList <= 2 ^ 32) ->
  FlushStripe ws = Ok (stripeMetadata, ws') ->
  exists image,
    PrepareStripe ws = Ok image
    /\ let B := Z.to_nat (blockCount (si_stripeSkipList image)) in
       forall c,
         (c < Z.to_nat (u32 (natts (tupleDescriptor ws))))%nat ->
         exists columnBuffers skipListBuffer,
           columnBuffersArray (si_stripeBuffers image) !! c = Some columnBuffers
           /\ si_skipListBufferArray image !! c = Some skipListBuffer
           /\ skipListSizeArray (si_stripeFooter image) !! c
              = Some (len skipListBuffer)
           /\ existsSizeArray (si_stripeFooter image) !! c
              = Some (len (exists_stream B columnBuffers))
           /\ valueSizeArray (si_stripeFooter image) !! c
              = Some (len (value_stream B columnBuffers)).
Proof.
  intros Hok Hwrap Hcount Hflush.
  destruct (FlushStripe_placed _ _ _ Hok Hwrap Hcount Hflush)
    as (image & Hprep & Himage & Htd & Hcolumns & HB & Hplaced).
  exists image. split; [exact Hprep|]. intros B c Hc.
  destruct (Hplaced c Hc) as (cb & nodes & Hcb & Hnodes & Hblocks).
  destruct (PrepareStripe_inv _ _ Hprep)
    as (b0 & sl & ws1 & buffers & nodes0 & arr & sf
        & Hb0 & Hsl & HR & Hlast & Hb & Hplace & Harr & Hsf & Heq).
  assert (Hfooter : si_stripeFooter image = sf) by (rewrite Heq; reflexivity).
  assert (Hlist : si_stripeSkipList image = set_nodes sl nodes0)
    by (rewrite Heq; reflexivity).
  assert (Harray : si_skipListBufferArray image = arr)
    by (rewrite Heq; reflexivity).
  destruct (CreateStripeFooter_spec _ _ _ Hsf) as [_ Hfooters].
  rewrite <- Hlist in Hfooters.
  destruct (Hfooters c ltac:(lia))
    as (cnodes & existsSize & valueSize & s & Hcn & Hsum & Hs & Hsk & Hex & Hva).
  rewrite Hnodes in Hcn. injection Hcn as <-.
  rewrite <- Harray in Hs. rewrite <- Hfooter in Hsk, Hex, Hva.
  exists cb, s. split; [exact Hcb|]. split; [exact Hs|].
  apply SumBlockSizes_spec in Hsum as (-> & -> & _). fold B in Hex, Hva.
  destruct (image_streams_bounded image c cb B Himage Hcb ltac:(lia))
    as [Hes Hvs].
  assert (Hsbound : len s < MaxAllocSize).
  { destruct Himage as (Hskip & _).
    apply (Forall_lookup_1 _ _ c s Hskip).
    rewrite Htd, lookup_take_lt by lia. exact Hs. }
  pose proof (len_nonneg s). unfold MaxAllocSize in Hsbound.
  rewrite u64_small in Hsk by lia. split; [exact Hsk|].
  assert (He : u64 (sumZ (map existsLength (take B nodes)))
               = len (exists_stream B cb)).
  { rewrite <- (u64_small (len (exists_stream B cb))) by lia.
    unfold exists_stream. rewrite len_concat, map_map.
    apply (sumZ_take_pointwise existsLength
             (fun bb => len (buffer_bytes (existsBuffer bb)))).
    intros b Hb'.
    destruct (Hblocks b Hb')
      as (bb & e & v & node & Hbb & He & Hv & Hnode & _ & Hel & _).
    exists node, bb. split; [exact Hnode|]. split; [exact Hbb|].
    rewrite Hel, He. reflexivity. }
  assert (Hv : u64 (sumZ (map valueLength (take B nodes)))
               = len (value_stream B cb)).
  { rewrite <- (u64_small (len (value_stream B cb))) by lia.
    unfold value_stream. rewrite len_concat, map_map.
    apply (sumZ_take_pointwise valueLength
             (fun bb => len (buffer_bytes (valueBuffer bb)))).
    intros b Hb'.
    destruct (Hblocks b Hb')
      as (bb & e & v & node & Hbb & He' & Hv & Hnode & _ & _ & _ & Hvl & _).
    exists node, bb. split; [exact Hnode|]. split; [exact Hbb|].
    rewrite Hvl, Hv. reflexivity. }
  rewrite <- He, <- Hv. auto.
Qed.
End StripeMetadata.

Lemma skip_nodes_locate_blocks_witness :
  match staged_writer [10; 20; 30] with
  | Ok ws =>
      exists image,
        @PrepareStripe (plain_codec None 0) ws = Ok image
        /\ forall c b,
             (c < 1)%nat -> (b < 2)%nat ->
             exists columnBuffers blockBuffers e v nodes node,
               columnBuffersArray (si_stripeBuffers image) !! c = Some columnBuffers
               /\ blockBuffersArray columnBuffers !! b = Some blockBuffers
               /\ existsBuffer blockBuffers = Some e
               /\ valueBuffer blockBuffers = Some v
               /\ blockSkipNodeArray (si_stripeSkipList image) !! c = Some nodes
               /\ nodes !! b = Some node
               /\ take (Z.to_nat (existsLength node))
                    (drop (Z.to_nat (existsBlockOffset node))
                       (exists_stream 2 columnBuffers)) = e
               /\ take (Z.to_nat (valueLength node))
                    (drop (Z.to_nat (valueBlockOffset node))
                       (value_stream 2 columnBuffers)) = v
               /\ node_valueCompressionType node
                  = valueCompressionType blockBuffers
  | Err _ => False
  end.
Proof.
  assert (Hfacts :
            match staged_writer [10; 20; 30] with
            | Ok ws =>
                natts (tupleDescriptor ws) = 1
                /\ is_ok (@FlushStripe small_pages (plain_codec None 0) ws) = true
                /\ option_map blockCount (stripeSkipList ws) = Some 2
                /\ match @PrepareStripe (plain_codec None 0) ws with
                   | Ok image => blockCount (si_stripeSkipList image) = 2
                   | Err _ => True
                   end
            | Err _ => False
            end).
  { vm_compute. repeat split. }
  destruct (staged_writer [10; 20; 30]) as [ws|e] eqn:Hstaged; [|exact Hfacts].
  destruct Hfacts as (Hnatts & Hflushes & Hcount & Hblocks).
  destruct (staged_writer_session [10; 20; 30] ws eq_refl Hstaged)
    as (Hwriter & Hok & Hwrap & _).
  destruct (@FlushStripe small_pages (plain_codec None 0) ws)
    as [[md ws']|e] eqn:Hflush; [|discriminate].
  destruct (@skip_nodes_locate_blocks small_pages (plain_codec None 0)
              small_pages_ok (plain_codec_ok None 0) ws md ws' Hok Hwrap)
    as (image & Hprep & Hlocated); [|exact Hflush|].
  - intros skipList Hlist. rewrite Hlist in Hcount. injection Hcount as ->. lia.
  - exists image. split; [exact Hprep|].
    rewrite Hprep in Hblocks. rewrite Hblocks, Hnatts in Hlocated.
    exact Hlocated.
Defined.

Lemma stripe_footer_sizes_witness :
  match staged_writer [10; 20; 30] with
  | Ok ws =>
      exists image,
        @PrepareStripe (plain_codec None 0) ws = Ok image
        /\ forall c,
             (c < 1)%nat ->
             exists columnBuffers skipListBuffer,
               columnBuffersArray (si_stripeBuffers image) !! c = Some columnBuffers
               /\ si_skipListBufferArray image !! c = Some skipListBuffer
               /\ skipListSizeArray (si_stripeFooter image) !! c
                  = Some (len skipListBuffer)
               /\ existsSizeArray (si_stripeFooter image) !! c
                  = Some (len (exists_stream 2 columnBuffers))
               /\ valueSizeArray (si_stripeFooter image) !! c
                  = Some (len (value_stream 2 columnBuffers))
  | Err _ => False
  end.
Proof.
  assert (Hfacts :
            match staged_writer [10; 20; 30] with
            | Ok ws =>
                natts (tupleDescriptor ws) = 1
                /\ is_ok (@FlushStripe small_pages (plain_codec None 0) ws) = true
                /\ option_map blockCount (stripeSkipList ws) = Some 2
                /\ match @PrepareStripe (plain_codec None 0) ws with
                   | Ok image => blockCount (si_stripeSkipList image) = 2
                   | Err _ => True
                   end
            | Err _ => False
            end).
  { vm_compute. repeat split. }
  destruct (staged_writer [10; 20; 30]) as [ws|e] eqn:Hstaged; [|exact Hfacts].
  destruct Hfacts as (Hnatts & Hflushes & Hcount & Hblocks).
  destruct (staged_writer_session [10; 20; 30] ws eq_refl Hstaged)
    as (Hwriter & Hok & Hwrap & _).
  destruct (@FlushStripe small_pages (plain_codec None 0) ws)
    as [[md ws']|e] eqn:Hflush; [|discriminate].
  destruct (@stripe_footer_sizes small_pages (plain_codec None 0)
              small_pages_ok (plain_codec_ok None 0) ws md ws' Hok Hwrap)
    as (image & Hprep & Hsizes); [|exact Hflush|].
  - intros skipList Hlist. rewrite Hlist in Hcount. injection Hcount as ->. lia.
  - exists image. split; [exact Hprep|].
    rewrite Hprep in Hblocks. rewrite Hblocks, Hnatts in Hsizes.
    exact Hsizes.
Defined.

(** ** What a serialized block holds *)

Lemma CopyStringInfo_eq s : CopyStringInfo s = s.
Proof.
  unfold CopyStringInfo. destruct (Z.ltb_spec 0 (len s)); [reflexivity|].
  destruct s; [reflexivity|]. unfold len in *. cbn [length] in *. lia.
Qed.

Lemma store_block_buffers_Some array c b blockBuffers array' :
  store_block_buffers array c b blockBuffers = Ok array' ->
  exists columnBuffers,
    0 <= c /\ array !! Z.to_nat c = Some columnBuffers
    /\ 0 <= b < len (blockBuffersArray columnBuffers)
    /\ array'
       = <[Z.to_nat c :=
             {| blockBuffersArray :=
                  <[Z.to_nat b := blockBuffers]> (blockBuffersArray columnBuffers) |}]>
           array.
Proof.
  intros H. unfold store_block_buffers in H.
  inv_bind H as cb Hcb. inv_bind H as blocks Hblocks.
  apply load_Some in Hcb as [Hc Hcb].
  apply store_Some in Hblocks as [Hb ->]. apply store_Some in H as [_ ->].
  exists cb. auto.
Qed.

Section BlockContents.
Context {host : Host} {collab : Collaborators}.

(** The first loop of [SerializeBlockData]: the flags of the columns are
    packed into the exists buffers of the block. *)
Lemma SerializeBlockExists_columns blockDataArray blockIndex n count before after :
  for_loop count (SerializeBlockExists blockDataArray blockIndex n) before
    = Ok after ->
  length after = length before
  /\ (forall c, (count <= c)%nat -> after !! c = before !! c)
  /\ forall c, (c < count)%nat ->
       exists columnBuffers blockBuffers blockData packed,
         before !! c = Some columnBuffers
         /\ 0 <= blockIndex
         /\ blockBuffersArray columnBuffers !! Z.to_nat blockIndex
            = Some blockBuffers
         /\ blockDataArray !! c = Some blockData
         /\ SerializeBoolArray (existsArray blockData) n = Ok packed
         /\ after !! c
            = Some {| blockBuffersArray :=
                        <[Z.to_nat blockIndex :=
                            {| existsBuffer := Some packed;
                               valueBuffer := valueBuffer blockBuffers;
                               valueCompressionType :=
                                 valueCompressionType blockBuffers |}]>
                          (blockBuffersArray columnBuffers) |}.
Proof.
  apply (for_loop_invariant
           (fun j (arr : list ColumnBuffers) =>
              length arr = length before
              /\ (forall c, (j <= c)%nat -> arr !! c = before !! c)
              /\ forall c, (c < j)%nat ->
                   exists columnBuffers blockBuffers blockData packed,
                     before !! c = Some columnBuffers
                     /\ 0 <= blockIndex
                     /\ blockBuffersArray columnBuffers !! Z.to_nat blockIndex
                        = Some blockBuffers
                     /\ blockDataArray !! c = Some blockData
                     /\ SerializeBoolArray (existsArray blockData) n = Ok packed
                     /\ arr !! c
                        = Some {| blockBuffersArray :=
                                    <[Z.to_nat blockIndex :=
                                        {| existsBuffer := Some packed;
                                           valueBuffer := valueBuffer blockBuffers;
                                           valueCompressionType :=
                                             valueCompressionType blockBuffers |}]>
                                      (blockBuffersArray columnBuffers) |})).
  - split; [reflexivity|]. split; [reflexivity|]. intros c Hc. lia.
  - intros j arr arr' _ (Hlen & Hrest & Hdone) Hstep.
    unfold SerializeBlockExists in Hstep.
    inv_bind Hstep as cb Hcb. inv_bind Hstep as bb Hbb.
    inv_bind Hstep as bd Hbd. inv_bind Hstep as packed Hpacked.
    apply load_nat in Hcb, Hbd. apply load_Some in Hbb as [Hpos Hbb].
    apply store_block_buffers_Some in Hstep
      as (cb' & _ & Hcb' & _ & ->).
    rewrite Nat2Z.id in *. rewrite Hcb in Hcb'. injection Hcb' as <-.
    pose proof (lookup_lt_Some _ _ _ Hcb) as Hj.
    rewrite length_insert.
    split; [exact Hlen|]. split.
    + intros c Hc. rewrite list_lookup_insert_ne by lia. apply Hrest. lia.
    + intros c Hc. destruct (Nat.eq_dec c j) as [->|Hne].
      * exists cb, bb, bd, packed. rewrite list_lookup_insert_eq by lia.
        rewrite <- (Hrest j (Nat.le_refl j)). auto 10.
      * rewrite list_lookup_insert_ne by lia. apply Hdone. lia.
Qed.

(** The second loop: the values of the columns go to the value buffers of
    the block, compressed if the codec compresses them, and the working
    value buffers are reset. *)
Lemma SerializeBlockValues_columns kind blockIndex count before blockData0
  compression0 (st' : list ColumnBuffers * list ColumnBlockData
                      * option (list byte)) :
  for_loop count (SerializeBlockValues kind blockIndex)
    (before, blockData0, compression0) = Ok st' ->
  (forall c, (count <= c)%nat ->
     fst (fst st') !! c = before !! c /\ snd (fst st') !! c = blockData0 !! c)
  /\ forall c, (c < count)%nat ->
       exists columnBuffers blockBuffers blockData values,
         before !! c = Some columnBuffers
         /\ 0 <= blockIndex
         /\ blockBuffersArray columnBuffers !! Z.to_nat blockIndex
            = Some blockBuffers
         /\ blockData0 !! c = Some blockData
         /\ data_valueBuffer blockData = Some values
         /\ fst (fst st') !! c
            = Some {| blockBuffersArray :=
                        <[Z.to_nat blockIndex :=
                            match CompressBuffer values kind with
                            | Some compressed =>
                                {| existsBuffer := existsBuffer blockBuffers;
                                   valueBuffer := Some compressed;
                                   valueCompressionType := COMPRESSION_PG_LZ |}
                            | None =>
                                {| existsBuffer := existsBuffer blockBuffers;
                                   valueBuffer := Some values;
                                   valueCompressionType := COMPRESSION_NONE |}
                            end]>
                          (blockBuffersArray columnBuffers) |}
         /\ snd (fst st') !! c
            = Some {| existsArray := existsArray blockData;
                      data_valueBuffer := Some [] |}.
Proof.
  apply (for_loop_invariant
           (fun j (st : list ColumnBuffers * list ColumnBlockData
                        * option (list byte)) =>
              (forall c, (j <= c)%nat ->
                 fst (fst st) !! c = before !! c
                 /\ snd (fst st) !! c = blockData0 !! c)
              /\ forall c, (c < j)%nat ->
                   exists columnBuffers blockBuffers blockData values,
                     before !! c = Some columnBuffers
                     /\ 0 <= blockIndex
                     /\ blockBuffersArray columnBuffers !! Z.to_nat blockIndex
                        = Some blockBuffers
                     /\ blockData0 !! c = Some blockData
                     /\ data_valueBuffer blockData = Some values
                     /\ fst (fst st) !! c
                        = Some {| blockBuffersArray :=
                                    <[Z.to_nat blockIndex :=
                                        match CompressBuffer values kind with
                                        | Some compressed =>
                                            {| existsBuffer := existsBuffer blockBuffers;
                                               valueBuffer := Some compressed;
                                               valueCompressionType :=
                                                 COMPRESSION_PG_LZ |}
                                        | None =>
                                            {| existsBuffer := existsBuffer blockBuffers;
                                               valueBuffer := Some values;
                                               valueCompressionType :=
                                                 COMPRESSION_NONE |}
                                        end]>
                                      (blockBuffersArray columnBuffers) |}
                     /\ snd (fst st) !! c
                        = Some {| existsArray := existsArray blockData;
                                  data_valueBuffer := Some [] |})).
  - cbn [fst snd]. split; [auto|]. intros c Hc. lia.
  - intros j [[arr bds] cmp] [[arr' bds'] cmp'] _ [Hrest Hdone] Hstep.
    cbn [fst snd] in *. unfold SerializeBlockValues in Hstep.
    inv_bind Hstep as cb Hcb. inv_bind Hstep as bb Hbb.
    inv_bind Hstep as bd Hbd. inv_bind Hstep as values Hvalues.
    apply load_nat in Hcb, Hbd. apply load_Some in Hbb as [Hpos Hbb].
    unfold deref, of_option in Hvalues.
    destruct (data_valueBuffer bd) as [bytes|] eqn:Hbytes; [|discriminate].
    injection Hvalues as <-.
    destruct (Hrest j (Nat.le_refl j)) as [Hcb0 Hbd0].
    rewrite Hcb0 in Hcb. rewrite Hbd0 in Hbd.
    assert (Hresult :
              exists blockBuffers',
                blockBuffers'
                = match CompressBuffer bytes kind with
                  | Some compressed =>
                      {| existsBuffer := existsBuffer bb;
                         valueBuffer := Some compressed;
                         valueCompressionType := COMPRESSION_PG_LZ |}
                  | None =>
                      {| existsBuffer := existsBuffer bb;
                         valueBuffer := Some bytes;
                         valueCompressionType := COMPRESSION_NONE |}
                  end
                /\ exists arr1,
                     store_block_buffers arr (Z.of_nat j) blockIndex blockBuffers'
                     = Ok arr1
                     /\ arr' = arr1
                     /\ bds' = <[j := {| existsArray := existsArray bd;
                                         data_valueBuffer := Some [] |}]> bds).
    { destruct (CompressBuffer bytes kind) as [out|];
        inv_bind Hstep as arr1 Hstore; inv_bind Hstep as bds1 Hstore2;
        injection Hstep as <- <- _; apply store_Some in Hstore2 as [_ ->];
        rewrite Nat2Z.id; rewrite CopyStringInfo_eq in Hstore; eauto 10. }
    destruct Hresult as (bb' & Hbb' & arr1 & Hstore & -> & ->).
    apply store_block_buffers_Some in Hstore as (cb' & _ & Hcb' & _ & ->).
    rewrite Nat2Z.id in *. rewrite Hcb0, Hcb in Hcb'. injection Hcb' as <-.
    pose proof (lookup_lt_Some _ _ _ Hcb) as Hj1. rewrite <- Hcb0 in Hcb.
    pose proof (lookup_lt_Some _ _ _ Hcb) as Hj2. rewrite <- Hbd0 in Hbd.
    pose proof (lookup_lt_Some _ _ _ Hbd) as Hj3.
    split.
    + intros c Hc. rewrite !list_lookup_insert_ne by lia. apply Hrest. lia.
    + intros c Hc. destruct (Nat.eq_dec c j) as [->|Hne].
      * exists cb, bb, bd, bytes. rewrite !list_lookup_insert_eq by lia.
        rewrite <- Hcb0, <- Hbd0, <- Hbb'. auto 10.
      * rewrite !list_lookup_insert_ne by lia. apply Hdone. lia.
Qed.

(** X9. [SerializeBlockData] changes, in every column of the stripe, the
    buffers of the block it is given and no other block: the exists buffer
    becomes the packed flags of the first [rowCount] rows of the working
    block, the value buffer becomes the bytes serialized for the block, or
    what the codec compressed them to, with the compression type that says
    which. The working value buffer is emptied; the flags stay. *)
Theorem SerializeBlockData_contents ws blockIndex n ws' :
  SerializeBlockData ws blockIndex n = Ok ws' ->
  exists buffers buffers',
    stripeBuffers ws = Some buffers /\ stripeBuffers ws' = Some buffers'
    /\ forall c, (c < Z.to_nat (columnCount buffers))%nat ->
         exists blockData values columnBuffers columnBuffers' blockBuffers' packed,
           blockDataArray ws !! c = Some blockData
           /\ data_valueBuffer blockData = Some values
           /\ columnBuffersArray buffers !! c = Some columnBuffers
           /\ columnBuffersArray buffers' !! c = Some columnBuffers'
           /\ 0 <= blockIndex < len (blockBuffersArray columnBuffers)
           /\ blockBuffersArray columnBuffers'
              = <[Z.to_nat blockIndex := blockBuffers']>
                  (blockBuffersArray columnBuffers)
           /\ SerializeBoolArray (existsArray blockData) n = Ok packed
           /\ existsBuffer blockBuffers' = Some packed
           /\ match CompressBuffer values (compressionType ws) with
              | Some compressed =>
                  valueBuffer blockBuffers' = Some compressed
                  /\ valueCompressionType blockBuffers' = COMPRESSION_PG_LZ
              | None =>
                  valueBuffer blockBuffers' = Some values
                  /\ valueCompressionType blockBuffers' = COMPRESSION_NONE
              end
           /\ blockDataArray ws' !! c
              = Some {| existsArray := existsArray blockData;
                        data_valueBuffer := Some [] |}.
Proof.
  unfold SerializeBlockData. intros H. inv_bind H as buffers Hb.
  inv_bind H as array Hexists.
  inv_bind H as [[array' blockData'] compression] Hvalues. injection H as <-.
  unfold deref, of_option in Hb.
  destruct (stripeBuffers ws) as [buffers0|]; [|discriminate].
  injection Hb as ->.
  exists buffers, (set_columnBuffers buffers array').
  split; [reflexivity|]. split; [reflexivity|]. intros c Hc.
  apply SerializeBlockExists_columns in Hexists as (_ & _ & Hdone1).
  apply SerializeBlockValues_columns in Hvalues as (_ & Hdone2).
  cbn [fst snd] in Hdone2.
  destruct (Hdone1 c Hc)
    as (cb & bb & bd & packed & Hcb & Hpos & Hbb & Hbd & Hpacked & Harray).
  destruct (Hdone2 c Hc)
    as (cb1 & bb1 & bd1 & values & Hcb1 & _ & Hbb1 & Hbd1 & Hvalues & Harray'
        & Hdata').
  rewrite Harray in Hcb1. injection Hcb1 as <-.
  rewrite Hbd in Hbd1. injection Hbd1 as <-.
  pose proof (lookup_lt_Some _ _ _ Hbb) as Hlt.
  cbn [blockBuffersArray] in Hbb1, Harray'.
  rewrite list_lookup_insert_eq in Hbb1 by exact Hlt. injection Hbb1 as <-.
  rewrite list_insert_insert_eq in Harray'. cbn [existsBuffer] in Harray'.
  exists bd, values, cb. eexists. eexists. exists packed.
  split; [exact Hbd|]. split; [exact Hvalues|]. split; [exact Hcb|].
  split; [exact Harray'|]. split; [unfold len; lia|].
  cbn [blockBuffersArray]. split; [reflexivity|]. split; [exact Hpacked|].
  cbn [blockDataArray set_blockData].
  destruct (CompressBuffer values (compressionType ws)); cbn; auto.
Qed.
End BlockContents.

Lemma SerializeBlockData_contents_witness :
  match staged_writer [10; 20; 30] with
  | Ok ws =>
      exists buffers buffers' columnBuffers',
        stripeBuffers ws = Some buffers
        /\ columnBuffersArray buffers' !! 0%nat = Some columnBuffers'
        /\ option_map existsBuffer (blockBuffersArray columnBuffers' !! 1%nat)
           = Some (Some [x01])
        /\ option_map valueBuffer (blockBuffersArray columnBuffers' !! 1%nat)
           = Some (Some [x1e; x00; x00; x00])
  | Err _ => False
  end.
Proof.
  assert (Hfacts :
            match staged_writer [10; 20; 30] with
            | Ok ws =>
                option_map columnCount (stripeBuffers ws) = Some 1
                /\ option_map existsArray (blockDataArray ws !! 0%nat)
                   = Some [true; true]
                /\ option_map data_valueBuffer (blockDataArray ws !! 0%nat)
                   = Some (Some [x1e; x00; x00; x00])
                /\ is_ok (@SerializeBlockData (plain_codec None 0) ws 1 1) = true
            | Err _ => False
            end).
  { vm_compute. repeat split. }
  destruct (staged_writer [10; 20; 30]) as [ws|e] eqn:Hstaged; [|exact Hfacts].
  destruct Hfacts as (Hcolumns & Hflags & Hvalues & Hruns).
  destruct (@SerializeBlockData (plain_codec None 0) ws 1 1)
    as [ws'|e] eqn:Hrun; [|discriminate].
  destruct (@SerializeBlockData_contents (plain_codec None 0) ws 1 1 ws' Hrun)
    as (buffers & buffers' & Hb & Hb' & Hcontents).
  rewrite Hb in Hcolumns. injection Hcolumns as Hcolumns.
  destruct (Hcontents 0%nat ltac:(lia))
    as (bd & values & cb & cb' & bb' & packed & Hbd & Hv & Hcb & Hcb' & Hrange
        & Hblocks & Hpacked & He & Hkind & _).
  rewrite Hbd in Hflags, Hvalues. cbn in Hflags, Hvalues.
  injection Hflags as Hflags. rewrite Hv in Hvalues. injection Hvalues as ->.
  rewrite Hflags in Hpacked. injection Hpacked as <-.
  exists buffers, buffers', cb'. split; [exact Hb|]. split; [exact Hcb'|].
  rewrite Hblocks, list_lookup_insert_eq by (unfold len in Hrange; lia).
  cbn in Hkind. destruct Hkind as [Hvalue _].
  cbn [option_map]. rewrite He, Hvalue. split; reflexivity.
Defined.

(** ** Reading the footer back *)

(** A list is the concatenation of its chunks of [d] elements. *)
Lemma chunks_concat {A} (l : list A) (d c : nat) :
  (length l <= c * d)%nat ->
  concat (map (fun k => take d (drop (k * d) l)) (seq 0 c)) = l.
Proof.
  revert l. induction c as [|c IH]; intros l Hlen.
  - destruct l; [reflexivity|cbn in Hlen; lia].
  - cbn [seq map concat]. change (0 * d)%nat with 0%nat. rewrite drop_0.
    rewrite <- seq_shift, map_map.
    transitivity (take d l ++ drop d l); [|apply take_drop]. f_equal.
    rewrite <- (IH (drop d l)) by (rewrite length_drop; lia).
    f_equal. apply map_ext. intros k. rewrite drop_drop. reflexivity.
Qed.

Section FooterPages.
Context {host : Host} {collab : Collaborators}.
Hypothesis Hhost : host_ok.

(** The payload of a page that [WriteFooterPage] has filled. *)
Lemma payload_footer_page (chunk : list byte) upper flags :
  len chunk <= CSTORE_PAGE_DATA_SIZE ->
  payload {| pd_lower := SizeOfPageHeaderData + len chunk;
             pd_upper := upper; pd_flags := flags;
             contents := memcpy_at (replicate page_bytes x00) 0 chunk |}
  = chunk.
Proof.
  intros Hfit. unfold payload, memcpy_at. cbn [pd_lower contents].
  change (Z.to_nat 0) with 0%nat. rewrite take_0, Nat.add_0_l. cbn [app].
  replace (Z.to_nat (SizeOfPageHeaderData + len chunk - SizeOfPageHeaderData))
    with (length chunk) by (unfold len; lia).
  apply take_app_length.
Qed.

(** The page loop of [CStoreWriteFooter] puts chunk [k] of the footer
    stream on block [newStartingBlock + k]. *)
Lemma RunFooterPages_chunks (plan : FooterPlan) loggingEnabled (count : nat) st :
  let D := Z.to_nat CSTORE_PAGE_DATA_SIZE in
  let s := fp_newStartingBlock plan in
  fp_dataLength plan = len (fp_wholeFooter plan) ->
  fp_dataLength plan < 2 ^ 30 ->
  len (fp_fork plan) <= Z.max 1 (fp_originalBlockCount plan) ->
  fp_originalBlockCount plan <= len (fp_fork plan) <= P_NEW ->
  1 <= s <= len (fp_fork plan) ->
  (Z.of_nat count - 1) * CSTORE_PAGE_DATA_SIZE < fp_dataLength plan ->
  RunFooterPages plan loggingEnabled count = Ok st ->
  len (fw_fork st) = Z.max (len (fp_fork plan)) (s + Z.of_nat count)
  /\ fw_dataOffset st
     = Z.min (Z.of_nat count * CSTORE_PAGE_DATA_SIZE) (fp_dataLength plan)
  /\ forall k, (k < count)%nat ->
       exists page,
         fw_fork st !! (Z.to_nat s + k)%nat = Some page
         /\ payload page = take D (drop (k * D) (fp_wholeFooter plan)).
Proof.
  intros D s HL Hsmall Hhead Horig Hs Hcount. unfold RunFooterPages.
  destruct Hhost as (Hh0 & Hh1 & Hh2).
  assert (HD : 0 < CSTORE_PAGE_DATA_SIZE < 2 ^ 15)
    by (unfold CSTORE_PAGE_DATA_SIZE; lia).
  set (L := fp_dataLength plan) in *.
  pose proof (len_nonneg (fp_wholeFooter plan)) as HLpos.
  intros Hrun.
  assert (Hgoal :
            (Z.of_nat count - 1) * CSTORE_PAGE_DATA_SIZE < L ->
            len (fw_fork st) = Z.max (len (fp_fork plan)) (s + Z.of_nat count)
            /\ len (fw_fork st) <= P_NEW
            /\ fw_dataOffset st = Z.min (Z.of_nat count * CSTORE_PAGE_DATA_SIZE) L
            /\ forall k, (k < count)%nat ->
                 exists page,
                   fw_fork st !! (Z.to_nat s + k)%nat = Some page
                   /\ payload page = take D (drop (k * D) (fp_wholeFooter plan))).
  2:{ destruct (Hgoal Hcount) as (H1 & _ & H2 & H3). auto. }
  revert Hrun.
  apply (for_loop_invariant
           (fun i (t : FooterWrite) =>
              (Z.of_nat i - 1) * CSTORE_PAGE_DATA_SIZE < L ->
              len (fw_fork t) = Z.max (len (fp_fork plan)) (s + Z.of_nat i)
              /\ len (fw_fork t) <= P_NEW
              /\ fw_dataOffset t = Z.min (Z.of_nat i * CSTORE_PAGE_DATA_SIZE) L
              /\ forall k, (k < i)%nat ->
                   exists page,
                     fw_fork t !! (Z.to_nat s + k)%nat = Some page
                     /\ payload page
                        = take D (drop (k * D) (fp_wholeFooter plan)))).
  - intros _. cbn [fw_fork fw_dataOffset].
    split; [lia|]. split; [lia|]. split; [lia|]. intros k Hk. lia.
  - intros i t t' Hi Hinv Hstep Hnext.
    destruct Hinv as (Hlen & Hmax & Hoff & Hpages); [nia|].
    assert (HiD : Z.of_nat i * CSTORE_PAGE_DATA_SIZE < L) by lia.
    rewrite Z.min_l in Hoff by lia.
    unfold WriteFooterPage in Hstep. rewrite Hoff in Hstep. fold s L in Hstep.
    rewrite (u32_small (Z.of_nat i + s)) in Hstep
      by (unfold P_NEW, InvalidBlockNumber in *; lia).
    inv_bind Hstep as [fork' buffer] Hread. inv_bind Hstep as page Hpage.
    inv_bind Hstep as inside Hinside.
    injection Hstep as <-. cbn [fw_fork fw_dataOffset].
    set (copySize := if L - Z.of_nat i * CSTORE_PAGE_DATA_SIZE
                          <=? CSTORE_PAGE_DATA_SIZE
                     then L - Z.of_nat i * CSTORE_PAGE_DATA_SIZE
                     else CSTORE_PAGE_DATA_SIZE) in *.
    assert (Hcopy : copySize
                    = Z.min (L - Z.of_nat i * CSTORE_PAGE_DATA_SIZE)
                        CSTORE_PAGE_DATA_SIZE).
    { unfold copySize. destruct (Z.leb_spec (L - Z.of_nat i * CSTORE_PAGE_DATA_SIZE)
                                   CSTORE_PAGE_DATA_SIZE); lia. }
    assert (Hbuf : buffer = s + Z.of_nat i
                   /\ len fork' = Z.max (len (fp_fork plan)) (s + Z.of_nat (S i))
                   /\ len fork' <= P_NEW
                   /\ forall k, (k < i)%nat ->
                        fork' !! (Z.to_nat s + k)%nat
                        = fw_fork t !! (Z.to_nat s + k)%nat).
    { unfold ReadBufferExtended in Hread.
      destruct (Z.leb_spec (fp_originalBlockCount plan) (Z.of_nat i + s))
        as [Hnew|Hold].
      - rewrite Z.eqb_refl in Hread.
        destruct (Z.ltb_spec (len (fw_fork t)) P_NEW) as [Hroom|]; [|discriminate].
        injection Hread as <- <-. rewrite len_app. change (len [zero_page]) with 1.
        split; [lia|]. split; [lia|]. split; [lia|].
        intros k Hk. apply lookup_app_l. unfold len in *. lia.
      - destruct (Z.eqb_spec (Z.of_nat i + s) P_NEW) as [|_]; [lia|].
        destruct (fw_fork t !! Z.to_nat (Z.of_nat i + s)); [|discriminate].
        injection Hread as <- <-. split; [lia|]. split; [lia|]. split; [lia|].
        reflexivity. }
    destruct Hbuf as (-> & Hlen' & Hmax' & Hsame).
    rewrite len_insert.
    split; [exact Hlen'|]. split; [exact Hmax'|]. split.
    { rewrite i32_small by lia. lia. }
    intros k Hk.
    replace (Z.to_nat (s + Z.of_nat i)) with (Z.to_nat s + i)%nat by lia.
    destruct (Nat.eq_dec k i) as [->|Hne].
    + eexists. rewrite list_lookup_insert_eq by (unfold len in Hlen'; lia).
      split; [reflexivity|].
      set (chunk := take (Z.to_nat copySize)
                      (drop (Z.to_nat (Z.of_nat i * CSTORE_PAGE_DATA_SIZE))
                         (fp_wholeFooter plan))).
      assert (Hchunk : len chunk = copySize).
      { unfold chunk, len in *. rewrite length_take, length_drop. lia. }
      rewrite <- Hchunk.
      rewrite payload_footer_page by lia.
      unfold chunk.
      replace (Z.to_nat (Z.of_nat i * CSTORE_PAGE_DATA_SIZE)) with (i * D)%nat
        by (unfold D; lia).
      apply list_eq. intros j.
      destruct (Nat.lt_ge_cases j (Z.to_nat copySize)) as [Hj|Hj].
      * rewrite !lookup_take_lt by (unfold D; lia). reflexivity.
      * rewrite lookup_take_ge by exact Hj.
        destruct (Nat.lt_ge_cases j D) as [HjD|HjD];
          [|now rewrite lookup_take_ge by exact HjD].
        rewrite lookup_take_lt by exact HjD. symmetry.
        apply lookup_ge_None. rewrite length_drop. unfold len, D in *. lia.
    + rewrite list_lookup_insert_ne by lia. rewrite Hsame by lia.
      apply Hpages. lia.
Qed.

(** X10. When [CStoreWriteFooter] returns and the starting block it chose
    lies on the fork after the header page, the footer can be read back
    from the footer fork: the payload of the header page is the serialized
    pair of the starting block and the block count, and the payloads of the
    blocks of that range, one after the other, are the footer stream. *)
Theorem footer_read_back tableFooter fork loggingEnabled plan written :
  let s := fp_newStartingBlock plan in
  let c := fp_actualBlockCount plan in
  PlanFooter tableFooter fork = Ok plan ->
  len fork <= P_NEW ->
  1 <= s <= len (fp_fork plan) ->
  len (SerializeTableFooterMetadata s c) <= CSTORE_PAGE_DATA_SIZE ->
  CStoreWriteFooter tableFooter fork loggingEnabled = Ok written ->
  (exists headerPage,
     fw_fork written !! 0%nat = Some headerPage
     /\ payload headerPage = SerializeTableFooterMetadata s c)
  /\ fork_bytes (take (Z.to_nat c) (drop (Z.to_nat s) (fw_fork written)))
     = fp_wholeFooter plan
  /\ len (fw_fork written) = Z.max (len (fp_fork plan)) (s + c).
Proof.
  intros s c Hplan Hmax Hs Hmeta Hwrite.
  destruct (PlanFooter_Ok _ _ _ Hplan)
    as (whole & page & Hlay & Hstream & HL & Hcount & Horig & HDnz & Hread & Hpage
        & _).
  destruct (LayOutFooter_Ok _ _ Hlay) as (Hwhole & Hbound & _).
  pose proof Hhost as (Hh0 & Hh1 & Hh2).
  assert (HD : 0 < CSTORE_PAGE_DATA_SIZE < 2 ^ 15)
    by (unfold CSTORE_PAGE_DATA_SIZE; lia).
  assert (Hsame : len (fp_wholeFooter plan) = len whole).
  { rewrite Hstream, Hwhole, PatchFooterLength_eq.
    rewrite !len_app. unfold len, int32_bytes. now rewrite !length_le_bytes. }
  assert (Hfive : 5 <= len whole).
  { rewrite Hwhole, !len_app. unfold int32_bytes, len.
    rewrite length_le_bytes. cbn [length]. lia. }
  unfold MaxAllocSize in Hbound.
  assert (Hc : c = (len whole - 1) / CSTORE_PAGE_DATA_SIZE + 1).
  { unfold c. rewrite Hcount, Z.quot_div_nonneg by lia. apply u32_small.
    assert (0 <= (len whole - 1) / CSTORE_PAGE_DATA_SIZE)
      by (apply Z.div_pos; lia).
    assert ((len whole - 1) / CSTORE_PAGE_DATA_SIZE <= len whole)
      by (apply Z.div_le_upper_bound; nia).
    lia. }
  assert (Hdm : len whole - 1
                = CSTORE_PAGE_DATA_SIZE
                  * ((len whole - 1) / CSTORE_PAGE_DATA_SIZE)
                  + (len whole - 1) mod CSTORE_PAGE_DATA_SIZE)
    by (apply Z.div_mod; lia).
  assert (Hmod : 0 <= (len whole - 1) mod CSTORE_PAGE_DATA_SIZE
                 < CSTORE_PAGE_DATA_SIZE)
    by (apply Z.mod_pos_bound; lia).
  assert (Hhead : fp_headerBuffer plan = 0
                  /\ len (fp_fork plan) <= Z.max 1 (len fork)
                  /\ len fork <= len (fp_fork plan) <= P_NEW).
  { unfold ReadBufferExtended in Hread.
    destruct (Z.ltb_spec 0 (len fork)) as [Hpos|Hzero].
    - change (0 =? P_NEW) with false in Hread.
      destruct (fork !! Z.to_nat 0); [|discriminate].
      injection Hread as <- <-. lia.
    - rewrite Z.eqb_refl in Hread.
      destruct (Z.ltb_spec (len fork) P_NEW); [|discriminate].
      injection Hread as <- <-. rewrite len_app. change (len [zero_page]) with 1.
      pose proof (len_nonneg fork). lia. }
  destruct Hhead as (Hhb & Hgrow & Hkeep).
  unfold CStoreWriteFooter in Hwrite. rewrite Hplan in Hwrite.
  cbn [bind] in Hwrite. inv_bind Hwrite as st Hrun.
  destruct (RunFooterPages_chunks plan loggingEnabled
              (Z.to_nat (fp_actualBlockCount plan)) st) as (Hlen & _ & Hpages);
    [congruence|lia|rewrite Horig; lia|rewrite Horig; lia|exact Hs| |exact Hrun|].
  { fold c. rewrite HL. nia. }
  assert (Hq : 0 <= (len whole - 1) / CSTORE_PAGE_DATA_SIZE)
    by (apply Z.div_pos; lia).
  assert (Hcpos : 1 <= c) by lia.
  fold s c in Hlen, Hpages. rewrite Z2Nat.id in Hlen by lia.
  unfold WriteFooterHeader in Hwrite. inv_bind Hwrite as hp Hhp.
  inv_bind Hwrite as fits Hfits.
  injection Hwrite as <-. cbn [fw_fork]. fold s c. rewrite Hhb.
  change (Z.to_nat 0) with 0%nat.
  pose proof (len_nonneg (SerializeTableFooterMetadata s c)) as Hmeta0.
  rewrite u16_small by (unfold CSTORE_PAGE_DATA_SIZE in Hmeta; lia).
  unfold BufferGetPage, of_option in Hhp. rewrite Hhb in Hhp.
  change (Z.to_nat 0) with 0%nat in Hhp.
  destruct (fw_fork st !! 0%nat) as [hp0|] eqn:Hhp0; [|discriminate].
  injection Hhp as <-. pose proof (lookup_lt_Some _ _ _ Hhp0) as Hzero.
  split; [|split].
  - eexists. rewrite list_lookup_insert_eq by exact Hzero.
    split; [reflexivity|]. apply (payload_footer_page _ _ _ Hmeta).
  - rewrite <- (chunks_concat (fp_wholeFooter plan)
                  (Z.to_nat CSTORE_PAGE_DATA_SIZE) (Z.to_nat c))
      by (unfold len in *; nia).
    unfold fork_bytes. f_equal. apply list_eq. intros k.
    rewrite !list_lookup_fmap.
    destruct (Nat.lt_ge_cases k (Z.to_nat c)) as [Hk|Hk].
    + rewrite lookup_take_lt, lookup_drop by exact Hk.
      rewrite list_lookup_insert_ne by lia.
      destruct (Hpages k Hk) as (p & Hp & Hpayload).
      rewrite Hp, lookup_seq_lt by exact Hk. cbn. now rewrite Hpayload.
    + rewrite lookup_take_ge by exact Hk.
      rewrite lookup_seq_ge by exact Hk. reflexivity.
  - rewrite len_insert. exact Hlen.
Qed.
End FooterPages.

Lemma footer_read_back_witness :
  match @PlanFooter small_pages (plain_codec None 0) (empty_footer 4)
          footer_fork_once with
  | Ok plan =>
      match @CStoreWriteFooter small_pages (plain_codec None 0) (empty_footer 4)
              footer_fork_once true with
      | Ok written =>
          @fork_bytes small_pages (take 1 (drop 2 (fw_fork written)))
          = fp_wholeFooter plan
      | Err _ => False
      end
  | Err _ => False
  end.
Proof.
  assert (Hfacts :
            match @PlanFooter small_pages (plain_codec None 0) (empty_footer 4)
                    footer_fork_once with
            | Ok plan =>
                fp_newStartingBlock plan = 2 /\ fp_actualBlockCount plan = 1
                /\ len (fp_fork plan) = 2
                /\ is_ok (@CStoreWriteFooter small_pages (plain_codec None 0)
                            (empty_footer 4) footer_fork_once true) = true
            | Err _ => False
            end).
  { vm_compute. repeat split. }
  destruct (@PlanFooter small_pages (plain_codec None 0) (empty_footer 4)
              footer_fork_once) as [plan|e] eqn:Hplan; [|exact Hfacts].
  destruct Hfacts as (Hs & Hc & Hlen & Hruns).
  destruct (@CStoreWriteFooter small_pages (plain_codec None 0) (empty_footer 4)
              footer_fork_once true) as [written|e] eqn:Hwrite; [|discriminate].
  destruct (@footer_read_back small_pages (plain_codec None 0) small_pages_ok
              (empty_footer 4) footer_fork_once true plan written Hplan)
    as (_ & Hbytes & _).
  - vm_compute. discriminate.
  - rewrite Hs, Hlen. lia.
  - rewrite Hs, Hc. vm_compute. discriminate.
  - exact Hwrite.
  - rewrite Hs, Hc in Hbytes. exact Hbytes.
Defined.

(** ** What the blocks of a stripe hold *)

(** The flags that [SerializeBoolArray] has packed, when it returns. *)
Lemma SerializeBoolArray_bits (flags : list bool) n packed :
  0 <= n -> n + 7 < 2 ^ 32 ->
  SerializeBoolArray flags n = Ok packed ->
  len packed = (n + 7) / 8
  /\ forall i : nat,
       Z.of_nat i < n ->
       exists flag, flags !! i = Some flag /\ flag_at packed (Z.of_nat i) = flag.
Proof.
  intros Hn Hwrap H.
  destruct (SerializeBoolArray_length _ _ _ H) as [Hlen _].
  rewrite u32_small, Z.quot_div_nonneg in Hlen by lia.
  split; [exact Hlen|].
  unfold SerializeBoolArray in H. inv_bind H as u Hlarge. clear Hlarge u.
  assert (Hbits : forall i : nat,
            (i < Z.to_nat n)%nat ->
            exists flag,
              flags !! i = Some flag /\ flag_at packed (Z.of_nat i) = flag).
  2:{ intros i Hi. apply Hbits. lia. }
  revert H.
  apply (for_loop_invariant
           (fun k buffer =>
              (forall j : nat, (k <= j)%nat -> flag_at buffer (Z.of_nat j) = false)
              /\ forall i : nat,
                   (i < k)%nat ->
                   exists flag,
                     flags !! i = Some flag
                     /\ flag_at buffer (Z.of_nat i) = flag)).
  - split; [|intros i Hi; lia]. intros j _. apply flag_at_zero.
  - intros k buffer buffer' _ [Hrest Hdone] Hstep.
    inv_bind Hstep as flag Hflag. apply load_nat in Hflag.
    destruct flag.
    + rewrite Z.quot_div_nonneg, Z.rem_mod_nonneg in Hstep by lia.
      inv_bind Hstep as old Hold. apply load_Some in Hold as [_ Hold].
      apply store_Some in Hstep as [_ ->].
      assert (Hset : forall j : nat,
                flag_at (<[Z.to_nat (Z.of_nat k / 8) :=
                             byte_of_Z (Z.lor (Z_of_byte old)
                                          (Z.shiftl 1 (Z.of_nat k mod 8)))]>
                           buffer) (Z.of_nat j)
                = flag_at buffer (Z.of_nat j) || (Z.of_nat j =? Z.of_nat k)).
      { intros j. apply flag_at_set; [lia|lia|exact Hold]. }
      split.
      * intros j Hj. rewrite Hset, Hrest by lia.
        destruct (Z.eqb_spec (Z.of_nat j) (Z.of_nat k)); [lia|reflexivity].
      * intros i Hi. rewrite Hset. destruct (Nat.eq_dec i k) as [->|Hne].
        -- exists true. rewrite Z.eqb_refl, orb_true_r. auto.
        -- destruct (Hdone i ltac:(lia)) as (flag & Hf & Hat).
           exists flag. rewrite Hat.
           destruct (Z.eqb_spec (Z.of_nat i) (Z.of_nat k)); [lia|].
           now rewrite orb_false_r.
    + injection Hstep as <-. split.
      * intros j Hj. apply Hrest. lia.
      * intros i Hi. destruct (Nat.eq_dec i k) as [->|Hne].
        -- exists false. split; [exact Hflag|]. apply Hrest. lia.
        -- apply Hdone. lia.
Qed.

(** The bytes [SerializeSingleDatum] appends do not depend on the buffer. *)
Lemma SerializeSingleDatum_fresh {host : Host}
  buffer datum byValue typeLength align buffer' :
  SerializeSingleDatum buffer datum byValue typeLength align = Ok buffer' ->
  exists bytes,
    buffer' = buffer ++ bytes
    /\ SerializeSingleDatum [] datum byValue typeLength align = Ok bytes.
Proof.
  unfold SerializeSingleDatum. intros H. inv_bind H as datumLength Hlen.
  inv_bind H as known Hknown.
  inv_bind H as u Hlarge. inv_bind H as image Himage. inv_bind H as u' Hfit.
  injection H as <-. eexists. split; [reflexivity|].
  rewrite Hlen. cbn [bind]. rewrite Hknown. cbn [bind].
  destruct u. apply enlargeStringInfo_Ok in Hlarge as [Hpos Hlarge].
  pose proof (len_nonneg buffer) as Hbuffer.
  unfold enlargeStringInfo at 1. change (len []) with 0.
  destruct (Z.ltb_spec (i32 (u32 (att_align_nominal (u32 datumLength) align))) 0);
    [lia|].
  destruct (Z.leb_spec (MaxAllocSize - 0)
              (i32 (u32 (att_align_nominal (u32 datumLength) align)))); [lia|].
  cbn [bind]. rewrite Himage. cbn [bind]. rewrite Hfit. reflexivity.
Qed.

Lemma serialize_column_snoc {host : Host} att c (rows : list Row)
  (columnValues : list Datum) (columnNulls : list bool)
  (values : list byte) (isNull : bool) (bytes : list byte) :
  serialize_column att c rows = Ok values ->
  columnNulls !! c = Some isNull ->
  (if isNull then bytes = []
   else exists columnValue,
          columnValues !! c = Some columnValue
          /\ SerializeSingleDatum [] columnValue (attbyval att) (attlen att)
               (attalign att) = Ok bytes) ->
  serialize_column att c (rows ++ [(columnValues, columnNulls)])
  = Ok (values ++ bytes).
Proof.
  intros Hrows Hnull Hbytes. revert values Hrows.
  induction rows as [|[vs ns] rows IH]; intros values Hrows.
  - injection Hrows as <-. cbn [app serialize_column].
    apply load_nat in Hnull. rewrite Hnull. cbn [bind].
    destruct isNull.
    + subst bytes. reflexivity.
    + destruct Hbytes as (value & Hvalue & Hser). apply load_nat in Hvalue.
      rewrite Hvalue. cbn [bind]. rewrite Hser. cbn [bind].
      now rewrite app_nil_r.
  - cbn [app serialize_column] in *.
    inv_bind Hrows as n0 Hn0. inv_bind Hrows as b0 Hb0.
    inv_bind Hrows as rest Hrest. injection Hrows as <-.
    rewrite Hn0. cbn [bind]. rewrite Hb0. cbn [bind].
    rewrite (IH rest Hrest). cbn [bind]. now rewrite app_assoc.
Qed.

(** Positions in a stripe with blocks of [R] rows. *)
Lemma block_position (n R : Z) :
  0 <= n -> 0 < R ->
  exists k : nat,
    Z.to_nat n = (Z.to_nat (n / R) * Z.to_nat R + k)%nat
    /\ (k < Z.to_nat R)%nat /\ Z.of_nat k = n mod R.
Proof.
  intros Hn HR. exists (Z.to_nat (n mod R)).
  pose proof (Z.div_mod n R ltac:(lia)) as Hdm.
  pose proof (Z.mod_pos_bound n R HR) as Hmod.
  assert (0 <= n / R) by (apply Z.div_pos; lia).
  split; [|split; [lia|lia]].
  rewrite <- Z2Nat.inj_mul, <- Z2Nat.inj_add by (try lia; nia).
  f_equal. lia.
Qed.

Lemma same_block (n R : Z) :
  0 <= n -> 0 < R -> n mod R + 1 < R -> (n + 1) / R = n / R.
Proof.
  intros Hn HR Hk. symmetry.
  apply (Z.div_unique (n + 1) R (n / R) (n mod R + 1)).
  - pose proof (Z.mod_pos_bound n R HR). lia.
  - pose proof (Z.div_mod n R ltac:(lia)). lia.
Qed.

Lemma next_block (n R : Z) :
  0 <= n -> 0 < R -> n mod R + 1 = R -> (n + 1) / R = n / R + 1.
Proof.
  intros Hn HR Hk. symmetry.
  apply (Z.div_unique (n + 1) R (n / R + 1) 0); [lia|].
  pose proof (Z.div_mod n R ltac:(lia)). lia.
Qed.

Section StagedBlocks.
Context {host : Host} {collab : Collaborators}.

(** A new stripe starts with empty value buffers on the working blocks. *)
Lemma EnsureStripe_blockData ws R C ws1 :
  stripeBuffers ws = None ->
  EnsureStripe ws R C = Ok ws1 ->
  forall c, (c < Z.to_nat C)%nat ->
    exists blockData,
      blockDataArray ws !! c = Some blockData
      /\ blockDataArray ws1 !! c
         = Some {| existsArray := existsArray blockData;
                   data_valueBuffer := Some [] |}.
Proof.
  intros Hclosed H. unfold EnsureStripe in H. rewrite Hclosed in H.
  inv_bind H as buffers Hb. inv_bind H as skipList Hs.
  inv_bind H as blockData Hd. injection H as <-.
  cbn [blockDataArray set_blockData set_stripe] in *.
  revert Hd.
  apply (for_loop_invariant
           (fun j (arr : list ColumnBlockData) =>
              (forall c, (j <= c)%nat -> arr !! c = blockDataArray ws !! c)
              /\ forall c, (c < j)%nat ->
                   exists blockData,
                     blockDataArray ws !! c = Some blockData
                     /\ arr !! c
                        = Some {| existsArray := existsArray blockData;
                                  data_valueBuffer := Some [] |})).
  - split; [reflexivity|]. intros c Hc. lia.
  - intros j arr arr' _ [Hrest Hdone] Hstep.
    inv_bind Hstep as bd Hbd. apply load_nat in Hbd.
    apply store_Some in Hstep as [Hr ->]. rewrite Nat2Z.id.
    unfold len in Hr. split.
    + intros c Hc. rewrite list_lookup_insert_ne by lia. apply Hrest. lia.
    + intros c Hc. destruct (Nat.eq_dec c j) as [->|Hne].
      * exists bd. rewrite list_lookup_insert_eq by lia.
        rewrite <- (Hrest j (Nat.le_refl j)). auto.
      * rewrite list_lookup_insert_ne by lia. apply Hdone. lia.
Qed.

(** What [SerializeBlockData] does to one column. *)
Lemma SerializeBlockData_column ws blockIndex n ws' buffers c :
  SerializeBlockData ws blockIndex n = Ok ws' ->
  stripeBuffers ws = Some buffers ->
  (c < Z.to_nat (columnCount buffers))%nat ->
  exists blockData values columnBuffers packed buffers',
    blockDataArray ws !! c = Some blockData
    /\ data_valueBuffer blockData = Some values
    /\ columnBuffersArray buffers !! c = Some columnBuffers
    /\ 0 <= blockIndex < len (blockBuffersArray columnBuffers)
    /\ SerializeBoolArray (existsArray blockData) n = Ok packed
    /\ stripeBuffers ws' = Some buffers'
    /\ rowCount buffers' = rowCount buffers
    /\ columnCount buffers' = columnCount buffers
    /\ columnBuffersArray buffers' !! c
       = Some {| blockBuffersArray :=
                   <[Z.to_nat blockIndex :=
                       match CompressBuffer values (compressionType ws) with
                       | Some compressed =>
                           {| existsBuffer := Some packed;
                              valueBuffer := Some compressed;
                              valueCompressionType := COMPRESSION_PG_LZ |}
                       | None =>
                           {| existsBuffer := Some packed;
                              valueBuffer := Some values;
                              valueCompressionType := COMPRESSION_NONE |}
                       end]>
                     (blockBuffersArray columnBuffers) |}
    /\ blockDataArray ws' !! c
       = Some {| existsArray := existsArray blockData;
                 data_valueBuffer := Some [] |}.
Proof.
  unfold SerializeBlockData. intros H Hopen Hc. rewrite Hopen in H.
  cbn [deref of_option bind] in H.
  inv_bind H as array Hexists.
  inv_bind H as [[array' blockData'] compression] Hvalues. injection H as <-.
  apply SerializeBlockExists_columns in Hexists as (_ & _ & Hdone1).
  apply SerializeBlockValues_columns in Hvalues as (_ & Hdone2).
  cbn [fst snd] in Hdone2.
  destruct (Hdone1 c Hc)
    as (cb & bb & bd & packed & Hcb & Hpos & Hbb & Hbd & Hpacked & Harray).
  destruct (Hdone2 c Hc)
    as (cb1 & bb1 & bd1 & values & Hcb1 & _ & Hbb1 & Hbd1 & Hvalues & Harray'
        & Hdata').
  rewrite Harray in Hcb1. injection Hcb1 as <-.
  rewrite Hbd in Hbd1. injection Hbd1 as <-.
  pose proof (lookup_lt_Some _ _ _ Hbb) as Hlt.
  cbn [blockBuffersArray] in Hbb1, Harray'.
  rewrite list_lookup_insert_eq in Hbb1 by exact Hlt. injection Hbb1 as <-.
  rewrite list_insert_insert_eq in Harray'. cbn [existsBuffer] in Harray'.
  exists bd, values, cb, packed, (set_columnBuffers buffers array').
  split; [exact Hbd|]. split; [exact Hvalues|]. split; [exact Hcb|].
  split; [unfold len; lia|]. split; [exact Hpacked|].
  split; [reflexivity|]. split; [reflexivity|]. split; [reflexivity|].
  split; [exact Harray'|exact Hdata'].
Qed.
End StagedBlocks.

Lemma block_of_snoc R b (rows : list Row) row :
  ((b + 1) * Z.to_nat R <= length rows)%nat ->
  block_of R b (rows ++ [row]) = block_of R b rows.
Proof.
  intros Hfull. unfold block_of.
  rewrite drop_app_le by lia. apply take_app_le. rewrite length_drop. lia.
Qed.

Section StagedColumns.
Context {host : Host} {collab : Collaborators}.

(** The rows of the stripe stay in its buffers when a row is staged. *)
Lemma StageRow_staged ws columnValues columnNulls ws' (rows : list Row) c att :
  column_staged ws rows c att ->
  len rows < 2 ^ 32 - 1 ->
  u32 (blockRowCount (tableFooter ws)) + 7 < 2 ^ 32 ->
  attrs (tupleDescriptor ws) !! c = Some att ->
  Z.of_nat c < u32 (natts (tupleDescriptor ws)) ->
  StageRow ws columnValues columnNulls = Ok ws' ->
  column_staged ws' (rows ++ [(columnValues, columnNulls)]) c att.
Proof.
  intros Hstaged Hbound Hwrap Hatt Hc Hstage. unfold Row in *.
  unfold StageRow in Hstage.
  inv_bind Hstage as [[ws1 bi] bri] Hadd. inv_bind Hstage as ws2 Hblock.
  inv_bind Hstage as buffers2 Hb2. injection Hstage as <-.
  destruct (AddRow_spec _ _ _ _ _ _ Hadd)
    as (ws0 & buffers & skipList & nodes' & Hensure & Hb0 & Hs0 & HR & -> & ->
        & Hcols & Hb1 & Hs1 & Hsame1).
  destruct (EnsureStripe_spec _ _ _ _ Hensure) as [Hsame0 Hcase].
  set (R := u32 (blockRowCount (tableFooter ws))) in *.
  set (C := u32 (natts (tupleDescriptor ws))) in *.
  set (n := len rows) in *.
  set (row := (columnValues, columnNulls)).
  pose proof (len_nonneg rows) as Hn. fold n in Hn.
  assert (HRpos : 0 < R)
    by (pose proof (u32_range (blockRowCount (tableFooter ws))); lia).
  set (Rn := Z.to_nat R). set (bn := Z.to_nat (n / R)).
  set (current := drop (bn * Rn) rows).
  (* the stripe before the row *)
  assert (Hpre :
            rowCount buffers = n /\ columnCount buffers = C
            /\ exists blockData columnBuffers values,
                 blockDataArray ws0 !! c = Some blockData
                 /\ columnBuffersArray buffers !! c = Some columnBuffers
                 /\ (forall i, (i < length current)%nat ->
                       exists isNull,
                         null_at current i c isNull
                         /\ existsArray blockData !! i = Some (negb isNull))
                 /\ data_valueBuffer blockData = Some values
                 /\ serialize_column att c current = Ok values
                 /\ forall b', (b' < bn)%nat ->
                      exists blockBuffers,
                        blockBuffersArray columnBuffers !! b' = Some blockBuffers
                        /\ block_serialized (compressionType ws) att c
                             (block_of R b' rows) blockBuffers).
  { unfold column_staged in Hstaged.
    destruct (stripeBuffers ws) as [buffers0|] eqn:Hopen.
    - subst ws0. rewrite Hopen in Hb0. injection Hb0 as ->. exact Hstaged.
    - destruct Hcase as (_ & fresh & freshList & Hfresh & _ & Hb & _).
      rewrite Hb0 in Hb. injection Hb as ->.
      destruct (EnsureStripe_blockData _ _ _ _ Hopen Hensure c ltac:(lia))
        as (bd & Hbd & Hbd0).
      unfold CreateEmptyStripeBuffers in Hfresh. inv_bind Hfresh as u Hu.
      injection Hfresh as <-. cbn [rowCount columnCount columnBuffersArray].
      subst rows. split; [reflexivity|]. split; [reflexivity|].
      eexists _, _, []. split; [exact Hbd0|]. split.
      { apply lookup_replicate_2. lia. }
      subst current bn. cbn [data_valueBuffer existsArray].
      rewrite drop_nil. split; [intros i Hi; cbn in Hi; lia|].
      split; [reflexivity|]. split; [reflexivity|].
      intros b' Hb'. change (n / R) with (0 / R) in Hb'.
      rewrite Z.div_0_l in Hb' by lia. cbn in Hb'. lia. }
  destruct Hpre as (Hrc & Hcc & bd & cb & V & Hbd & Hcb & Hflags & HV & Hser & Hblocks).
  destruct (block_position n R Hn HRpos) as (k & Hnk & Hk & HkZ).
  fold Rn bn in Hnk, Hk.
  assert (Hlenrows : length rows = (bn * Rn + k)%nat) by (unfold n, len in Hnk; lia).
  assert (Hcur : length current = k) by (unfold current; rewrite length_drop; lia).
  pose proof (Z.div_pos n R Hn HRpos) as Hdivpos.
  assert (Hdivle : n / R <= n) by (apply Z.div_le_upper_bound; nia).
  rewrite Hrc in *.
  rewrite (u32_small (n / R)) in * by lia.
  rewrite (u32_small (n mod R)) in * by lia.
  (* the cell of the row *)
  assert (Hdesc : tupleDescriptor ws0 = tupleDescriptor ws) by apply Hsame0.
  destruct Hcols as (_ & _ & _ & Hdone).
  destruct (Hdone c ltac:(fold C; lia))
    as (bd0 & cnodes & node & isNull & bd' & node' & Hbd0 & _ & _ & _ & Hnull
        & Hcell & Hbd' & _).
  cbn [fst snd] in Hbd0, Hbd'. rewrite Hbd in Hbd0. injection Hbd0 as <-.
  apply WriteCell_spec in Hcell as (Hrange & Hexists & Hcell).
  rewrite <- HkZ in Hrange, Hexists. rewrite Nat2Z.id in Hexists.
  assert (Hmid :
            exists values',
              (forall i, (i < S k)%nat ->
                 exists isNull',
                   null_at (current ++ [row]) i c isNull'
                   /\ existsArray bd' !! i = Some (negb isNull'))
              /\ data_valueBuffer bd' = Some values'
              /\ serialize_column att c (current ++ [row]) = Ok values').
  { assert (Hflags' : forall i, (i < S k)%nat ->
              exists isNull',
                null_at (current ++ [row]) i c isNull'
                /\ existsArray bd' !! i = Some (negb isNull')).
    { intros i Hi. rewrite Hexists. destruct (Nat.eq_dec i k) as [->|Hne].
      - exists isNull. split.
        + exists columnValues, columnNulls.
          rewrite <- Hcur, list_lookup_middle by reflexivity. auto.
        + apply list_lookup_insert_eq. unfold len in Hrange. lia.
      - destruct (Hflags i ltac:(lia)) as (isNull' & (vs & ns & Hrow & Hns) & Hflag).
        exists isNull'. split.
        + exists vs, ns. rewrite lookup_app_l by lia. auto.
        + rewrite list_lookup_insert_ne by lia. exact Hflag. }
    destruct isNull.
    - destruct Hcell as [Hsame _]. exists V. split; [exact Hflags'|].
      split; [congruence|].
      rewrite <- (app_nil_r V).
      apply (serialize_column_snoc att c current columnValues columnNulls V true []
               Hser Hnull eq_refl).
    - destruct Hcell as (f & att' & value & buffer & buffer' & node1 & _ & Hatt'
                         & Hvalue & Hbuffer & Hserial & _ & Hbuffer' & _).
      apply load_nat in Hatt', Hvalue.
      rewrite Hdesc, Hatt in Hatt'. injection Hatt' as <-.
      rewrite HV in Hbuffer. injection Hbuffer as <-.
      destruct (SerializeSingleDatum_fresh _ _ _ _ _ _ Hserial)
        as (bytes & -> & Hbytes).
      exists (V ++ bytes). split; [exact Hflags'|]. split; [exact Hbuffer'|].
      apply (serialize_column_snoc att c current columnValues columnNulls V false
               bytes Hser Hnull). eauto. }
  destruct Hmid as (V' & Hflags' & HV' & Hser').
  assert (Hsession1 : tableFooter ws1 = tableFooter ws
                      /\ tupleDescriptor ws1 = tupleDescriptor ws
                      /\ compressionType ws1 = compressionType ws).
  { destruct Hsame1 as (? & ? & _ & _ & ? & _). auto. }
  destruct Hsession1 as (Htf1 & Htd1 & Hkind1).
  assert (Hlen' : len (rows ++ [row]) = n + 1).
  { rewrite len_app. reflexivity. }
  rewrite (u32_small (R - 1)) in Hblock by lia.
  destruct (Z.eqb_spec (n mod R) (R - 1)) as [Hfull|Hroom].
  - (* the row completes its block *)
    destruct (SerializeBlockData_column _ _ _ _ _ c Hblock Hb1 ltac:(lia))
      as (bd1 & values1 & cb1 & packed & buffers' & Hbd1 & Hvalues1 & Hcb1
          & Hbi & Hpacked & Hb' & Hrc' & Hcc' & Harray & Hdata).
    rewrite Hbd' in Hbd1. injection Hbd1 as <-.
    rewrite HV' in Hvalues1. injection Hvalues1 as <-.
    rewrite Hcb in Hcb1. injection Hcb1 as <-.
    rewrite Hb' in Hb2. injection Hb2 as <-. rewrite Hkind1 in Harray.
    destruct (SerializeBlockData_frame _ _ _ _ Hblock)
      as ((Htf2 & Hkind2 & _ & _ & Htd2 & _) & _).
    destruct (SerializeBoolArray_bits (existsArray bd') R packed ltac:(lia)
                ltac:(lia) Hpacked) as [Hplen Hbits].
    unfold column_staged, Row.
    cbn [stripeBuffers set_stripe tableFooter tupleDescriptor compressionType
         blockDataArray rowCount columnCount columnBuffersArray set_rowCount].
    rewrite Htf2, Htf1, Htd2, Htd1, Hkind2, Hkind1, Hrc', Hcc', Hrc, Hlen'.
    fold R C. rewrite (next_block n R) by lia.
    split; [apply u32_small; lia|]. split; [exact Hcc|].
    eexists _, _, []. split; [exact Hdata|]. split; [exact Harray|].
    assert (Hnext : Z.to_nat (n / R + 1) = S bn) by (unfold bn; lia).
    rewrite Hnext. fold Rn.
    assert (Hempty : drop (S bn * Rn) (rows ++ [row]) = []).
    { apply drop_ge. rewrite length_app. cbn [length]. nia. }
    rewrite Hempty. cbn [length data_valueBuffer blockBuffersArray].
    split; [intros i Hi; lia|]. split; [reflexivity|]. split; [reflexivity|].
    intros b' Hlt. destruct (Nat.eq_dec b' bn) as [->|Hne].
    + eexists. replace (Z.to_nat (n / R)) with bn by reflexivity.
      rewrite list_lookup_insert_eq by (unfold len, bn in *; lia).
      split; [reflexivity|].
      assert (Hblock' : block_of R bn (rows ++ [row]) = current ++ [row]).
      { unfold block_of, Row. fold Rn. rewrite drop_app_le by lia. fold current.
        apply take_ge. rewrite length_app. cbn [length]. lia. }
      rewrite Hblock'. unfold block_serialized, Row.
      exists packed, V'.
      assert (Hlenb : len (current ++ [row]) = R).
      { unfold len. rewrite length_app. cbn [length]. lia. }
      split; [destruct (CompressBuffer V' (compressionType ws)); reflexivity|].
      split; [rewrite Hlenb; exact Hplen|]. split.
      { intros i Hi. rewrite length_app in Hi. cbn [length] in Hi.
        destruct (Hflags' i ltac:(lia)) as (isNull' & Hat & Hflag).
        exists isNull'. split; [exact Hat|].
        destruct (Hbits i ltac:(lia)) as (flag & Hf & Hpackedbit).
        rewrite Hflag in Hf. injection Hf as <-. exact Hpackedbit. }
      split; [exact Hser'|].
      destruct (CompressBuffer V' (compressionType ws)); cbn; auto.
    + replace (Z.to_nat (n / R)) with bn by reflexivity.
      rewrite list_lookup_insert_ne by lia.
      destruct (Hblocks b' ltac:(lia)) as (bb & Hbb & Hdone').
      exists bb. split; [exact Hbb|].
      rewrite block_of_snoc by (unfold Row; fold Rn; nia). exact Hdone'.
  - (* the block has room *)
    injection Hblock as <-. rewrite Hb1 in Hb2. injection Hb2 as <-.
    unfold column_staged, Row.
    cbn [stripeBuffers set_stripe tableFooter tupleDescriptor compressionType
         blockDataArray rowCount columnCount columnBuffersArray set_rowCount].
    rewrite Htf1, Htd1, Hkind1, Hrc, Hlen'. fold R C.
    rewrite (same_block n R) by lia. fold bn Rn.
    split; [apply u32_small; lia|]. split; [exact Hcc|].
    exists bd', cb, V'. split; [exact Hbd'|]. split; [exact Hcb|].
    assert (Hcurrent' : drop (bn * Rn) (rows ++ [row]) = current ++ [row]).
    { rewrite drop_app_le by lia. reflexivity. }
    rewrite Hcurrent'. split.
    { intros i Hi. rewrite length_app in Hi. cbn [length] in Hi.
      apply Hflags'. lia. }
    split; [exact HV'|]. split; [exact Hser'|].
    intros b' Hb'. destruct (Hblocks b' Hb') as (bb & Hbb & Hdone').
    exists bb. split; [exact Hbb|].
    rewrite block_of_snoc by (unfold Row; fold Rn; nia). exact Hdone'.
Qed.
End StagedColumns.

Section StripeContents.
Context {host : Host} {collab : Collaborators}.

Lemma StageRows_staged (rows : list Row) ws ws' (rows0 : list Row) c att :
  column_staged ws rows0 c att ->
  len rows0 + len rows < 2 ^ 32 ->
  u32 (blockRowCount (tableFooter ws)) + 7 < 2 ^ 32 ->
  attrs (tupleDescriptor ws) !! c = Some att ->
  Z.of_nat c < u32 (natts (tupleDescriptor ws)) ->
  StageRows ws rows = Ok ws' ->
  column_staged ws' (rows0 ++ rows) c att
  /\ same_session ws ws'.
Proof.
  revert ws rows0. induction rows as [|[columnValues columnNulls] rows IH];
    intros ws rows0 Hstaged Hbound Hwrap Hatt Hc Hrun.
  - injection Hrun as <-. rewrite app_nil_r.
    split; [exact Hstaged|apply same_session_refl].
  - cbn [StageRows] in Hrun. inv_bind Hrun as ws1 Hstage.
    pose proof (len_nonneg rows). pose proof (len_nonneg rows0).
    assert (Hlen : len rows0 + (1 + len rows) < 2 ^ 32).
    { unfold len in *. cbn [length] in Hbound. lia. }
    clear Hbound.
    pose proof (StageRow_staged ws columnValues columnNulls ws1 rows0 c att
                  Hstaged ltac:(lia) Hwrap Hatt Hc Hstage) as Hstaged1.
    apply StageRow_spec in Hstage
      as (_ & _ & _ & _ & _ & _ & _ & _ & _ & _ & _ & Hsame).
    pose proof Hsame as (Htf & _ & _ & _ & Htd & _).
    specialize (IH ws1 (rows0 ++ [(columnValues, columnNulls)])).
    rewrite <- app_assoc in IH.
    destruct IH as [Hstaged' Hsame']; [exact Hstaged1| |congruence|congruence
                                       |congruence|exact Hrun|].
    + rewrite len_app. change (len [(columnValues, columnNulls)]) with 1. lia.
    + split; [exact Hstaged'|]. exact (same_session_trans _ _ _ Hsame Hsame').
Qed.

(** The buffers that a flush writes hold the rows of the stripe. *)
Lemma PrepareStripe_staged ws (rows : list Row) c att image :
  column_staged ws rows c att ->
  len rows < 2 ^ 32 ->
  u32 (blockRowCount (tableFooter ws)) + 7 < 2 ^ 32 ->
  Z.of_nat c < u32 (natts (tupleDescriptor ws)) ->
  PrepareStripe ws = Ok image ->
  forall b,
    (b * Z.to_nat (u32 (blockRowCount (tableFooter ws))) < length rows)%nat ->
    exists columnBuffers blockBuffers,
      columnBuffersArray (si_stripeBuffers image) !! c = Some columnBuffers
      /\ blockBuffersArray columnBuffers !! b = Some blockBuffers
      /\ block_serialized (compressionType ws) att c
           (block_of (u32 (blockRowCount (tableFooter ws))) b rows) blockBuffers.
Proof.
  intros Hstaged Hbound Hwrap Hc Hprep b Hb. unfold Row in *.
  destruct (PrepareStripe_inv _ _ Hprep)
    as (b0 & sl & ws1 & buffers & nodes & arr & sf
        & Hb0 & Hsl & HR & Hlast & Hb1 & _ & _ & _ & ->).
  cbn [si_stripeBuffers].
  unfold column_staged, Row in Hstaged. rewrite Hb0 in Hstaged.
  set (R := u32 (blockRowCount (tableFooter ws))) in *.
  set (n := len rows) in *.
  pose proof (len_nonneg rows) as Hn. fold n in Hn.
  assert (HRpos : 0 < R)
    by (pose proof (u32_range (blockRowCount (tableFooter ws))); lia).
  set (Rn := Z.to_nat R) in *. set (bn := Z.to_nat (n / R)) in *.
  set (current := drop (bn * Rn) rows) in *.
  destruct Hstaged
    as (Hrc & Hcc & bd & cb & V & Hbd & Hcb & Hflags & HV & Hser & Hblocks).
  destruct (block_position n R Hn HRpos) as (k & Hnk & Hk & HkZ).
  fold Rn bn in Hnk, Hk.
  assert (Hlenrows : length rows = (bn * Rn + k)%nat)
    by (unfold n, len in Hnk; lia).
  assert (Hcur : length current = k) by (unfold current; rewrite length_drop; lia).
  pose proof (Z.div_pos n R Hn HRpos) as Hdivpos.
  assert (Hdivle : n / R <= n) by (apply Z.div_le_upper_bound; nia).
  rewrite Hrc in Hlast.
  rewrite (u32_small (n / R)), (u32_small (n mod R)) in Hlast by lia.
  assert (Hold : forall b', (b' < bn)%nat ->
            exists blockBuffers,
              blockBuffersArray cb !! b' = Some blockBuffers
              /\ block_serialized (compressionType ws) att c
                   (block_of R b' rows) blockBuffers) by exact Hblocks.
  destruct (Z.ltb_spec 0 (n mod R)) as [Hpartial|Hwhole].
  - destruct (SerializeBlockData_column _ _ _ _ _ c Hlast Hb0 ltac:(lia))
      as (bd1 & values1 & cb1 & packed & buffers' & Hbd1 & Hvalues1 & Hcb1
          & Hbi & Hpacked & Hb' & _ & _ & Harray & _).
    rewrite Hbd in Hbd1. injection Hbd1 as <-.
    rewrite HV in Hvalues1. injection Hvalues1 as <-.
    rewrite Hcb in Hcb1. injection Hcb1 as <-.
    rewrite Hb' in Hb1. injection Hb1 as <-.
    destruct (SerializeBoolArray_bits (existsArray bd) (n mod R) packed
                ltac:(lia) ltac:(lia) Hpacked) as [Hplen Hbits].
    rewrite Harray. fold bn.
    destruct (Nat.eq_dec b bn) as [->|Hne].
    + eexists. eexists. split; [reflexivity|]. cbn [blockBuffersArray].
      rewrite list_lookup_insert_eq by (unfold len, bn in *; lia).
      split; [reflexivity|].
      assert (Hblock : block_of R bn rows = current).
      { unfold block_of, Row. fold Rn current. apply take_ge. lia. }
      rewrite Hblock. unfold block_serialized, Row. exists packed, V.
      assert (Hlenb : len current = n mod R) by (unfold len; lia).
      split; [destruct (CompressBuffer V (compressionType ws)); reflexivity|].
      split; [rewrite Hlenb; exact Hplen|]. split.
      { intros i Hi. destruct (Hflags i Hi) as (isNull & Hat & Hflag).
        exists isNull. split; [exact Hat|].
        destruct (Hbits i ltac:(lia)) as (flag & Hf & Hbit).
        rewrite Hflag in Hf. injection Hf as <-. exact Hbit. }
      split; [exact Hser|].
      destruct (CompressBuffer V (compressionType ws)); cbn; auto.
    + assert (Hlt : (b < bn)%nat) by nia.
      destruct (Hold b Hlt) as (bb & Hbb & Hdone).
      eexists. exists bb. split; [reflexivity|]. cbn [blockBuffersArray].
      rewrite list_lookup_insert_ne by lia. auto.
  - subst ws1. rewrite Hb0 in Hb1. injection Hb1 as <-.
    assert (Hlt : (b < bn)%nat) by nia.
    destruct (Hold b Hlt) as (bb & Hbb & Hdone).
    exists cb, bb. auto.
Qed.

(** X11. The buffers that a flush writes for a column hold the rows that
    were staged into the stripe: for every block that has a row, the exists
    buffer has [(r + 7) / 8] bytes for the [r] rows of the block and its bit
    [i] is set exactly when row [i] of the block has a value in the column,
    and the value buffer is the concatenation of the serialized values of
    those rows in row order, or what the codec compressed that to, with the
    compression type that says which. *)
Theorem blocks_hold_their_rows ws (rows : list Row) ws' image c att :
  let R := u32 (blockRowCount (tableFooter ws)) in
  stripeBuffers ws = None ->
  len rows < 2 ^ 32 ->
  R + 7 < 2 ^ 32 ->
  attrs (tupleDescriptor ws) !! c = Some att ->
  Z.of_nat c < u32 (natts (tupleDescriptor ws)) ->
  StageRows ws rows = Ok ws' ->
  PrepareStripe ws' = Ok image ->
  forall b,
    (b * Z.to_nat R < length rows)%nat ->
    exists columnBuffers blockBuffers,
      columnBuffersArray (si_stripeBuffers image) !! c = Some columnBuffers
      /\ blockBuffersArray columnBuffers !! b = Some blockBuffers
      /\ block_serialized (compressionType ws) att c (block_of R b rows)
           blockBuffers.
Proof.
  intros R Hclosed Hbound Hwrap Hatt Hc Hrun Hprep b Hb.
  assert (Hstaged0 : column_staged ws [] c att).
  { unfold column_staged. now rewrite Hclosed. }
  destruct (StageRows_staged rows ws ws' [] c att Hstaged0) as [Hstaged Hsame];
    [change (len []) with 0; lia|exact Hwrap|exact Hatt|exact Hc|exact Hrun|].
  cbn [app] in Hstaged.
  destruct Hsame as (Htf & Hkind & _ & _ & Htd & _).
  unfold R in *. rewrite <- Htf, <- Hkind in *. rewrite <- Htd in Hc.
  exact (PrepareStripe_staged ws' rows c att image Hstaged Hbound Hwrap Hc Hprep
           b Hb).
Qed.
End StripeContents.

Lemma blocks_hold_their_rows_witness :
  match fresh_writer 4 2 with
  | Ok ws =>
      match @StageRows small_pages (plain_codec None 0) ws (int4_rows [10; 20; 30]) with
      | Ok ws' =>
          match @PrepareStripe (plain_codec None 0) ws' with
          | Ok image =>
              exists columnBuffers blockBuffers,
                columnBuffersArray (si_stripeBuffers image) !! 0%nat
                = Some columnBuffers
                /\ blockBuffersArray columnBuffers !! 1%nat = Some blockBuffers
                /\ @block_serialized small_pages (plain_codec None 0) COMPRESSION_NONE
                     int4_column 0 (int4_rows [30]) blockBuffers
          | Err _ => False
          end
      | Err _ => False
      end
  | Err _ => False
  end.
Proof.
  assert (Hfacts :
            match fresh_writer 4 2 with
            | Ok ws =>
                stripeBuffers ws = None /\ tupleDescriptor ws = int4_table
                /\ blockRowCount (tableFooter ws) = 2
                /\ compressionType ws = COMPRESSION_NONE
                /\ match @StageRows small_pages (plain_codec None 0) ws
                           (int4_rows [10; 20; 30]) with
                   | Ok ws' => is_ok (@PrepareStripe (plain_codec None 0) ws') = true
                   | Err _ => False
                   end
            | Err _ => False
            end).
  { vm_compute. repeat split. }
  destruct (fresh_writer 4 2) as [ws|e] eqn:Hbegin; [|exact Hfacts].
  destruct Hfacts as (Hclosed & Htable & HR & Hkind & Hfacts).
  destruct (@StageRows small_pages (plain_codec None 0) ws (int4_rows [10; 20; 30]))
    as [ws'|e] eqn:Hrows; [|exact Hfacts].
  destruct (@PrepareStripe (plain_codec None 0) ws') as [image|e] eqn:Hprep;
    [|discriminate].
  destruct (@blocks_hold_their_rows small_pages (plain_codec None 0) ws
              (int4_rows [10; 20; 30]) ws' image 0%nat int4_column Hclosed)
    with (b := 1%nat) as (cb & bb & Hcb & Hbb & Hblock).
  - reflexivity.
  - rewrite HR. reflexivity.
  - rewrite Htable. reflexivity.
  - rewrite Htable. reflexivity.
  - exact Hrows.
  - exact Hprep.
  - rewrite HR. apply Nat.ltb_lt. reflexivity.
  - exists cb, bb. split; [exact Hcb|]. split; [exact Hbb|].
    rewrite HR, Hkind in Hblock. exact Hblock.
Defined.

(** ** The comparison functions of a session *)

Section ComparisonTable.
Context {host : Host} {collab : Collaborators}.

(** [ComparisonFunctions]: a dropped column gets no function, another
    column what the catalog has for its type. *)
Lemma ComparisonFunctions_spec tupleDescriptor functions :
  ComparisonFunctions tupleDescriptor = Ok functions ->
  length functions = Z.to_nat (u32 (natts tupleDescriptor))
  /\ forall (c : nat) att,
       (c < Z.to_nat (u32 (natts tupleDescriptor)))%nat ->
       attrs tupleDescriptor !! c = Some att ->
       functions !! c
       = Some (if attisdropped att then None
               else GetFunctionInfoOrNull (atttypid att)).
Proof.
  unfold ComparisonFunctions. intros Hrun.
  set (C := Z.to_nat (u32 (natts tupleDescriptor))) in *.
  apply (for_loop_invariant
           (fun i (array : list (option FmgrInfo)) =>
              length array = C
              /\ forall (c : nat) att,
                   (c < i)%nat -> attrs tupleDescriptor !! c = Some att ->
                   array !! c
                   = Some (if attisdropped att then None
                           else GetFunctionInfoOrNull (atttypid att))))
    in Hrun.
  - exact Hrun.
  - split; [apply length_replicate|]. intros c att Hc. lia.
  - intros i array array' Hi [Hlen Hdone] Hbody.
    inv_bind Hbody as att Hatt. apply load_nat in Hatt.
    apply store_Some in Hbody as [_ ->]. rewrite Nat2Z.id.
    split; [now rewrite length_insert|]. intros c att' Hc Hatt'.
    destruct (Nat.eq_dec c i) as [->|Hne].
    + rewrite Hatt in Hatt'. injection Hatt' as <-.
      rewrite list_lookup_insert_eq by lia. now destruct (attisdropped att).
    + rewrite list_lookup_insert_ne by lia. apply Hdone; [lia|exact Hatt'].
Qed.

Lemma WriteToFile_functions ws data n ws' :
  WriteToFile ws data n = Ok ws' ->
  comparisonFunctionArray ws' = comparisonFunctionArray ws.
Proof.
  unfold WriteToFile. intros H. destruct (n =? 0); [now injection H as <-|].
  inv_bind H as st Hloop. now injection H as <-.
Qed.

Lemma WriteStripe_functions image ws' :
  WriteStripe image = Ok ws' ->
  comparisonFunctionArray ws' = comparisonFunctionArray (si_writeState image).
Proof.
  unfold WriteStripe. intros H. inv_bind H as ws1 Hskip. inv_bind H as ws2 Hdata.
  apply WriteToFile_functions in H. rewrite H.
  assert (H2 : comparisonFunctionArray ws2 = comparisonFunctionArray ws1).
  { apply (for_loop_invariant
             (fun _ ws => comparisonFunctionArray ws = comparisonFunctionArray ws1))
      in Hdata; [exact Hdata|reflexivity|].
    intros i t t' _ Ht Hbody. unfold FlushColumnData in Hbody.
    inv_bind Hbody as cb Hcb. inv_bind Hbody as t1 Hexists.
    assert (H1 : comparisonFunctionArray t1 = comparisonFunctionArray t).
    { apply (for_loop_invariant
               (fun _ ws => comparisonFunctionArray ws = comparisonFunctionArray t))
        in Hexists; [exact Hexists|reflexivity|].
      intros j u u' _ Hu Hb. inv_bind Hb as bb Hbb. inv_bind Hb as buffer Hbuf.
      apply WriteToFile_functions in Hb. congruence. }
    apply (for_loop_invariant
             (fun _ ws => comparisonFunctionArray ws = comparisonFunctionArray t))
      in Hbody; [congruence|congruence|].
    intros j u u' _ Hu Hb. inv_bind Hb as bb Hbb. inv_bind Hb as buffer Hbuf.
    apply WriteToFile_functions in Hb. congruence. }
  rewrite H2.
  apply (for_loop_invariant
           (fun _ ws => comparisonFunctionArray ws
                        = comparisonFunctionArray (si_writeState image)))
    in Hskip; [exact Hskip|reflexivity|].
  intros i t t' _ Ht Hbody. inv_bind Hbody as buffer Hbuf.
  apply WriteToFile_functions in Hbody. congruence.
Qed.

Lemma FlushStripe_functions ws stripeMetadata ws' :
  FlushStripe ws = Ok (stripeMetadata, ws') ->
  comparisonFunctionArray ws' = comparisonFunctionArray ws.
Proof.
  unfold FlushStripe. intros H. inv_bind H as image Hprep.
  inv_bind H as ws2 Hwrite. inv_bind H as [skip data] Hsum.
  injection H as _ <-. cbn [comparisonFunctionArray set_footer].
  rewrite (WriteStripe_functions _ _ Hwrite).
  destruct (PrepareStripe_inv _ _ Hprep)
    as (b0 & sl & ws1 & buffers & nodes & arr & sf
        & _ & _ & _ & Hlast & _ & _ & _ & _ & ->).
  cbn [si_writeState comparisonFunctionArray set_stripe].
  destruct (0 <? _); [|now subst ws1].
  apply SerializeBlockData_frame in Hlast as [Hsame _]. apply Hsame.
Qed.

(** A column without comparison function has no statistics in what a flush
    writes. *)
Lemma PrepareStripe_unbounded ws c image nodes (b : nat) node :
  stripe_unbounded ws c ->
  PrepareStripe ws = Ok image ->
  blockSkipNodeArray (si_stripeSkipList image) !! c = Some nodes ->
  nodes !! b = Some node ->
  hasMinMax node = false.
Proof.
  intros Hclean Hprep Hnodes Hnode.
  destruct (PrepareStripe_inv _ _ Hprep)
    as (b0 & sl & ws1 & buffers & placed & arr & sf
        & Hb0 & Hsl & _ & _ & _ & Hplace & _ & _ & ->).
  cbn [si_stripeSkipList blockSkipNodeArray set_nodes] in Hnodes.
  apply PlaceColumn_columns in Hplace.
  destruct (columns_placed_statistics _ _ _ _ _ _ _ _ _ Hplace Hnodes Hnode)
    as (nodes0 & node0 & Hn0 & Hnode0 & (Hsame & _)).
  rewrite Hsame. exact (Hclean b0 sl nodes0 b node0 Hb0 Hsl Hn0 Hnode0).
Qed.

Lemma CStoreWriteRow_unbounded ws columnValues columnNulls ws' c :
  comparisonFunctionArray ws !! c = Some None ->
  stripe_unbounded ws c ->
  CStoreWriteRow ws columnValues columnNulls = Ok ws' ->
  stripe_unbounded ws' c /\ comparisonFunctionArray ws' = comparisonFunctionArray ws.
Proof.
  intros Hnone Hclean Hwrite.
  destruct (CStoreWriteRow_stages _ _ _ _ Hwrite)
    as (ws1 & buffers & Hstage & Hb & Hcase).
  destruct (StageRow_unbounded _ _ _ _ _ Hnone Hclean Hstage) as [Hclean1 _].
  assert (Hsame : comparisonFunctionArray ws1 = comparisonFunctionArray ws).
  { apply StageRow_spec in Hstage
      as (_ & _ & _ & _ & _ & _ & _ & _ & _ & _ & _ & Hsame). apply Hsame. }
  unfold CStoreWriteRow in Hwrite. rewrite Hstage in Hwrite.
  cbn [bind] in Hwrite. rewrite Hb in Hwrite. cbn [deref of_option bind] in Hwrite.
  destruct (stripeMaxRowCount ws1 <=? rowCount buffers).
  - inv_bind Hwrite as [md ws2] Hflush. injection Hwrite as <-.
    split; [intros b0 sl nodes b node Hopen; discriminate|].
    cbn. rewrite (FlushStripe_functions _ _ _ Hflush). exact Hsame.
  - injection Hwrite as <-. auto.
Qed.

Lemma WriteRows_unbounded rows ws ws' c :
  comparisonFunctionArray ws !! c = Some None ->
  stripe_unbounded ws c ->
  WriteRows ws rows = Ok ws' ->
  stripe_unbounded ws' c /\ comparisonFunctionArray ws' = comparisonFunctionArray ws.
Proof.
  revert ws. induction rows as [|[columnValues columnNulls] rows IH];
    intros ws Hnone Hclean Hrun.
  - injection Hrun as <-. auto.
  - cbn [WriteRows] in Hrun. inv_bind Hrun as ws1 Hwrite.
    destruct (CStoreWriteRow_unbounded _ _ _ _ _ Hnone Hclean Hwrite)
      as [Hclean1 Hsame1].
    destruct (IH ws1 ltac:(congruence) Hclean1 Hrun) as [Hclean' Hsame'].
    split; [exact Hclean'|congruence].
Qed.

(** X12. [CStoreBeginWrite] gives a dropped column no comparison function
    and every other column the function that the catalog has for its type,
    or none, and the session keeps that table. A column without function,
    so every dropped column, never gets statistics: wherever the session
    flushes, no skip node of the column in the open stripe and none in the
    skip list that the flush writes has a minimum and a maximum. *)
Theorem statistics_need_comparison_function rel kind stripeRows blockRows
  logging tupleDescriptor ws0 rows ws c att :
  CStoreBeginWrite rel kind stripeRows blockRows logging tupleDescriptor
    = Ok ws0 ->
  WriteRows ws0 rows = Ok ws ->
  attrs tupleDescriptor !! c = Some att ->
  Z.of_nat c < u32 (natts tupleDescriptor) ->
  let function :=
    if attisdropped att then None else GetFunctionInfoOrNull (atttypid att) in
  comparisonFunctionArray ws0 !! c = Some function
  /\ comparisonFunctionArray ws = comparisonFunctionArray ws0
  /\ (function = None ->
      forall ws1,
        flush_point ws ws1 ->
        stripe_unbounded ws1 c
        /\ forall image nodes (b : nat) node,
             PrepareStripe ws1 = Ok image ->
             blockSkipNodeArray (si_stripeSkipList image) !! c = Some nodes ->
             nodes !! b = Some node ->
             hasMinMax node = false).
Proof.
  intros Hbegin Hrows Hatt Hc function.
  assert (Hfunction : comparisonFunctionArray ws0 !! c = Some function
                      /\ stripeBuffers ws0 = None).
  { unfold CStoreBeginWrite in Hbegin. inv_bind Hbegin as u Hzero.
    inv_bind Hbegin as functions Hfunctions. injection Hbegin as <-.
    cbn [comparisonFunctionArray stripeBuffers]. split; [|reflexivity].
    apply ComparisonFunctions_spec in Hfunctions as [_ Hall].
    apply Hall; [|exact Hatt].
    pose proof (u32_range (natts tupleDescriptor)). lia. }
  destruct Hfunction as [Hfunction Hclosed]. split; [exact Hfunction|].
  destruct function as [f|] eqn:Hf.
  - split; [|discriminate].
    clear Hfunction Hclosed Hbegin. revert ws0 Hrows.
    induction rows as [|[columnValues columnNulls] rows IH]; intros ws0 Hrows.
    + now injection Hrows as <-.
    + cbn [WriteRows] in Hrows. inv_bind Hrows as ws1 Hwrite.
      rewrite (IH ws1 Hrows).
      destruct (CStoreWriteRow_stages _ _ _ _ Hwrite)
        as (ws2 & buffers & Hstage & Hb & _).
      unfold CStoreWriteRow in Hwrite. rewrite Hstage in Hwrite.
      cbn [bind] in Hwrite. rewrite Hb in Hwrite.
      cbn [deref of_option bind] in Hwrite.
      assert (Hsame : comparisonFunctionArray ws2 = comparisonFunctionArray ws0).
      { apply StageRow_spec in Hstage
          as (_ & _ & _ & _ & _ & _ & _ & _ & _ & _ & _ & Hsame). apply Hsame. }
      destruct (stripeMaxRowCount ws2 <=? rowCount buffers).
      * inv_bind Hwrite as [md ws3] Hflush. injection Hwrite as <-.
        cbn. rewrite (FlushStripe_functions _ _ _ Hflush). exact Hsame.
      * now injection Hwrite as <-.
  - assert (Hclean0 : stripe_unbounded ws0 c).
    { intros b0 sl nodes b node Hopen. congruence. }
    destruct (WriteRows_unbounded _ _ _ _ Hfunction Hclean0 Hrows)
      as [Hclean Hsame].
    split; [exact Hsame|]. intros _ ws1 Hpoint.
    assert (Hclean1 : stripe_unbounded ws1 c).
    { destruct Hpoint as [->|(values & nulls & Hstage)]; [exact Hclean|].
      rewrite <- Hsame in Hfunction.
      exact (proj1 (StageRow_unbounded _ _ _ _ _ Hfunction Hclean Hstage)). }
    split; [exact Hclean1|]. intros image nodes b node Hprep.
    exact (PrepareStripe_unbounded _ _ _ _ _ _ Hclean1 Hprep).
Qed.
End ComparisonTable.

Lemma statistics_need_comparison_function_witness :
  match @CStoreBeginWrite small_pages (plain_codec None 0) empty_relation
          COMPRESSION_NONE 4 2 false altered_table with
  | Ok ws0 =>
      match @WriteRows small_pages (plain_codec None 0) ws0
              (altered_rows [10; 20; 30]) with
      | Ok ws =>
          comparisonFunctionArray ws = [Some btint4cmp; None]
          /\ @stripe_unbounded ws 1
          /\ exists image,
               @PrepareStripe (plain_codec None 0) ws = Ok image
               /\ forall nodes (b : nat) node,
                    blockSkipNodeArray (si_stripeSkipList image) !! 1%nat
                    = Some nodes ->
                    nodes !! b = Some node -> hasMinMax node = false
      | Err _ => False
      end
  | Err _ => False
  end.
Proof.
  assert (Hfacts :
            match @CStoreBeginWrite small_pages (plain_codec None 0)
                    empty_relation COMPRESSION_NONE 4 2 false altered_table with
            | Ok ws0 =>
                comparisonFunctionArray ws0 = [Some btint4cmp; None]
                /\ match @WriteRows small_pages (plain_codec None 0) ws0
                           (altered_rows [10; 20; 30]) with
                   | Ok ws =>
                       is_ok (@PrepareStripe (plain_codec None 0) ws) = true
                   | Err _ => False
                   end
            | Err _ => False
            end).
  { vm_compute. repeat split. }
  destruct (@CStoreBeginWrite small_pages (plain_codec None 0) empty_relation
              COMPRESSION_NONE 4 2 false altered_table) as [ws0|e] eqn:Hbegin;
    [|exact Hfacts].
  destruct Hfacts as [Harray Hfacts].
  destruct (@WriteRows small_pages (plain_codec None 0) ws0
              (altered_rows [10; 20; 30])) as [ws|e] eqn:Hrows; [|exact Hfacts].
  destruct (@PrepareStripe (plain_codec None 0) ws) as [image|e] eqn:Hprep;
    [|discriminate].
  destruct (@statistics_need_comparison_function small_pages (plain_codec None 0)
              _ _ _ _ _ _ ws0 _ ws 1%nat dropped_column Hbegin Hrows)
    as (_ & Hsame & Hnone).
  - reflexivity.
  - reflexivity.
  - destruct (Hnone eq_refl ws (or_introl eq_refl)) as [Hclean Himage].
    split; [congruence|]. split; [exact Hclean|].
    exists image. split; [reflexivity|].
    intros nodes b node. exact (Himage image nodes b node Hprep).
Defined.

(** ** Runs without undefined behaviour *)

Lemma safe_Ok {A} (P : A -> Prop) a : P a -> safe P (Ok a).
Proof. exact (fun H => H). Qed.

Lemma safe_bind {A B} (Q : A -> Prop) (P : B -> Prop) (m : result A)
  (k : A -> result B) :
  safe Q m -> (forall a, Q a -> safe P (k a)) -> safe P (bind m k).
Proof. destruct m as [a|e]; cbn; [intros Ha Hk; exact (Hk a Ha)|auto]. Qed.

Lemma safe_impl {A} (P Q : A -> Prop) (m : result A) :
  safe P m -> (forall a, P a -> Q a) -> safe Q m.
Proof. destruct m as [a|e]; cbn; auto. Qed.

(** What is known of the results of a computation holds of a safe run. *)
Lemma safe_spec {A} (P Q : A -> Prop) (m : result A) :
  safe P m -> (forall a, m = Ok a -> Q a) -> safe (fun a => P a /\ Q a) m.
Proof. destruct m as [a|e]; cbn; auto. Qed.

Lemma safe_Ok_inv {A} (P : A -> Prop) (m : result A) a :
  safe P m -> m = Ok a -> P a.
Proof. intros H ->. exact H. Qed.

(** The loop rule for safe runs. *)
Lemma safe_for_loop {S} (I : nat -> S -> Prop) n
  (body : nat -> S -> result S) s :
  I 0%nat s ->
  (forall i t, (i < n)%nat -> I i t -> safe (I (Datatypes.S i)) (body i t)) ->
  safe (I n) (for_loop n body s).
Proof.
  intros H0 Hstep. induction n as [|n IH].
  - exact H0.
  - rewrite for_loop_snoc. apply (safe_bind (I n)).
    + apply IH. intros i t Hi. apply Hstep. lia.
    + intros t Ht. apply Hstep; [lia|exact Ht].
Qed.

Lemma all_below_lookup {A} n (P : A -> Prop) l i :
  all_below n P l -> (i < n)%nat -> exists x, l !! i = Some x /\ P x.
Proof. intros H. apply H. Qed.

Lemma all_below_length {A} n (P : A -> Prop) (l : list A) :
  all_below n P l -> (n <= length l)%nat.
Proof.
  intros H. destruct n as [|n]; [lia|].
  destruct (H n ltac:(lia)) as (x & Hx & _). apply lookup_lt_Some in Hx. lia.
Qed.

Lemma all_below_impl {A} n m (P Q : A -> Prop) l :
  all_below n P l -> (m <= n)%nat -> (forall x, P x -> Q x) -> all_below m Q l.
Proof.
  intros H Hm HPQ i Hi. destruct (H i ltac:(lia)) as (x & Hx & HP). eauto.
Qed.

Lemma all_below_insert {A} n (P : A -> Prop) l i x :
  all_below n P l -> P x -> all_below n P (<[i := x]> l).
Proof.
  intros H HP j Hj. destruct (H j Hj) as (y & Hy & HPy).
  destruct (Nat.eq_dec j i) as [->|Hne].
  - exists x. split; [|exact HP].
    apply list_lookup_insert_eq. eapply lookup_lt_Some; eauto.
  - exists y. split; [|exact HPy]. now rewrite list_lookup_insert_ne by lia.
Qed.

(** One more element below the bound. *)
Lemma all_below_extend {A} n (P : A -> Prop) l x :
  all_below n P l -> (n < length l)%nat -> P x ->
  all_below (Datatypes.S n) P (<[n := x]> l).
Proof.
  intros H Hn HP j Hj. destruct (Nat.eq_dec j n) as [->|Hne].
  - exists x. split; [|exact HP]. now apply list_lookup_insert_eq.
  - destruct (H j ltac:(lia)) as (y & Hy & HPy).
    exists y. split; [|exact HPy]. now rewrite list_lookup_insert_ne by lia.
Qed.

Lemma all_below_replicate {A} n m (P : A -> Prop) x :
  (n <= m)%nat -> P x -> all_below n P (replicate m x).
Proof.
  intros Hn HP i Hi. exists x. split; [|exact HP].
  apply lookup_replicate_2. lia.
Qed.

Lemma load_Ok {A} (l : list A) (i : nat) x :
  l !! i = Some x -> load l (Z.of_nat i) = Ok x.
Proof. apply load_nat. Qed.

Lemma load_Z_Ok {A} (l : list A) (i : Z) x :
  0 <= i -> l !! Z.to_nat i = Some x -> load l i = Ok x.
Proof. intros Hi Hx. apply load_Some. auto. Qed.

Lemma store_Ok {A} (l : list A) (i : Z) x :
  0 <= i < len l -> store l i x = Ok (<[Z.to_nat i := x]> l).
Proof. intros Hi. apply store_Some. auto. Qed.

Lemma strlen_nonneg object n : strlen object = Ok n -> 0 <= n.
Proof.
  revert n. induction object as [|b rest IH]; intros n; cbn [strlen];
    [discriminate|].
  destruct (Z_of_byte b =? 0); [intros [= <-]; lia|].
  destruct (strlen rest) as [m|e]; [|discriminate].
  cbn [bind]. intros [= <-]. specialize (IH m eq_refl). lia.
Qed.

(** The extent of a datum is not negative. *)
Lemma att_addlength_datum_nonneg {host : Host} typeLength datum datumLength :
  att_addlength_datum typeLength datum = Ok datumLength -> 0 <= datumLength.
Proof.
  unfold att_addlength_datum.
  destruct (Z.ltb_spec 0 typeLength) as [Hpos|_]; [intros [= <-]; lia|].
  destruct (typeLength =? -1).
  - intros H. inv_bind H as object Hobject. unfold VARSIZE_ANY in H.
    inv_bind H as header Hheader.
    destruct (Z_of_byte header =? 1).
    + inv_bind H as tag Htag. inv_bind H as size Hsize. injection H as <-.
      unfold VARTAG_SIZE in Hsize. unfold VARHDRSZ_EXTERNAL.
      destruct (_ =? VARTAG_INDIRECT); [injection Hsize as <-; lia|].
      destruct (_ =? VARTAG_EXPANDED_RO); [injection Hsize as <-; lia|].
      destruct (_ =? VARTAG_ONDISK); [injection Hsize as <-; lia|].
      inv_bind Hsize as u Hu. injection Hsize as <-. lia.
    + destruct (Z.land (Z_of_byte header) 1 =? 1).
      * injection H as <-. apply Z.land_nonneg. right. lia.
      * inv_bind H as word Hword. injection H as <-.
        apply Z.land_nonneg. right. lia.
  - intros H. inv_bind H as u Hu. inv_bind H as object Hobject.
    inv_bind H as n Hn. injection H as <-. apply strlen_nonneg in Hn. lia.
Qed.

(** [DatumCopy] on a datum of the column's type. *)
Lemma DatumCopy_fits {host : Host} attribute datum :
  datum_fits attribute datum ->
  exists copy, DatumCopy datum (attbyval attribute) (attlen attribute) = Ok copy.
Proof.
  unfold DatumCopy, datum_fits. destruct datum as [word|object].
  - intros (_ & -> & _). eauto.
  - intros (_ & -> & extent & Hlen & Hfit & Hmax).
    pose proof (att_addlength_datum_nonneg _ _ _ Hlen) as Hpos.
    rewrite Hlen. cbn [bind DatumGetPointer]. unfold read_object.
    unfold MaxAllocSize in Hmax. rewrite u32_small by lia.
    destruct (Z.ltb_spec (len object) extent); [lia|]. cbn [bind]. eauto.
Qed.

Lemma enlargeStringInfo_safe str needed :
  safe (fun _ => True) (enlargeStringInfo str needed).
Proof.
  unfold enlargeStringInfo. destruct (needed <? 0); [reflexivity|].
  now destruct (MaxAllocSize - len str <=? needed).
Qed.

Lemma att_align_nominal_assert_Ok {host : Host} align :
  align_ok align -> att_align_nominal_assert align = Ok tt.
Proof.
  unfold att_align_nominal_assert, Assert.
  intros [-> | [-> | [-> | ->]]]; cbn; try reflexivity.
  now destruct USE_ASSERT_CHECKING.
Qed.

(** [SerializeSingleDatum] on a datum of the column's type. *)
Lemma SerializeSingleDatum_safe {host : Host}
  buffer attribute datum :
  datum_fits attribute datum ->
  safe (fun _ => True)
    (SerializeSingleDatum buffer datum (attbyval attribute) (attlen attribute)
       (attalign attribute)).
Proof.
  intros [Halign Hfits]. unfold SerializeSingleDatum.
  destruct datum as [word|object].
  - destruct Hfits as [-> Hpos]. unfold att_addlength_datum.
    destruct (Z.ltb_spec 0 (attlen attribute)) as [_|]; [|lia]. cbn [bind].
    rewrite (att_align_nominal_assert_Ok _ Halign). cbn [bind].
    apply (safe_bind (fun _ => True)); [apply enlargeStringInfo_safe|].
    intros _ _. unfold store_att_byval.
    destruct ((attlen attribute =? 1) || (attlen attribute =? 2)
              || (attlen attribute =? 4) || (attlen attribute =? 8)) eqn:Hwidth;
      [|reflexivity].
    cbn [bind].
    assert (Hsmall : 1 <= attlen attribute <= 8) by lia.
    rewrite (u32_small (attlen attribute)) by lia.
    pose proof (att_align_nominal_bounds (attlen attribute) (attalign attribute)).
    rewrite u32_small by lia.
    assert (Hlen : len (le_bytes (Z.to_nat (attlen attribute)) word)
                   = attlen attribute)
      by (unfold len; rewrite length_le_bytes; lia).
    rewrite Hlen.
    destruct (Z.ltb_spec (att_align_nominal (attlen attribute) (attalign attribute))
                (attlen attribute)); [lia|exact I].
  - destruct Hfits as (-> & extent & Hlen & Hfit & Hmax).
    pose proof (att_addlength_datum_nonneg _ _ _ Hlen) as Hpos.
    rewrite Hlen. cbn [bind]. unfold MaxAllocSize in Hmax.
    rewrite (att_align_nominal_assert_Ok _ Halign). cbn [bind].
    rewrite (u32_small extent) by lia.
    pose proof (att_align_nominal_bounds extent (attalign attribute)).
    rewrite u32_small by lia.
    apply (safe_bind (fun _ => True)); [apply enlargeStringInfo_safe|].
    intros _ _. cbn [negb DatumGetPointer bind].
    assert (Hread : read_object object extent
                    = Ok (take (Z.to_nat extent) object)).
    { unfold read_object.
      destruct (Z.ltb_spec (len object) extent); [lia|reflexivity]. }
    assert (Himage :
              (if 0 <? attlen attribute
               then read_object object (attlen attribute)
               else do _ <- Assert true; read_object object extent)
              = Ok (take (Z.to_nat extent) object)).
    { destruct (Z.ltb_spec 0 (attlen attribute)) as [Hfixed|_].
      - unfold att_addlength_datum in Hlen.
        destruct (Z.ltb_spec 0 (attlen attribute)); [|lia].
        injection Hlen as <-. exact Hread.
      - unfold Assert. destruct USE_ASSERT_CHECKING; exact Hread. }
    rewrite Himage. cbn [bind].
    assert (Hlong : len (take (Z.to_nat extent) object) = extent)
      by (unfold len in *; rewrite length_take; lia).
    rewrite Hlong.
    destruct (Z.ltb_spec (att_align_nominal extent (attalign attribute)) extent);
      [lia|exact I].
Qed.

(** [UpdateBlockSkipNodeMinMax] on a datum of the column's type. *)
Lemma UpdateBlockSkipNodeMinMax_safe {host : Host}
  node attribute datum function :
  datum_fits attribute datum ->
  exists node',
    UpdateBlockSkipNodeMinMax node datum (attbyval attribute) (attlen attribute)
      (attcollation attribute) function = Ok node'.
Proof.
  intros Hfits. destruct (DatumCopy_fits _ _ Hfits) as [copy Hcopy].
  unfold UpdateBlockSkipNodeMinMax. destruct function as [f|]; [|eauto].
  destruct (negb (hasMinMax node)).
  - rewrite Hcopy. cbn [bind]. eauto.
  - cbn zeta.
    destruct (i32 (f (attcollation attribute) datum (minimumValue node)) <? 0),
      (0 <? i32 (f (attcollation attribute) datum (maximumValue node)));
      rewrite ?Hcopy; cbn [bind]; eauto.
Qed.

Lemma SerializeBoolArray_total flags n :
  0 <= n <= len flags -> n + 7 < 2 ^ 32 ->
  exists packed, SerializeBoolArray flags n = Ok packed.
Proof.
  intros Hn Hwrap. unfold SerializeBoolArray.
  rewrite u32_small by lia. rewrite Z.quot_div_nonneg by lia.
  set (byteCount := (n + 7) / 8).
  assert (Hcount : 0 <= byteCount < 2 ^ 29).
  { unfold byteCount. split; [apply Z.div_pos; lia|].
    apply Z.div_lt_upper_bound; lia. }
  rewrite i32_small by lia.
  assert (Hroom : enlargeStringInfo [] byteCount = Ok tt).
  { unfold enlargeStringInfo. change (len []) with 0. unfold MaxAllocSize.
    destruct (Z.ltb_spec byteCount 0); [lia|].
    destruct (Z.leb_spec (1073741823 - 0) byteCount); [lia|reflexivity]. }
  rewrite Hroom. cbn [bind].
  destruct (for_loop_total (fun _ buffer => len buffer = byteCount)
              (Z.to_nat n)
              (fun boolArrayIndex buffer =>
                 do flag <- load flags (Z.of_nat boolArrayIndex);
                 if (flag : bool) then
                   let byteIndex := Z.quot (Z.of_nat boolArrayIndex) 8 in
                   let bitIndex := Z.rem (Z.of_nat boolArrayIndex) 8 in
                   do old <- load buffer byteIndex;
                   store buffer byteIndex
                     (byte_of_Z (Z.lor (Z_of_byte old) (Z.shiftl 1 bitIndex)))
                 else Ok buffer)
              (replicate (Z.to_nat byteCount) x00))
    as (packed & Hrun & _).
  - unfold len. rewrite length_replicate. lia.
  - intros i buffer Hi Hlen.
    destruct (lookup_lt_is_Some_2 flags i) as [flag Hflag];
      [unfold len in Hn; lia|].
    rewrite (load_Ok _ _ _ Hflag). cbn [bind].
    destruct flag; [|eauto]. cbn zeta.
    rewrite Z.quot_div_nonneg by lia.
    assert (Hbyte : 0 <= Z.of_nat i / 8 < byteCount).
    { split; [apply Z.div_pos; lia|]. unfold byteCount.
      apply Z.div_lt_upper_bound; [lia|].
      pose proof (Z.div_mod (n + 7) 8 ltac:(lia)).
      pose proof (Z.mod_pos_bound (n + 7) 8 ltac:(lia)). lia. }
    destruct (lookup_lt_is_Some_2 buffer (Z.to_nat (Z.of_nat i / 8)))
      as [old Hold]; [unfold len in Hlen; lia|].
    rewrite (load_Z_Ok _ _ _ (proj1 Hbyte) Hold). cbn [bind].
    rewrite store_Ok by lia. eexists. split; [reflexivity|].
    now rewrite len_insert.
  - exists packed. exact Hrun.
Qed.

Lemma store_block_buffers_Ok array (c : nat) b blockBuffers columnBuffers :
  array !! c = Some columnBuffers ->
  0 <= b < len (blockBuffersArray columnBuffers) ->
  store_block_buffers array (Z.of_nat c) b blockBuffers
  = Ok (<[c := {| blockBuffersArray :=
                    <[Z.to_nat b := blockBuffers]>
                      (blockBuffersArray columnBuffers) |}]> array).
Proof.
  intros Hc Hb. unfold store_block_buffers.
  rewrite (load_Ok _ _ _ Hc). cbn [bind]. rewrite store_Ok by exact Hb.
  cbn [bind]. rewrite store_Ok, Nat2Z.id; [reflexivity|].
  apply lookup_lt_Some in Hc. unfold len. lia.
Qed.

Section SafeBlocks.
Context {host : Host} {collab : Collaborators}.

(** [SerializeBlockData] on arrays with room for the block returns. *)
Lemma SerializeBlockData_total ws blockIndex n buffers :
  stripeBuffers ws = Some buffers ->
  all_below (Z.to_nat (columnCount buffers))
    (fun columnBuffers =>
       (Z.to_nat blockIndex < length (blockBuffersArray columnBuffers))%nat)
    (columnBuffersArray buffers) ->
  all_below (Z.to_nat (columnCount buffers))
    (fun blockData =>
       n <= len (existsArray blockData)
       /\ is_Some (data_valueBuffer blockData))
    (blockDataArray ws) ->
  0 <= blockIndex -> 0 <= n -> n + 7 < 2 ^ 32 ->
  exists ws', SerializeBlockData ws blockIndex n = Ok ws'.
Proof.
  intros Hopen Hcolumns Hdata Hindex Hn Hwrap. unfold SerializeBlockData.
  rewrite Hopen. cbn [deref of_option bind].
  set (C := Z.to_nat (columnCount buffers)) in *.
  set (room := fun columnBuffers : ColumnBuffers =>
         (Z.to_nat blockIndex < length (blockBuffersArray columnBuffers))%nat).
  destruct (for_loop_total (fun _ array => all_below C room array) C
              (SerializeBlockExists (blockDataArray ws) blockIndex n)
              (columnBuffersArray buffers)) as (array & -> & Harray).
  - exact Hcolumns.
  - intros c array Hc Hroom. unfold SerializeBlockExists.
    destruct (Hroom c Hc) as (cb & Hcb & Hcbroom). unfold room in Hcbroom.
    rewrite (load_Ok _ _ _ Hcb). cbn [bind].
    destruct (lookup_lt_is_Some_2 (blockBuffersArray cb) (Z.to_nat blockIndex))
      as [bb Hbb]; [exact Hcbroom|].
    rewrite (load_Z_Ok _ _ _ Hindex Hbb). cbn [bind].
    destruct (Hdata c Hc) as (bd & Hbd & Hflags & _).
    rewrite (load_Ok _ _ _ Hbd). cbn [bind].
    destruct (SerializeBoolArray_total (existsArray bd) n ltac:(lia) Hwrap)
      as (packed & ->).
    cbn [bind].
    rewrite (store_block_buffers_Ok _ _ _ _ _ Hcb) by (unfold len; lia).
    eexists. split; [reflexivity|]. apply all_below_insert; [exact Hroom|].
    unfold room. cbn [blockBuffersArray]. now rewrite length_insert.
  - cbn [bind].
    destruct (for_loop_total
                (fun _ (st : list ColumnBuffers * list ColumnBlockData
                             * option (list byte)) =>
                   all_below C room (fst (fst st))
                   /\ all_below C
                        (fun blockData => is_Some (data_valueBuffer blockData))
                        (snd (fst st)))
                C (SerializeBlockValues (compressionType ws) blockIndex)
                (array, blockDataArray ws, compressionBuffer ws))
      as ([[array' blockData'] compression'] & -> & _).
    + split; [exact Harray|]. cbn [fst snd].
      apply (all_below_impl _ _ _ _ _ Hdata); [lia|]. now intros bd [_ H].
    + intros c [[array0 blockData0] compression0] Hc [Hroom Hsome].
      cbn [fst snd] in Hroom, Hsome. unfold SerializeBlockValues.
      destruct (Hroom c Hc) as (cb & Hcb & Hcbroom). unfold room in Hcbroom.
      rewrite (load_Ok _ _ _ Hcb). cbn [bind].
      destruct (lookup_lt_is_Some_2 (blockBuffersArray cb) (Z.to_nat blockIndex))
        as [bb Hbb]; [exact Hcbroom|].
      rewrite (load_Z_Ok _ _ _ Hindex Hbb). cbn [bind].
      destruct (Hsome c Hc) as (bd & Hbd & [values Hvalues]).
      rewrite (load_Ok _ _ _ Hbd). cbn [bind]. rewrite Hvalues.
      cbn [deref of_option bind].
      destruct (CompressBuffer values (compressionType ws)) as [compressed|];
        rewrite (store_block_buffers_Ok _ _ _ _ _ Hcb) by (unfold len; lia);
        cbn [bind];
        (rewrite store_Ok by (apply lookup_lt_Some in Hbd; unfold len; lia));
        cbn [bind]; (eexists; split; [reflexivity|]); cbn [fst snd];
        (split; [apply all_below_insert; [exact Hroom|]; unfold room;
                 cbn [blockBuffersArray]; now rewrite length_insert
                |apply all_below_insert; [exact Hsome|]; cbn; eauto]).
    + cbn [bind]. eauto.
Qed.

(** [WriteCell] on a cell of a row of the table. *)
Lemma WriteCell_safe ws columnValues isNull blockRowIndex (c : nat) blockData node :
  0 <= blockRowIndex < len (existsArray blockData) ->
  is_Some (data_valueBuffer blockData) ->
  (c < length (comparisonFunctionArray ws))%nat ->
  (isNull = false ->
   exists attribute value,
     attrs (tupleDescriptor ws) !! c = Some attribute
     /\ columnValues !! c = Some value /\ datum_fits attribute value) ->
  safe (fun cell =>
          len (existsArray (fst cell)) = len (existsArray blockData)
          /\ is_Some (data_valueBuffer (fst cell)))
    (WriteCell ws columnValues isNull blockRowIndex (Z.of_nat c) blockData node).
Proof.
  intros Hrow [buffer Hbuffer] Hfunctions Hvalue. unfold WriteCell.
  destruct isNull.
  - rewrite store_Ok by exact Hrow. cbn [bind safe fst existsArray data_valueBuffer].
    rewrite len_insert. eauto.
  - destruct (Hvalue eq_refl) as (att & value & Hatt & Hvalue' & Hfits).
    destruct (lookup_lt_is_Some_2 _ _ Hfunctions) as [f Hf].
    rewrite (load_Ok _ _ _ Hf). cbn [bind].
    rewrite (load_Ok _ _ _ Hatt). cbn [bind].
    rewrite store_Ok by exact Hrow. cbn [bind].
    rewrite (load_Ok _ _ _ Hvalue'). cbn [bind].
    rewrite Hbuffer. cbn [deref of_option bind].
    pose proof (SerializeSingleDatum_safe buffer att value Hfits) as Hserialize.
    destruct (SerializeSingleDatum buffer value (attbyval att) (attlen att)
                (attalign att)) as [buffer'|e]; [|exact Hserialize].
    cbn [bind].
    destruct (UpdateBlockSkipNodeMinMax_safe node att value f Hfits)
      as (node' & ->).
    cbn [bind safe fst existsArray data_valueBuffer]. rewrite len_insert. eauto.
Qed.
End SafeBlocks.

Section SafeRows.
Context {host : Host} {collab : Collaborators}.

(** The stripe is there after [EnsureStripe], with the arrays of an empty
    stripe if it is new. *)
Lemma EnsureStripe_shaped ws n :
  shaped ws n ->
  exists ws1 buffers,
    EnsureStripe ws (u32 (blockRowCount (tableFooter ws)))
      (u32 (natts (tupleDescriptor ws))) = Ok ws1
    /\ same_session ws ws1
    /\ stripeBuffers ws1 = Some buffers
    /\ shaped ws1 n.
Proof.
  intros Hshaped. pose proof Hshaped as Hshaped0. unfold shaped in Hshaped.
  set (C := Z.to_nat (u32 (natts (tupleDescriptor ws)))) in *.
  set (R := u32 (blockRowCount (tableFooter ws))) in *.
  set (B := Z.to_nat (u32 (stripeMaxRowCount ws) / R + 1)) in *.
  destruct Hshaped as (Hattrs & Hfunctions & HR & Hwrap & HS & Hn & Hflags & Hopen).
  unfold EnsureStripe. destruct (stripeBuffers ws) as [buffers|] eqn:Hb.
  - exists ws, buffers. split; [reflexivity|].
    split; [apply same_session_refl|]. split; [exact Hb|exact Hshaped0].
  - subst n. unfold CreateEmptyStripeBuffers, CreateEmptyStripeSkipList.
    destruct (Z.eqb_spec R 0) as [|_]; [lia|]. cbn [bind].
    cbn [blockDataArray set_stripe]. fold C.
    destruct (for_loop_total
                (fun i array =>
                   all_below C (fun blockData => R <= len (existsArray blockData))
                     array
                   /\ all_below i
                        (fun blockData => is_Some (data_valueBuffer blockData))
                        array)
                C
                (fun columnIndex blockDataArray =>
                   do blockData <- load blockDataArray (Z.of_nat columnIndex);
                   store blockDataArray (Z.of_nat columnIndex)
                     {| existsArray := existsArray blockData;
                        data_valueBuffer := Some [] |})
                (blockDataArray ws)) as (array & -> & Hflags' & Hsome).
    + split; [exact Hflags|]. intros i Hi. lia.
    + intros i array Hi [Hlen Hsome].
      destruct (Hlen i Hi) as (bd & Hbd & Hroom).
      rewrite (load_Ok _ _ _ Hbd). cbn [bind].
      pose proof (lookup_lt_Some _ _ _ Hbd) as Hlt.
      rewrite store_Ok by (unfold len; lia). rewrite Nat2Z.id.
      eexists. split; [reflexivity|]. split.
      * apply all_below_insert; [exact Hlen|exact Hroom].
      * apply all_below_extend; [exact Hsome|exact Hlt|cbn; eauto].
    + cbn [bind]. eexists. eexists. split; [reflexivity|].
      split; [unfold same_session; cbn; auto 10|].
      split; [reflexivity|].
      assert (HB : u32 (u32 (stripeMaxRowCount ws) / R + 1)
                   = u32 (stripeMaxRowCount ws) / R + 1).
      { rewrite (u32_small (stripeMaxRowCount ws)) by lia.
        assert (0 <= stripeMaxRowCount ws / R) by (apply Z.div_pos; lia).
        assert (stripeMaxRowCount ws / R <= stripeMaxRowCount ws)
          by (apply Z.div_le_upper_bound; nia).
        apply u32_small. lia. }
      unfold shaped.
      cbn [tupleDescriptor tableFooter stripeMaxRowCount comparisonFunctionArray
           blockDataArray stripeBuffers stripeSkipList set_blockData set_stripe
           rowCount columnCount skip_columnCount blockCount columnBuffersArray
           blockSkipNodeArray].
      fold C R B. rewrite HB. fold B.
      split; [exact Hattrs|]. split; [exact Hfunctions|]. split; [exact HR|].
      split; [exact Hwrap|]. split; [exact HS|]. split; [lia|].
      split; [exact Hflags'|].
      eexists. split; [reflexivity|]. split; [reflexivity|].
      split; [reflexivity|]. split; [reflexivity|]. split; [lia|].
      split; [exact Hsome|]. split.
      * apply all_below_replicate; [reflexivity|]. split.
        -- cbn [blockBuffersArray]. now rewrite length_replicate.
        -- intros i Hi. rewrite Z.div_0_l in Hi by lia. cbn in Hi. lia.
      * apply all_below_replicate; [reflexivity|]. now rewrite length_replicate.
Qed.

(** The loop of [CStoreWriteRow] over the columns of a row of the table. *)
Lemma WriteRowColumns_safe ws columnValues columnNulls blockIndex blockRowIndex
  (R : Z) (B : nat) blockData nodes :
  let C := Z.to_nat (u32 (natts (tupleDescriptor ws))) in
  all_below C
    (fun data => R <= len (existsArray data) /\ is_Some (data_valueBuffer data))
    blockData ->
  all_below C (fun column => (B <= length column)%nat) nodes ->
  0 <= blockIndex -> (Z.to_nat blockIndex < B)%nat ->
  0 <= blockRowIndex < R ->
  (C <= length (attrs (tupleDescriptor ws)))%nat ->
  (C <= length (comparisonFunctionArray ws))%nat ->
  row_fits (tupleDescriptor ws) (columnValues, columnNulls) ->
  safe (fun st =>
          all_below C
            (fun data =>
               R <= len (existsArray data) /\ is_Some (data_valueBuffer data))
            (fst st)
          /\ all_below C (fun column => (B <= length column)%nat) (snd st))
    (for_loop C
       (WriteRowColumn ws columnValues columnNulls blockIndex blockRowIndex)
       (blockData, nodes)).
Proof.
  intros C Hdata Hnodes Hindex Hblock Hrow Hattrs Hfunctions Hfits.
  apply (safe_for_loop
           (fun _ st =>
              all_below C
                (fun data =>
                   R <= len (existsArray data)
                   /\ is_Some (data_valueBuffer data))
                (fst st)
              /\ all_below C (fun column => (B <= length column)%nat) (snd st))).
  - split; assumption.
  - intros c [data0 nodes0] Hc [Hdata0 Hnodes0]. cbn [fst snd] in Hdata0, Hnodes0.
    unfold WriteRowColumn.
    destruct (Hdata0 c Hc) as (bd & Hbd & Hroom & Hsome).
    destruct (Hnodes0 c Hc) as (column & Hcolumn & Hlength).
    rewrite (load_Ok _ _ _ Hbd). cbn [bind].
    rewrite (load_Ok _ _ _ Hcolumn). cbn [bind].
    destruct (lookup_lt_is_Some_2 column (Z.to_nat blockIndex)) as [node Hnode];
      [lia|].
    rewrite (load_Z_Ok _ _ _ Hindex Hnode). cbn [bind].
    destruct (lookup_lt_is_Some_2 (attrs (tupleDescriptor ws)) c) as [att Hatt];
      [lia|].
    destruct (Hfits c att Hc Hatt) as (isNull & Hnull & Hvalue).
    cbn [fst snd] in Hnull, Hvalue.
    rewrite (load_Ok _ _ _ Hnull). cbn [bind].
    apply (safe_bind
             (fun cell =>
                len (existsArray (fst cell)) = len (existsArray bd)
                /\ is_Some (data_valueBuffer (fst cell)))).
    + apply WriteCell_safe; [lia|exact Hsome|lia|].
      intros Hnot. destruct (Hvalue Hnot) as (value & Hv & Hfit). eauto.
    + intros [bd' node'] [Hlen' Hsome']. cbn [fst] in Hlen', Hsome'.
      rewrite store_Ok by (unfold len; lia). cbn [bind].
      rewrite store_Ok by (apply lookup_lt_Some in Hcolumn; unfold len; lia).
      cbn [bind].
      rewrite store_Ok by (apply lookup_lt_Some in Hbd; unfold len; lia).
      cbn [bind safe fst snd]. rewrite Nat2Z.id. split.
      * apply all_below_insert; [exact Hdata0|]. split; [lia|exact Hsome'].
      * apply all_below_insert; [exact Hnodes0|]. now rewrite length_insert.
Qed.
End SafeRows.

Section SafeStaging.
Context {host : Host} {collab : Collaborators}.

(** A row of the table is staged without undefined behaviour, and the
    arrays of the stripe keep their shape. *)
Lemma StageRow_safe ws columnValues columnNulls n :
  shaped ws n ->
  n < Z.max 1 (stripeMaxRowCount ws) ->
  row_fits (tupleDescriptor ws) (columnValues, columnNulls) ->
  safe (fun ws' => shaped ws' (n + 1) /\ same_session ws ws')
    (StageRow ws columnValues columnNulls).
Proof.
  intros Hshaped Hroom Hfits.
  destruct (EnsureStripe_shaped ws n Hshaped)
    as (ws1 & buffers & Hensure & Hsame1 & Hb1 & Hshaped1).
  pose proof Hsame1 as (Htf & _ & HS & _ & Htd & _).
  apply (safe_impl (fun ws' => shaped ws' (n + 1) /\ same_session ws1 ws'));
    [|intros ws' [H1 H2]; split;
      [exact H1|exact (same_session_trans _ _ _ Hsame1 H2)]].
  unfold StageRow, AddRow. rewrite Hensure. cbn [bind]. rewrite Hb1.
  rewrite <- Htf, <- Htd. rewrite <- Htd in Hfits. rewrite <- HS in Hroom.
  clear Hshaped Hensure Hsame1 Htf HS Htd ws.
  unfold shaped in Hshaped1. rewrite Hb1 in Hshaped1.
  set (C := Z.to_nat (u32 (natts (tupleDescriptor ws1)))) in *.
  set (R := u32 (blockRowCount (tableFooter ws1))) in *.
  set (B := Z.to_nat (u32 (stripeMaxRowCount ws1) / R + 1)) in *.
  destruct Hshaped1
    as (Hattrs & Hfunctions & HR & Hwrap & HS & Hn & Hflags & skipList & Hsl
        & Hrc & Hcc & Hscc & _ & Hsome & Hcolumns & Hnodes).
  rewrite Hsl. cbn [deref of_option bind].
  destruct (Z.eqb_spec R 0) as [|_]; [lia|]. cbn [bind]. rewrite Hrc.
  assert (Hdiv : 0 <= n / R) by (apply Z.div_pos; lia).
  assert (Hdivle : n / R <= n) by (apply Z.div_le_upper_bound; nia).
  pose proof (Z.mod_pos_bound n R ltac:(lia)) as Hmod.
  assert (Hblock : (Z.to_nat (n / R) < B)%nat).
  { unfold B. rewrite (u32_small (stripeMaxRowCount ws1)) by lia.
    assert (n / R <= stripeMaxRowCount ws1 / R); [|lia].
    destruct (Z.eq_dec (stripeMaxRowCount ws1) 0) as [Hzero|Hpos].
    - rewrite Hzero in *. replace n with 0 by lia. reflexivity.
    - apply Z.div_le_mono; lia. }
  rewrite (u32_small (n / R)), (u32_small (n mod R)), (u32_small (n / R + 1)),
    (u32_small (R - 1)) by lia.
  set (data_ok := fun data : ColumnBlockData =>
         R <= len (existsArray data) /\ is_Some (data_valueBuffer data)).
  assert (Hdata : all_below C data_ok (blockDataArray ws1)).
  { intros c Hc. destruct (Hflags c Hc) as (bd & Hbd & Hlen).
    destruct (Hsome c Hc) as (bd' & Hbd' & Hvalue).
    rewrite Hbd in Hbd'. injection Hbd' as <-. exists bd. now split. }
  pose proof (WriteRowColumns_safe ws1 columnValues columnNulls (n / R) (n mod R)
                R B (blockDataArray ws1) (blockSkipNodeArray skipList) Hdata
                Hnodes Hdiv Hblock Hmod Hattrs Hfunctions Hfits) as Hloop.
  fold C in Hloop.
  destruct (for_loop C
              (WriteRowColumn ws1 columnValues columnNulls (n / R) (n mod R))
              (blockDataArray ws1, blockSkipNodeArray skipList))
    as [[blockData nodes]|e]; [|exact Hloop].
  destruct Hloop as [Hdata' Hnodes']. cbn [fst snd] in Hdata', Hnodes'.
  cbn [bind].
  set (skipList' := set_blockCount (set_nodes skipList nodes) (n / R + 1)).
  set (ws2 := set_blockData (set_stripe ws1 (Some buffers) (Some skipList'))
                blockData (compressionBuffer ws1)).
  assert (Hshape :
            forall ws3 buffers3 k,
              same_session ws2 ws3 ->
              stripeSkipList ws3 = Some skipList' ->
              stripeBuffers ws3 = Some buffers3 ->
              rowCount buffers3 = n -> columnCount buffers3 = columnCount buffers ->
              all_below C data_ok (blockDataArray ws3) ->
              all_below C (column_shaped B k) (columnBuffersArray buffers3) ->
              k = Z.to_nat ((n + 1) / R) ->
              shaped
                (set_stripe ws3
                   (Some (set_rowCount buffers3 (u32 (rowCount buffers3 + 1))))
                   (stripeSkipList ws3)) (n + 1)
              /\ same_session ws1
                   (set_stripe ws3
                      (Some (set_rowCount buffers3 (u32 (rowCount buffers3 + 1))))
                      (stripeSkipList ws3))).
  { intros ws3 buffers3 k Hsame3 Hsl3 Hb3 Hrc3 Hcc3 Hdata3 Hcolumns3 ->.
    pose proof Hsame3 as (Htf3 & Hkind3 & HS3 & Hlog3 & Htd3 & Hcfa3 & Hoff3
                          & Hact3 & Hrel3).
    cbn in Htf3, Hkind3, HS3, Hlog3, Htd3, Hcfa3, Hoff3, Hact3, Hrel3.
    split; [|unfold same_session; cbn; auto 10].
    unfold shaped.
    cbn [tupleDescriptor tableFooter stripeMaxRowCount comparisonFunctionArray
         blockDataArray stripeBuffers stripeSkipList set_stripe
         set_rowCount rowCount columnCount columnBuffersArray].
    rewrite Htd3, Htf3, HS3, Hcfa3, Hsl3, Hrc3, Hcc3. fold C R B.
    rewrite (u32_small (n + 1)) by lia.
    split; [exact Hattrs|]. split; [exact Hfunctions|]. split; [exact HR|].
    split; [exact Hwrap|]. split; [exact HS|]. split; [lia|].
    split; [apply (all_below_impl _ _ _ _ _ Hdata3); [lia|now intros bd []]|].
    exists skipList'. split; [reflexivity|]. split; [reflexivity|].
    split; [exact Hcc|]. split; [exact Hscc|]. split.
    { intros _. cbn. now replace (n + 1 - 1) with n by lia. }
    split; [apply (all_below_impl _ _ _ _ _ Hdata3); [lia|now intros bd []]|].
    split; [exact Hcolumns3|exact Hnodes']. }
  destruct (Z.eqb_spec (n mod R) (R - 1)) as [Hfull|Hpart].
  - destruct (SerializeBlockData_total ws2 (n / R) R buffers)
      as (ws3 & Hserialize); try lia.
    + reflexivity.
    + rewrite Hcc. fold C. apply (all_below_impl _ _ _ _ _ Hcolumns); [lia|].
      intros cb [Hlen _]. lia.
    + rewrite Hcc. fold C. exact Hdata'.
    + rewrite Hserialize. cbn [bind].
      destruct (SerializeBlockData_frame _ _ _ _ Hserialize)
        as (Hsame3 & Hsl3 & b2 & buffers3 & Hb2 & Hb3 & Hrc3 & Hcc3).
      cbn in Hb2. injection Hb2 as <-.
      rewrite Hb3. cbn [deref of_option bind safe].
      apply (Hshape ws3 buffers3 (S (Z.to_nat (n / R)))); try assumption.
      * lia.
      * intros c Hc.
        destruct (SerializeBlockData_column ws2 (n / R) R ws3 buffers c
                    Hserialize eq_refl ltac:(rewrite Hcc; exact Hc))
          as (bd & values & cb & packed & buffers3' & Hbd & Hvalues & Hcb & _
              & _ & Hb3' & _ & _ & _ & Hnew).
        eexists. split; [exact Hnew|]. cbn. split; [|eauto].
        destruct (Hdata' c Hc) as (bd' & Hbd' & Hlen & _). cbn in Hbd.
        rewrite Hbd in Hbd'. injection Hbd' as <-. exact Hlen.
      * intros c Hc.
        destruct (SerializeBlockData_column ws2 (n / R) R ws3 buffers c
                    Hserialize eq_refl ltac:(rewrite Hcc; exact Hc))
          as (bd & values & cb & packed & buffers3' & _ & _ & Hcb & _
              & _ & Hb3' & _ & _ & Hnew & _).
        rewrite Hb3 in Hb3'. injection Hb3' as <-.
        eexists. split; [exact Hnew|].
        destruct (Hcolumns c Hc) as (cb' & Hcb' & Hlen & Hready).
        rewrite Hcb in Hcb'. injection Hcb' as <-.
        split; cbn [blockBuffersArray]; [now rewrite length_insert|].
        apply all_below_extend; [exact Hready|lia|].
        destruct (CompressBuffer values (compressionType ws2));
          split; cbn; eauto.
      * rewrite (next_block n R) by lia. lia.
  - cbn [bind deref of_option safe stripeBuffers ws2 set_blockData set_stripe].
    apply (Hshape ws2 buffers (Z.to_nat (n / R))); try assumption;
      try reflexivity.
    + apply same_session_refl.
    + now rewrite (same_block n R) by lia.
Qed.
End SafeStaging.

Section SafeWrites.
Context {host : Host}.
Hypothesis Hhost : host_ok.

(** [WriteToFile] on a buffer ends, and fails only when the host cannot
    grow the fork. *)
Lemma WriteStringInfo_safe ws s :
  writer_ok ws -> len s < MaxAllocSize ->
  safe (fun ws' => writer_ok ws' /\ tupleDescriptor ws' = tupleDescriptor ws)
    (WriteStringInfo ws s).
Proof.
  intros [Hfork Hactive] Hlen. pose proof (len_nonneg s) as Hpos.
  unfold MaxAllocSize in Hlen. unfold WriteStringInfo.
  rewrite u32_small by lia.
  assert (Hok : forall ws', WriteToFile ws s (len s) = Ok ws' ->
                  writer_ok ws' /\ tupleDescriptor ws' = tupleDescriptor ws).
  { intros ws' Hrun.
    destruct (WriteToFile_Ok ws s (len s) ws' Hhost Hfork Hactive ltac:(lia)
                ltac:(lia) Hrun) as (Hfork' & Hactive' & _).
    split; [split; assumption|].
    unfold WriteToFile in Hrun. destruct (len s =? 0); [now injection Hrun as <-|].
    inv_bind Hrun as st Hloop. now injection Hrun as <-. }
  destruct (WriteToFile ws s (len s)) as [ws'|e] eqn:Hrun; [exact (Hok ws' eq_refl)|].
  unfold WriteToFile in Hrun. destruct (len s =? 0); [discriminate|].
  pose proof (write_invariant_start s (len s) ws Hfork Hactive Hpos) as Hstart.
  assert (Hbound : iterations_left (len s) (len (dataFork (relation ws)))
                     (WriteToFile_start ws)
                   <= Z.of_nat (WriteToFile_fuel (dataFork (relation ws)) (len s))).
  { unfold iterations_left, WriteToFile_fuel, WriteToFile_start, len; cbn. lia. }
  pose proof (WriteToFile_loop_spec Hhost s (len s) (dataFork (relation ws))
                (activeBlockNumber ws) ltac:(lia) ltac:(lia) _ _ Hstart Hbound)
    as Hloop.
  destruct (WriteToFile_loop _ _ _ _ _) as [st|e']; [discriminate|].
  cbn in Hrun. injection Hrun as <-. apply Hloop.
Qed.

(** A loop of writes on buffers that are [StringInfo]s. *)
Lemma write_loop_safe {A} (count : nat) (array : list A)
  (buffer_of : A -> option (list byte)) ws :
  writer_ok ws ->
  all_below count
    (fun x => exists s, buffer_of x = Some s /\ len s < MaxAllocSize) array ->
  safe (fun ws' => writer_ok ws' /\ tupleDescriptor ws' = tupleDescriptor ws)
    (for_loop count
       (fun index writeState =>
          do x <- load array (Z.of_nat index);
          do s <- deref (buffer_of x);
          WriteStringInfo writeState s)
       ws).
Proof.
  intros Hwriter Hall.
  apply (safe_for_loop
           (fun _ ws' => writer_ok ws' /\ tupleDescriptor ws' = tupleDescriptor ws)).
  - now split.
  - intros i t Hi [Ht Htd]. destruct (Hall i Hi) as (x & Hx & s & Hs & Hlen).
    rewrite (load_Ok _ _ _ Hx). cbn [bind]. rewrite Hs.
    cbn [deref of_option bind].
    apply (safe_impl _ _ _ (WriteStringInfo_safe t s Ht Hlen)).
    intros ws' [Hw Htd']. split; [exact Hw|congruence].
Qed.
End SafeWrites.

Section SafePlacement.
Context {host : Host} {collab : Collaborators}.

Lemma PlaceColumns_total stripeBuffers blockCount (C : nat) nodes :
  all_below C
    (fun columnBuffers =>
       all_below (Z.to_nat blockCount) block_ready
         (blockBuffersArray columnBuffers))
    (columnBuffersArray stripeBuffers) ->
  all_below C (fun column => (Z.to_nat blockCount <= length column)%nat) nodes ->
  exists nodes',
    for_loop C (PlaceColumn stripeBuffers blockCount) nodes = Ok nodes'.
Proof.
  intros Hbuffers Hnodes.
  destruct (for_loop_total
              (fun _ array =>
                 all_below C
                   (fun column => (Z.to_nat blockCount <= length column)%nat)
                   array)
              C (PlaceColumn stripeBuffers blockCount) nodes)
    as (nodes' & Hrun & _); [exact Hnodes| |eauto].
  intros c array Hc Harray. unfold PlaceColumn.
  destruct (Harray c Hc) as (column & Hcolumn & Hlength).
  destruct (Hbuffers c Hc) as (cb & Hcb & Hready).
  rewrite (load_Ok _ _ _ Hcolumn). cbn [bind].
  rewrite (load_Ok _ _ _ Hcb). cbn [bind].
  destruct (for_loop_total
              (fun _ (st : list ColumnBlockSkipNode * Z * Z) =>
                 length (fst (fst st)) = length column)
              (Z.to_nat blockCount) (PlaceBlock cb) (column, 0, 0))
    as ([[column' eo] vo] & -> & Hlen').
  - reflexivity.
  - intros b [[column0 eo] vo] Hb Hlen0. cbn [fst] in Hlen0. unfold PlaceBlock.
    destruct (Hready b Hb) as (bb & Hbb & [e He] & [v Hv]).
    rewrite (load_Ok _ _ _ Hbb). cbn [bind]. rewrite He, Hv.
    cbn [deref of_option bind].
    destruct (lookup_lt_is_Some_2 column0 b) as [node Hnode]; [lia|].
    rewrite (load_Ok _ _ _ Hnode). cbn [bind].
    rewrite store_Ok by (unfold len; lia). cbn [bind].
    eexists. split; [reflexivity|]. cbn [fst]. now rewrite length_insert.
  - cbn [bind fst] in *.
    rewrite store_Ok by (apply lookup_lt_Some in Hcolumn; unfold len; lia).
    eexists. split; [reflexivity|]. apply all_below_insert; [exact Harray|]. lia.
Qed.

Lemma CreateSkipListBufferArray_total skipList tupleDescriptor :
  let C := Z.to_nat (skip_columnCount skipList) in
  (C <= length (blockSkipNodeArray skipList))%nat ->
  (C <= length (attrs tupleDescriptor))%nat ->
  exists array,
    CreateSkipListBufferArray skipList tupleDescriptor = Ok array
    /\ length array = C.
Proof.
  intros C Hnodes Hattrs. unfold CreateSkipListBufferArray. fold C.
  destruct (for_loop_total (fun _ (array : list (list byte)) => length array = C)
              C
              (fun columnIndex skipListBufferArray =>
                 do blockSkipNodeArray <-
                   load (blockSkipNodeArray skipList) (Z.of_nat columnIndex);
                 do attributeForm <-
                   load (attrs tupleDescriptor) (Z.of_nat columnIndex);
                 let skipListBuffer :=
                   SerializeColumnSkipList blockSkipNodeArray
                     (blockCount skipList) (attbyval attributeForm)
                     (attlen attributeForm) in
                 store skipListBufferArray (Z.of_nat columnIndex) skipListBuffer)
              (replicate C [])) as (array & Hrun & Hlength);
    [apply length_replicate| |eauto].
  intros c array Hc Hlen.
  destruct (lookup_lt_is_Some_2 (blockSkipNodeArray skipList) c) as [nodes Hn];
    [lia|].
  destruct (lookup_lt_is_Some_2 (attrs tupleDescriptor) c) as [att Hatt]; [lia|].
  rewrite (load_Ok _ _ _ Hn). cbn [bind]. rewrite (load_Ok _ _ _ Hatt).
  cbn [bind]. rewrite store_Ok by (unfold len; lia).
  eexists. split; [reflexivity|]. now rewrite length_insert.
Qed.

Lemma SumBlockSizes_total nodes blockCount :
  (Z.to_nat blockCount <= length nodes)%nat ->
  exists sizes, SumBlockSizes nodes blockCount = Ok sizes.
Proof.
  intros Hlen. unfold SumBlockSizes.
  destruct (for_loop_total (fun _ (_ : Z * Z) => True) (Z.to_nat blockCount)
              (fun blockIndex (sizes : Z * Z) =>
                 let '(existsSize, valueSize) := sizes in
                 do node <- load nodes (Z.of_nat blockIndex);
                 Ok (u64 (existsSize + existsLength node),
                     u64 (valueSize + valueLength node)))
              (0, 0)) as (sizes & Hrun & _); [exact I| |eauto].
  intros b [e v] Hb _.
  destruct (lookup_lt_is_Some_2 nodes b) as [node Hnode]; [lia|].
  rewrite (load_Ok _ _ _ Hnode). cbn [bind]. eauto.
Qed.

Lemma CreateStripeFooter_total skipList array :
  let C := Z.to_nat (skip_columnCount skipList) in
  all_below C
    (fun column => (Z.to_nat (blockCount skipList) <= length column)%nat)
    (blockSkipNodeArray skipList) ->
  (C <= length array)%nat ->
  exists stripeFooter,
    CreateStripeFooter skipList array = Ok stripeFooter
    /\ length (skipListSizeArray stripeFooter) = C
    /\ length (existsSizeArray stripeFooter) = C
    /\ length (valueSizeArray stripeFooter) = C.
Proof.
  intros C Hnodes Harray. unfold CreateStripeFooter. fold C.
  destruct (for_loop_total
              (fun _ (arrays : list Z * list Z * list Z) =>
                 length (fst (fst arrays)) = C /\ length (snd (fst arrays)) = C
                 /\ length (snd arrays) = C)
              C
              (fun columnIndex (arrays : list Z * list Z * list Z) =>
                 let '(skipListSizes, existsSizes, valueSizes) := arrays in
                 do blockSkipNodeArray <-
                   load (blockSkipNodeArray skipList) (Z.of_nat columnIndex);
                 do (existsSize, valueSize) <-
                   SumBlockSizes blockSkipNodeArray (blockCount skipList);
                 do existsSizes <-
                   store existsSizes (Z.of_nat columnIndex) existsSize;
                 do valueSizes <-
                   store valueSizes (Z.of_nat columnIndex) valueSize;
                 do skipListBuffer <- load array (Z.of_nat columnIndex);
                 do skipListSizes <-
                   store skipListSizes (Z.of_nat columnIndex)
                     (u64 (len skipListBuffer));
                 Ok (skipListSizes, existsSizes, valueSizes))
              (replicate C 0, replicate C 0, replicate C 0))
    as ([[sk ex] va] & -> & Hlengths).
  - cbn [fst snd]. now rewrite !length_replicate.
  - intros c [[sk ex] va] Hc (Hsk & Hex & Hva). cbn [fst snd] in Hsk, Hex, Hva.
    destruct (Hnodes c Hc) as (column & Hcolumn & Hlength).
    rewrite (load_Ok _ _ _ Hcolumn). cbn [bind].
    destruct (SumBlockSizes_total column (blockCount skipList) Hlength)
      as ([e v] & ->).
    cbn [bind]. rewrite store_Ok by (unfold len; lia). cbn [bind].
    rewrite store_Ok by (unfold len; lia). cbn [bind].
    destruct (lookup_lt_is_Some_2 array c) as [buffer Hbuffer]; [lia|].
    rewrite (load_Ok _ _ _ Hbuffer). cbn [bind].
    rewrite store_Ok by (unfold len; lia). cbn [bind].
    eexists. split; [reflexivity|]. cbn [fst snd]. now rewrite !length_insert.
  - cbn [bind]. eexists. split; [reflexivity|]. exact Hlengths.
Qed.

Lemma SumStripeSizes_total columnCount stripeFooter :
  (Z.to_nat columnCount <= length (skipListSizeArray stripeFooter))%nat ->
  (Z.to_nat columnCount <= length (existsSizeArray stripeFooter))%nat ->
  (Z.to_nat columnCount <= length (valueSizeArray stripeFooter))%nat ->
  exists sums, SumStripeSizes columnCount stripeFooter = Ok sums.
Proof.
  intros Hsk Hex Hva. unfold SumStripeSizes.
  destruct (for_loop_total (fun _ (_ : Z * Z) => True) (Z.to_nat columnCount)
              (fun columnIndex (sums : Z * Z) =>
                 let '(skipListLength, dataLength) := sums in
                 do skipListSize <-
                   load (skipListSizeArray stripeFooter) (Z.of_nat columnIndex);
                 do existsSize <-
                   load (existsSizeArray stripeFooter) (Z.of_nat columnIndex);
                 do valueSize <-
                   load (valueSizeArray stripeFooter) (Z.of_nat columnIndex);
                 Ok (u64 (skipListLength + skipListSize),
                     u64 (u64 (dataLength + existsSize) + valueSize)))
              (0, 0)) as (sums & Hrun & _); [exact I| |eauto].
  intros c [s d] Hc _.
  destruct (lookup_lt_is_Some_2 (skipListSizeArray stripeFooter) c) as [x Hx];
    [lia|].
  destruct (lookup_lt_is_Some_2 (existsSizeArray stripeFooter) c) as [y Hy];
    [lia|].
  destruct (lookup_lt_is_Some_2 (valueSizeArray stripeFooter) c) as [z Hz];
    [lia|].
  rewrite (load_Ok _ _ _ Hx), (load_Ok _ _ _ Hy), (load_Ok _ _ _ Hz).
  cbn [bind]. eauto.
Qed.
End SafePlacement.

Section SafeFlush.
Context {host : Host} {collab : Collaborators}.

Lemma last_block_partial (n R : Z) :
  1 <= n -> 0 < R -> 0 < n mod R -> (n - 1) / R + 1 = n / R + 1.
Proof.
  intros Hn HR Hmod. f_equal. symmetry.
  apply (Z.div_unique (n - 1) R (n / R) (n mod R - 1)).
  - pose proof (Z.mod_pos_bound n R HR). lia.
  - pose proof (Z.div_mod n R ltac:(lia)). lia.
Qed.

Lemma last_block_whole (n R : Z) :
  1 <= n -> 0 < R -> n mod R = 0 -> (n - 1) / R + 1 = n / R.
Proof.
  intros Hn HR Hmod.
  assert (H : n / R - 1 = (n - 1) / R); [|lia].
  apply (Z.div_unique (n - 1) R (n / R - 1) (R - 1)); [lia|].
  pose proof (Z.div_mod n R ltac:(lia)). lia.
Qed.

(** [PrepareStripe] on a stripe with rows returns, with every block of the
    stripe serialized. *)
Lemma PrepareStripe_total ws n :
  shaped ws n -> 1 <= n ->
  let C := Z.to_nat (u32 (natts (tupleDescriptor ws))) in
  let R := u32 (blockRowCount (tableFooter ws)) in
  exists image,
    PrepareStripe ws = Ok image
    /\ all_below C
         (fun columnBuffers =>
            all_below (Z.to_nat (blockCount (si_stripeSkipList image)))
              block_ready (blockBuffersArray columnBuffers))
         (columnBuffersArray (si_stripeBuffers image))
    /\ all_below C (fun blockData => R <= len (existsArray blockData))
         (blockDataArray (si_writeState image))
    /\ (C <= length (si_skipListBufferArray image))%nat
    /\ (C <= length (skipListSizeArray (si_stripeFooter image)))%nat
    /\ (C <= length (existsSizeArray (si_stripeFooter image)))%nat
    /\ (C <= length (valueSizeArray (si_stripeFooter image)))%nat.
Proof.
  intros Hshaped Hrows C R. unfold shaped in Hshaped. fold C R in Hshaped.
  set (B := Z.to_nat (u32 (stripeMaxRowCount ws) / R + 1)) in *.
  destruct Hshaped as (Hattrs & Hfunctions & HR & Hwrap & HS & Hn & Hflags & Hopen).
  destruct (stripeBuffers ws) as [buffers|] eqn:Hb; [|lia].
  destruct Hopen
    as (skipList & Hsl & Hrc & Hcc & Hscc & Hbc & Hsome & Hcolumns & Hnodes).
  specialize (Hbc ltac:(lia)).
  assert (Hdiv : 0 <= n / R) by (apply Z.div_pos; lia).
  assert (Hdivle : n / R <= n) by (apply Z.div_le_upper_bound; nia).
  pose proof (Z.mod_pos_bound n R ltac:(lia)) as Hmod.
  set (K := Z.to_nat (blockCount skipList)).
  assert (Hlast :
            exists ws1 buffers1,
              (if 0 <? n mod R then SerializeBlockData ws (n / R) (n mod R)
               else Ok ws) = Ok ws1
              /\ stripeBuffers ws1 = Some buffers1
              /\ tupleDescriptor ws1 = tupleDescriptor ws
              /\ all_below C
                   (fun columnBuffers =>
                      all_below K block_ready (blockBuffersArray columnBuffers))
                   (columnBuffersArray buffers1)
              /\ all_below C (fun blockData => R <= len (existsArray blockData))
                   (blockDataArray ws1)).
  { destruct (Z.ltb_spec 0 (n mod R)) as [Hpartial|Hwhole].
    - assert (Hblock : (Z.to_nat (n / R) < B)%nat).
      { unfold B. rewrite (u32_small (stripeMaxRowCount ws)) by lia.
        assert (n / R <= stripeMaxRowCount ws / R); [|lia].
        destruct (Z.eq_dec (stripeMaxRowCount ws) 0) as [Hzero|Hpos].
        - rewrite Hzero in *. assert (n = 1) by lia. subst n.
          rewrite Z.div_0_l by lia.
          destruct (Z.eq_dec R 1) as [HR1|HR1].
          + rewrite HR1, Z.mod_1_r in Hpartial. lia.
          + rewrite Z.div_small by lia. lia.
        - apply Z.div_le_mono; lia. }
      destruct (SerializeBlockData_total ws (n / R) (n mod R) buffers Hb)
        as (ws1 & Hserialize); try lia.
      { rewrite Hcc. fold C. apply (all_below_impl _ _ _ _ _ Hcolumns); [lia|].
        intros cb [Hlen _]. lia. }
      { rewrite Hcc. fold C. intros c Hc.
        destruct (Hflags c Hc) as (bd & Hbd & Hlen).
        destruct (Hsome c Hc) as (bd' & Hbd' & Hvalue).
        rewrite Hbd in Hbd'. injection Hbd' as <-. exists bd.
        split; [exact Hbd|]. split; [lia|exact Hvalue]. }
      destruct (SerializeBlockData_frame _ _ _ _ Hserialize)
        as (Hsame1 & _ & b0 & buffers1 & Hb0 & Hb1 & _ & _).
      exists ws1, buffers1. split; [exact Hserialize|]. split; [exact Hb1|].
      split; [apply Hsame1|].
      assert (HK : K = S (Z.to_nat (n / R))).
      { unfold K. rewrite Hbc, (last_block_partial n R) by lia. lia. }
      split.
      + intros c Hc.
        destruct (SerializeBlockData_column ws (n / R) (n mod R) ws1 buffers c
                    Hserialize Hb ltac:(rewrite Hcc; exact Hc))
          as (bd & values & cb & packed & buffers1' & _ & _ & Hcb & _
              & _ & Hb1' & _ & _ & Hnew & _).
        rewrite Hb1 in Hb1'. injection Hb1' as <-.
        eexists. split; [exact Hnew|]. cbn [blockBuffersArray]. rewrite HK.
        destruct (Hcolumns c Hc) as (cb' & Hcb' & Hlen & Hready).
        rewrite Hcb in Hcb'. injection Hcb' as <-.
        apply all_below_extend; [exact Hready|lia|].
        destruct (CompressBuffer values (compressionType ws)); split; cbn; eauto.
      + intros c Hc.
        destruct (SerializeBlockData_column ws (n / R) (n mod R) ws1 buffers c
                    Hserialize Hb ltac:(rewrite Hcc; exact Hc))
          as (bd & values & cb & packed & buffers1' & Hbd & _ & _ & _
              & _ & _ & _ & _ & _ & Hnew).
        eexists. split; [exact Hnew|]. cbn.
        destruct (Hflags c Hc) as (bd' & Hbd' & Hlen).
        rewrite Hbd in Hbd'. now injection Hbd' as <-.
    - exists ws, buffers. split; [reflexivity|]. split; [exact Hb|].
      split; [reflexivity|]. split; [|exact Hflags].
      assert (HK : K = Z.to_nat (n / R)).
      { unfold K. rewrite Hbc, (last_block_whole n R) by lia. reflexivity. }
      rewrite HK. apply (all_below_impl _ _ _ _ _ Hcolumns); [lia|].
      now intros cb [_ Hready]. }
  destruct Hlast as (ws1 & buffers1 & Hlast & Hb1 & Htd1 & Hready & Hflags1).
  assert (HKB : (K <= B)%nat).
  { unfold K, B. rewrite Hbc, (u32_small (stripeMaxRowCount ws)) by lia.
    assert ((n - 1) / R <= stripeMaxRowCount ws / R); [|lia].
    apply Z.div_le_mono; lia. }
  destruct (PlaceColumns_total buffers1 (blockCount skipList) C
              (blockSkipNodeArray skipList) Hready) as (nodes' & Hplace).
  { apply (all_below_impl _ _ _ _ _ Hnodes); [lia|]. intros column Hlen.
    fold K. lia. }
  pose proof (PlaceColumn_columns _ _ _ _ _ Hplace) as (Hlen' & _ & Hplaced).
  assert (Hnodes' : all_below C (fun column => (K <= length column)%nat) nodes').
  { intros c Hc.
    destruct (Hplaced c Hc) as (column & cb & column' & Hcolumn & _ & Hcolumn'
                                & Hsame & _).
    exists column'. split; [exact Hcolumn'|].
    destruct (Hnodes c Hc) as (column0 & Hcolumn0 & Hlength).
    rewrite Hcolumn in Hcolumn0. injection Hcolumn0 as <-. lia. }
  destruct (CreateSkipListBufferArray_total (set_nodes skipList nodes')
              (tupleDescriptor ws1)) as (array & Harray & Hlength).
  { cbn [skip_columnCount set_nodes blockSkipNodeArray]. rewrite Hscc. fold C.
    exact (all_below_length _ _ _ Hnodes'). }
  { cbn [skip_columnCount set_nodes]. rewrite Hscc, Htd1. exact Hattrs. }
  cbn [skip_columnCount set_nodes] in Hlength. rewrite Hscc in Hlength.
  fold C in Hlength.
  destruct (CreateStripeFooter_total (set_nodes skipList nodes') array)
    as (footer & Hfooter & Hsk & Hex & Hva).
  { cbn [skip_columnCount set_nodes blockSkipNodeArray blockCount].
    rewrite Hscc. fold C K. exact Hnodes'. }
  { cbn [skip_columnCount set_nodes]. rewrite Hscc. fold C. lia. }
  cbn [skip_columnCount set_nodes] in Hsk, Hex, Hva.
  rewrite Hscc in Hsk, Hex, Hva. fold C in Hsk, Hex, Hva.
  unfold PrepareStripe. rewrite Hb, Hsl. cbn [deref of_option bind].
  fold R. destruct (Z.eqb_spec R 0) as [|_]; [lia|]. cbn [bind].
  rewrite Hrc, (u32_small (n / R)), (u32_small (n mod R)) by lia.
  rewrite Hlast. cbn [bind]. rewrite Hb1. cbn [deref of_option bind].
  fold C. rewrite Hplace. cbn [bind]. rewrite Harray. cbn [bind].
  rewrite Hfooter. cbn [bind].
  eexists. split; [reflexivity|].
  cbn [si_stripeBuffers si_stripeSkipList si_writeState si_skipListBufferArray
       si_stripeFooter blockCount set_nodes blockDataArray set_stripe].
  fold K. split; [exact Hready|]. split; [exact Hflags1|]. lia.
Qed.
End SafeFlush.

Section SafeSession.
Context {host : Host} {collab : Collaborators}.
Hypothesis Hhost : host_ok.
Hypothesis Hcollab : collaborators_ok.

(** The three sections of a prepared stripe are written without undefined
    behaviour. *)
Lemma WriteStripe_safe image :
  let C := Z.to_nat (u32 (natts (tupleDescriptor (si_writeState image)))) in
  image_ok image ->
  writer_ok (si_writeState image) ->
  (C <= length (si_skipListBufferArray image))%nat ->
  all_below C
    (fun columnBuffers =>
       all_below (Z.to_nat (blockCount (si_stripeSkipList image)))
         block_ready (blockBuffersArray columnBuffers))
    (columnBuffersArray (si_stripeBuffers image)) ->
  safe (fun _ => True) (WriteStripe image).
Proof.
  intros C (Hskip & Hbuffers & Hfooter) Hwriter Harray Hready.
  unfold WriteStripe. fold C.
  set (ws := si_writeState image) in *.
  set (ok := fun ws' : TableWriteState =>
         writer_ok ws' /\ tupleDescriptor ws' = tupleDescriptor ws).
  apply (safe_bind ok).
  { unfold FlushSkipLists. apply (safe_for_loop (fun _ => ok)).
    - now split.
    - intros c t Hc [Ht Htd].
      destruct (lookup_lt_is_Some_2 (si_skipListBufferArray image) c)
        as [s Hs]; [lia|].
      rewrite (load_Ok _ _ _ Hs). cbn [bind].
      assert (Hlen : len s < MaxAllocSize).
      { apply (Forall_lookup_1 _ _ c s Hskip). now rewrite lookup_take_lt. }
      apply (safe_impl _ _ _ (WriteStringInfo_safe Hhost t s Ht Hlen)).
      intros ws' [Hw Htd']. split; [exact Hw|congruence]. }
  intros ws1 Hws1. apply (safe_bind ok).
  { apply (safe_for_loop (fun _ => ok)); [exact Hws1|].
    intros c t Hc [Ht Htd]. unfold FlushColumnData.
    destruct (Hready c Hc) as (cb & Hcb & Hblocks).
    rewrite (load_Ok _ _ _ Hcb). cbn [bind].
    pose proof (Forall_lookup_1 _ _ _ _ Hbuffers Hcb) as Hbounded.
    cbn beta in Hbounded.
    apply (safe_bind ok).
    - apply (safe_impl _ _ _
               (write_loop_safe Hhost _ (blockBuffersArray cb) existsBuffer t Ht
                  ltac:(intros b Hb;
                        destruct (Hblocks b Hb) as (bb & Hbb & [e He] & _);
                        exists bb; split; [exact Hbb|]; exists e;
                        split; [exact He|];
                        exact (proj1 (Forall_lookup_1 _ _ _ _ Hbounded Hbb)
                                 e He)))).
      intros ws' [Hw Htd']. split; [exact Hw|congruence].
    - intros t1 [Ht1 Htd1].
      apply (safe_impl _ _ _
               (write_loop_safe Hhost _ (blockBuffersArray cb) valueBuffer t1 Ht1
                  ltac:(intros b Hb;
                        destruct (Hblocks b Hb) as (bb & Hbb & _ & [v Hv]);
                        exists bb; split; [exact Hbb|]; exists v;
                        split; [exact Hv|];
                        exact (proj1 (proj2 (Forall_lookup_1 _ _ _ _ Hbounded
                                               Hbb)) v Hv)))).
      intros ws' [Hw Htd']. split; [exact Hw|congruence]. }
  intros ws2 [Hws2 _].
  apply (safe_impl _ _ _ (WriteStringInfo_safe Hhost ws2 _ Hws2 Hfooter)).
  intros; exact I.
Qed.

(** A stripe with rows is flushed without undefined behaviour; the flush
    leaves the working blocks their room and the session its tables. *)
Lemma FlushStripe_safe ws n :
  shaped ws n -> 1 <= n -> writer_ok ws -> buffers_ok ws ->
  let C := Z.to_nat (u32 (natts (tupleDescriptor ws))) in
  let R := u32 (blockRowCount (tableFooter ws)) in
  safe (fun flushed =>
          all_below C (fun blockData => R <= len (existsArray blockData))
            (blockDataArray (snd flushed))
          /\ tupleDescriptor (snd flushed) = tupleDescriptor ws
          /\ tableFooter (snd flushed) = tableFooter ws
          /\ stripeMaxRowCount (snd flushed) = stripeMaxRowCount ws
          /\ comparisonFunctionArray (snd flushed) = comparisonFunctionArray ws)
    (FlushStripe ws).
Proof.
  intros Hshaped Hn Hwriter Hok C R.
  pose proof Hshaped as (_ & _ & _ & Hwrap & _).
  destruct (PrepareStripe_total ws n Hshaped Hn)
    as (image & Hprep & Hready & Hflags & Harray & Hsk & Hex & Hva).
  fold C R in Hready, Hflags, Harray, Hsk, Hex, Hva.
  destruct (PrepareStripe_image_ok Hcollab ws image Hok Hwrap Hprep)
    as (Himage & _ & Hsame).
  pose proof Hsame as (Htf & _ & HS & _ & Htd & Hcfa & _ & Hactive & Hrel).
  assert (Hwriter1 : writer_ok (si_writeState image)).
  { unfold writer_ok. now rewrite Hrel, Hactive. }
  unfold FlushStripe. rewrite Hprep. cbn [bind].
  pose proof (WriteStripe_safe image Himage Hwriter1) as Hwrite.
  rewrite Htd in Hwrite. fold C in Hwrite. specialize (Hwrite Harray Hready).
  pose proof (WriteStripe_appended Hhost image) as Happended.
  destruct (WriteStripe image) as [ws2|e]; [|exact Hwrite]. cbn [bind].
  destruct (Happended ws2 Himage eq_refl)
    as (Htf2 & _ & HS2 & _ & Htd2 & _ & Hcfa2 & _ & _ & Hdata2 & _).
  rewrite Htd2, Htd. fold C.
  destruct (SumStripeSizes_total (u32 (natts (tupleDescriptor ws)))
              (si_stripeFooter image)) as ([skip data] & ->); try (fold C; lia).
  cbn [bind safe snd blockDataArray tupleDescriptor tableFooter stripeMaxRowCount
       comparisonFunctionArray set_footer].
  rewrite Hdata2, Htd2, Htf2, HS2, Hcfa2.
  split; [exact Hflags|]. auto.
Qed.

(** [CStoreWriteRow] on a row of the table. *)
Lemma CStoreWriteRow_safe ws columnValues columnNulls n :
  shaped ws n -> between_rows ws ->
  row_fits (tupleDescriptor ws) (columnValues, columnNulls) ->
  safe (fun ws' =>
          (exists n', shaped ws' n') /\ between_rows ws'
          /\ tupleDescriptor ws' = tupleDescriptor ws)
    (CStoreWriteRow ws columnValues columnNulls).
Proof.
  intros Hshaped Hbetween Hfits.
  pose proof (CStoreWriteRow_session Hhost Hcollab ws columnValues columnNulls)
    as Hnext.
  specialize (fun ws' => Hnext ws' Hbetween).
  destruct Hbetween as (Hsession & Hrows & Hmax).
  assert (Hroom : n < Z.max 1 (stripeMaxRowCount ws)).
  { pose proof Hshaped as (_ & _ & _ & _ & _ & _ & _ & Hopen).
    destruct (stripeBuffers ws) as [buffers|] eqn:Hb; [|lia].
    destruct Hopen as (sl & _ & Hrc & _).
    specialize (Hrows buffers Hb). lia. }
  pose proof (StageRow_safe ws columnValues columnNulls n Hshaped Hroom Hfits)
    as Hstage.
  assert (Hrows' : rows_bounded ws (2 ^ 32 - 1))
    by (apply (rows_bounded_le _ _ _ Hrows); lia).
  pose proof (StageRow_session Hcollab ws columnValues columnNulls)
    as Hsession1.
  unfold CStoreWriteRow in *.
  destruct (StageRow ws columnValues columnNulls) as [ws1|e]; [|exact Hstage].
  cbn [bind] in *. destruct Hstage as [Hshaped1 Hsame1].
  specialize (Hsession1 ws1 Hsession Hrows' eq_refl).
  pose proof Hshaped1 as (_ & _ & HR & _ & HS & _ & _ & Hopen1).
  pose proof Hshaped as (_ & _ & _ & _ & _ & Hn & _).
  destruct (stripeBuffers ws1) as [buffers1|] eqn:Hb1; [|lia].
  destruct Hopen1 as (sl1 & _ & Hrc1 & _).
  cbn [deref of_option bind] in *.
  pose proof Hsame1 as (Htf1 & _ & HS1 & _ & Htd1 & Hcfa1 & _).
  destruct (stripeMaxRowCount ws1 <=? rowCount buffers1).
  - destruct Hsession1 as (Hwriter1 & Hok1 & _).
    pose proof (FlushStripe_safe ws1 (n + 1) Hshaped1 ltac:(lia) Hwriter1 Hok1)
      as Hflush.
    destruct (FlushStripe ws1) as [[md ws2]|e]; [|exact Hflush].
    cbn [bind safe snd] in *.
    destruct Hflush as (Hflags2 & Htd2 & Htf2 & HS2 & Hcfa2).
    split; [|split; [exact (Hnext _ eq_refl)|cbn; congruence]].
    exists 0. unfold shaped.
    cbn [tupleDescriptor tableFooter stripeMaxRowCount comparisonFunctionArray
         blockDataArray stripeBuffers set_footer set_stripe MemoryContextReset
         set_blockData AppendStripeMetadata blockRowCount].
    rewrite Htd2, Htf2, HS2, Hcfa2.
    pose proof Hshaped1 as (Hattrs & Hfunctions & _ & Hwrap & _).
    split; [exact Hattrs|]. split; [exact Hfunctions|]. split; [exact HR|].
    split; [exact Hwrap|]. split; [exact HS|]. split; [lia|].
    split; [|reflexivity].
    intros c Hc. destruct (Hflags2 c Hc) as (bd & Hbd & Hlen).
    eexists. rewrite list_lookup_fmap, Hbd. split; [reflexivity|exact Hlen].
  - split; [eauto|]. split; [exact (Hnext _ eq_refl)|exact Htd1].
Qed.

Lemma WriteRows_safe rows ws n :
  shaped ws n -> between_rows ws ->
  Forall (row_fits (tupleDescriptor ws)) rows ->
  safe (fun ws' => (exists n', shaped ws' n') /\ between_rows ws')
    (WriteRows ws rows).
Proof.
  revert ws n. induction rows as [|[columnValues columnNulls] rows IH];
    intros ws n Hshaped Hbetween Hfit.
  - cbn. eauto.
  - cbn [WriteRows]. apply Forall_cons in Hfit as [Hrow Hfit].
    apply (safe_bind _ _ _ _
             (CStoreWriteRow_safe ws columnValues columnNulls n Hshaped Hbetween
                Hrow)).
    intros ws1 ((n1 & Hshaped1) & Hbetween1 & Htd1).
    apply (IH ws1 n1 Hshaped1 Hbetween1). now rewrite Htd1.
Qed.
End SafeSession.

Section SafeSessions.
Context {host : Host} {collab : Collaborators}.

(** X13. A session on a table goes through its rows without undefined
    behaviour. Let [CStoreBeginWrite] start it with a descriptor that has
    an attribute for each of its columns, a block row count of the footer
    between 1 and the block row count that was passed, and a stripe row
    count below [2 ^ 32 - 1]; let every row have a null flag for every
    column and, where the flag is not set, a datum of the column's type: a
    word for a type passed by value, else a pointer to an object that
    holds the bytes of the extent that its type, its header or its
    terminating NUL states. Then [CStoreWriteRow] on row after row, with
    the flushes it makes, either returns, with arrays that have room for
    the next row, or stops with an error that the host reports: it never
    indexes outside an array, reads past an object, follows a null buffer,
    divides by zero, trips an assertion or runs out of fuel. *)
Theorem rows_are_written_safely rel kind stripeRows blockRows logging
  descriptor ws0 rows :
  host_ok -> collaborators_ok ->
  fork_ok (dataFork rel) ->
  (forall footer, CStoreReadFooter rel = Some footer -> footer_ok footer) ->
  CStoreBeginWrite rel kind stripeRows blockRows logging descriptor = Ok ws0 ->
  let C := u32 (natts descriptor) in
  let R := u32 (blockRowCount (tableFooter ws0)) in
  1 <= C -> (Z.to_nat C <= length (attrs descriptor))%nat ->
  1 <= R -> R + 7 < 2 ^ 32 -> R <= blockRows ->
  0 <= stripeRows < 2 ^ 32 - 1 ->
  Forall (row_fits descriptor) rows ->
  match WriteRows ws0 rows with
  | Ok ws => exists n, shaped ws n
  | Err e => e = HostError
  end.
Proof.
  intros Hhost Hcollab Hfork Hfooter Hbegin C R HC Hattrs HR Hwrap Hrows HS Hfit.
  pose proof (CStoreBeginWrite_session rel kind stripeRows blockRows logging
                descriptor ws0 Hfork Hfooter HC Hbegin Hwrap ltac:(lia))
    as Hbetween.
  assert (Hshaped : shaped ws0 0 /\ tupleDescriptor ws0 = descriptor).
  { unfold CStoreBeginWrite in Hbegin. inv_bind Hbegin as u Hzero.
    inv_bind Hbegin as functions Hfunctions.
    apply ComparisonFunctions_spec in Hfunctions as [Hlength _].
    injection Hbegin as Hws0. subst ws0. split; [|reflexivity]. unfold shaped.
    cbn [tupleDescriptor tableFooter stripeMaxRowCount comparisonFunctionArray
         blockDataArray stripeBuffers] in *.
    fold C R. split; [exact Hattrs|]. split; [lia|]. split; [exact HR|].
    split; [exact Hwrap|]. split; [exact HS|]. split; [lia|].
    split; [|reflexivity]. unfold CreateEmptyBlockDataArray.
    apply all_below_replicate; [reflexivity|]. cbn [existsArray].
    unfold len. rewrite length_replicate. lia. }
  destruct Hshaped as [Hshaped Htd]. rewrite <- Htd in Hfit.
  pose proof (WriteRows_safe Hhost Hcollab rows ws0 0 Hshaped Hbetween Hfit)
    as Hsafe.
  destruct (WriteRows ws0 rows) as [ws|e]; [apply Hsafe|exact Hsafe].
Qed.
End SafeSessions.


Lemma mixed_rows_fit : Forall (@row_fits small_pages mixed_table) mixed_rows.
Proof.
  assert (Hcolumns : forall (c : nat) att,
            (c < Z.to_nat (u32 (natts mixed_table)))%nat ->
            attrs mixed_table !! c = Some att ->
            (c = 0%nat /\ att = int4_column) \/ (c = 1%nat /\ att = text_column)).
  { intros c att Hc Hatt.
    change (Z.to_nat (u32 (natts mixed_table))) with 2%nat in Hc.
    destruct c as [|[|c]]; [| |lia]; injection Hatt as <-; auto. }
  repeat constructor; intros c att Hc Hatt;
    destruct (Hcolumns c att Hc Hatt) as [[-> ->]|[-> ->]];
    eexists; (split; [reflexivity|]); intros Hnull; try discriminate;
    eexists; (split; [reflexivity|]);
    (split; [right; right; left; reflexivity|]);
    (split; [reflexivity|]); try (cbn; lia).
  - exists 3. split; [reflexivity|].
    split; [unfold len; cbn [length]; lia|unfold MaxAllocSize; lia].
  - exists 5. split; [reflexivity|].
    split; [unfold len; cbn [length]; lia|unfold MaxAllocSize; lia].
  - exists 1. split; [reflexivity|].
    split; [unfold len; cbn [length]; lia|unfold MaxAllocSize; lia].
  - exists 3. split; [reflexivity|].
    split; [unfold len; cbn [length]; lia|unfold MaxAllocSize; lia].
Qed.

Lemma rows_are_written_safely_witness :
  match @CStoreBeginWrite small_pages (plain_codec None 0) empty_relation
          COMPRESSION_NONE 4 2 false mixed_table with
  | Ok ws0 =>
      match @WriteRows small_pages (plain_codec None 0) ws0 mixed_rows with
      | Ok ws => exists n, shaped ws n
      | Err e => e = HostError
      end
  | Err _ => False
  end.
Proof.
  assert (Hfacts :
            match @CStoreBeginWrite small_pages (plain_codec None 0)
                    empty_relation COMPRESSION_NONE 4 2 false mixed_table with
            | Ok ws0 => blockRowCount (tableFooter ws0) = 2
            | Err _ => False
            end).
  { vm_compute. reflexivity. }
  destruct (@CStoreBeginWrite small_pages (plain_codec None 0) empty_relation
              COMPRESSION_NONE 4 2 false mixed_table) as [ws0|e] eqn:Hbegin;
    [|exact Hfacts].
  apply (@rows_are_written_safely small_pages (plain_codec None 0)
           empty_relation COMPRESSION_NONE 4 2 false mixed_table ws0
           mixed_rows small_pages_ok (plain_codec_ok None 0)).
  - split; [constructor|]. cbn. change (len []) with 0.
    unfold P_NEW, InvalidBlockNumber. lia.
  - intros footer Hread. discriminate.
  - exact Hbegin.
  - change (u32 (natts mixed_table)) with 2. lia.
  - change (u32 (natts mixed_table)) with 2. cbn. lia.
  - rewrite Hfacts. change (u32 2) with 2. lia.
  - rewrite Hfacts. change (u32 2) with 2. lia.
  - rewrite Hfacts. change (u32 2) with 2. lia.
  - lia.
  - apply mixed_rows_fit.
Defined.

(** ** The end of a session *)

Section SafeFooter.
Context {host : Host} {collab : Collaborators}.




End SafeFooter.

Section FooterForkKept.
Context {host : Host} {collab : Collaborators}.
Hypothesis Hhost : host_ok.
Hypothesis Hcollab : collaborators_ok.



End FooterForkKept.

Section SafeEnd.
Context {host : Host} {collab : Collaborators}.

End SafeEnd.


(** ** Packed data forks *)

Section PackedWrites.
Context {host : Host}.
Hypothesis Hhost : host_ok.
Variables (data : list byte) (dataLength : Z) (fork0 : list Page) (active0 : Z).
Hypothesis Hdata : dataLength <= len data.
Hypothesis Hint : dataLength < 2 ^ 31.

Lemma CopyIntoPage_upper offset page page' copySize :
  CopyIntoPage data dataLength offset page = Ok (page', copySize) ->
  pd_upper page' = pd_upper page.
Proof.
  unfold CopyIntoPage. intros H. inv_bind H as u Hassert. inv_bind H as u' Hfit.
  now injection H as <- _.
Qed.

Lemma filled_full page :
  page_ok page -> pd_upper page = BLCKSZ -> page_full page -> filled page.
Proof. intros (_ & Hle & _) Hupper Hfull. unfold filled, page_full in *. lia. Qed.

(** An iteration of [WriteToFile] at the end of a dense fork keeps the
    fork dense, and leaves the writer on its last page. *)
Lemma WriteToFile_step_packed st st' :
  write_invariant data dataLength fork0 active0 st ->
  pack_invariant fork0 dataLength st ->
  dw_dataOffset st < dataLength ->
  WriteToFile_step data dataLength (len fork0) st = Ok st' ->
  pack_invariant fork0 dataLength st'
  /\ dw_activeBlockNumber st' + 1 = len (dw_fork st').
Proof.
  intros (Hpages & Hlen & Hoff & Hbn & Hact0 & Hbytes & Hend)
    ((Hupper & Hdense) & Hlast & Hbeyond & Hfilled) Hrest Hstep.
  pose proof (len_nonneg fork0). pose proof (len_nonneg (dw_fork st)).
  unfold WriteToFile_step in Hstep.
  destruct (Z.leb_spec (len fork0) (dw_blockNumber st)) as [Hnew|Hold].
  - specialize (Hbeyond Hnew). specialize (Hfilled Hbeyond Hrest).
    unfold ReadBufferExtended in Hstep. rewrite Z.eqb_refl in Hstep.
    destruct (Z.ltb_spec (len (dw_fork st)) P_NEW) as [Hroom|]; [|discriminate].
    cbn [bind] in Hstep. unfold BufferGetPage in Hstep.
    replace (Z.to_nat (len (dw_fork st))) with (length (dw_fork st) + 0)%nat
      in Hstep by (unfold len; lia).
    rewrite lookup_app_r in Hstep by lia.
    replace (length (dw_fork st) + 0 - length (dw_fork st))%nat with 0%nat
      in Hstep by lia.
    cbn [lookup list_lookup of_option bind] in Hstep.
    destruct (CopyIntoPage_spec Hhost data dataLength (dw_dataOffset st)
                (PageInit zero_page) (page_ok_PageInit Hhost _))
      as (page' & Hcopy & Hok' & _ & _ & Hfull'); try lia.
    cbn zeta in *. rewrite Hcopy in Hstep. cbn [bind] in Hstep.
    apply CopyIntoPage_upper in Hcopy. cbn [pd_upper PageInit] in Hcopy.
    set (copySize := Z.min (pd_upper (PageInit zero_page)
                            - pd_lower (PageInit zero_page))
                       (dataLength - dw_dataOffset st)) in *.
    assert (Hcs : 1 <= copySize <= dataLength - dw_dataOffset st).
    { pose proof (PageInit_has_room Hhost zero_page). unfold copySize. lia. }
    clearbody copySize.
    rewrite insert_app_r in Hstep. cbn [insert list_insert] in Hstep.
    unfold P_NEW, InvalidBlockNumber in *.
    rewrite u32_small, i32_small in Hstep by lia.
    injection Hstep as <-.
    unfold pack_invariant.
    cbn [dw_fork dw_blockNumber dw_dataOffset dw_activeBlockNumber].
    rewrite len_app. change (len [page']) with 1.
    split; [|lia]. split; [|split; [lia|split; [lia|]]].
    + split; [apply Forall_app; split; [exact Hupper|now constructor]|].
      intros b p Hb Hnext. rewrite length_app in Hnext. cbn [length] in Hnext.
      rewrite lookup_app_l in Hb by lia.
      exact (Forall_lookup_1 _ _ _ _ Hfilled Hb).
    + intros _ Hmore. apply Forall_app. split; [exact Hfilled|].
      constructor; [|constructor].
      apply filled_full; [exact Hok'|exact Hcopy|apply Hfull'; lia].
  - assert (Hblock : dw_blockNumber st = len (dw_fork st) - 1) by lia.
    unfold ReadBufferExtended in Hstep.
    destruct (Z.eqb_spec (dw_blockNumber st) P_NEW) as [|_]; [lia|].
    destruct (dw_fork st !! Z.to_nat (dw_blockNumber st)) as [page|] eqn:Hpage;
      [|discriminate].
    cbn [bind] in Hstep. unfold BufferGetPage in Hstep. rewrite Hpage in Hstep.
    cbn [of_option bind] in Hstep.
    assert (Hok : page_ok page) by (eapply Forall_lookup_1; eauto).
    destruct (CopyIntoPage_spec Hhost data dataLength (dw_dataOffset st) page Hok)
      as (page' & Hcopy & Hok' & _ & _ & Hfull'); try lia.
    cbn zeta in *. rewrite Hcopy in Hstep. cbn [bind] in Hstep.
    apply CopyIntoPage_upper in Hcopy.
    rewrite (Forall_lookup_1 _ _ _ _ Hupper Hpage) in Hcopy.
    set (copySize := Z.min (pd_upper page - pd_lower page)
                       (dataLength - dw_dataOffset st)) in *.
    assert (Hcs : 0 <= copySize <= dataLength - dw_dataOffset st).
    { destruct Hok as (? & ? & ?). unfold copySize. lia. }
    clearbody copySize.
    unfold P_NEW, InvalidBlockNumber in *.
    rewrite u32_small, i32_small in Hstep by lia.
    injection Hstep as <-.
    unfold pack_invariant.
    cbn [dw_fork dw_blockNumber dw_dataOffset dw_activeBlockNumber].
    rewrite len_insert.
    split; [|lia]. split; [|split; [lia|split; [lia|]]].
    + split; [now apply Forall_insert|].
      intros b p Hb Hnext. rewrite length_insert in Hnext.
      rewrite list_lookup_insert_ne in Hb by (unfold len in *; lia).
      exact (Hdense b p Hb Hnext).
    + intros _ Hmore. apply Forall_lookup_2. intros b p Hb.
      destruct (Nat.eq_dec b (Z.to_nat (dw_blockNumber st))) as [->|Hne].
      * rewrite list_lookup_insert_eq in Hb
          by (apply lookup_lt_Some in Hpage; exact Hpage).
        injection Hb as <-.
        apply filled_full; [exact Hok'|exact Hcopy|apply Hfull'; lia].
      * rewrite list_lookup_insert_ne in Hb by lia.
        apply (Hdense b p Hb). apply lookup_lt_Some in Hb. unfold len in *. lia.
Qed.

Lemma WriteToFile_loop_packed fuel st st' :
  write_invariant data dataLength fork0 active0 st ->
  pack_invariant fork0 dataLength st ->
  WriteToFile_loop fuel data dataLength (len fork0) st = Ok st' ->
  pack_invariant fork0 dataLength st'
  /\ (dw_dataOffset st < dataLength ->
      dw_activeBlockNumber st' + 1 = len (dw_fork st')).
Proof.
  revert st. induction fuel as [|fuel IH]; intros st Hinv Hpack Hrun.
  - pose proof Hinv as (_ & _ & Hoff & _).
    cbn [WriteToFile_loop] in Hrun. rewrite u32_small in Hrun by lia.
    destruct (Z.ltb_spec (dw_dataOffset st) dataLength); [discriminate|].
    injection Hrun as <-. split; [exact Hpack|lia].
  - pose proof Hinv as (_ & _ & Hoff & _).
    cbn [WriteToFile_loop] in Hrun. rewrite u32_small in Hrun by lia.
    destruct (Z.ltb_spec (dw_dataOffset st) dataLength) as [Hrest|Hdone];
      [|injection Hrun as <-; split; [exact Hpack|lia]].
    inv_bind Hrun as st1 Hstep.
    pose proof (WriteToFile_step_spec Hhost data dataLength fork0 active0 Hdata
                  Hint st Hinv Hrest) as Hspec.
    rewrite Hstep in Hspec. destruct Hspec as (Hinv1 & _).
    destruct (WriteToFile_step_packed st st1 Hinv Hpack Hrest Hstep)
      as [Hpack1 Hactive1].
    destruct (IH st1 Hinv1 Hpack1 Hrun) as [Hpack' Hactive'].
    split; [exact Hpack'|]. intros _.
    pose proof Hinv1 as (_ & _ & Hoff1 & _).
    destruct (Z.lt_ge_cases (dw_dataOffset st1) dataLength) as [Hmore|Hend];
      [exact (Hactive' Hmore)|].
    destruct fuel; cbn [WriteToFile_loop] in Hrun;
      rewrite u32_small in Hrun by lia;
      (destruct (Z.ltb_spec (dw_dataOffset st1) dataLength); [lia|]);
      injection Hrun as <-; exact Hactive1.
Qed.
End PackedWrites.

Section PackedWriter.
Context {host : Host}.
Hypothesis Hhost : host_ok.

(** [WriteToFile] keeps the data fork packed. *)
Lemma WriteToFile_packed ws data dataLength ws' :
  writer_ok ws ->
  packed (dataFork (relation ws)) (activeBlockNumber ws) ->
  0 <= dataLength <= len data -> dataLength < 2 ^ 31 ->
  WriteToFile ws data dataLength = Ok ws' ->
  packed (dataFork (relation ws')) (activeBlockNumber ws').
Proof.
  intros [Hfork Hactive] (Hdense & Hend & Hfilled) [Hpos Hdata] Hint Hrun.
  unfold WriteToFile in Hrun.
  destruct (Z.eqb_spec dataLength 0) as [|Hnz];
    [injection Hrun as <-; now split|].
  inv_bind Hrun as st Hloop. injection Hrun as <-.
  cbn [relation dataFork activeBlockNumber set_dataFork].
  pose proof (write_invariant_start data dataLength ws Hfork Hactive Hpos)
    as Hstart.
  assert (Hpack : pack_invariant (dataFork (relation ws)) dataLength
                    (WriteToFile_start ws)).
  { unfold pack_invariant, WriteToFile_start.
    cbn [dw_fork dw_blockNumber dw_dataOffset].
    destruct Hend as [_ Hlast]. split; [exact Hdense|]. split; [exact Hlast|].
    split; [auto|]. intros Hbeyond _. exact (Hfilled Hbeyond). }
  destruct (WriteToFile_loop_packed Hhost data dataLength _ _ Hdata Hint _ _ _
              Hstart Hpack Hloop) as [(Hdense' & _) Hactive'].
  specialize (Hactive' ltac:(cbn; lia)).
  assert (Hbound : iterations_left dataLength (len (dataFork (relation ws)))
                     (WriteToFile_start ws)
                   <= Z.of_nat (WriteToFile_fuel (dataFork (relation ws))
                                  dataLength)).
  { unfold iterations_left, WriteToFile_fuel, WriteToFile_start, len; cbn. lia. }
  pose proof (WriteToFile_loop_spec Hhost data dataLength _ _ Hdata Hint _ _
                Hstart Hbound) as Hspec.
  rewrite Hloop in Hspec. destruct Hspec as ((_ & _ & _ & _ & Hact' & _) & _).
  split; [exact Hdense'|]. split; [split; [exact Hact'|lia]|]. lia.
Qed.
End PackedWriter.

Section PackedSession.
Context {host : Host} {collab : Collaborators}.
Hypothesis Hhost : host_ok.
Hypothesis Hcollab : collaborators_ok.

Local Abbreviation stands_packed ws :=
  (writer_ok ws /\ packed (dataFork (relation ws)) (activeBlockNumber ws)).

Lemma WriteStringInfo_packed ws s ws' :
  stands_packed ws -> len s < MaxAllocSize ->
  WriteStringInfo ws s = Ok ws' -> stands_packed ws'.
Proof.
  intros [[Hfork Hactive] Hpacked] Hlen Hrun. pose proof (len_nonneg s) as Hpos.
  unfold MaxAllocSize in Hlen. unfold WriteStringInfo in Hrun.
  rewrite u32_small in Hrun by lia.
  destruct (WriteToFile_Ok ws s (len s) ws' Hhost Hfork Hactive ltac:(lia)
              ltac:(lia) Hrun) as (Hfork' & Hactive' & _).
  split; [split; assumption|].
  apply (WriteToFile_packed Hhost ws s (len s) ws'); try assumption; try lia.
  split; assumption.
Qed.

Lemma write_loop_packed {A} (count : nat) (array : list A)
  (buffer_of : A -> option (list byte)) ws ws' :
  stands_packed ws ->
  (forall i x s, (i < count)%nat -> array !! i = Some x ->
     buffer_of x = Some s -> len s < MaxAllocSize) ->
  for_loop count
    (fun index writeState =>
       do x <- load array (Z.of_nat index);
       do s <- deref (buffer_of x);
       WriteStringInfo writeState s)
    ws = Ok ws' ->
  stands_packed ws'.
Proof.
  intros Hstart Hbounded.
  apply (for_loop_invariant (fun _ t => stands_packed t)); [exact Hstart|].
  intros i t t' Hi Ht Hbody. inv_bind Hbody as x Hx. inv_bind Hbody as s Hs.
  apply load_nat in Hx. unfold deref, of_option in Hs.
  destruct (buffer_of x) as [s0|] eqn:Hbuffer; [|discriminate].
  injection Hs as ->.
  exact (WriteStringInfo_packed t s t' Ht (Hbounded i x s Hi Hx Hbuffer) Hbody).
Qed.

Lemma WriteStripe_packed image ws' :
  image_ok image -> stands_packed (si_writeState image) ->
  WriteStripe image = Ok ws' -> stands_packed ws'.
Proof.
  intros (Hskip & Hbuffers & Hfooter) Hstart Hrun. unfold WriteStripe in Hrun.
  inv_bind Hrun as ws1 Hlists. inv_bind Hrun as ws2 Hdata.
  set (C := Z.to_nat (u32 (natts (tupleDescriptor (si_writeState image))))) in *.
  assert (H1 : stands_packed ws1).
  { revert Hlists. unfold FlushSkipLists.
    apply (for_loop_invariant (fun _ t => stands_packed t)); [exact Hstart|].
    intros c t t' Hc Ht Hbody. inv_bind Hbody as s Hs. apply load_nat in Hs.
    apply (WriteStringInfo_packed t s t' Ht); [|exact Hbody].
    apply (Forall_lookup_1 _ _ c s Hskip). now rewrite lookup_take_lt. }
  assert (H2 : stands_packed ws2).
  { revert Hdata.
    apply (for_loop_invariant (fun _ t => stands_packed t)); [exact H1|].
    intros c t t' Hc Ht Hbody. unfold FlushColumnData in Hbody.
    inv_bind Hbody as cb Hcb. apply load_nat in Hcb.
    inv_bind Hbody as t1 Hexists.
    pose proof (Forall_lookup_1 _ _ _ _ Hbuffers Hcb) as Hbounded.
    cbn beta in Hbounded.
    assert (Ht1 : stands_packed t1).
    { apply (write_loop_packed (Z.to_nat (blockCount (si_stripeSkipList image)))
               (blockBuffersArray cb) existsBuffer t t1 Ht);
        [|exact Hexists].
      intros b bb e _ Hbb He.
      exact (proj1 (Forall_lookup_1 _ _ _ _ Hbounded Hbb) e He). }
    apply (write_loop_packed (Z.to_nat (blockCount (si_stripeSkipList image)))
             (blockBuffersArray cb) valueBuffer t1 t' Ht1);
      [|exact Hbody].
    intros b bb v _ Hbb Hv.
    exact (proj1 (proj2 (Forall_lookup_1 _ _ _ _ Hbounded Hbb)) v Hv). }
  exact (WriteStringInfo_packed ws2 _ ws' H2 Hfooter Hrun).
Qed.

(** A flush keeps the data fork packed. *)
Lemma FlushStripe_packed ws stripeMetadata ws' :
  buffers_ok ws -> u32 (blockRowCount (tableFooter ws)) + 7 < 2 ^ 32 ->
  stands_packed ws ->
  FlushStripe ws = Ok (stripeMetadata, ws') -> stands_packed ws'.
Proof.
  intros Hok Hwrap [Hwriter Hpacked] Hflush. unfold FlushStripe in Hflush.
  inv_bind Hflush as image Hprep. inv_bind Hflush as ws2 Hwrite.
  inv_bind Hflush as [skip data] Hsum. injection Hflush as _ <-.
  destruct (PrepareStripe_image_ok Hcollab ws image Hok Hwrap Hprep)
    as (Himage & _ & Hsame).
  destruct Hsame as (_ & _ & _ & _ & _ & _ & _ & Hactive & Hrel).
  apply (WriteStripe_packed image ws2 Himage); [|exact Hwrite].
  unfold writer_ok. rewrite Hrel, Hactive. now split.
Qed.

Lemma CStoreWriteRow_packed ws columnValues columnNulls ws' :
  between_rows ws -> stands_packed ws ->
  CStoreWriteRow ws columnValues columnNulls = Ok ws' -> stands_packed ws'.
Proof.
  intros (Hsession & Hrows & Hmax) Hpacked Hwrite.
  unfold CStoreWriteRow in Hwrite.
  inv_bind Hwrite as ws1 Hstage. inv_bind Hwrite as buffers Hbuffers.
  assert (Hrows' : rows_bounded ws (2 ^ 32 - 1))
    by (apply (rows_bounded_le _ _ _ Hrows); lia).
  pose proof (StageRow_session Hcollab _ _ _ _ Hsession Hrows' Hstage)
    as (_ & Hok1 & Hwrap1 & _).
  assert (Hpacked1 : stands_packed ws1).
  { apply StageRow_spec in Hstage
      as (_ & _ & _ & _ & _ & _ & _ & _ & _ & _ & _ & Hsame).
    destruct Hsame as (_ & _ & _ & _ & _ & _ & _ & Hactive & Hrel).
    unfold writer_ok. rewrite Hrel, Hactive. exact Hpacked. }
  destruct (stripeMaxRowCount ws1 <=? rowCount buffers).
  - inv_bind Hwrite as [md ws2] Hflush. injection Hwrite as <-.
    exact (FlushStripe_packed _ _ _ Hok1 Hwrap1 Hpacked1 Hflush).
  - now injection Hwrite as <-.
Qed.

Lemma WriteRows_packed rows ws ws' :
  between_rows ws -> stands_packed ws ->
  WriteRows ws rows = Ok ws' -> stands_packed ws'.
Proof.
  revert ws. induction rows as [|[columnValues columnNulls] rows IH];
    intros ws Hsession Hpacked Hrun.
  - now injection Hrun as <-.
  - cbn [WriteRows] in Hrun. inv_bind Hrun as ws1 Hwrite.
    apply (IH ws1); [| |exact Hrun].
    + exact (CStoreWriteRow_session Hhost Hcollab _ _ _ _ Hsession Hwrite).
    + exact (CStoreWriteRow_packed _ _ _ _ Hsession Hpacked Hwrite).
Qed.
End PackedSession.

Section PackedBytes.
Context {host : Host}.
Hypothesis Hhost : host_ok.

(** Full pages hold as many bytes as a page has room for. *)
Lemma filled_bytes fork :
  Forall page_ok fork -> Forall filled fork ->
  len (fork_bytes fork) = CSTORE_PAGE_DATA_SIZE * len fork.
Proof.
  intros Hpages Hfilled. induction Hpages as [|p fork Hp _ IH].
  - change (len (fork_bytes [])) with 0. change (len []) with 0. lia.
  - apply Forall_cons in Hfilled as [Hfull Hrest].
    change (fork_bytes (p :: fork)) with (payload p ++ fork_bytes fork).
    rewrite len_app, (len_payload p Hp), (IH Hrest).
    unfold filled in Hfull. unfold CSTORE_PAGE_DATA_SIZE, len. cbn [length]. lia.
Qed.

(** The block that holds the end of the bytes of a dense fork is the block
    on which the fork is packed: this is the block on which
    [CStoreBeginWrite] resumes. *)
Lemma packed_resume fork :
  fork_ok fork -> dense fork ->
  packed fork (u32 (len (fork_bytes fork) / u64 CSTORE_PAGE_DATA_SIZE)).
Proof.
  intros [Hpages Hmax] Hdense. pose proof Hhost as (Hh0 & Hh1 & Hh2).
  assert (HD : 0 < CSTORE_PAGE_DATA_SIZE < 2 ^ 15)
    by (unfold CSTORE_PAGE_DATA_SIZE; lia).
  rewrite (u64_small CSTORE_PAGE_DATA_SIZE) by lia.
  unfold P_NEW, InvalidBlockNumber in Hmax.
  induction fork as [|final init _] using rev_ind.
  - change (len (fork_bytes [])) with 0. rewrite Z.div_0_l by lia.
    change (u32 0) with 0.
    split; [exact Hdense|]. split; [split; [lia|change (len []) with 0; lia]|].
    intros _. constructor.
  - apply Forall_app in Hpages as [Hinit Hfinal].
    apply Forall_cons in Hfinal as [Hfinal _].
    assert (Hfull : Forall filled init).
    { apply Forall_lookup_2. intros b p Hb. destruct Hdense as [_ Hdense].
      apply (Hdense b p); [now rewrite lookup_app_l by (eapply lookup_lt_Some; eauto)|].
      rewrite length_app. cbn [length]. apply lookup_lt_Some in Hb. lia. }
    rewrite fork_bytes_app, fork_bytes_singleton, len_app,
      (filled_bytes init Hinit Hfull), (len_payload final Hfinal).
    rewrite len_app in *. change (len [final]) with 1 in *.
    pose proof (len_nonneg init) as Hlen.
    destruct Hfinal as (Hlow & Hle & Hup & _).
    set (D := CSTORE_PAGE_DATA_SIZE) in *.
    set (rest := pd_lower final - SizeOfPageHeaderData).
    assert (Hrest : 0 <= rest <= D)
      by (unfold rest, D, CSTORE_PAGE_DATA_SIZE; lia).
    destruct (Z.eq_dec rest D) as [Hall|Hpart].
    + assert (Hblock : (D * len init + rest) / D = len init + 1).
      { symmetry. apply (Z.div_unique _ D _ 0); lia. }
      rewrite Hblock, u32_small by lia.
      unfold packed, at_end. rewrite len_app. change (len [final]) with 1.
      split; [exact Hdense|]. split; [split; lia|].
      intros _. apply Forall_app. split; [exact Hfull|].
      constructor; [|constructor].
      unfold filled, rest, D, CSTORE_PAGE_DATA_SIZE in *. lia.
    + assert (Hblock : (D * len init + rest) / D = len init).
      { symmetry. apply (Z.div_unique _ D _ rest); lia. }
      rewrite Hblock, u32_small by lia.
      unfold packed, at_end. rewrite len_app. change (len [final]) with 1.
      split; [exact Hdense|]. split; [split; lia|]. lia.
Qed.
End PackedBytes.

(** The offset that [CStoreBeginWrite] computes from a footer in order. *)
Lemma resume_offset footer offset :
  footer_ok footer ->
  (forall stripe, last (stripeMetadataList footer) = Some stripe ->
     offset = stripe_end stripe) ->
  (stripeMetadataList footer = [] -> offset = 0) ->
  match last (stripeMetadataList footer) with
  | Some lastStripe =>
      u64 (fileOffset lastStripe
           + u64 (u64 (u64 (0 + skipListLength lastStripe)
                       + dataLength lastStripe)
                  + footerLength lastStripe))
  | None => 0
  end = offset.
Proof.
  intros [_ Hok] Hlast Hempty.
  destruct (last (stripeMetadataList footer)) as [stripe|] eqn:Hstripe.
  - rewrite (Hlast stripe eq_refl).
    destruct (Hok stripe eq_refl) as (H1 & H2 & H3 & H4 & H5 & H6).
    unfold stripe_end in *. rewrite Z.add_0_l.
    rewrite (u64_small (skipListLength stripe)) by lia.
    rewrite (u64_small (skipListLength stripe + dataLength stripe)) by lia.
    rewrite (u64_small (skipListLength stripe + dataLength stripe
                        + footerLength stripe)) by lia.
    rewrite u64_small by lia. lia.
  - symmetry. apply Hempty. apply last_None in Hstripe. exact Hstripe.
Qed.

Section ResumableSessions.
Context {host : Host} {collab : Collaborators}.
Hypothesis Hhost : host_ok.
Hypothesis Hcollab : collaborators_ok.

(** After a flush and the new entry of the footer the session can be
    resumed. *)
Lemma FlushStripe_resumable ws stripeMetadata ws2 ws' :
  session_ok ws -> resumable ws ->
  FlushStripe ws = Ok (stripeMetadata, ws2) ->
  tableFooter ws' = AppendStripeMetadata (tableFooter ws2) stripeMetadata ->
  currentFileOffset ws' = currentFileOffset ws2 ->
  relation ws' = relation ws2 ->
  activeBlockNumber ws' = activeBlockNumber ws2 ->
  resumable ws'.
Proof.
  intros Hsession (Hpacked & Hexact & Hfooter & Hzero) Hflush Htf Hcfo Hrel
    Hactive.
  pose proof (flushed_offset_ok Hhost Hcollab ws stripeMetadata ws2 ws' Hsession
                Hflush Htf Hcfo Hrel) as (Hchain & _).
  pose proof (FlushStripe_stream Hhost Hcollab ws stripeMetadata ws2 Hsession
                Hexact Hflush) as Hexact2.
  destruct (FlushStripe_offsets Hhost Hcollab _ _ _ Hsession Hflush)
    as (image & _ & Hstart & Hskip & Hdata & Hfoot & Hpos & Hend & Hwriter2 & _).
  pose proof Hsession as (Hwriter & Hok & Hwrap & _ & _ & _ & _ & Hcfo0 & _).
  destruct (FlushStripe_packed Hhost Hcollab ws stripeMetadata ws2 Hok Hwrap
              (conj Hwriter Hpacked) Hflush) as [_ Hpacked2].
  rewrite Htf in Hchain.
  unfold resumable. rewrite Hrel, Hactive, Hcfo, Htf.
  split; [exact Hpacked2|]. split; [exact Hexact2|]. split.
  - split; [exact Hchain|]. cbn [AppendStripeMetadata stripeMetadataList].
    intros stripe Hstripe. rewrite last_snoc in Hstripe. injection Hstripe as <-.
    pose proof (len_nonneg (skip_region image)).
    pose proof (len_nonneg (si_stripeFooterBuffer image)).
    pose proof (fork_bytes_bound Hhost _ (proj1 Hwriter2)) as Hbound.
    unfold stripe_ok. rewrite <- Hend, Hexact2. unfold stripe_end in Hend.
    repeat split; lia.
  - cbn [AppendStripeMetadata stripeMetadataList]. intros Hnil.
    apply app_eq_nil in Hnil as [_ Hnil]. discriminate.
Qed.

Lemma CStoreWriteRow_resumable ws columnValues columnNulls ws' :
  between_rows ws -> resumable ws ->
  CStoreWriteRow ws columnValues columnNulls = Ok ws' -> resumable ws'.
Proof.
  intros (Hsession & Hrows & Hmax) Hresumable Hwrite.
  unfold CStoreWriteRow in Hwrite.
  inv_bind Hwrite as ws1 Hstage. inv_bind Hwrite as buffers Hbuffers.
  assert (Hrows' : rows_bounded ws (2 ^ 32 - 1))
    by (apply (rows_bounded_le _ _ _ Hrows); lia).
  pose proof (StageRow_session Hcollab _ _ _ _ Hsession Hrows' Hstage)
    as Hsession1.
  assert (Hresumable1 : resumable ws1).
  { apply StageRow_spec in Hstage
      as (_ & _ & _ & _ & _ & _ & _ & _ & _ & _ & _ & Hsame).
    destruct Hsame as (Htf & _ & _ & _ & _ & _ & Hcfo & Hactive & Hrel).
    unfold resumable. rewrite Htf, Hcfo, Hactive, Hrel. exact Hresumable. }
  destruct (stripeMaxRowCount ws1 <=? rowCount buffers).
  - inv_bind Hwrite as [md ws2] Hflush. injection Hwrite as <-.
    apply (FlushStripe_resumable ws1 md ws2 _ Hsession1 Hresumable1 Hflush);
      reflexivity.
  - now injection Hwrite as <-.
Qed.

Lemma WriteRows_resumable rows ws ws' :
  between_rows ws -> resumable ws ->
  WriteRows ws rows = Ok ws' -> resumable ws'.
Proof.
  revert ws. induction rows as [|[columnValues columnNulls] rows IH];
    intros ws Hsession Hresumable Hrun.
  - now injection Hrun as <-.
  - cbn [WriteRows] in Hrun. inv_bind Hrun as ws1 Hwrite.
    apply (IH ws1); [| |exact Hrun].
    + exact (CStoreWriteRow_session Hhost Hcollab _ _ _ _ Hsession Hwrite).
    + exact (CStoreWriteRow_resumable _ _ _ _ Hsession Hresumable Hwrite).
Qed.

Lemma CStoreEndWrite_resumable ws ws' :
  session_ok ws -> resumable ws ->
  CStoreEndWrite ws = Ok ws' ->
  resumable ws' /\ fork_ok (dataFork (relation ws')).
Proof.
  intros Hsession Hresumable Hend. unfold CStoreEndWrite in Hend.
  inv_bind Hend as ws1 Hflush. inv_bind Hend as written Hwritten.
  injection Hend as <-. unfold resumable.
  cbn [relation dataFork activeBlockNumber currentFileOffset tableFooter].
  assert (H1 : resumable ws1 /\ fork_ok (dataFork (relation ws1)));
    [|exact H1].
  unfold FlushOpenStripe in Hflush.
  destruct (stripeBuffers ws) as [buffers|].
  - inv_bind Hflush as [md ws2] Hflush2. injection Hflush as <-.
    split.
    + apply (FlushStripe_resumable ws md ws2 _ Hsession Hresumable Hflush2);
        reflexivity.
    + destruct (FlushStripe_offsets Hhost Hcollab _ _ _ Hsession Hflush2)
        as (image & _ & _ & _ & _ & _ & _ & _ & Hwriter2 & _).
      apply Hwriter2.
  - injection Hflush as <-. split; [exact Hresumable|apply Hsession].
Qed.

(** X15. Sessions follow each other on the same data fork. [WriteToFile]
    fills a page before it goes to the next, so the data fork of a session
    that starts at the end of a dense fork stays dense, and its file offset
    stays the number of bytes on the fork. After [CStoreEndWrite] the
    position that [CStoreBeginWrite] derives from the footer for the next
    session, the end of the last stripe and the block that this offset
    divided by the page data size gives, is again the end of the data fork:
    the next session starts as this one did. *)
Theorem sessions_resume_at_the_end rel kind stripeRows blockRows logged
  descriptor ws0 rows ws ws' :
  fork_ok (dataFork rel) ->
  1 <= u32 (natts descriptor) ->
  CStoreBeginWrite rel kind stripeRows blockRows logged descriptor = Ok ws0 ->
  u32 (blockRowCount (tableFooter ws0)) + 7 < 2 ^ 32 ->
  stripeRows < 2 ^ 32 ->
  resumable ws0 ->
  WriteRows ws0 rows = Ok ws ->
  CStoreEndWrite ws = Ok ws' ->
  resumable ws'
  /\ fork_ok (dataFork (relation ws'))
  /\ forall rel2 kind2 stripeRows2 blockRows2 logged2 descriptor2 ws2,
       dataFork rel2 = dataFork (relation ws') ->
       CStoreReadFooter rel2 = Some (tableFooter ws') ->
       CStoreBeginWrite rel2 kind2 stripeRows2 blockRows2 logged2 descriptor2
         = Ok ws2 ->
       resumable ws2.
Proof.
  intros Hfork Hcolumns Hbegin Hwrap Hmax Hresumable0 Hrows Hend.
  assert (Hfooter0 : forall footer,
            CStoreReadFooter rel = Some footer -> footer_ok footer).
  { intros footer Hread. destruct Hresumable0 as (_ & _ & Hok & _).
    unfold CStoreBeginWrite in Hbegin. rewrite Hread in Hbegin.
    inv_bind Hbegin as u Hzero. inv_bind Hbegin as functions Hfunctions.
    injection Hbegin as <-. exact Hok. }
  pose proof (CStoreBeginWrite_session rel kind stripeRows blockRows logged
                descriptor ws0 Hfork Hfooter0 Hcolumns Hbegin Hwrap Hmax)
    as Hbetween0.
  pose proof (WriteRows_session Hhost Hcollab _ _ _ Hbetween0 Hrows)
    as (Hsession & _).
  pose proof (WriteRows_resumable rows ws0 ws Hbetween0 Hresumable0 Hrows)
    as Hresumable.
  destruct (CStoreEndWrite_resumable ws ws' Hsession Hresumable Hend)
    as [Hresumable' Hfork'].
  split; [exact Hresumable'|]. split; [exact Hfork'|].
  intros rel2 kind2 stripeRows2 blockRows2 logged2 descriptor2 ws2 Hdata Hread
    Hbegin2.
  destruct Hresumable' as (Hpacked' & Hexact' & Hfooter' & Hzero').
  unfold CStoreBeginWrite in Hbegin2. rewrite Hread in Hbegin2.
  inv_bind Hbegin2 as u Hzero. inv_bind Hbegin2 as functions Hfunctions.
  injection Hbegin2 as <-. unfold resumable.
  cbn [relation activeBlockNumber currentFileOffset tableFooter].
  assert (Hoffset : forall stripe,
            last (stripeMetadataList (tableFooter ws')) = Some stripe ->
            currentFileOffset ws' = stripe_end stripe).
  { assert (Hoffset1 : offset_ok ws').
    { unfold CStoreEndWrite in Hend. inv_bind Hend as ws1 Hflush.
      inv_bind Hend as written Hwritten. injection Hend as <-.
      unfold offset_ok.
      cbn [relation dataFork currentFileOffset tableFooter].
      assert (H1 : offset_ok ws1); [|exact H1].
      unfold FlushOpenStripe in Hflush.
      destruct (stripeBuffers ws) as [buffers|].
      - inv_bind Hflush as [md ws3] Hflush3. injection Hflush as <-.
        apply (flushed_offset_ok Hhost Hcollab ws md ws3 _ Hsession Hflush3);
          reflexivity.
      - injection Hflush as <-. apply Hsession. }
    intros stripe Hstripe. destruct Hoffset1 as (_ & Hlast & _).
    apply (Hlast stripe Hstripe). }
  rewrite (resume_offset (tableFooter ws') (currentFileOffset ws') Hfooter'
             Hoffset Hzero').
  rewrite Hexact', Hdata.
  split; [apply (packed_resume Hhost _ Hfork'); apply Hpacked'|].
  split; [reflexivity|]. split; [exact Hfooter'|].
  intros Hnil. rewrite <- Hexact'. exact (Hzero' Hnil).
Qed.
End ResumableSessions.

Lemma reading_codec_ok footer : @collaborators_ok (reading_codec footer).
Proof.
  unfold collaborators_ok; cbn. split; [|split].
  - intros nodes blockCount _ _. unfold len. rewrite length_take.
    unfold MaxAllocSize. lia.
  - intros stripeFooter. unfold len. rewrite length_take. unfold MaxAllocSize. lia.
  - discriminate.
Qed.

Lemma sessions_resume_at_the_end_witness :
  match @CStoreBeginWrite small_pages (reading_codec session_footer)
          empty_relation COMPRESSION_NONE 4 2 false int4_table with
  | Ok ws0 =>
      match @WriteRows small_pages (reading_codec session_footer) ws0
              (int4_rows [10; 20; 30; 40; 50]) with
      | Ok ws =>
          match @CStoreEndWrite small_pages (reading_codec session_footer) ws with
          | Ok ws' =>
              @resumable small_pages ws'
              /\ exists ws2,
                   @CStoreBeginWrite small_pages (reading_codec session_footer)
                     (relation ws') COMPRESSION_NONE 4 2 false int4_table
                   = Ok ws2
                   /\ length (stripeMetadataList (tableFooter ws2)) = 2%nat
                   /\ @resumable small_pages ws2
          | Err _ => False
          end
      | Err _ => False
      end
  | Err _ => False
  end.
Proof.
  assert (Hfacts :
            match @CStoreBeginWrite small_pages (reading_codec session_footer)
                    empty_relation COMPRESSION_NONE 4 2 false int4_table with
            | Ok ws0 =>
                (blockRowCount (tableFooter ws0) = 2
                 /\ dataFork (relation ws0) = []
                 /\ activeBlockNumber ws0 = 0
                 /\ currentFileOffset ws0 = 0
                 /\ stripeMetadataList (tableFooter ws0) = [])
                /\ match @WriteRows small_pages (reading_codec session_footer)
                           ws0 (int4_rows [10; 20; 30; 40; 50]) with
                   | Ok ws =>
                       match @CStoreEndWrite small_pages
                               (reading_codec session_footer) ws with
                       | Ok ws' =>
                           tableFooter ws' = session_footer
                           /\ match footerFork (relation ws') with
                              | [] => False
                              | _ :: _ => True
                              end
                           /\ is_ok (@CStoreBeginWrite small_pages
                                       (reading_codec session_footer)
                                       (relation ws') COMPRESSION_NONE 4 2 false
                                       int4_table) = true
                       | Err _ => False
                       end
                   | Err _ => False
                   end
            | Err _ => False
            end).
  { vm_compute. repeat split. }
  destruct (@CStoreBeginWrite small_pages (reading_codec session_footer)
              empty_relation COMPRESSION_NONE 4 2 false int4_table)
    as [ws0|e] eqn:Hbegin; [|exact Hfacts].
  destruct Hfacts as [(HR & Hfork0 & Hactive0 & Hoffset0 & Hlist0) Hfacts].
  destruct (@WriteRows small_pages (reading_codec session_footer) ws0
              (int4_rows [10; 20; 30; 40; 50])) as [ws|e] eqn:Hrows;
    [|exact Hfacts].
  destruct (@CStoreEndWrite small_pages (reading_codec session_footer) ws)
    as [ws'|e] eqn:Hend; [|exact Hfacts].
  destruct Hfacts as (Hfooter & Hpages & Hnext).
  assert (Hresumable0 : @resumable small_pages ws0).
  { unfold resumable. rewrite Hfork0, Hactive0, Hoffset0.
    split; [|split; [reflexivity|split; [|reflexivity]]].
    - split; [split; [constructor|intros b p Hb; discriminate]|].
      split; [split; [lia|change (len []) with 0; lia]|]. intros _. constructor.
    - split; rewrite Hlist0; [intros n a b Ha; discriminate|discriminate]. }
  destruct (@sessions_resume_at_the_end small_pages (reading_codec session_footer)
              small_pages_ok (reading_codec_ok session_footer) empty_relation
              COMPRESSION_NONE 4 2 false int4_table ws0
              (int4_rows [10; 20; 30; 40; 50]) ws ws')
    as (Hresumable' & _ & Hresume); try assumption.
  - split; [constructor|]. cbn. change (len []) with 0.
    unfold P_NEW, InvalidBlockNumber. lia.
  - change (u32 (natts int4_table)) with 1. lia.
  - rewrite HR. change (u32 2) with 2. lia.
  - lia.
  - split; [exact Hresumable'|].
    destruct (@CStoreBeginWrite small_pages (reading_codec session_footer)
                (relation ws') COMPRESSION_NONE 4 2 false int4_table)
      as [ws2|e] eqn:Hbegin2; [|discriminate].
    exists ws2. split; [reflexivity|].
    assert (Hread : @CStoreReadFooter (reading_codec session_footer)
                      (relation ws') = Some (tableFooter ws')).
    { cbn [CStoreReadFooter reading_codec].
      destruct (footerFork (relation ws')); [contradiction|].
      now rewrite Hfooter. }
    split.
    + unfold CStoreBeginWrite in Hbegin2. rewrite Hread in Hbegin2.
      destruct (u64 CSTORE_PAGE_DATA_SIZE =? 0); [discriminate|].
      cbn [bind] in Hbegin2.
      destruct (ComparisonFunctions int4_table); [|discriminate].
      cbn [bind] in Hbegin2. injection Hbegin2 as <-.
      cbn [tableFooter]. rewrite Hfooter. reflexivity.
    + exact (Hresume (relation ws') COMPRESSION_NONE 4 2 false int4_table ws2
               eq_refl Hread Hbegin2).
Defined.
